(** * SensorThings converters

    A shallow embedding of the three spreadsheet-to-SensorThings converters of
    the repository:

    - [Customized]  : [excel_to_sta_customized.py], class
                      [SensorThingsTransformer] (wide sheets, station key =
                      [ID_MS]);
    - [Final]       : [final_version_6things.py], function
                      [excel_to_sensorthings] (wide sheets plus the LEGENDE
                      lookup);
    - [Normalized]  : [without enum/sensorthings_excel_converter.py]
                      (one sheet per entity type, linked by foreign keys).

    [Customized] and [Final] read sheets whose headers are texts;
    [LabelledCustomized] and [LabelledFinal] are their loops over sheets
    whose header cells may hold a number or a date.  [Report] has the
    counting of [test_script.py] and of [main] of
    [final_version_6things.py], [Generated] the workbook of
    [generate_test_excel.py].

    Python dictionaries keep insertion order and the programs iterate over
    them, so a dictionary is an association list that is only ever extended
    at its end.  Exceptions are values of an error monad.  *)

From Stdlib Require Import String Ascii List ZArith QArith Bool Lia DecimalString.
Import ListNotations.
Set Warnings "-register-all".
Local Close Scope Q_scope.
Local Open Scope string_scope.

(* ====================================================================== *)
(** ** Python values *)
(* ====================================================================== *)

(** A Python [float]: no arithmetic is ever done on one, they are only
    produced by [float(...)], printed and compared. *)
Inductive pyfloat :=
| Fin (q : Q)
| PInf
| NInf
| FNaN.

(** What [pandas.read_excel] puts in a cell: an integer, a float (an empty
    cell is the float NaN), a text, a date (kept here by its [isoformat()])
    or the missing date [NaT]. *)
Inductive cell :=
| Int (n : Z)
| Float (x : pyfloat)
| Str (s : string)
| Timestamp (iso : string)
| NaT.

Definition NaN : cell := Float FNaN.

(** [pd.isna] on a scalar. *)
Definition isna (c : cell) : bool :=
  match c with
  | Float FNaN | NaT => true
  | _ => false
  end.

(** JSON-like values: what the output document is made of. *)
Inductive value :=
| VNone
| VBool (b : bool)
| VCell (c : cell)
| VList (l : list value)
| VDict (d : list (string * value)).

Abbreviation VStr s := (VCell (Str s)).
Abbreviation VInt n := (VCell (Int n)).
Abbreviation VFloat x := (VCell (Float x)).

(** The conversions of the Python runtime that are not re-implemented here:
    rounding an integer to a float, parsing a float or a JSON text, printing
    a finite float. *)
Class PyBuiltins := {
  float_of_int : Z -> pyfloat;
  float_of_str : string -> option pyfloat;
  repr_of_float : Q -> string;
  json_loads : string -> option value
}.

Inductive exn :=
| KeyError (k : string)
| IndexError
| ValueError
| TypeError
| AttributeError
| JSONDecodeError
| InvalidReference.

Inductive result (A : Type) :=
| Ok (a : A)
| Err (e : exn).
Arguments Ok {A} a.
Arguments Err {A} e.

Definition bind {A B} (m : result A) (f : A -> result B) : result B :=
  match m with
  | Ok a => f a
  | Err e => Err e
  end.

Notation "x <- m ;; k" := (bind m (fun x => k))
  (at level 61, m at next level, right associativity).
Notation "' p <- m ;; k" := (bind m (fun p => k))
  (at level 61, p pattern, m at next level, right associativity).

(** A [for] loop whose body may raise. *)
Fixpoint foldM {A S} (body : A -> S -> result S) (l : list A) (s : S) : result S :=
  match l with
  | [] => Ok s
  | a :: l' => s' <- body a s ;; foldM body l' s'
  end.

(** A list comprehension [[x for x in l if p(x)]] whose test may raise. *)
Fixpoint filterM {A} (p : A -> result bool) (l : list A) : result (list A) :=
  match l with
  | [] => Ok []
  | a :: l' =>
      b <- p a ;;
      r <- filterM p l' ;;
      Ok (if b then a :: r else r)
  end.

Definition is_ok {A} (r : result A) : bool :=
  match r with Ok _ => true | Err _ => false end.

(** A test that may raise, read as [false] where it does. *)
Definition test_b {A} (p : A -> result bool) (x : A) : bool :=
  match p x with
  | Ok b => b
  | Err _ => false
  end.

(* ---------------------------------------------------------------------- *)
(** *** Strings *)

Definition str_of_int (n : Z) : string := NilZero.string_of_int (Z.to_int n).

(** [s.startswith(p)] *)
Definition startswith (s p : string) : bool := prefix p s.

(** [sub in s] *)
Fixpoint contains (sub s : string) : bool :=
  prefix sub s ||
  match s with
  | EmptyString => false
  | String _ s' => contains sub s'
  end.

(** [s.split(sep)] for a one-character separator. *)
Fixpoint split (sep : ascii) (s : string) : list string :=
  match s with
  | EmptyString => [EmptyString]
  | String c s' =>
      if Ascii.eqb c sep then EmptyString :: split sep s'
      else match split sep s' with
           | [] => [String c EmptyString]
           | w :: ws => String c w :: ws
           end
  end.

(** [s.replace(old, new)], left to right without overlap; [skip] counts the
    characters of an occurrence of [old] still to be dropped. *)
Fixpoint replace_from (skip : nat) (old new s : string) : string :=
  match s with
  | EmptyString => EmptyString
  | String c s' =>
      match skip with
      | S k => replace_from k old new s'
      | O =>
          if prefix old s
          then new ++ replace_from (String.length old - 1) old new s'
          else String c (replace_from 0 old new s')
      end
  end.

Definition replace (old new s : string) : string := replace_from 0 old new s.

Definition map_chars (f : ascii -> ascii) : string -> string :=
  fix go s :=
    match s with
    | EmptyString => EmptyString
    | String c s' => String (f c) (go s')
    end.

(** [str(x)]: a [Timestamp] prints as its [isoformat(sep=' ')]. *)
Definition py_str `{PyBuiltins} (c : cell) : string :=
  match c with
  | Int n => str_of_int n
  | Float (Fin q) => repr_of_float q
  | Float PInf => "inf"
  | Float NInf => "-inf"
  | Float FNaN => "nan"
  | Str s => s
  | Timestamp iso =>
      map_chars (fun c => if Ascii.eqb c "T"%char then " "%char else c) iso
  | NaT => "NaT"
  end.

(** [float(x)]; a sheet stores its numbers as doubles, so that no integer
    of a cell is too large for a float. *)
Definition py_float `{PyBuiltins} (c : cell) : result pyfloat :=
  match c with
  | Int n => Ok (float_of_int n)
  | Float x => Ok x
  | Str s =>
      match float_of_str s with
      | Some x => Ok x
      | None => Err ValueError
      end
  | Timestamp _ | NaT => Err TypeError
  end.

(* ---------------------------------------------------------------------- *)
(** *** Dictionaries *)

Definition dict (V : Type) := list (string * V).

Fixpoint dict_get {V} (k : string) (d : dict V) : option V :=
  match d with
  | [] => None
  | (k', v) :: d' => if String.eqb k' k then Some v else dict_get k d'
  end.

(** [k in d] *)
Definition dict_in {V} (k : string) (d : dict V) : bool :=
  match dict_get k d with Some _ => true | None => false end.

(** [d[k] = v]: a known key keeps its place, a new one goes last. *)
Fixpoint dict_set {V} (k : string) (v : V) (d : dict V) : dict V :=
  match d with
  | [] => [(k, v)]
  | (k', v') :: d' =>
      if String.eqb k' k then (k', v) :: d' else (k', v') :: dict_set k v d'
  end.

(** [d.pop(k, None)] *)
Fixpoint dict_pop {V} (k : string) (d : dict V) : dict V :=
  match d with
  | [] => []
  | (k', v') :: d' =>
      if String.eqb k' k then d' else (k', v') :: dict_pop k d'
  end.

Definition keys {V} (d : dict V) : list string := map fst d.

(** [d[k]] *)
Definition getitem {V} (k : string) (d : dict V) : result V :=
  match dict_get k d with
  | Some v => Ok v
  | None => Err (KeyError k)
  end.

(** [d.get(k)], [None] for an unknown key. *)
Definition dict_get_none (k : string) (d : dict value) : value :=
  match dict_get k d with
  | Some v => v
  | None => VNone
  end.

(** [x.get(k)] on any value: only a dictionary has the method. *)
Definition value_get (k : string) (x : value) : result value :=
  match x with
  | VDict d => Ok (dict_get_none k d)
  | _ => Err AttributeError
  end.

(* ---------------------------------------------------------------------- *)
(** *** Equality *)

Definition pyfloat_eq (x y : pyfloat) : bool :=
  match x, y with
  | Fin p, Fin q => Qeq_bool p q
  | PInf, PInf | NInf, NInf => true
  | _, _ => false
  end.

(** [a == b] on scalars: numbers by value across [int] and [float], texts
    and dates among themselves, NaN and NaT equal to nothing. *)
Definition cell_eq (a b : cell) : bool :=
  match a, b with
  | Int m, Int n => Z.eqb m n
  | Int m, Float (Fin q) => Qeq_bool (inject_Z m) q
  | Float (Fin q), Int m => Qeq_bool q (inject_Z m)
  | Float x, Float y => pyfloat_eq x y
  | Str s, Str t => String.eqb s t
  | Timestamp s, Timestamp t => String.eqb s t
  | _, _ => false
  end.

(** [a == b] on values: lists element by element, dictionaries key by key
    whatever the order, a boolean as the integer it is. *)
Fixpoint py_eq (a b : value) {struct a} : bool :=
  match a, b with
  | VNone, VNone => true
  | VBool x, VBool y => Bool.eqb x y
  | VBool x, VCell c => cell_eq (Int (if x then 1 else 0)) c
  | VCell c, VBool y => cell_eq c (Int (if y then 1 else 0))
  | VCell x, VCell y => cell_eq x y
  | VList l1, VList l2 =>
      (fix all2 (l1 l2 : list value) : bool :=
         match l1, l2 with
         | [], [] => true
         | x :: l1', y :: l2' => py_eq x y && all2 l1' l2'
         | _, _ => false
         end) l1 l2
  | VDict d1, VDict d2 =>
      Nat.eqb (List.length d1) (List.length d2)
      && (fix sub (d : list (string * value)) : bool :=
            match d with
            | [] => true
            | (k, v) :: d' =>
                match dict_get k d2 with
                | Some w => py_eq v w
                | None => false
                end && sub d'
            end) d1
  | _, _ => false
  end.

(* ---------------------------------------------------------------------- *)
(** *** Data frames *)

(** The sheet as read: its header and its rows, each row aligned with the
    header (a short row reads as NaN, as pandas pads it).  The labels of
    the columns are texts here, as they are when every header cell holds a
    text or is empty; a sheet with a header cell that holds a number or a
    date is a [LabelledFrame], further down. *)
Record DataFrame := {
  columns : list string;
  rows : list (list cell)
}.

Fixpoint index_of (c : string) (cols : list string) : option nat :=
  match cols with
  | [] => None
  | c' :: cols' =>
      if String.eqb c' c then Some O
      else option_map S (index_of c cols')
  end.

(** [c in df.columns], [c in row] *)
Definition has_column (c : string) (cols : list string) : bool :=
  match index_of c cols with Some _ => true | None => false end.

(** [row[c]] for a row of a frame with header [cols]. *)
Definition row_getitem (cols : list string) (row : list cell) (c : string)
  : result cell :=
  match index_of c cols with
  | Some i => Ok (nth i row NaN)
  | None => Err (KeyError c)
  end.

(** The workbook: [pd.read_excel(path, sheet_name=None)], a dictionary from
    sheet name to frame in sheet order. *)
Definition workbook := dict DataFrame.

(* ====================================================================== *)
(** ** The entities of the wide-sheet converters *)
(* ====================================================================== *)

(** Both wide-sheet converters build their entities as dictionary literals
    with a fixed set of keys; they are records here, and [*_json] gives the
    dictionary, keys in the order of the literal. *)

Record Unit := {
  unit_name : string;
  unit_symbol : string;
  unit_definition : string
}.

Definition unit_json (u : Unit) : value :=
  VDict [("name", VStr (unit_name u));
         ("symbol", VStr (unit_symbol u));
         ("definition", VStr (unit_definition u))].

Record Thing := {
  thing_iot_id : string;
  thing_name : string;
  thing_description : string;
  thing_properties : dict value
}.

Definition thing_json (t : Thing) : dict value :=
  [("@iot.id", VStr (thing_iot_id t));
   ("name", VStr (thing_name t));
   ("description", VStr (thing_description t));
   ("properties", VDict (thing_properties t))].

Record Location := {
  location_iot_id : string;
  location_name : string;
  location_description : string;
  location_encodingType : string;
  location_location : value
}.

Definition location_json (l : Location) : value :=
  VDict [("@iot.id", VStr (location_iot_id l));
         ("name", VStr (location_name l));
         ("description", VStr (location_description l));
         ("encodingType", VStr (location_encodingType l));
         ("location", location_location l)].

Record ObservedProperty := {
  op_iot_id : string;
  op_name : string;
  op_description : string;
  op_definition : string
}.

Definition observed_property_json (p : ObservedProperty) : value :=
  VDict [("@iot.id", VStr (op_iot_id p));
         ("name", VStr (op_name p));
         ("description", VStr (op_description p));
         ("definition", VStr (op_definition p))].

Record Sensor := {
  sensor_iot_id : string;
  sensor_name : string;
  sensor_description : string;
  sensor_encodingType : string;
  sensor_metadata : string
}.

Definition sensor_json (s : Sensor) : value :=
  VDict [("@iot.id", VStr (sensor_iot_id s));
         ("name", VStr (sensor_name s));
         ("description", VStr (sensor_description s));
         ("encodingType", VStr (sensor_encodingType s));
         ("metadata", VStr (sensor_metadata s))].

Record Datastream := {
  ds_iot_id : string;
  ds_name : string;
  ds_description : string;
  ds_observationType : string;
  ds_unitOfMeasurement : Unit;
  ds_Sensor : Sensor;
  ds_ObservedProperty : ObservedProperty
}.

Definition datastream_json (d : Datastream) : dict value :=
  [("@iot.id", VStr (ds_iot_id d));
   ("name", VStr (ds_name d));
   ("description", VStr (ds_description d));
   ("observationType", VStr (ds_observationType d));
   ("unitOfMeasurement", unit_json (ds_unitOfMeasurement d));
   ("Sensor", sensor_json (ds_Sensor d));
   ("ObservedProperty", observed_property_json (ds_ObservedProperty d))].

(** [ObservationType.MEASUREMENT.value] *)
Definition OM_Measurement : string :=
  "http://www.opengis.net/def/observationType/OGC-OM/2.0/OM_Measurement".

Definition point_0_0 : value :=
  VDict [("type", VStr "Point"); ("coordinates", VList [VInt 0; VInt 0])].

(** The static table of measurement codes, the same in both converters. *)
Definition unit_mapping : dict Unit :=
  let u n s d := {| unit_name := n; unit_symbol := s; unit_definition := d |} in
  [("TEMP", u "Degree Celsius" "°C" "ucum:Cel");
   ("WINDR", u "Wind Direction" "°" "ucum:deg");
   ("GLOBAL", u "Global Radiation" "W/m²" "ucum:W/m2");
   ("NIEDER", u "Precipitation" "mm" "ucum:mm");
   ("TEMPHUMUS", u "Temperature Humus" "°C" "ucum:Cel");
   ("TEMP100", u "Temperature 100cm" "°C" "ucum:Cel");
   ("TEMP20", u "Temperature 20cm" "°C" "ucum:Cel");
   ("TEMP200", u "Temperature 200cm" "°C" "ucum:Cel");
   ("TEMP35", u "Temperature 35cm" "°C" "ucum:Cel");
   ("TEMP5", u "Temperature 5cm" "°C" "ucum:Cel");
   ("TEMP50", u "Temperature 50cm" "°C" "ucum:Cel");
   ("TDR20_1", u "Soil Moisture 20cm (1)" "%" "ucum:%");
   ("TDR20_2", u "Soil Moisture 20cm (2)" "%" "ucum:%");
   ("TDR50_1", u "Soil Moisture 50cm (1)" "%" "ucum:%");
   ("TDR50_2", u "Soil Moisture 50cm (2)" "%" "ucum:%");
   ("TDR100_1", u "Soil Moisture 100cm (1)" "%" "ucum:%");
   ("TDR100_2", u "Soil Moisture 100cm (2)" "%" "ucum:%");
   ("%nFK", u "Available Field Capacity" "%" "ucum:%");
   ("TENS20_1", u "Soil Tension 20cm (1)" "kPa" "ucum:kPa");
   ("TENS20_2", u "Soil Tension 20cm (2)" "kPa" "ucum:kPa");
   ("TENS50_1", u "Soil Tension 50cm (1)" "kPa" "ucum:kPa");
   ("TENS50_2", u "Soil Tension 50cm (2)" "kPa" "ucum:kPa");
   ("TENS100_1", u "Soil Tension 100cm (1)" "kPa" "ucum:kPa");
   ("TENS100_2", u "Soil Tension 100cm (2)" "kPa" "ucum:kPa")].

(** [unit_mapping.get(code, {}).get("name", code)] *)
Definition friendly_name (code : string) : string :=
  match dict_get code unit_mapping with
  | Some u => unit_name u
  | None => code
  end.

(** [unit_mapping.get(code, {"name": "Unknown", "symbol": "", "definition": "ucum:"})] *)
Definition unit_of_measurement (code : string) : Unit :=
  match dict_get code unit_mapping with
  | Some u => u
  | None => {| unit_name := "Unknown"; unit_symbol := ""; unit_definition := "ucum:" |}
  end.

(** The category of a sheet and the name of its timestamp column. *)
Definition category_of (sheet_name : string) : string :=
  if String.eqb sheet_name "FREIFLÄCHE" then "Weather Station"
  else if contains "Boden" sheet_name || contains "Tension" sheet_name
       then "Soil Sensor"
       else "Generic Sensor".

Definition timestamp_column_of (sheet_name : string) : string :=
  if String.eqb sheet_name "FREIFLÄCHE" then "DATUM_ZEIT"
  else if String.eqb sheet_name "Boden+Lufttemp_Bestand C°" then "DATUMZEIT"
       else "DATUM".

Definition id_column : string := "ID_MS".

(** [if isinstance(timestamp, (datetime, pd.Timestamp)): timestamp = timestamp.isoformat()] *)
Definition isoformat_if_datetime (timestamp : cell) : cell :=
  match timestamp with
  | Timestamp iso => Str iso
  | c => c
  end.

(** [column in [id_column, timestamp_column] or column.startswith("Unnamed")]
    for a column whose label is a text; [LabelledCustomized.process_cell]
    and [LabelledFinal.process_cell] have the other labels. *)
Definition skipped_column (timestamp_column column : string) : bool :=
  String.eqb column id_column || String.eqb column timestamp_column
  || startswith column "Unnamed".

(** [column.split(" ")[0]] *)
Definition measurement_type_of (column : string) : string :=
  hd EmptyString (split " " column).

(* ====================================================================== *)
(** ** [excel_to_sta_customized.py] *)
(* ====================================================================== *)

Module Customized.

(** [{"phenomenonTime": timestamp, "resultTime": timestamp, "result": value}] *)
Record Observation := {
  phenomenonTime : cell;
  resultTime : cell;
  obs_result : pyfloat
}.

Definition observation_json (o : Observation) : value :=
  VDict [("phenomenonTime", VCell (phenomenonTime o));
         ("resultTime", VCell (resultTime o));
         ("result", VFloat (obs_result o))].

(** The fields of a [SensorThingsTransformer] that hold the transformed
    data. *)
Record state := {
  things : dict Thing;
  locations : dict Location;
  observed_properties : dict ObservedProperty;
  sensors : dict Sensor;
  datastreams : dict Datastream;
  observations : list Observation
}.

(** [__init__] *)
Definition init : state :=
  {| things := []; locations := []; observed_properties := [];
     sensors := []; datastreams := []; observations := [] |}.

Definition set_things x st :=
  {| things := x; locations := locations st;
     observed_properties := observed_properties st; sensors := sensors st;
     datastreams := datastreams st; observations := observations st |}.
Definition set_locations x st :=
  {| things := things st; locations := x;
     observed_properties := observed_properties st; sensors := sensors st;
     datastreams := datastreams st; observations := observations st |}.
Definition set_observed_properties x st :=
  {| things := things st; locations := locations st;
     observed_properties := x; sensors := sensors st;
     datastreams := datastreams st; observations := observations st |}.
Definition set_sensors x st :=
  {| things := things st; locations := locations st;
     observed_properties := observed_properties st; sensors := x;
     datastreams := datastreams st; observations := observations st |}.
Definition set_datastreams x st :=
  {| things := things st; locations := locations st;
     observed_properties := observed_properties st; sensors := sensors st;
     datastreams := x; observations := observations st |}.
Definition set_observations x st :=
  {| things := things st; locations := locations st;
     observed_properties := observed_properties st; sensors := sensors st;
     datastreams := datastreams st; observations := x |}.

(** Each [create_*] method is [if key not in store: store[key] = {...}]
    followed by [return store[key]]: the entity under the key, and the
    store extended only when the key was new. *)

Definition create_thing (id_ms category : string) (st : state) : Thing * state :=
  match dict_get id_ms (things st) with
  | Some thing => (thing, st)
  | None =>
      let thing_id := "thing_" ++ id_ms in
      let thing :=
        {| thing_iot_id := thing_id;
           thing_name := "Measurement Station " ++ id_ms;
           thing_description :=
             category ++ " measurement station with ID " ++ id_ms;
           thing_properties :=
             [("id_ms", VStr id_ms); ("category", VStr category)] |} in
      (thing, set_things (dict_set id_ms thing (things st)) st)
  end.

(** [thing_id.split('_')[1]] raises [IndexError] on an id without ['_']. *)
Definition create_location (thing_id : string) (st : state)
  : result (Location * state) :=
  match dict_get thing_id (locations st) with
  | Some location => Ok (location, st)
  | None =>
      match nth_error (split "_" thing_id) 1 with
      | None => Err IndexError
      | Some part =>
          let location :=
            {| location_iot_id := "location_" ++ part;
               location_name := "Location for " ++ thing_id;
               location_description := "Measurement station location";
               location_encodingType := "application/geo+json";
               location_location := point_0_0 |} in
          Ok (location, set_locations (dict_set thing_id location (locations st)) st)
      end
  end.

Definition create_observed_property (property_name : string) (st : state)
  : ObservedProperty * state :=
  match dict_get property_name (observed_properties st) with
  | Some p => (p, st)
  | None =>
      let property_id := "op_" ++ property_name in
      let friendly := friendly_name property_name in
      let p :=
        {| op_iot_id := property_id;
           op_name := friendly;
           op_description := "Observed property for " ++ friendly;
           op_definition := "http://example.org/properties/" ++ property_name |} in
      (p, set_observed_properties
            (dict_set property_name p (observed_properties st)) st)
  end.

Definition create_sensor (property_name : string) (st : state)
  : Sensor * state :=
  match dict_get property_name (sensors st) with
  | Some s => (s, st)
  | None =>
      let sensor_id := "sensor_" ++ property_name in
      let friendly := friendly_name property_name in
      let s :=
        {| sensor_iot_id := sensor_id;
           sensor_name := friendly ++ " Sensor";
           sensor_description := "Sensor for measuring " ++ friendly;
           sensor_encodingType := "application/pdf";
           sensor_metadata := "http://example.org/sensors/" ++ property_name |} in
      (s, set_sensors (dict_set property_name s (sensors st)) st)
  end.

Definition create_datastream (thing_id property_name : string) (st : state)
  : Datastream * state :=
  let datastream_key := thing_id ++ "_" ++ property_name in
  match dict_get datastream_key (datastreams st) with
  | Some d => (d, st)
  | None =>
      let datastream_id := "ds_" ++ datastream_key in
      let friendly := friendly_name property_name in
      let unit := unit_of_measurement property_name in
      let '(sensor, st1) := create_sensor property_name st in
      let '(observed_property, st2) := create_observed_property property_name st1 in
      let d :=
        {| ds_iot_id := datastream_id;
           ds_name := friendly ++ " Datastream for Thing " ++ thing_id;
           ds_description := "Datastream for measuring " ++ friendly;
           ds_observationType := OM_Measurement;
           ds_unitOfMeasurement := unit;
           ds_Sensor := sensor;
           ds_ObservedProperty := observed_property |} in
      (d, set_datastreams (dict_set datastream_key d (datastreams st2)) st2)
  end.

(** The [datastream_id] argument is received and not used. *)
Definition create_observation (datastream_id : string) (timestamp : cell)
  (value : pyfloat) (st : state) : Observation * state :=
  let observation :=
    {| phenomenonTime := timestamp; resultTime := timestamp;
       obs_result := value |} in
  (observation, set_observations (observations st ++ [observation]) st).

(** Every store has at most one entry per key. *)
Definition unique_keys (st : state) : Prop :=
  NoDup (keys (things st)) /\ NoDup (keys (locations st))
  /\ NoDup (keys (observed_properties st)) /\ NoDup (keys (sensors st))
  /\ NoDup (keys (datastreams st)).

(** The id of every stored thing is ["thing_"] followed by its key. *)
Definition things_well_named (st : state) : Prop :=
  forall k t, dict_get k (things st) = Some t -> thing_iot_id t = "thing_" ++ k.

Section WithBuiltins.
Context `{PyBuiltins}.

(** The body of [for column in df.columns]. *)
Definition process_cell (cols : list string) (row : list cell)
  (timestamp_column thing_id : string) (timestamp : cell)
  (column : string) (st : state) : result state :=
  if skipped_column timestamp_column column then Ok st
  else
    value <- row_getitem cols row column ;;
    if isna value then Ok st
    else
      let measurement_type := measurement_type_of column in
      let '(datastream, st1) := create_datastream thing_id measurement_type st in
      let datastream_id := ds_iot_id datastream in
      x <- py_float value ;;
      Ok (snd (create_observation datastream_id timestamp x st1)).

(** The body of [for _, row in df.iterrows()]. *)
Definition process_row (cols : list string) (category timestamp_column : string)
  (row : list cell) (st : state) : result state :=
  id_cell <- row_getitem cols row id_column ;;
  let id_ms := py_str id_cell in
  let '(thing, st1) := create_thing id_ms category st in
  let thing_id := thing_iot_id thing in
  '(_, st2) <- create_location thing_id st1 ;;
  timestamp <- row_getitem cols row timestamp_column ;;
  if isna timestamp then Ok st2
  else
    let timestamp := isoformat_if_datetime timestamp in
    foldM (process_cell cols row timestamp_column thing_id timestamp) cols st2.

Definition process_sheet (excel_data : workbook) (sheet_name : string)
  (st : state) : result state :=
  if String.eqb sheet_name "LEGENDE" then Ok st
  else
    df <- getitem sheet_name excel_data ;;
    let category := category_of sheet_name in
    let timestamp_column := timestamp_column_of sheet_name in
    foldM (process_row (columns df) category timestamp_column) (rows df) st.

(** The inner part of [construct_nested_structure]: the copy of a
    datastream with its ["Observations"]. *)
Definition datastream_with_observations (st : state) (datastream : Datastream)
  : value :=
  let datastream_observations := map observation_json (observations st) in
  VDict (match datastream_observations with
         | [] => datastream_json datastream
         | _ => dict_set "Observations" (VList datastream_observations)
                  (datastream_json datastream)
         end).

Definition thing_with_relations (st : state) (thing : Thing) : value :=
  let with_location :=
    match dict_get (thing_iot_id thing) (locations st) with
    | Some location =>
        dict_set "Locations" (VList [location_json location]) (thing_json thing)
    | None => thing_json thing
    end in
  let thing_datastreams :=
    map (fun kd => datastream_with_observations st (snd kd))
      (filter (fun kd => startswith (fst kd) (thing_iot_id thing))
         (datastreams st)) in
  VDict (match thing_datastreams with
         | [] => with_location
         | _ => dict_set "Datastreams" (VList thing_datastreams) with_location
         end).

Definition construct_nested_structure (st : state) : value :=
  VDict [("Things", VList (map (fun kt => thing_with_relations st (snd kt))
                             (things st)))].

(** [transform], after [read_excel] has produced [excel_data]. *)
Definition transform (excel_data : workbook) : result value :=
  st <- foldM (process_sheet excel_data) (keys excel_data) init ;;
  Ok (construct_nested_structure st).

Definition excel_to_sensorthings := transform.

End WithBuiltins.

End Customized.

(* ====================================================================== *)
(** ** [final_version_6things.py] *)
(* ====================================================================== *)

Module Final.

(** An observation carries, until the assembly, a reference
    [{"@iot.id": ...}] to its datastream under the key ["Datastream"]. *)
Record Observation := {
  phenomenonTime : cell;
  resultTime : cell;
  obs_result : pyfloat;
  obs_Datastream : string
}.

Definition observation_json (o : Observation) : dict value :=
  [("phenomenonTime", VCell (phenomenonTime o));
   ("resultTime", VCell (resultTime o));
   ("result", VFloat (obs_result o));
   ("Datastream", VDict [("@iot.id", VStr (obs_Datastream o))])].

(** The local stores of [excel_to_sensorthings]. *)
Record state := {
  things : dict Thing;
  locations : dict Location;
  observed_properties : dict ObservedProperty;
  sensors : dict Sensor;
  datastreams : dict Datastream;
  observations : list Observation
}.

Definition init : state :=
  {| things := []; locations := []; observed_properties := [];
     sensors := []; datastreams := []; observations := [] |}.

(** An entry of [id_to_hms_mapping]: [{"hms": ..., "bemerkung": ...}]. *)
Record hms_info := {
  hms : cell;
  bemerkung : cell
}.

Definition unknown_hms : hms_info := {| hms := Str "Unknown"; bemerkung := Str "" |}.

(** [x != "Unknown"] for a cell [x]. *)
Definition differs_from_str (c : cell) (s : string) : bool :=
  match c with
  | Str s' => negb (String.eqb s' s)
  | _ => true
  end.

Section WithBuiltins.
Context `{PyBuiltins}.

(** The body of [for _, row in legend_df.iterrows()]. *)
Definition legend_row (cols : list string) (row : list cell)
  (id_to_hms_mapping : dict hms_info) : result (dict hms_info) :=
  id_cell <- row_getitem cols row "ID_MS" ;;
  let id_ms := py_str id_cell in
  hms_cell <- row_getitem cols row "HMS" ;;
  let hms := if negb (isna hms_cell) then hms_cell else Str "Unknown" in
  let bem_cell :=
    match row_getitem cols row "Bemerkung" with
    | Ok c => c
    | Err _ => Str ""
    end in
  let bemerkung := if negb (isna bem_cell) then bem_cell else Str "" in
  Ok (dict_set id_ms {| hms := hms; bemerkung := bemerkung |} id_to_hms_mapping).

Definition read_legend (excel_data : workbook) : result (dict hms_info) :=
  match dict_get "LEGENDE" excel_data with
  | None => Ok []
  | Some legend_df =>
      if has_column "HMS" (columns legend_df)
         && has_column "ID_MS" (columns legend_df)
      then foldM (legend_row (columns legend_df)) (rows legend_df) []
      else Ok []
  end.

(** [if thing_key not in things: things[thing_key] = {...}] and
    [thing_id = things[thing_key]["@iot.id"]]. *)
Definition register_thing (info : hms_info) (id_ms category : string)
  (st : state) : string * state :=
  let thing_key :=
    py_str (hms info) ++ "_" ++ py_str (bemerkung info) ++ "_" ++ id_ms in
  match dict_get thing_key (things st) with
  | Some thing => (thing_iot_id thing, st)
  | None =>
      let thing_id := "thing_" ++ thing_key in
      let thing :=
        {| thing_iot_id := thing_id;
           thing_name :=
             py_str (hms info) ++ " - " ++ py_str (bemerkung info)
             ++ " - Station " ++ id_ms;
           thing_description :=
             category ++ " measurement station for " ++ py_str (hms info)
             ++ " (" ++ py_str (bemerkung info) ++ ") with ID: " ++ id_ms;
           thing_properties :=
             [("id_ms", VStr id_ms); ("hms", VCell (hms info));
              ("bemerkung", VCell (bemerkung info));
              ("category", VStr category)] |} in
      (thing_id,
       {| things := dict_set thing_key thing (things st);
          locations := locations st;
          observed_properties := observed_properties st;
          sensors := sensors st; datastreams := datastreams st;
          observations := observations st |})
  end.

(** [if thing_id not in locations: locations[thing_id] = {...}] *)
Definition register_location (info : hms_info) (thing_id : string)
  (st : state) : state :=
  if dict_in thing_id (locations st) then st
  else
    let location_id := "location_" ++ replace "thing_" "" thing_id in
    let hms_name := hms info in
    let bemerkung := bemerkung info in
    let location_name :=
      if differs_from_str hms_name "Unknown"
      then "Location for " ++ py_str hms_name ++ " (" ++ py_str bemerkung ++ ")"
      else "Location for " ++ thing_id in
    let location :=
      {| location_iot_id := location_id;
         location_name := location_name;
         location_description :=
           "Measurement station location for " ++ py_str hms_name
           ++ " (" ++ py_str bemerkung ++ ")";
         location_encodingType := "application/geo+json";
         location_location := point_0_0 |} in
    {| things := things st;
       locations := dict_set thing_id location (locations st);
       observed_properties := observed_properties st;
       sensors := sensors st; datastreams := datastreams st;
       observations := observations st |}.

(** [if measurement_type not in observed_properties: ...]; the entity then
    found under the key is returned with the store. *)
Definition register_observed_property (measurement_type : string)
  (store : dict ObservedProperty) : ObservedProperty * dict ObservedProperty :=
  match dict_get measurement_type store with
  | Some p => (p, store)
  | None =>
      let friendly := friendly_name measurement_type in
      let p :=
        {| op_iot_id := "op_" ++ measurement_type;
           op_name := friendly;
           op_description := "Observed property for " ++ friendly;
           op_definition := "http://example.org/properties/" ++ measurement_type |} in
      (p, dict_set measurement_type p store)
  end.

Definition register_sensor (measurement_type : string) (store : dict Sensor)
  : Sensor * dict Sensor :=
  match dict_get measurement_type store with
  | Some s => (s, store)
  | None =>
      let friendly := friendly_name measurement_type in
      let s :=
        {| sensor_iot_id := "sensor_" ++ measurement_type;
           sensor_name := friendly ++ " Sensor";
           sensor_description := "Sensor for measuring " ++ friendly;
           sensor_encodingType := "application/pdf";
           sensor_metadata := "http://example.org/sensors/" ++ measurement_type |} in
      (s, dict_set measurement_type s store)
  end.

(** [if datastream_key not in datastreams: datastreams[datastream_key] = {...}] *)
Definition register_datastream (info : hms_info)
  (thing_id measurement_type : string) (sensor : Sensor)
  (observed_property : ObservedProperty) (store : dict Datastream)
  : Datastream * dict Datastream :=
  let location_suffix :=
    "_" ++ py_str (hms info) ++ "_" ++ py_str (bemerkung info) in
  let datastream_key := thing_id ++ "_" ++ measurement_type ++ location_suffix in
  match dict_get datastream_key store with
  | Some d => (d, store)
  | None =>
      let friendly := friendly_name measurement_type in
      let d :=
        {| ds_iot_id := "ds_" ++ datastream_key;
           ds_name :=
             friendly ++ " Datastream for " ++ py_str (hms info)
             ++ " (" ++ py_str (bemerkung info) ++ ")";
           ds_description :=
             "Datastream for measuring " ++ friendly ++ " at "
             ++ py_str (hms info) ++ " (" ++ py_str (bemerkung info) ++ ")";
           ds_observationType := OM_Measurement;
           ds_unitOfMeasurement := unit_of_measurement measurement_type;
           ds_Sensor := sensor;
           ds_ObservedProperty := observed_property |} in
      (d, dict_set datastream_key d store)
  end.

(** The body of [for column in df.columns]. *)
Definition process_cell (cols : list string) (row : list cell)
  (info : hms_info) (timestamp_column thing_id : string) (timestamp : cell)
  (column : string) (st : state) : result state :=
  if skipped_column timestamp_column column then Ok st
  else
    value <- row_getitem cols row column ;;
    if isna value then Ok st
    else
      let measurement_type := measurement_type_of column in
      let '(observed_property, ops) :=
        register_observed_property measurement_type (observed_properties st) in
      let '(sensor, sens) := register_sensor measurement_type (sensors st) in
      let '(datastream, dss) :=
        register_datastream info thing_id measurement_type sensor
          observed_property (datastreams st) in
      x <- py_float value ;;
      let observation :=
        {| phenomenonTime := timestamp; resultTime := timestamp;
           obs_result := x; obs_Datastream := ds_iot_id datastream |} in
      Ok {| things := things st; locations := locations st;
            observed_properties := ops; sensors := sens; datastreams := dss;
            observations := observations st ++ [observation] |}.

(** The body of [for _, row in df.iterrows()]. *)
Definition process_row (id_to_hms_mapping : dict hms_info)
  (cols : list string) (category timestamp_column : string)
  (row : list cell) (st : state) : result state :=
  id_cell <- row_getitem cols row id_column ;;
  let id_ms := py_str id_cell in
  let info :=
    match dict_get id_ms id_to_hms_mapping with
    | Some i => i
    | None => unknown_hms
    end in
  let '(thing_id, st1) := register_thing info id_ms category st in
  let st2 := register_location info thing_id st1 in
  timestamp <- row_getitem cols row timestamp_column ;;
  if isna timestamp then Ok st2
  else
    let timestamp := isoformat_if_datetime timestamp in
    foldM (process_cell cols row info timestamp_column thing_id timestamp)
      cols st2.

(** The body of [for sheet_name, df in excel_data.items()]. *)
Definition process_sheet (id_to_hms_mapping : dict hms_info)
  (sheet : string * DataFrame) (st : state) : result state :=
  let '(sheet_name, df) := sheet in
  if String.eqb sheet_name "LEGENDE" then Ok st
  else
    let category := category_of sheet_name in
    let timestamp_column := timestamp_column_of sheet_name in
    if negb (has_column id_column (columns df))
       || negb (has_column timestamp_column (columns df))
    then Ok st
    else
      foldM (process_row id_to_hms_mapping (columns df) category
               timestamp_column) (rows df) st.

(** The assembly, lines 239 to 275. *)
Definition datastream_with_observations (observations : list Observation)
  (datastream : Datastream) : value :=
  let datastream_observations :=
    map (fun o => VDict (dict_pop "Datastream" (observation_json o)))
      (filter (fun o => String.eqb (obs_Datastream o) (ds_iot_id datastream))
         observations) in
  VDict (match datastream_observations with
         | [] => datastream_json datastream
         | _ => dict_set "Observations" (VList datastream_observations)
                  (datastream_json datastream)
         end).

Definition thing_with_relations (st : state) (thing : Thing) : value :=
  let with_location :=
    match dict_get (thing_iot_id thing) (locations st) with
    | Some location =>
        dict_set "Locations" (VList [location_json location]) (thing_json thing)
    | None => thing_json thing
    end in
  let thing_datastreams :=
    map (fun kd => datastream_with_observations (observations st) (snd kd))
      (filter (fun kd => startswith (fst kd) (thing_iot_id thing))
         (datastreams st)) in
  VDict (match thing_datastreams with
         | [] => with_location
         | _ => dict_set "Datastreams" (VList thing_datastreams) with_location
         end).

Definition assemble (st : state) : value :=
  VDict [("Things", VList (map (fun kt => thing_with_relations st (snd kt))
                             (things st)))].

(** [excel_to_sensorthings], after [pd.read_excel]. *)
(** The stores as the loop over the sheets leaves them. *)
Definition collect (excel_data : workbook) : result state :=
  id_to_hms_mapping <- read_legend excel_data ;;
  foldM (process_sheet id_to_hms_mapping) excel_data init.

Definition excel_to_sensorthings (excel_data : workbook) : result value :=
  st <- collect excel_data ;;
  Ok (assemble st).

End WithBuiltins.

End Final.

(* ====================================================================== *)
(** ** [without enum/sensorthings_excel_converter.py] *)
(* ====================================================================== *)

Module Normalized.

(** Entities are plain dictionaries here: their keys depend on the columns
    of the sheet. *)
Definition entity := dict value.

Record sta_data := {
  Things : list entity;
  Locations : list entity;
  ObservedProperties : list entity;
  Sensors : list entity;
  Datastreams : list entity;
  Observations : list entity
}.

(** [row.get(c, default)] *)
Definition row_get (cols : list string) (row : list cell) (c : string)
  (default : value) : value :=
  match index_of c cols with
  | Some i => VCell (nth i row NaN)
  | None => default
  end.

(** ["c" in row and not pd.isna(row["c"])], with the cell when it holds. *)
Definition present (cols : list string) (row : list cell) (c : string)
  : option cell :=
  match index_of c cols with
  | Some i => if isna (nth i row NaN) then None else Some (nth i row NaN)
  | None => None
  end.

(** [{"@iot.id": id}] *)
Definition ref (id : value) : value := VDict [("@iot.id", id)].

(** [e[k] = {"@iot.id": row[c]}] when the foreign key [c] is present. *)
Definition link (cols : list string) (row : list cell) (c k : string)
  (e : entity) : entity :=
  match present cols row c with
  | Some id => dict_set k (ref (VCell id)) e
  | None => e
  end.

Section WithBuiltins.
Context `{PyBuiltins}.

Definition loads (s : string) : result value :=
  match json_loads s with
  | Some v => Ok v
  | None => Err JSONDecodeError
  end.

(** [json.loads(row.get(c, text)) if isinstance(row.get(c), str)
     else row.get(c, default)] *)
Definition json_field (cols : list string) (row : list cell) (c : string)
  (default : value) : result value :=
  match index_of c cols with
  | Some i =>
      match nth i row NaN with
      | Str s => loads s
      | other => Ok (VCell other)
      end
  | None => Ok default
  end.

(** The source of [uuid.uuid4()]: the text of the [n]-th identifier drawn
    during the run. *)
Variable uuid4 : nat -> string.

(** The loops over the rows of each sheet.  The default name is an
    argument of [row.get], so one identifier is drawn for every row whether
    the sheet has a [name] column or not; [n] counts them. *)

Definition thing_of_row (cols : list string) (row : list cell) (n : nat)
  : result entity :=
  properties <- json_field cols row "properties" (VDict []) ;;
  Ok [("name", row_get cols row "name" (VStr ("Thing_" ++ uuid4 n)));
      ("description", row_get cols row "description" (VStr ""));
      ("properties", properties)].

Definition location_of_row (cols : list string) (row : list cell) (n : nat)
  : result entity :=
  location <- json_field cols row "location" point_0_0 ;;
  Ok (link cols row "thing_id" "Thing"
        [("name", row_get cols row "name" (VStr ("Location_" ++ uuid4 n)));
         ("description", row_get cols row "description" (VStr ""));
         ("encodingType",
          row_get cols row "encodingType" (VStr "application/geo+json"));
         ("location", location)]).

Definition observed_property_of_row (cols : list string) (row : list cell)
  (n : nat) : result entity :=
  Ok [("name", row_get cols row "name" (VStr ("ObservedProperty_" ++ uuid4 n)));
      ("description", row_get cols row "description" (VStr ""));
      ("definition", row_get cols row "definition" (VStr ""))].

Definition sensor_of_row (cols : list string) (row : list cell) (n : nat)
  : result entity :=
  Ok [("name", row_get cols row "name" (VStr ("Sensor_" ++ uuid4 n)));
      ("description", row_get cols row "description" (VStr ""));
      ("encodingType", row_get cols row "encodingType" (VStr "application/pdf"));
      ("metadata", row_get cols row "metadata" (VStr ""))].

Definition datastream_of_row (cols : list string) (row : list cell) (n : nat)
  : result entity :=
  unit_of_measurement <- json_field cols row "unitOfMeasurement" (VDict []) ;;
  Ok (link cols row "observed_property_id" "ObservedProperty"
        (link cols row "sensor_id" "Sensor"
           (link cols row "thing_id" "Thing"
              [("name", row_get cols row "name" (VStr ("Datastream_" ++ uuid4 n)));
               ("description", row_get cols row "description" (VStr ""));
               ("observationType",
                row_get cols row "observationType" (VStr OM_Measurement));
               ("unitOfMeasurement", unit_of_measurement)]))).

Definition is_not_none (kv : string * value) : bool :=
  match snd kv with VNone => false | _ => true end.

Definition observation_of_row (cols : list string) (row : list cell)
  : result entity :=
  parameters <- json_field cols row "parameters" (VDict []) ;;
  let observation :=
    filter is_not_none
      [("phenomenonTime", row_get cols row "phenomenonTime" VNone);
       ("resultTime", row_get cols row "resultTime" VNone);
       ("result", row_get cols row "result" VNone);
       ("resultQuality", row_get cols row "resultQuality" VNone);
       ("parameters", parameters)] in
  let observation := link cols row "datastream_id" "Datastream" observation in
  match present cols row "feature_of_interest" with
  | Some (Str s) =>
      feature_data <- loads s ;;
      Ok (dict_set "FeatureOfInterest" feature_data observation)
  | Some c => Ok (dict_set "FeatureOfInterest" (VCell c) observation)
  | None => Ok observation
  end.

(** [if sheet in excel_data: for _, row in df.iterrows(): ... append]:
    the entities of a sheet and the number of identifiers drawn so far. *)
Fixpoint load_rows (of_row : list string -> list cell -> nat -> result entity)
  (cols : list string) (rs : list (list cell)) (n : nat)
  : result (list entity * nat) :=
  match rs with
  | [] => Ok ([], n)
  | row :: rs' =>
      e <- of_row cols row n ;;
      '(es, n') <- load_rows of_row cols rs' (S n) ;;
      Ok (e :: es, n')
  end.

Definition load_sheet (of_row : list string -> list cell -> nat -> result entity)
  (excel_data : workbook) (sheet : string) (n : nat)
  : result (list entity * nat) :=
  match dict_get sheet excel_data with
  | Some df => load_rows of_row (columns df) (rows df) n
  | None => Ok ([], n)
  end.

Definition load (excel_data : workbook) : result sta_data :=
  '(things, n1) <- load_sheet thing_of_row excel_data "Things" 0 ;;
  '(locations, n2) <- load_sheet location_of_row excel_data "Locations" n1 ;;
  '(observed_properties, n3) <-
     load_sheet observed_property_of_row excel_data "ObservedProperties" n2 ;;
  '(sensors, n4) <- load_sheet sensor_of_row excel_data "Sensors" n3 ;;
  '(datastreams, n5) <- load_sheet datastream_of_row excel_data "Datastreams" n4 ;;
  '(observations, _) <-
     load_sheet (fun cols row _ => observation_of_row cols row)
       excel_data "Observations" n5 ;;
  Ok {| Things := things; Locations := locations;
        ObservedProperties := observed_properties; Sensors := sensors;
        Datastreams := datastreams; Observations := observations |}.

End WithBuiltins.

(* ---------------------------------------------------------------------- *)
(** *** [construct_nested_structure] *)

(** ["k" in e and e["k"].get("@iot.id") == id] *)
Definition refers_to (k : string) (id : value) (e : entity) : result bool :=
  match dict_get k e with
  | None => Ok false
  | Some r => x <- value_get "@iot.id" r ;; Ok (py_eq x id)
  end.

(** [if "k" in ds: ...; matching = [t for t in targets if
    t.get("@iot.id") == id]; if matching: ds["k"] = matching[0]] *)
Definition associate (k : string) (targets : list entity) (ds : entity)
  : result entity :=
  match dict_get k ds with
  | None => Ok ds
  | Some r =>
      id <- value_get "@iot.id" r ;;
      match filter (fun t => py_eq (dict_get_none "@iot.id" t) id) targets with
      | [] => Ok ds
      | first :: _ => Ok (dict_set k (VDict first) ds)
      end
  end.

(** The body of [for ds in thing_datastreams], as the new content of the
    dictionary [ds]. *)
Definition resolve_datastream (sta : sta_data) (ds : entity) : result entity :=
  ds1 <- associate "Sensor" (Sensors sta) ds ;;
  ds2 <- associate "ObservedProperty" (ObservedProperties sta) ds1 ;;
  let ds_id := dict_get_none "@iot.id" ds2 in
  ds_observations <- filterM (refers_to "Datastream" ds_id) (Observations sta) ;;
  Ok (match ds_observations with
      | [] => ds2
      | _ => dict_set "Observations" (VList (map VDict ds_observations)) ds2
      end).

(** The datastream dictionaries are changed in place and the things of the
    result hold them by reference: the store of datastreams is threaded
    through the loop and a thing keeps the positions of its datastreams. *)

Fixpoint positions_from (i : nat) (p : entity -> result bool) (l : list entity)
  : result (list nat) :=
  match l with
  | [] => Ok []
  | e :: l' =>
      b <- p e ;;
      r <- positions_from (S i) p l' ;;
      Ok (if b then i :: r else r)
  end.

Fixpoint update {A} (i : nat) (x : A) (l : list A) : list A :=
  match l, i with
  | [], _ => []
  | _ :: l', O => x :: l'
  | y :: l', S j => y :: update j x l'
  end.

Definition resolve_at (sta : sta_data) (i : nat) (store : list entity)
  : result (list entity) :=
  ds' <- resolve_datastream sta (nth i store []) ;;
  Ok (update i ds' store).

Record loop_state := {
  result_things : list (entity * list nat);
  store : list entity
}.

(** The body of [for thing in sta_data["Things"]]. *)
Definition nest_thing (sta : sta_data) (thing : entity) (ls : loop_state)
  : result loop_state :=
  let thing_id :=
    match dict_get "@iot.id" thing with
    | Some id => id
    | None => VInt (Z.of_nat (List.length (result_things ls)) + 1)
    end in
  let thing_with_relations := dict_set "@iot.id" thing_id thing in
  thing_locations <- filterM (refers_to "Thing" thing_id) (Locations sta) ;;
  let thing_with_relations :=
    match thing_locations with
    | [] => thing_with_relations
    | _ => dict_set "Locations" (VList (map VDict thing_locations))
             thing_with_relations
    end in
  thing_datastreams <- positions_from 0 (refers_to "Thing" thing_id) (store ls) ;;
  store' <- foldM (resolve_at sta) thing_datastreams (store ls) ;;
  Ok {| result_things :=
          result_things ls ++ [(thing_with_relations, thing_datastreams)];
        store := store' |}.

(** The document as it is when the function returns: every reference to a
    datastream shows the final content of that dictionary. *)
Definition render_thing (store : list entity) (t : entity * list nat) : value :=
  VDict (match snd t with
         | [] => fst t
         | _ => dict_set "Datastreams"
                  (VList (map (fun i => VDict (nth i store [])) (snd t)))
                  (fst t)
         end).

Definition construct_nested_structure (sta : sta_data) : result value :=
  ls <- foldM (nest_thing sta) (Things sta)
          {| result_things := []; store := Datastreams sta |} ;;
  Ok (VDict [("Things", VList (map (render_thing (store ls)) (result_things ls)))]).

(* ---------------------------------------------------------------------- *)
(** *** The nested document, described without the loop *)

(** The id the loop gives to the thing at position [i]. *)
Definition thing_id_at (i : nat) (thing : entity) : value :=
  match dict_get "@iot.id" thing with
  | Some id => id
  | None => VInt (Z.of_nat i + 1)
  end.

Fixpoint thing_ids_from (i : nat) (things : list entity) : list value :=
  match things with
  | [] => []
  | thing :: things' => thing_id_at i thing :: thing_ids_from (S i) things'
  end.

(** The test of a comprehension, [false] where it would raise. *)
Definition refers_b (k : string) (id : value) (e : entity) : bool :=
  match refers_to k id e with
  | Ok b => b
  | Err _ => false
  end.

Fixpoint positions_b (i : nat) (p : entity -> bool) (l : list entity) : list nat :=
  match l with
  | [] => []
  | e :: l' => if p e then i :: positions_b (S i) p l' else positions_b (S i) p l'
  end.

(** [if l: d[k] = l] *)
Definition attach (k : string) (l : list value) (d : entity) : entity :=
  match l with
  | [] => d
  | _ => dict_set k (VList l) d
  end.

(** A thing with its id and its locations, and the positions of its
    datastreams. *)
Definition nested_thing (sta : sta_data) (id : value) (thing : entity)
  : entity * list nat :=
  (attach "Locations"
     (map VDict (filter (refers_b "Thing" id) (Locations sta)))
     (dict_set "@iot.id" id thing),
   positions_b 0 (refers_b "Thing" id) (Datastreams sta)).

(** The things of the document before the datastreams are filled in. *)
Fixpoint nested_things_from (sta : sta_data) (i : nat) (things : list entity)
  : list (entity * list nat) :=
  match things with
  | [] => []
  | thing :: things' =>
      nested_thing sta (thing_id_at i thing) thing
      :: nested_things_from sta (S i) things'
  end.

(** The body of the datastream loop run [n] times on one dictionary: a
    datastream is visited once for every thing it refers to. *)
Fixpoint resolve_times (sta : sta_data) (n : nat) (ds : entity) : result entity :=
  match n with
  | O => Ok ds
  | S n' => ds' <- resolve_datastream sta ds ;; resolve_times sta n' ds'
  end.

Definition visits (ids : list value) (ds : entity) : nat :=
  List.length (filter (fun id => refers_b "Thing" id ds) ids).

(** The store of datastreams once the things with the ids [ids] have been
    handled: every dictionary has been through the loop body once for each
    of those things it refers to. *)
Definition store_after (sta : sta_data) (ids : list value)
  (store : list entity) : Prop :=
  List.length store = List.length (Datastreams sta)
  /\ forall j, j < List.length (Datastreams sta) ->
       resolve_times sta (visits ids (nth j (Datastreams sta) []))
         (nth j (Datastreams sta) [])
       = Ok (nth j store []).

(** A reference as the loops over the sheets leave it: none, or the
    fragment with the cell of the foreign key. *)
Definition raw_reference (k : string) (e : entity) : Prop :=
  dict_get k e = None \/ exists c, dict_get k e = Some (ref (VCell c)).

(** The reference fields are fragments: dictionaries. *)
Definition is_dict (v : value) : Prop :=
  match v with VDict _ => True | _ => False end.

Definition fragment_at (k : string) (e : entity) : Prop :=
  match dict_get k e with
  | Some r => is_dict r
  | None => True
  end.

Definition datastream_fragments (ds : entity) : Prop :=
  fragment_at "Thing" ds /\ fragment_at "Sensor" ds
  /\ fragment_at "ObservedProperty" ds.

Definition fragments (sta : sta_data) : Prop :=
  Forall (fragment_at "Thing") (Locations sta)
  /\ Forall datastream_fragments (Datastreams sta)
  /\ Forall (fragment_at "Datastream") (Observations sta).

Definition excel_to_sensorthings `{PyBuiltins} (uuid4 : nat -> string)
  (excel_data : workbook) : result value :=
  sta <- load uuid4 excel_data ;;
  construct_nested_structure sta.

End Normalized.

(* ====================================================================== *)
(** ** The assembly of [final_version_6things.py] on a heap *)
(* ====================================================================== *)

(** Lines 239 to 275 again, this time with the dictionaries and lists as
    objects in a store: [copy()] allocates, item assignment, [pop] and
    [append] write to the object they are called on.  This is the model in
    which it makes sense to ask which objects the assembly changes. *)

Module FinalHeap.

Definition addr := nat.

(** What a dictionary entry or a list slot holds. *)
Inductive hval :=
| HNone
| HBool (b : bool)
| HCell (c : cell)
| HRef (a : addr).

Inductive object :=
| ODict (d : dict hval)
| OList (l : list hval).

Definition heap := list object.

(** A computation on the heap that may raise. *)
Definition M (A : Type) := heap -> result (A * heap).

Definition ret {A} (a : A) : M A := fun h => Ok (a, h).

Definition raise {A} (e : exn) : M A := fun _ => Err e.

Definition bindM {A B} (m : M A) (f : A -> M B) : M B :=
  fun h =>
    match m h with
    | Ok (a, h') => f a h'
    | Err e => Err e
    end.

Notation "x <~ m ;; k" := (bindM m (fun x => k))
  (at level 61, m at next level, right associativity).
Notation "m ;;; k" := (bindM m (fun _ => k))
  (at level 61, right associativity).

Fixpoint forM {A} (body : A -> M unit) (l : list A) : M unit :=
  match l with
  | [] => ret tt
  | a :: l' => body a ;;; forM body l'
  end.

Fixpoint update {A} (i : nat) (x : A) (l : list A) : list A :=
  match l, i with
  | [], _ => []
  | _ :: l', O => x :: l'
  | y :: l', S j => y :: update j x l'
  end.

(** A new object gets the next address. *)
Definition new (o : object) : M addr :=
  fun h => Ok (List.length h, (h ++ [o])%list).

(** Python cannot form a reference to an object that does not exist; the
    model stops with [InvalidReference] if it is handed one. *)
Definition read (a : addr) : M object :=
  fun h =>
    match nth_error h a with
    | Some o => Ok (o, h)
    | None => Err InvalidReference
    end.

Definition write (a : addr) (o : object) : M unit :=
  fun h =>
    match nth_error h a with
    | Some _ => Ok (tt, update a o h)
    | None => Err InvalidReference
    end.

Definition read_dict (a : addr) : M (dict hval) :=
  o <~ read a ;;
  match o with
  | ODict d => ret d
  | OList _ => raise TypeError
  end.

Definition read_list (a : addr) : M (list hval) :=
  o <~ read a ;;
  match o with
  | OList l => ret l
  | ODict _ => raise TypeError
  end.

(** [x.copy()]: a new object with the same slots (a shallow copy). *)
Definition copy (a : addr) : M addr :=
  o <~ read a ;; new o.

(** [x[k]] *)
Definition getitem (a : addr) (k : string) : M hval :=
  d <~ read_dict a ;;
  match dict_get k d with
  | Some v => ret v
  | None => raise (KeyError k)
  end.

(** [x[k] = v] *)
Definition setitem (a : addr) (k : string) (v : hval) : M unit :=
  d <~ read_dict a ;; write a (ODict (dict_set k v d)).

(** [x.pop(k, None)] *)
Definition pop (a : addr) (k : string) : M unit :=
  d <~ read_dict a ;; write a (ODict (dict_pop k d)).

(** [x.append(v)] *)
Definition append (a : addr) (v : hval) : M unit :=
  l <~ read_list a ;; write a (OList (l ++ [v])%list).

(** The entities are dictionaries and their ["@iot.id"] is a text in
    every store the main loop builds; the model raises [TypeError] where it
    meets anything else. *)
Definition as_ref (v : hval) : M addr :=
  match v with
  | HRef a => ret a
  | _ => raise TypeError
  end.

Definition as_str (v : hval) : M string :=
  match v with
  | HCell (Str s) => ret s
  | _ => raise TypeError
  end.

(** The local variables that hold the accumulated stores. *)
Record stores := {
  things : addr;
  locations : addr;
  datastreams : addr;
  observations : addr
}.

(** The body of [for observation in observations]. *)
Definition attach_observation (datastream datastream_observations : addr)
  (observation : hval) : M unit :=
  obs <~ as_ref observation ;;
  r <~ getitem obs "Datastream" ;;
  r <~ as_ref r ;;
  rid <~ getitem r "@iot.id" ;;
  rid <~ as_str rid ;;
  did <~ getitem datastream "@iot.id" ;;
  did <~ as_str did ;;
  if String.eqb rid did then
    obs_copy <~ copy obs ;;
    pop obs_copy "Datastream" ;;;
    append datastream_observations (HRef obs_copy)
  else ret tt.

(** The body of [for datastream_key, datastream in datastreams.items()]. *)
Definition attach_datastream (st : stores) (thing thing_datastreams : addr)
  (entry : string * hval) : M unit :=
  let '(datastream_key, dv) := entry in
  tid <~ getitem thing "@iot.id" ;;
  tid <~ as_str tid ;;
  if startswith datastream_key tid then
    datastream <~ as_ref dv ;;
    datastream_with_observations <~ copy datastream ;;
    datastream_observations <~ new (OList []) ;;
    obs <~ read_list (observations st) ;;
    forM (attach_observation datastream datastream_observations) obs ;;;
    l <~ read_list datastream_observations ;;
    match l with
    | [] => ret tt
    | _ => setitem datastream_with_observations "Observations"
             (HRef datastream_observations)
    end ;;;
    append thing_datastreams (HRef datastream_with_observations)
  else ret tt.

(** The body of [for thing_id, thing in things.items()]. *)
Definition nest_thing (st : stores) (result : addr) (entry : string * hval)
  : M unit :=
  let '(_, tv) := entry in
  thing <~ as_ref tv ;;
  thing_with_relations <~ copy thing ;;
  tid <~ getitem thing "@iot.id" ;;
  tid <~ as_str tid ;;
  locs <~ read_dict (locations st) ;;
  match dict_get tid locs with
  | Some location =>
      l <~ new (OList [location]) ;;
      setitem thing_with_relations "Locations" (HRef l)
  | None => ret tt
  end ;;;
  thing_datastreams <~ new (OList []) ;;
  dss <~ read_dict (datastreams st) ;;
  forM (attach_datastream st thing thing_datastreams) dss ;;;
  l <~ read_list thing_datastreams ;;
  match l with
  | [] => ret tt
  | _ => setitem thing_with_relations "Datastreams" (HRef thing_datastreams)
  end ;;;
  result_things <~ getitem result "Things" ;;
  result_things <~ as_ref result_things ;;
  append result_things (HRef thing_with_relations).

(** [result = {"Things": []}], the loop, [return result]. *)
Definition assemble (st : stores) : M addr :=
  result_things <~ new (OList []) ;;
  result <~ new (ODict [("Things", HRef result_things)]) ;;
  ts <~ read_dict (things st) ;;
  forM (nest_thing st result) ts ;;;
  ret result.

(* ---------------------------------------------------------------------- *)
(** *** Reading the heap back *)

(** The value an object graph stands for, to a depth of [fuel]. *)
Fixpoint reify (fuel : nat) (h : heap) (v : hval) : option value :=
  match v with
  | HNone => Some VNone
  | HBool b => Some (VBool b)
  | HCell c => Some (VCell c)
  | HRef a =>
      match fuel with
      | O => None
      | S fuel' =>
          match nth_error h a with
          | None => None
          | Some (OList l) =>
              option_map VList
                (fold_right
                   (fun x acc =>
                      match reify fuel' h x, acc with
                      | Some y, Some ys => Some (y :: ys)
                      | _, _ => None
                      end) (Some []) l)
          | Some (ODict d) =>
              option_map VDict
                (fold_right
                   (fun kx acc =>
                      match reify fuel' h (snd kx), acc with
                      | Some y, Some ys => Some ((fst kx, y) :: ys)
                      | _, _ => None
                      end) (Some []) d)
          end
      end
  end.

(** A value laid out in the heap, one object per dictionary and list. *)
Fixpoint alloc_value (v : value) : M hval :=
  match v with
  | VNone => ret HNone
  | VBool b => ret (HBool b)
  | VCell c => ret (HCell c)
  | VList l =>
      xs <~ (fix go (l : list value) : M (list hval) :=
               match l with
               | [] => ret []
               | x :: l' => y <~ alloc_value x ;; ys <~ go l' ;; ret (y :: ys)
               end) l ;;
      a <~ new (OList xs) ;;
      ret (HRef a)
  | VDict d =>
      xs <~ (fix go (d : list (string * value)) : M (dict hval) :=
               match d with
               | [] => ret []
               | (k, x) :: d' =>
                   y <~ alloc_value x ;; ys <~ go d' ;; ret ((k, y) :: ys)
               end) d ;;
      a <~ new (ODict xs) ;;
      ret (HRef a)
  end.

Fixpoint alloc_all {A} (f : A -> value) (l : list A) : M (list hval) :=
  match l with
  | [] => ret []
  | x :: l' => y <~ alloc_value (f x) ;; ys <~ alloc_all f l' ;; ret (y :: ys)
  end.

Definition alloc_store {A} (f : A -> value) (d : dict A) : M addr :=
  xs <~ alloc_all f (map snd d) ;;
  new (ODict (combine (keys d) xs)).

(** The stores of a state of [Final], laid out in the heap. *)
Definition store_state (st : Final.state) : M stores :=
  ts <~ alloc_store (fun t => VDict (thing_json t)) (Final.things st) ;;
  ls <~ alloc_store location_json (Final.locations st) ;;
  ds <~ alloc_store (fun d => VDict (datastream_json d)) (Final.datastreams st) ;;
  os <~ alloc_all (fun o => VDict (Final.observation_json o))
          (Final.observations st) ;;
  os <~ new (OList os) ;;
  ret {| things := ts; locations := ls; datastreams := ds; observations := os |}.

(** The stores are well formed when they are what the main loop leaves:
    dictionaries of dictionaries with a text ["@iot.id"], and a list of
    observations whose ["Datastream"] is such a reference. *)
Definition has_text_id (h : heap) (v : hval) : Prop :=
  exists a d s, v = HRef a /\ nth_error h a = Some (ODict d)
                /\ dict_get "@iot.id" d = Some (HCell (Str s)).

Definition is_observation (h : heap) (v : hval) : Prop :=
  exists a d r, v = HRef a /\ nth_error h a = Some (ODict d)
                /\ dict_get "Datastream" d = Some r /\ has_text_id h r.

Definition well_formed (st : stores) (h : heap) : Prop :=
  (exists ts, nth_error h (things st) = Some (ODict ts)
              /\ Forall (fun e => has_text_id h (snd e)) ts)
  /\ (exists ls, nth_error h (locations st) = Some (ODict ls))
  /\ (exists ds, nth_error h (datastreams st) = Some (ODict ds)
                 /\ Forall (fun e => has_text_id h (snd e)) ds)
  /\ (exists os, nth_error h (observations st) = Some (OList os)
                 /\ Forall (is_observation h) os).

(* ---------------------------------------------------------------------- *)
(** *** The heap while the assembly runs *)

Definition is_dict (h : heap) (a : addr) : Prop :=
  exists d, nth_error h a = Some (ODict d).

Definition is_list (h : heap) (a : addr) : Prop :=
  exists l, nth_error h a = Some (OList l).

Definition same_kind (o o' : object) : Prop :=
  match o, o' with
  | ODict _, ODict _ | OList _, OList _ => True
  | _, _ => False
  end.

(** The objects of [h0] are in [h], each as it was. *)
Definition extends (h0 h : heap) : Prop :=
  forall a, a < List.length h0 -> nth_error h a = nth_error h0 a.

(** The heap once [result = {"Things": []}] is built on top of [h0]: the
    old objects as they were, then the list, then the dictionary. *)
Definition assembling (h0 h : heap) : Prop :=
  extends h0 h
  /\ is_list h (List.length h0)
  /\ nth_error h (S (List.length h0))
     = Some (ODict [("Things", HRef (List.length h0))]).

(** An address allocated after [result]. *)
Definition later (h0 : heap) (a : addr) : Prop := List.length h0 + 2 <= a.

(** A step of the assembly: lists stay lists, dictionaries stay
    dictionaries, and the heap stays as [assembling] describes. *)
Definition grows (h0 h h' : heap) : Prop :=
  (forall b, is_list h b -> is_list h' b)
  /\ (forall b, is_dict h b -> is_dict h' b)
  /\ (assembling h0 h -> assembling h0 h').

End FinalHeap.

(* ====================================================================== *)
(** ** Sample inputs *)
(* ====================================================================== *)

(** A runtime for the worked examples: integers convert exactly, a text is
    a float when it is an optionally negated run of decimal digits, the only
    JSON text understood is the empty object.  The examples stay within what
    Python does on the same inputs. *)
Definition float_of_digits (s : string) : option pyfloat :=
  match NilZero.int_of_string s with
  | Some d => Some (Fin (inject_Z (Z.of_int d)))
  | None => None
  end.

Definition sample_runtime : PyBuiltins :=
  {| float_of_int := fun n => Fin (inject_Z n);
     float_of_str := float_of_digits;
     repr_of_float := fun q => str_of_int (Qnum q) ++ "/" ++ str_of_int (Zpos (Qden q));
     json_loads := fun s => if String.eqb s "{}" then Some (VDict []) else None |}.

(** Two uuid sources that never agree. *)
Definition uuid_run1 (n : nat) : string := "a" ++ str_of_int (Z.of_nat n).
Definition uuid_run2 (n : nat) : string := "b" ++ str_of_int (Z.of_nat n).

Definition T1 : cell := Timestamp "2024-05-01T00:00:00".
Definition T2 : cell := Timestamp "2024-05-01T01:00:00".

Definition sheet (cols : list string) (rs : list (list cell)) : DataFrame :=
  {| columns := cols; rows := rs |}.

(** One station, one row, two measurement columns. *)
Definition wb_two_columns : workbook :=
  [("FREIFLÄCHE",
    sheet ["ID_MS"; "DATUM_ZEIT"; "TEMP [C°]"; "WINDR"]
      [[Str "MS1"; T1; Float (Fin (41 # 2)); Int 10]])].

(** Two stations whose identifiers are [1] and [10]. *)
Definition wb_prefix_ids : workbook :=
  [("FREIFLÄCHE",
    sheet ["ID_MS"; "DATUM_ZEIT"; "TEMP [C°]"]
      [[Int 1; T1; Float (Fin (41 # 2))];
       [Int 10; T1; Float (Fin (7 # 1))]])].

(** A sheet whose only row has no timestamp, and the same sheet without
    that row. *)
Definition wb_no_timestamp : workbook :=
  [("FREIFLÄCHE",
    sheet ["ID_MS"; "DATUM_ZEIT"; "TEMP [C°]"]
      [[Str "MS1"; NaT; Float (Fin (41 # 2))]])].

Definition wb_no_rows : workbook :=
  [("FREIFLÄCHE", sheet ["ID_MS"; "DATUM_ZEIT"; "TEMP [C°]"] [])].

(** A sheet whose only row has no identifier. *)
Definition wb_no_identifier : workbook :=
  [("FREIFLÄCHE",
    sheet ["ID_MS"; "DATUM_ZEIT"; "TEMP [C°]"]
      [[NaN; T1; Float (Fin (41 # 2))]])].

(** A measurement cell holding a text that is not a number. *)
Definition wb_bad_value : workbook :=
  [("FREIFLÄCHE",
    sheet ["ID_MS"; "DATUM_ZEIT"; "TEMP [C°]"; "WINDR"]
      [[Str "MS1"; T1; Float (Fin (41 # 2)); Int 10];
       [Str "MS1"; T2; Str "abc"; Int 20]])].

(** The scenario of the specification: station MS1 at T1 and T2, the
    second temperature missing. *)
Definition wb_scenario : workbook :=
  [("FREIFLÄCHE",
    sheet ["ID_MS"; "DATUM_ZEIT"; "TEMP [C°]"]
      [[Str "MS1"; T1; Float (Fin (41 # 2))];
       [Str "MS1"; T2; NaN]])].

(** A workbook in the normalized shape: two things, a location of the
    second, three datastreams (of thing 1, of thing 2 written as the float
    2.0, and of a thing 5 that does not exist), a sensor sheet without any
    id 9, and an observation of a datastream 7 that does not exist. *)
Definition wb_normalized : workbook :=
  [("Things",
    sheet ["name"; "description"]
      [[Str "Station A"; Str "first"]; [Str "Station B"; Str "second"]]);
   ("Locations", sheet ["name"; "thing_id"] [[Str "Site B"; Int 2]]);
   ("Sensors", sheet ["name"] [[Str "Thermometer"]]);
   ("Datastreams",
    sheet ["name"; "thing_id"; "sensor_id"]
      [[Str "Air temperature"; Int 1; Int 9];
       [Str "Soil temperature"; Float (Fin (2 # 1)); NaN];
       [Str "Orphan"; Int 5; NaN]]);
   ("Observations",
    sheet ["result"; "datastream_id"] [[Float (Fin (41 # 2)); Int 7]])].

(** A things sheet without a [name] column. *)
Definition wb_unnamed : workbook :=
  [("Things", sheet ["description"] [[Str "first"]])].

(** Parsed tables whose entities carry ids: two sensors with the id 9 (one
    as an integer, one as a float), a datastream 4 of thing 1 that refers
    to sensor 9, an observation of datastream 4 and one of a datastream 7. *)
Definition sta_with_ids : Normalized.sta_data :=
  {| Normalized.Things := [[("name", VStr "Station A")]];
     Normalized.Locations := [];
     Normalized.ObservedProperties := [];
     Normalized.Sensors :=
       [[("@iot.id", VInt 9); ("name", VStr "first sensor")];
        [("@iot.id", VFloat (Fin (9 # 1))); ("name", VStr "second sensor")]];
     Normalized.Datastreams :=
       [[("@iot.id", VInt 4); ("Thing", Normalized.ref (VInt 1));
         ("Sensor", Normalized.ref (VInt 9));
         ("ObservedProperty", Normalized.ref (VInt 3))]];
     Normalized.Observations :=
       [[("result", VInt 3); ("Datastream", Normalized.ref (VInt 4))];
        [("result", VInt 5); ("Datastream", Normalized.ref (VInt 7))]] |}.

(** Every entity sheet of the workbook has a [name] column. *)
Definition named (excel_data : workbook) : Prop :=
  forall sheet_name df,
    In sheet_name
      ["Things"; "Locations"; "ObservedProperties"; "Sensors"; "Datastreams"] ->
    dict_get sheet_name excel_data = Some df ->
    has_column "name" (columns df) = true.

(** [x] is somewhere in the document. *)
Fixpoint mentions (x doc : value) {struct doc} : bool :=
  py_eq x doc
  || match doc with
     | VList l =>
         (fix any (l : list value) : bool :=
            match l with
            | [] => false
            | v :: l' => mentions x v || any l'
            end) l
     | VDict d =>
         (fix any (d : list (string * value)) : bool :=
            match d with
            | [] => false
            | (_, v) :: d' => mentions x v || any d'
            end) d
     | _ => false
     end.

(** A small heap by hand: a thing, its datastream, an observation with its
    back-reference, and the four stores. *)
Definition sample_heap : FinalHeap.heap :=
  [FinalHeap.ODict [("@iot.id", FinalHeap.HCell (Str "thing_MS1"));
                    ("name", FinalHeap.HCell (Str "Station MS1"))];
   FinalHeap.ODict [("@iot.id", FinalHeap.HCell (Str "ds_thing_MS1_TEMP"))];
   FinalHeap.ODict [("@iot.id", FinalHeap.HCell (Str "ds_thing_MS1_TEMP"))];
   FinalHeap.ODict [("result", FinalHeap.HCell (Float (Fin (41 # 2))));
                    ("Datastream", FinalHeap.HRef 2)];
   FinalHeap.ODict [("MS1", FinalHeap.HRef 0)];
   FinalHeap.ODict [];
   FinalHeap.ODict [("thing_MS1_TEMP", FinalHeap.HRef 1)];
   FinalHeap.OList [FinalHeap.HRef 3]].

Definition sample_stores : FinalHeap.stores :=
  {| FinalHeap.things := 4; FinalHeap.locations := 5;
     FinalHeap.datastreams := 6; FinalHeap.observations := 7 |}.

(** The stores of a workbook laid out in an empty heap, assembled there,
    and the document read back, next to the document of [Final.assemble]
    and to what the assembly left of the heap it found. *)
Definition assembled_on_heap `{PyBuiltins} (excel_data : workbook)
  : option (option value * value * FinalHeap.heap * FinalHeap.heap) :=
  match Final.collect excel_data with
  | Ok st =>
      match FinalHeap.store_state st [] with
      | Ok (stores, h) =>
          match FinalHeap.assemble stores h with
          | Ok (result, h') =>
              Some (FinalHeap.reify 10 h' (FinalHeap.HRef result),
                    Final.assemble st, firstn (List.length h) h', h)
          | Err _ => None
          end
      | Err _ => None
      end
  | Err _ => None
  end.

(* ---------------------------------------------------------------------- *)
(** *** Reading a document *)

Definition field (k : string) (v : value) : option value :=
  match v with
  | VDict d => dict_get k d
  | _ => None
  end.

Definition items (v : option value) : list value :=
  match v with
  | Some (VList l) => l
  | _ => []
  end.

Definition doc_things (doc : value) : list value := items (field "Things" doc).
Definition thing_datastreams (t : value) : list value := items (field "Datastreams" t).
Definition thing_locations (t : value) : list value := items (field "Locations" t).
Definition datastream_observations (d : value) : list value :=
  items (field "Observations" d).

Definition iot_id (v : value) : value :=
  match field "@iot.id" v with
  | Some x => x
  | None => VNone
  end.

(** For every datastream of the document, in document order: its id and
    the results of the observations nested under it. *)
Definition observation_table (doc : value) : list (value * list value) :=
  flat_map
    (fun t =>
       map (fun d =>
              (iot_id d,
               map (fun o => match field "result" o with
                             | Some r => r
                             | None => VNone
                             end)
                 (datastream_observations d)))
         (thing_datastreams t))
    (doc_things doc).

(** For every thing of the document: its id and the ids of the datastreams
    nested under it. *)
Definition datastream_table (doc : value) : list (value * list value) :=
  map (fun t => (iot_id t, map iot_id (thing_datastreams t))) (doc_things doc).

Definition on_doc {A} (f : value -> A) (r : result value) : option A :=
  match r with
  | Ok doc => Some (f doc)
  | Err _ => None
  end.

(* ====================================================================== *)
(** ** Runs, readings and invariants *)
(* ====================================================================== *)

(** The words in which the properties of whole runs are stated: what a
    workbook gives to read, what the stores hold on the way, and what the
    scripts count in a document. *)

(* ---------------------------------------------------------------------- *)
(** *** The columns read as JSON *)

(** The sheets of the normalized shape and their columns whose texts go
    through [json.loads]. *)
Definition json_columns : list (string * string) :=
  [("Things", "properties");
   ("Locations", "location");
   ("Datastreams", "unitOfMeasurement");
   ("Observations", "parameters");
   ("Observations", "feature_of_interest")].

(** A things sheet whose [properties] cell is not a JSON text. *)
Definition wb_bad_json : workbook :=
  [("Things", sheet ["name"; "properties"] [[Str "Station A"; Str "{oops"]])].

(* ---------------------------------------------------------------------- *)
(** *** Workbooks without a sheet *)

(** The workbook as it would be read from a file that has no sheet
    [name]. *)
Definition without_sheet (name : string) (excel_data : workbook) : workbook :=
  filter (fun kv => negb (String.eqb (fst kv) name)) excel_data.

(** What a row of the legend says of its station: a missing HMS reads
    ["Unknown"], a missing Bemerkung (the cell or the whole column) [""]. *)
Definition legend_entry (cols : list string) (row : list cell)
  (hms_cell : cell) : Final.hms_info :=
  {| Final.hms := if isna hms_cell then Str "Unknown" else hms_cell;
     Final.bemerkung :=
       match row_getitem cols row "Bemerkung" with
       | Ok c => if isna c then Str "" else c
       | Err _ => Str ""
       end |}.

(** The legend as [generate_test_excel.py] writes it (its identifier
    column is headed [ID]), with one data sheet. *)
Definition wb_generated_legend : workbook :=
  [("LEGENDE",
    sheet ["ID"; "HMS"; "Bemerkung"; "Unnamed: 3"; "Unnamed: 4"]
      [[Str "MS1"; Str "Hauptmessstation"; Str "Standort 1"; NaN; NaN];
       [Str "MS2"; Str "Nebenstation"; Str "Standort 2"; NaN; NaN];
       [Str "MS3"; Str "Feldstation"; Str "Standort 3"; NaN; NaN]]);
   ("FREIFLÄCHE",
    sheet ["ID_MS"; "DATUM_ZEIT"; "TEMP [C°]"]
      [[Str "MS1"; T1; Float (Fin (41 # 2))]])].

(** A legend that names the station MS1 twice, the second time without
    HMS and Bemerkung. *)
Definition wb_legend_twice : workbook :=
  [("LEGENDE",
    sheet ["ID_MS"; "HMS"; "Bemerkung"]
      [[Str "MS1"; Str "Hauptmessstation"; Str "Standort 1"];
       [Str "MS2"; Str "Nebenstation"; Str "Standort 2"];
       [Str "MS1"; NaN; NaN]])].

(* ---------------------------------------------------------------------- *)
(** *** One state of a run and a later one *)

(** A store or a list that has only been added to, at its end. *)
Definition extended {A} (l l' : list A) : Prop :=
  exists more, l' = (l ++ more)%list.

(** A later state of a [SensorThingsTransformer]: every store holds what it
    held, in the same order, and possibly more after it. *)
Definition customized_later (st st' : Customized.state) : Prop :=
  extended (Customized.things st) (Customized.things st')
  /\ extended (Customized.locations st) (Customized.locations st')
  /\ extended (Customized.observed_properties st)
       (Customized.observed_properties st')
  /\ extended (Customized.sensors st) (Customized.sensors st')
  /\ extended (Customized.datastreams st) (Customized.datastreams st')
  /\ extended (Customized.observations st) (Customized.observations st').

(** The station MS1 in two sheets of different categories. *)
Definition wb_two_sheets : workbook :=
  [("FREIFLÄCHE",
    sheet ["ID_MS"; "DATUM_ZEIT"; "TEMP [C°]"]
      [[Str "MS1"; T1; Float (Fin (41 # 2))]]);
   ("Tension kPa",
    sheet ["ID_MS"; "DATUM"; "TENS20_1"]
      [[Str "MS1"; T1; Int 15]])].

(* ---------------------------------------------------------------------- *)
(** *** Entities as functions of their keys *)

(** Every entity of the stores is the one its [create_*] method builds on
    an empty transformer for its key: a station for its identifier and some
    category, a location for its thing id, a sensor and an observed
    property for their measurement type, a datastream for a thing id and a
    measurement type that make up its key; and the sensor and the observed
    property of a datastream are the ones registered for that measurement
    type. *)
Definition customized_canonical (st : Customized.state) : Prop :=
  (forall id_ms thing,
     dict_get id_ms (Customized.things st) = Some thing ->
     exists category,
       thing = fst (Customized.create_thing id_ms category Customized.init))
  /\ (forall thing_id location,
        dict_get thing_id (Customized.locations st) = Some location ->
        exists st',
          Customized.create_location thing_id Customized.init
          = Ok (location, st'))
  /\ (forall code p,
        dict_get code (Customized.observed_properties st) = Some p ->
        p = fst (Customized.create_observed_property code Customized.init))
  /\ (forall code s,
        dict_get code (Customized.sensors st) = Some s ->
        s = fst (Customized.create_sensor code Customized.init))
  /\ (forall key d,
        dict_get key (Customized.datastreams st) = Some d ->
        exists thing_id code,
          key = thing_id ++ "_" ++ code
          /\ d = fst (Customized.create_datastream thing_id code
                        Customized.init)
          /\ dict_get code (Customized.sensors st) = Some (ds_Sensor d)
          /\ dict_get code (Customized.observed_properties st)
             = Some (ds_ObservedProperty d)).

(** Every station has its location registered. *)
Definition customized_located (st : Customized.state) : Prop :=
  forall id_ms thing,
    dict_get id_ms (Customized.things st) = Some thing ->
    dict_in (thing_iot_id thing) (Customized.locations st) = true.

(** Two stations whose identifiers differ after their first underscore. *)
Definition wb_underscores : workbook :=
  [("FREIFLÄCHE",
    sheet ["ID_MS"; "DATUM_ZEIT"; "TEMP [C°]"]
      [[Str "MS_1"; T1; Float (Fin (41 # 2))];
       [Str "MS_2"; T1; Float (Fin (7 # 1))]])].

(* ---------------------------------------------------------------------- *)
(** *** The readings of a sheet, cell by cell *)

(** [[f(x) for x in l]] where [f] may raise. *)
Fixpoint mapM {A B} (f : A -> result B) (l : list A) : result (list B) :=
  match l with
  | [] => Ok []
  | a :: l' => b <- f a ;; r <- mapM f l' ;; Ok (b :: r)
  end.

(** The measurement cells of a row, in column order: the cells that are
    not missing, in the columns that are neither the identifier, the
    timestamp nor an unnamed one. *)
Definition measured_cells (cols : list string) (row : list cell)
  (timestamp_column : string) : list (string * cell) :=
  flat_map
    (fun column =>
       if skipped_column timestamp_column column then []
       else match row_getitem cols row column with
            | Ok c => if isna c then [] else [(column, c)]
            | Err _ => []
            end)
    cols.

(** A reading: the text of the station identifier of its row, a time, the
    column it was read in and a number. *)
Record reading := {
  reading_station : string;
  reading_time : cell;
  reading_column : string;
  reading_value : pyfloat
}.

(** The readings of a row: none when its timestamp is missing, and else
    one for each measurement cell, at the timestamp of the row (a date as
    its ISO text). *)
Definition row_readings `{PyBuiltins} (cols : list string)
  (timestamp_column : string) (row : list cell) : result (list reading) :=
  id_cell <- row_getitem cols row id_column ;;
  timestamp <- row_getitem cols row timestamp_column ;;
  if isna timestamp then Ok []
  else
    mapM (fun cc =>
            x <- py_float (snd cc) ;;
            Ok {| reading_station := py_str id_cell;
                  reading_time := isoformat_if_datetime timestamp;
                  reading_column := fst cc;
                  reading_value := x |})
      (measured_cells cols row timestamp_column).

(** The readings of a sheet, row after row. *)
Definition sheet_readings `{PyBuiltins} (cols : list string)
  (timestamp_column : string) (rs : list (list cell)) : result (list reading) :=
  per_row <- mapM (row_readings cols timestamp_column) rs ;;
  Ok (concat per_row).

(** A reading as an observation of [excel_to_sta_customized.py]. *)
Definition customized_observation (r : reading) : Customized.Observation :=
  {| Customized.phenomenonTime := reading_time r;
     Customized.resultTime := reading_time r;
     Customized.obs_result := reading_value r |}.

(* ---------------------------------------------------------------------- *)
(** *** The readings of a workbook in [final_version_6things.py] *)

Section FinalReadings.
Context `{PyBuiltins}.
Variable legend : dict Final.hms_info.

(** [id_to_hms_mapping.get(id_ms, {"hms": "Unknown", "bemerkung": ""})] *)
Definition legend_info (id_ms : string) : Final.hms_info :=
  match dict_get id_ms legend with
  | Some info => info
  | None => Final.unknown_hms
  end.

(** The key of the thing of a station, and the key of its datastream for a
    measurement type. *)
Definition final_thing_key (id_ms : string) : string :=
  py_str (Final.hms (legend_info id_ms)) ++ "_"
  ++ py_str (Final.bemerkung (legend_info id_ms)) ++ "_" ++ id_ms.

Definition final_datastream_key (id_ms measurement_type : string) : string :=
  ("thing_" ++ final_thing_key id_ms) ++ "_" ++ measurement_type
  ++ "_" ++ py_str (Final.hms (legend_info id_ms))
  ++ "_" ++ py_str (Final.bemerkung (legend_info id_ms)).

(** A reading as an observation of [final_version_6things.py]. *)
Definition final_observation (r : reading) : Final.Observation :=
  {| Final.phenomenonTime := reading_time r;
     Final.resultTime := reading_time r;
     Final.obs_result := reading_value r;
     Final.obs_Datastream :=
       "ds_" ++ final_datastream_key (reading_station r)
                  (measurement_type_of (reading_column r)) |}.

End FinalReadings.

(** The readings of a sheet that [final_version_6things.py] does not skip:
    not the legend, and with its identifier and timestamp columns. *)
Definition final_sheet_readings `{PyBuiltins} (sheet : string * DataFrame)
  : result (list reading) :=
  let '(sheet_name, df) := sheet in
  if String.eqb sheet_name "LEGENDE" then Ok []
  else if negb (has_column id_column (columns df))
          || negb (has_column (timestamp_column_of sheet_name) (columns df))
       then Ok []
       else sheet_readings (columns df) (timestamp_column_of sheet_name)
              (rows df).

Definition final_readings `{PyBuiltins} (excel_data : workbook)
  : result (list reading) :=
  per_sheet <- mapM final_sheet_readings excel_data ;;
  Ok (concat per_sheet).

(** The ids of the stored things and datastreams are made of their keys. *)
Definition final_ids (st : Final.state) : Prop :=
  (forall k t, dict_get k (Final.things st) = Some t ->
     thing_iot_id t = "thing_" ++ k)
  /\ (forall key d, dict_get key (Final.datastreams st) = Some d ->
        ds_iot_id d = "ds_" ++ key).

(** A later state keeps every thing and every datastream. *)
Definition final_keeps (st st' : Final.state) : Prop :=
  (forall k t, dict_get k (Final.things st) = Some t ->
     dict_get k (Final.things st') = Some t)
  /\ (forall key d, dict_get key (Final.datastreams st) = Some d ->
        dict_get key (Final.datastreams st') = Some d).

(** The thing and the datastream of a reading are registered. *)
Definition final_registered `{PyBuiltins} (legend : dict Final.hms_info)
  (st : Final.state) (r : reading) : Prop :=
  dict_in (final_thing_key legend (reading_station r)) (Final.things st) = true
  /\ dict_in (final_datastream_key legend (reading_station r)
                (measurement_type_of (reading_column r)))
       (Final.datastreams st) = true.

(* ====================================================================== *)
(** ** The summaries of [test_script.py] and of [final_version_6things.py] *)
(* ====================================================================== *)

(** Both [main] functions count what the document holds before they print.
    They work on whatever [excel_to_sensorthings] returned ([result] in the
    scripts, [document] here), so the operations are those of Python on any
    value: [len], [in], [.get], indexing by a key, iteration. *)

Module Report.

(** A byte [10xxxxxx] continues a character of a UTF-8 text. *)
Definition utf8_continuation (c : ascii) : bool :=
  match c with
  | Ascii _ _ _ _ _ _ b6 b7 => b7 && negb b6
  end.

(** The characters of a text. *)
Fixpoint chars (s : string) : list string :=
  match s with
  | EmptyString => []
  | String c s' =>
      match s' with
      | String c' _ =>
          if utf8_continuation c'
          then match chars s' with
               | w :: ws => String c w :: ws
               | [] => [String c EmptyString]
               end
          else String c EmptyString :: chars s'
      | EmptyString => [String c EmptyString]
      end
  end.

(** [len(x)] *)
Definition py_len (x : value) : result nat :=
  match x with
  | VList l => Ok (List.length l)
  | VDict d => Ok (List.length d)
  | VStr s => Ok (List.length (chars s))
  | _ => Err TypeError
  end.

(** [for e in x] *)
Definition py_iter (x : value) : result (list value) :=
  match x with
  | VList l => Ok l
  | VDict d => Ok (map (fun k => VStr k) (keys d))
  | VStr s => Ok (map (fun c => VStr c) (chars s))
  | _ => Err TypeError
  end.

(** ["k" in x] *)
Definition py_contains (k : string) (x : value) : result bool :=
  match x with
  | VDict d => Ok (dict_in k d)
  | VList l => Ok (existsb (py_eq (VStr k)) l)
  | VStr s => Ok (contains k s)
  | _ => Err TypeError
  end.

(** [x["k"]] *)
Definition py_getitem (k : string) (x : value) : result value :=
  match x with
  | VDict d => getitem k d
  | _ => Err TypeError
  end.

(** [x.get("k", default)] *)
Definition py_get (k : string) (default : value) (x : value) : result value :=
  match x with
  | VDict d => Ok (match dict_get k d with Some v => v | None => default end)
  | _ => Err AttributeError
  end.

(** [sum(f(e) for e in l)] *)
Definition sumM (f : value -> result nat) (l : list value) : result nat :=
  foldM (fun e n => k <- f e ;; Ok (n + k)) l 0.

(** [sum(len(ds.get('Observations', [])) for ds in datastreams)] *)
Definition count_observations (datastreams : value) : result nat :=
  l <- py_iter datastreams ;;
  sumM (fun ds => obs <- py_get "Observations" (VList []) ds ;; py_len obs) l.

(** *** [test_script.py], lines 19 to 37 *)

Record totals := {
  number_of_things : nat;
  total_datastreams : nat;
  total_observations : nat
}.

(** The body of [for thing in result['Things']]; the name of the thing is
    looked up for the line that is printed. *)
Definition count_thing (thing : value) (acc : nat * nat) : result (nat * nat) :=
  has <- py_contains "Datastreams" thing ;;
  if has then
    datastreams <- py_getitem "Datastreams" thing ;;
    thing_datastreams <- py_len datastreams ;;
    thing_observations <- count_observations datastreams ;;
    _ <- py_getitem "name" thing ;;
    Ok (fst acc + thing_datastreams, snd acc + thing_observations)
  else Ok acc.

Definition test_script_totals (document : value) : result totals :=
  things <- py_getitem "Things" document ;;
  n <- py_len things ;;
  l <- py_iter things ;;
  '(d, o) <- foldM count_thing l (0, 0) ;;
  Ok {| number_of_things := n; total_datastreams := d;
        total_observations := o |}.

(** *** [main] of [final_version_6things.py], lines 283 to 300 *)

Section Summary.
Context `{PyBuiltins}.

(** How Python prints a list or a dictionary. *)
Variable py_repr : value -> string.

(** [f"{x}"] *)
Definition format (x : value) : string :=
  match x with
  | VNone => "None"
  | VBool true => "True"
  | VBool false => "False"
  | VCell c => py_str c
  | VList _ | VDict _ => py_repr x
  end.

(** The body of the loop that groups the things by HMS and Bemerkung. *)
Definition summarize_thing (thing : value) (thing_summary : dict nat)
  : result (dict nat) :=
  properties <- py_getitem "properties" thing ;;
  hms <- py_getitem "hms" properties ;;
  properties <- py_getitem "properties" thing ;;
  bemerkung <- py_getitem "bemerkung" properties ;;
  let key := format hms ++ " - " ++ format bemerkung in
  let thing_summary :=
    if dict_in key thing_summary then thing_summary
    else dict_set key 0 thing_summary in
  count <- getitem key thing_summary ;;
  Ok (dict_set key (count + 1) thing_summary).

Record summary := {
  thing_count : nat;
  datastream_count : nat;
  observation_count : nat;
  thing_summary : dict nat
}.

Definition final_summary (document : value) : result summary :=
  things <- py_getitem "Things" document ;;
  thing_count <- py_len things ;;
  things <- py_getitem "Things" document ;;
  l <- py_iter things ;;
  datastream_count <-
    sumM (fun thing =>
            datastreams <- py_get "Datastreams" (VList []) thing ;;
            py_len datastreams) l ;;
  things <- py_getitem "Things" document ;;
  l <- py_iter things ;;
  observation_count <-
    sumM (fun thing =>
            datastreams <- py_get "Datastreams" (VList []) thing ;;
            count_observations datastreams) l ;;
  things <- py_getitem "Things" document ;;
  l <- py_iter things ;;
  thing_summary <- foldM summarize_thing l [] ;;
  Ok {| thing_count := thing_count; datastream_count := datastream_count;
        observation_count := observation_count;
        thing_summary := thing_summary |}.

End Summary.

End Report.

(* ---------------------------------------------------------------------- *)
(** *** Texts without a space *)

Fixpoint no_space (s : string) : bool :=
  match s with
  | EmptyString => true
  | String c s' => negb (Ascii.eqb c " ") && no_space s'
  end.

(* ---------------------------------------------------------------------- *)
(** *** The stores of [final_version_6things.py] during a run *)

(** No store has a key twice; every thing has its location, whose id is
    made of the thing id, and the four properties of the literal; every
    datastream key starts with the id of a registered thing; every
    observation refers to a registered datastream. *)
Definition final_sound (st : Final.state) : Prop :=
  NoDup (keys (Final.things st))
  /\ NoDup (keys (Final.datastreams st))
  /\ (forall k t, dict_get k (Final.things st) = Some t ->
        dict_in (thing_iot_id t) (Final.locations st) = true
        /\ exists id h b c,
             thing_properties t
             = [("id_ms", id); ("hms", VCell h); ("bemerkung", VCell b);
                ("category", c)])
  /\ (forall thing_id l, dict_get thing_id (Final.locations st) = Some l ->
        location_iot_id l = "location_" ++ replace "thing_" "" thing_id)
  /\ (forall key d, dict_get key (Final.datastreams st) = Some d ->
        exists k t, dict_get k (Final.things st) = Some t
                    /\ startswith key (thing_iot_id t) = true)
  /\ (forall o, In o (Final.observations st) ->
        exists key d, dict_get key (Final.datastreams st) = Some d
                      /\ ds_iot_id d = Final.obs_Datastream o).

(** Every datastream key starts with the id of one thing only. *)
Definition final_unambiguous (st : Final.state) : Prop :=
  forall key d,
    In (key, d) (Final.datastreams st) ->
    List.length
      (filter (fun kt => startswith key (thing_iot_id (snd kt)))
         (Final.things st)) = 1.

(** The datastreams nested under a thing, and the number of observations
    nested under a datastream. *)
Definition final_own (st : Final.state) (t : Thing) : dict Datastream :=
  filter (fun kd => startswith (fst kd) (thing_iot_id t)) (Final.datastreams st).

Definition final_readings_of (st : Final.state) (d : Datastream) : nat :=
  List.length
    (filter (fun o => String.eqb (Final.obs_Datastream o) (ds_iot_id d))
       (Final.observations st)).

(** A reading as it stands in the document of [final_version_6things.py]. *)
Definition reading_json (r : reading) : value :=
  VDict [("phenomenonTime", VCell (reading_time r));
         ("resultTime", VCell (reading_time r));
         ("result", VFloat (reading_value r))].

(* ====================================================================== *)
(** ** [generate_test_excel.py] *)
(* ====================================================================== *)

(** The six frames that [generate_test_excel] builds, as
    [excel_to_sensorthings] reads them back from the file.  What
    [random] and [numpy] contribute is a parameter: [draw sheet row column]
    is the rounded number in a cell, [wind row] the integer of
    [random.randint(0, 359)]. *)

Module Generated.

Section WithDraws.
Variable draw : string -> nat -> string -> Q.
Variable wind : nat -> Z.

Definition two_digits (n : nat) : string :=
  if Nat.ltb n 10 then "0" ++ str_of_int (Z.of_nat n)
  else str_of_int (Z.of_nat n).

(** [datetime(2024, 5, 1, 0, 0) + timedelta(hours=i)] and
    [... + timedelta(days=i)], for [i] below 20 and below 10. *)
Definition hourly (i : nat) : cell :=
  Timestamp ("2024-05-01T" ++ two_digits i ++ ":00:00").

Definition daily (i : nat) : cell :=
  Timestamp ("2024-05-" ++ two_digits (S i) ++ "T00:00:00").

Definition stations : list string := ["MS1"; "MS2"; "MS3"].

(** [for id_ms in ['MS1', 'MS2', 'MS3']: for ts in timestamps:
     data.append([id_ms, ts, ...])]; the rows are numbered as they are
    appended. *)
Definition data (timestamps : list cell)
  (values : nat -> list cell) : list (list cell) :=
  let keys :=
    flat_map (fun id_ms => map (fun ts => (id_ms, ts)) timestamps) stations in
  map (fun nk => Str (fst (snd nk)) :: snd (snd nk) :: values (fst nk))
    (combine (seq 0 (List.length keys)) keys).

(** The frame of a sheet all of whose measurement cells are rounded
    numbers. *)
Definition frame (sheet_name timestamp_column : string)
  (timestamps : list cell) (measurements : list string) : DataFrame :=
  {| columns := "ID_MS" :: timestamp_column :: measurements;
     rows := data timestamps
               (fun row =>
                  map (fun column => Float (Fin (draw sheet_name row column)))
                    measurements) |}.

(** [generate_legende_sheet] *)
Definition legende : DataFrame :=
  {| columns := ["ID"; "HMS"; "Bemerkung"; "Unnamed: 3"; "Unnamed: 4"];
     rows := [[Str "MS1"; Str "Hauptmessstation"; Str "Standort 1"; NaN; NaN];
              [Str "MS2"; Str "Nebenstation"; Str "Standort 2"; NaN; NaN];
              [Str "MS3"; Str "Feldstation"; Str "Standort 3"; NaN; NaN]] |}.

(** [generate_freiflache_sheet]: the wind direction is an integer. *)
Definition freiflache : DataFrame :=
  {| columns := ["ID_MS"; "DATUM_ZEIT"; "TEMP [C°]"; "WINDR"; "GLOBAL [W/m²]";
                 "NIEDER [mm]"];
     rows := data (map hourly (seq 0 20))
               (fun row =>
                  [Float (Fin (draw "FREIFLÄCHE" row "TEMP [C°]"));
                   Int (wind row);
                   Float (Fin (draw "FREIFLÄCHE" row "GLOBAL [W/m²]"));
                   Float (Fin (draw "FREIFLÄCHE" row "NIEDER [mm]"))]) |}.

(** [generate_boden_lufttemp_sheet] *)
Definition boden_lufttemp : DataFrame :=
  frame "Boden+Lufttemp_Bestand C°" "DATUMZEIT" (map hourly (seq 0 20))
    ["TEMPHUMUS"; "TEMP100"; "TEMP20"; "TEMP200"; "TEMP35"; "TEMP5"; "TEMP50"].

(** [generate_bodenfeu_vol_sheet] *)
Definition bodenfeu_vol : DataFrame :=
  frame "Bodenfeu % Vol. Wassergehalt" "DATUM" (map daily (seq 0 10))
    ["TDR20_1"; "TDR20_2"; "TDR50_1"; "TDR50_2"; "TDR100_1"; "TDR100_2"].

(** [generate_bodenfeu_nfk_sheet] *)
Definition bodenfeu_nfk : DataFrame :=
  frame "Bodenfeu %nFK" "DATUM" (map daily (seq 0 10)) ["%nFK"].

(** [generate_tension_sheet] *)
Definition tension : DataFrame :=
  frame "Tension kPa" "DATUM" (map daily (seq 0 10))
    ["TENS20_1"; "TENS20_2"; "TENS50_1"; "TENS50_2"; "TENS100_1"; "TENS100_2"].

(** The workbook, its sheets in the order in which they are written. *)
Definition generate_test_excel : workbook :=
  [("LEGENDE", legende);
   ("FREIFLÄCHE", freiflache);
   ("Boden+Lufttemp_Bestand C°", boden_lufttemp);
   ("Bodenfeu % Vol. Wassergehalt", bodenfeu_vol);
   ("Bodenfeu %nFK", bodenfeu_nfk);
   ("Tension kPa", tension)].

End WithDraws.

End Generated.

(* ====================================================================== *)
(** ** Headers that are not texts *)
(* ====================================================================== *)

(** [read_excel] labels a column with what its header cell holds: a text,
    but also a number or a date where the cell holds one (an empty header
    cell gives the text [Unnamed: n]).  [DataFrame] is the frame all of
    whose labels are texts; [LabelledFrame] is the frame in general, a text
    label being a [Str].  A boolean label counts as the integer it is. *)
Record LabelledFrame := {
  labels : list cell;
  records : list (list cell)
}.

(** [isinstance(label, str)] *)
Definition is_text (label : cell) : bool :=
  match label with
  | Str _ => true
  | _ => false
  end.

(** [label == c] for a text [c]: no number and no date equals a text. *)
Definition is_label (c : string) (label : cell) : bool :=
  match label with
  | Str s => String.eqb s c
  | _ => false
  end.

Fixpoint label_index (c : string) (labels : list cell) : option nat :=
  match labels with
  | [] => None
  | label :: labels' =>
      if is_label c label then Some O
      else option_map S (label_index c labels')
  end.

(** [c in df.columns], [c in row] *)
Definition has_label (c : string) (labels : list cell) : bool :=
  match label_index c labels with Some _ => true | None => false end.

(** [row[c]] for a text [c] and a row of a frame with these labels. *)
Definition row_at (labels : list cell) (row : list cell) (c : string)
  : result cell :=
  match label_index c labels with
  | Some i => Ok (nth i row NaN)
  | None => Err (KeyError c)
  end.

Definition labelled_workbook := dict LabelledFrame.

(** A frame with text labels, as a labelled frame. *)
Definition labelled (df : DataFrame) : LabelledFrame :=
  {| labels := map Str (columns df); records := rows df |}.

Definition labelled_sheets (excel_data : workbook) : labelled_workbook :=
  map (fun sheet => (fst sheet, labelled (snd sheet))) excel_data.

(* ---------------------------------------------------------------------- *)
(** *** [SensorThingsTransformer.process_sheet] over any labels *)

Module LabelledCustomized.

Section WithBuiltins.
Context `{PyBuiltins}.

(** The body of [for column in df.columns].  In
    [column in [id_column, timestamp_column] or column.startswith("Unnamed")]
    a label that is not a text equals neither name, and has no method
    [startswith]. *)
Definition process_cell (labels : list cell) (row : list cell)
  (timestamp_column thing_id : string) (timestamp : cell)
  (column : cell) (st : Customized.state) : result Customized.state :=
  match column with
  | Str column =>
      if skipped_column timestamp_column column then Ok st
      else
        value <- row_at labels row column ;;
        if isna value then Ok st
        else
          let measurement_type := measurement_type_of column in
          let '(datastream, st1) :=
            Customized.create_datastream thing_id measurement_type st in
          let datastream_id := ds_iot_id datastream in
          x <- py_float value ;;
          Ok (snd (Customized.create_observation datastream_id timestamp x st1))
  | _ => Err AttributeError
  end.

(** The body of [for _, row in df.iterrows()]. *)
Definition process_row (labels : list cell) (category timestamp_column : string)
  (row : list cell) (st : Customized.state) : result Customized.state :=
  id_cell <- row_at labels row id_column ;;
  let id_ms := py_str id_cell in
  let '(thing, st1) := Customized.create_thing id_ms category st in
  let thing_id := thing_iot_id thing in
  '(_, st2) <- Customized.create_location thing_id st1 ;;
  timestamp <- row_at labels row timestamp_column ;;
  if isna timestamp then Ok st2
  else
    let timestamp := isoformat_if_datetime timestamp in
    foldM (process_cell labels row timestamp_column thing_id timestamp)
      labels st2.

Definition process_sheet (excel_data : labelled_workbook) (sheet_name : string)
  (st : Customized.state) : result Customized.state :=
  if String.eqb sheet_name "LEGENDE" then Ok st
  else
    df <- getitem sheet_name excel_data ;;
    let category := category_of sheet_name in
    let timestamp_column := timestamp_column_of sheet_name in
    foldM (process_row (labels df) category timestamp_column) (records df) st.

(** [transform], after [read_excel] has produced [excel_data]. *)
Definition transform (excel_data : labelled_workbook) : result value :=
  st <- foldM (process_sheet excel_data) (keys excel_data) Customized.init ;;
  Ok (Customized.construct_nested_structure st).

End WithBuiltins.

End LabelledCustomized.

(* ---------------------------------------------------------------------- *)
(** *** The loops of [final_version_6things.py] over any labels *)

Module LabelledFinal.

Section WithBuiltins.
Context `{PyBuiltins}.

(** The body of [for _, row in legend_df.iterrows()]. *)
Definition legend_row (labels : list cell) (row : list cell)
  (id_to_hms_mapping : dict Final.hms_info) : result (dict Final.hms_info) :=
  id_cell <- row_at labels row "ID_MS" ;;
  let id_ms := py_str id_cell in
  hms_cell <- row_at labels row "HMS" ;;
  let hms := if negb (isna hms_cell) then hms_cell else Str "Unknown" in
  let bem_cell :=
    match row_at labels row "Bemerkung" with
    | Ok c => c
    | Err _ => Str ""
    end in
  let bemerkung := if negb (isna bem_cell) then bem_cell else Str "" in
  Ok (dict_set id_ms {| Final.hms := hms; Final.bemerkung := bemerkung |}
        id_to_hms_mapping).

Definition read_legend (excel_data : labelled_workbook)
  : result (dict Final.hms_info) :=
  match dict_get "LEGENDE" excel_data with
  | None => Ok []
  | Some legend_df =>
      if has_label "HMS" (labels legend_df)
         && has_label "ID_MS" (labels legend_df)
      then foldM (legend_row (labels legend_df)) (records legend_df) []
      else Ok []
  end.

(** The body of [for column in df.columns]; a label that is not a text has
    no method [startswith]. *)
Definition process_cell (labels : list cell) (row : list cell)
  (info : Final.hms_info) (timestamp_column thing_id : string)
  (timestamp : cell) (column : cell) (st : Final.state) : result Final.state :=
  match column with
  | Str column =>
      if skipped_column timestamp_column column then Ok st
      else
        value <- row_at labels row column ;;
        if isna value then Ok st
        else
          let measurement_type := measurement_type_of column in
          let '(observed_property, ops) :=
            Final.register_observed_property measurement_type
              (Final.observed_properties st) in
          let '(sensor, sens) :=
            Final.register_sensor measurement_type (Final.sensors st) in
          let '(datastream, dss) :=
            Final.register_datastream info thing_id measurement_type sensor
              observed_property (Final.datastreams st) in
          x <- py_float value ;;
          let observation :=
            {| Final.phenomenonTime := timestamp;
               Final.resultTime := timestamp;
               Final.obs_result := x;
               Final.obs_Datastream := ds_iot_id datastream |} in
          Ok {| Final.things := Final.things st;
                Final.locations := Final.locations st;
                Final.observed_properties := ops;
                Final.sensors := sens;
                Final.datastreams := dss;
                Final.observations := Final.observations st ++ [observation] |}
  | _ => Err AttributeError
  end.

(** The body of [for _, row in df.iterrows()]. *)
Definition process_row (id_to_hms_mapping : dict Final.hms_info)
  (labels : list cell) (category timestamp_column : string)
  (row : list cell) (st : Final.state) : result Final.state :=
  id_cell <- row_at labels row id_column ;;
  let id_ms := py_str id_cell in
  let info :=
    match dict_get id_ms id_to_hms_mapping with
    | Some i => i
    | None => Final.unknown_hms
    end in
  let '(thing_id, st1) := Final.register_thing info id_ms category st in
  let st2 := Final.register_location info thing_id st1 in
  timestamp <- row_at labels row timestamp_column ;;
  if isna timestamp then Ok st2
  else
    let timestamp := isoformat_if_datetime timestamp in
    foldM (process_cell labels row info timestamp_column thing_id timestamp)
      labels st2.

(** The body of [for sheet_name, df in excel_data.items()]. *)
Definition process_sheet (id_to_hms_mapping : dict Final.hms_info)
  (sheet : string * LabelledFrame) (st : Final.state) : result Final.state :=
  let '(sheet_name, df) := sheet in
  if String.eqb sheet_name "LEGENDE" then Ok st
  else
    let category := category_of sheet_name in
    let timestamp_column := timestamp_column_of sheet_name in
    if negb (has_label id_column (labels df))
       || negb (has_label timestamp_column (labels df))
    then Ok st
    else
      foldM (process_row id_to_hms_mapping (labels df) category
               timestamp_column) (records df) st.

Definition collect (excel_data : labelled_workbook) : result Final.state :=
  id_to_hms_mapping <- read_legend excel_data ;;
  foldM (process_sheet id_to_hms_mapping) excel_data Final.init.

(** [excel_to_sensorthings], after [pd.read_excel]. *)
Definition excel_to_sensorthings (excel_data : labelled_workbook)
  : result value :=
  st <- collect excel_data ;;
  Ok (Final.assemble st).

End WithBuiltins.

End LabelledFinal.

(** What a round of [for column in df.columns] that raises has met: a cell
    under a text header that [float] rejects, or a label that is no text. *)
Definition cell_failure `{PyBuiltins} (labels : list cell) (row : list cell)
  (timestamp_column : string) (column : cell) (e : exn) : Prop :=
  (exists name c,
     column = Str name
     /\ skipped_column timestamp_column name = false
     /\ row_at labels row name = Ok c
     /\ isna c = false
     /\ py_float c = Err e
     /\ (e = ValueError \/ e = TypeError))
  \/ (is_text column = false /\ e = AttributeError).

(** A sheet with a column headed by the number 2024, and a sheet with text
    headers one of whose cells holds a text that is no number. *)
Definition wb_number_header : labelled_workbook :=
  [("FREIFLÄCHE",
    {| labels := [Str "ID_MS"; Str "DATUM_ZEIT"; Str "TEMP [C°]"; Int 2024];
       records := [[Str "MS1"; T1; Float (Fin (41 # 2)); Int 10]] |})].

Definition wb_text_value : labelled_workbook :=
  [("FREIFLÄCHE",
    {| labels := [Str "ID_MS"; Str "DATUM_ZEIT"; Str "TEMP [C°]"; Str "WINDR"];
       records := [[Str "MS1"; T1; Float (Fin (41 # 2)); Int 10];
                   [Str "MS1"; T2; Str "abc"; Int 20]] |})].

(* ====================================================================== *)
(** * Verification *)
(* ====================================================================== *)

(** ** Dictionaries and loops *)

Section DictFacts.
Context {V : Type}.
Implicit Types (d : dict V) (k : string) (v : V).

Lemma dict_get_set_same d k v : dict_get k (dict_set k v d) = Some v.
Proof.
  induction d as [|[k' v'] d IH]; simpl.
  - now rewrite String.eqb_refl.
  - destruct (String.eqb k' k) eqn:E; simpl; now rewrite E.
Qed.

Lemma dict_get_set_other d k k' v :
  k <> k' -> dict_get k' (dict_set k v d) = dict_get k' d.
Proof.
  intros N. induction d as [|[k0 v0] d IH]; simpl.
  - destruct (String.eqb_spec k k'); congruence.
  - destruct (String.eqb_spec k0 k) as [->|]; simpl.
    + destruct (String.eqb_spec k k'); congruence.
    + destruct (String.eqb_spec k0 k'); congruence.
Qed.

Lemma dict_get_In d k v : dict_get k d = Some v -> In (k, v) d.
Proof.
  induction d as [|[k' v'] d IH]; simpl; [discriminate|].
  destruct (String.eqb_spec k' k) as [->|]; intros E.
  - left. congruence.
  - right. auto.
Qed.

Lemma dict_get_None_keys d k : dict_get k d = None <-> ~ In k (keys d).
Proof.
  induction d as [|[k' v'] d IH]; simpl.
  - tauto.
  - destruct (String.eqb_spec k' k) as [->|].
    + split; [discriminate | intros N; exfalso; apply N; now left].
    + rewrite IH. split; [intros N [E|I]; congruence | tauto].
Qed.

Lemma dict_get_Some_keys d k v : dict_get k d = Some v -> In k (keys d).
Proof.
  intros E. apply dict_get_In in E. unfold keys.
  change k with (fst (k, v)). now apply in_map.
Qed.

(** A new key goes last. *)
Lemma dict_set_fresh d k v :
  dict_get k d = None -> dict_set k v d = (d ++ [(k, v)])%list.
Proof.
  induction d as [|[k' v'] d IH]; simpl; [reflexivity|].
  destruct (String.eqb k' k); [discriminate|].
  intros E. now rewrite IH.
Qed.

Lemma keys_set_fresh d k v :
  dict_get k d = None -> keys (dict_set k v d) = (keys d ++ [k])%list.
Proof.
  intros E. rewrite dict_set_fresh by assumption.
  unfold keys. now rewrite map_app.
Qed.

Lemma NoDup_keys_set_fresh d k v :
  dict_get k d = None -> NoDup (keys d) -> NoDup (keys (dict_set k v d)).
Proof.
  intros E N. rewrite keys_set_fresh by assumption.
  apply NoDup_app; [assumption | repeat constructor; simpl; tauto |].
  intros a Ia [<-|[]]. now apply dict_get_None_keys in E.
Qed.

Lemma count_keys_one d k (dec := string_dec) :
  NoDup (keys d) -> In k (keys d) -> count_occ dec (keys d) k = 1.
Proof.
  intros N I. apply (proj1 (NoDup_count_occ' dec (keys d))); assumption.
Qed.

End DictFacts.

Section LoopFacts.
Context {A S : Type}.
Implicit Types (body : A -> S -> result S) (l : list A).

(** A loop one of whose rounds raises from every state raises. *)
Lemma foldM_raises body l a :
  In a l -> (forall s, exists e, body a s = Err e) ->
  forall s, exists e, foldM body l s = Err e.
Proof.
  intros I R. induction l as [|b l IH]; [destruct I|].
  intros s. simpl. destruct I as [->|I].
  - destruct (R s) as [e ->]. now exists e.
  - destruct (body b s) as [s'|e]; simpl; [now apply IH | now exists e].
Qed.

(** A property kept by every round is kept by the loop. *)
Lemma foldM_invariant (P : S -> Prop) body l :
  (forall a s s', In a l -> P s -> body a s = Ok s' -> P s') ->
  forall s s', P s -> foldM body l s = Ok s' -> P s'.
Proof.
  induction l as [|a l IH]; simpl; intros Hb s s' Ps E.
  - now inversion E; subst.
  - destruct (body a s) as [s1|e] eqn:E1; simpl in E; [|discriminate].
    apply IH with (s := s1); eauto.
Qed.

Lemma foldM_app body l1 l2 s :
  foldM body (l1 ++ l2) s = (s' <- foldM body l1 s ;; foldM body l2 s').
Proof.
  revert s. induction l1 as [|a l1 IH]; simpl; intros s; [reflexivity|].
  destruct (body a s); simpl; auto.
Qed.

End LoopFacts.

(* ====================================================================== *)
(** ** Create-or-get *)
(* ====================================================================== *)

Section CreateOrGet.
Import Customized.

Lemma create_thing_again id_ms category category' st :
  create_thing id_ms category' (snd (create_thing id_ms category st))
  = create_thing id_ms category st.
Proof.
  unfold create_thing.
  destruct (dict_get id_ms (things st)) eqn:E; simpl.
  - now rewrite E.
  - now rewrite dict_get_set_same.
Qed.

Lemma create_thing_unique id_ms category st :
  unique_keys st -> unique_keys (snd (create_thing id_ms category st)).
Proof.
  unfold create_thing, unique_keys.
  destruct (dict_get id_ms (things st)) eqn:E; simpl; [tauto|].
  intros (Ht & Hr). split; [now apply NoDup_keys_set_fresh | exact Hr].
Qed.

Lemma create_thing_registered id_ms category st :
  dict_get id_ms (things (snd (create_thing id_ms category st)))
  = Some (fst (create_thing id_ms category st)).
Proof.
  unfold create_thing.
  destruct (dict_get id_ms (things st)) eqn:E; simpl; [assumption|].
  apply dict_get_set_same.
Qed.

Lemma create_location_again thing_id st l st1 :
  create_location thing_id st = Ok (l, st1) ->
  create_location thing_id st1 = Ok (l, st1)
  /\ dict_get thing_id (locations st1) = Some l.
Proof.
  unfold create_location.
  destruct (dict_get thing_id (locations st)) eqn:E.
  - intros [= <- <-]. now rewrite E.
  - destruct (nth_error (split "_" thing_id) 1); [|discriminate].
    intros [= <- <-]. simpl. now rewrite dict_get_set_same.
Qed.

Lemma create_location_unique thing_id st l st1 :
  create_location thing_id st = Ok (l, st1) ->
  unique_keys st -> unique_keys st1.
Proof.
  unfold create_location, unique_keys.
  destruct (dict_get thing_id (locations st)) eqn:E.
  - now intros [= <- <-].
  - destruct (nth_error (split "_" thing_id) 1); [|discriminate].
    intros [= <- <-]. simpl. intros (Ht & Hl & Hr).
    repeat split; try tauto. now apply NoDup_keys_set_fresh.
Qed.

Lemma create_observed_property_again property_name st :
  create_observed_property property_name
    (snd (create_observed_property property_name st))
  = create_observed_property property_name st.
Proof.
  unfold create_observed_property.
  destruct (dict_get property_name (observed_properties st)) eqn:E; simpl.
  - now rewrite E.
  - now rewrite dict_get_set_same.
Qed.

Lemma create_observed_property_unique property_name st :
  unique_keys st ->
  unique_keys (snd (create_observed_property property_name st)).
Proof.
  unfold create_observed_property, unique_keys.
  destruct (dict_get property_name (observed_properties st)) eqn:E; simpl;
    [tauto|].
  intros (Ht & Hl & Ho & Hr).
  repeat split; try tauto. now apply NoDup_keys_set_fresh.
Qed.

Lemma create_observed_property_registered property_name st :
  dict_get property_name
    (observed_properties (snd (create_observed_property property_name st)))
  = Some (fst (create_observed_property property_name st)).
Proof.
  unfold create_observed_property.
  destruct (dict_get property_name (observed_properties st)) eqn:E; simpl;
    [assumption|].
  apply dict_get_set_same.
Qed.

Lemma create_sensor_again property_name st :
  create_sensor property_name (snd (create_sensor property_name st))
  = create_sensor property_name st.
Proof.
  unfold create_sensor.
  destruct (dict_get property_name (sensors st)) eqn:E; simpl.
  - now rewrite E.
  - now rewrite dict_get_set_same.
Qed.

Lemma create_sensor_unique property_name st :
  unique_keys st -> unique_keys (snd (create_sensor property_name st)).
Proof.
  unfold create_sensor, unique_keys.
  destruct (dict_get property_name (sensors st)) eqn:E; simpl; [tauto|].
  intros (Ht & Hl & Ho & Hs & Hr).
  repeat split; try tauto. now apply NoDup_keys_set_fresh.
Qed.

Lemma create_sensor_registered property_name st :
  dict_get property_name (sensors (snd (create_sensor property_name st)))
  = Some (fst (create_sensor property_name st)).
Proof.
  unfold create_sensor.
  destruct (dict_get property_name (sensors st)) eqn:E; simpl; [assumption|].
  apply dict_get_set_same.
Qed.

(** The sensor and the observed property are registered by side effect and
    leave the datastreams alone. *)
Lemma create_sensor_datastreams property_name st :
  datastreams (snd (create_sensor property_name st)) = datastreams st.
Proof.
  unfold create_sensor. now destruct (dict_get _ _).
Qed.

Lemma create_observed_property_datastreams property_name st :
  datastreams (snd (create_observed_property property_name st))
  = datastreams st.
Proof.
  unfold create_observed_property. now destruct (dict_get _ _).
Qed.

Lemma create_datastream_registered thing_id property_name st :
  dict_get (thing_id ++ "_" ++ property_name)
    (datastreams (snd (create_datastream thing_id property_name st)))
  = Some (fst (create_datastream thing_id property_name st)).
Proof.
  unfold create_datastream.
  destruct (dict_get _ (datastreams st)) eqn:E; simpl; [assumption|].
  destruct (create_sensor property_name st) as [s st1].
  destruct (create_observed_property property_name st1) as [p st2].
  simpl. apply dict_get_set_same.
Qed.

Lemma create_datastream_again thing_id property_name st :
  create_datastream thing_id property_name
    (snd (create_datastream thing_id property_name st))
  = create_datastream thing_id property_name st.
Proof.
  pose proof (create_datastream_registered thing_id property_name st) as R.
  destruct (create_datastream thing_id property_name st) as [d st'] eqn:E.
  cbn [fst snd] in *. unfold create_datastream at 1. now rewrite R.
Qed.

Lemma create_datastream_unique thing_id property_name st :
  unique_keys st ->
  unique_keys (snd (create_datastream thing_id property_name st)).
Proof.
  intros U. unfold create_datastream.
  destruct (dict_get _ (datastreams st)) eqn:E; simpl; [assumption|].
  pose proof (create_sensor_unique property_name st U) as U1.
  pose proof (create_sensor_datastreams property_name st) as D1.
  destruct (create_sensor property_name st) as [s st1]; simpl in *.
  pose proof (create_observed_property_unique property_name st1 U1) as U2.
  pose proof (create_observed_property_datastreams property_name st1) as D2.
  destruct (create_observed_property property_name st1) as [p st2]; simpl in *.
  destruct U2 as (Ht & Hl & Ho & Hs & Hd).
  repeat split; simpl; try assumption.
  apply NoDup_keys_set_fresh; [congruence | assumption].
Qed.

End CreateOrGet.

Section CreateOrGetFinal.
Context `{PyBuiltins}.

Lemma register_thing_again info id_ms category category' st :
  Final.register_thing info id_ms category'
    (snd (Final.register_thing info id_ms category st))
  = Final.register_thing info id_ms category st.
Proof.
  unfold Final.register_thing.
  destruct (dict_get _ (Final.things st)) eqn:E; cbn [fst snd Final.things].
  - now rewrite E.
  - now rewrite dict_get_set_same.
Qed.

Lemma register_thing_unique info id_ms category st :
  NoDup (keys (Final.things st)) ->
  NoDup (keys (Final.things (snd (Final.register_thing info id_ms category st)))).
Proof.
  unfold Final.register_thing.
  destruct (dict_get _ (Final.things st)) eqn:E; cbn [fst snd Final.things];
    [tauto|].
  now apply NoDup_keys_set_fresh.
Qed.

Lemma register_thing_registered info id_ms category st :
  exists thing,
    dict_get (py_str (Final.hms info) ++ "_" ++ py_str (Final.bemerkung info)
              ++ "_" ++ id_ms)
      (Final.things (snd (Final.register_thing info id_ms category st)))
    = Some thing
    /\ thing_iot_id thing = fst (Final.register_thing info id_ms category st).
Proof.
  unfold Final.register_thing.
  destruct (dict_get _ (Final.things st)) eqn:E; cbn [fst snd].
  - now exists t.
  - eexists. cbn [Final.things]. rewrite dict_get_set_same. split; reflexivity.
Qed.

End CreateOrGetFinal.

(** C7.  Registering an entity under a natural key a second time creates
    nothing and returns the entity of the first registration: the call
    gives the same entity and leaves every store as it was, even when the
    second call comes with other attributes (another category).  Stores
    with one entry per key keep one entry per key, and after a registration
    the key has exactly one entry, the returned entity.  This holds for the
    five [create_*] methods of [SensorThingsTransformer] and for the thing
    registration of [final_version_6things.py], which returns the id of
    the thing: after it the thing key has exactly one entry, the thing of
    that id. *)
Theorem create_or_get_is_idempotent `{PyBuiltins} :
  forall st : Customized.state,
    Customized.unique_keys st ->
    forall id_ms category category' thing_id property_name,
      let t := Customized.create_thing id_ms category st in
      let p := Customized.create_observed_property property_name st in
      let s := Customized.create_sensor property_name st in
      let d := Customized.create_datastream thing_id property_name st in
      (Customized.create_thing id_ms category' (snd t) = t
       /\ Customized.unique_keys (snd t)
       /\ dict_get id_ms (Customized.things (snd t)) = Some (fst t)
       /\ count_occ string_dec (keys (Customized.things (snd t))) id_ms = 1)
      /\ (forall l st1,
            Customized.create_location thing_id st = Ok (l, st1) ->
            Customized.create_location thing_id st1 = Ok (l, st1)
            /\ Customized.unique_keys st1
            /\ dict_get thing_id (Customized.locations st1) = Some l
            /\ count_occ string_dec (keys (Customized.locations st1)) thing_id = 1)
      /\ (Customized.create_observed_property property_name (snd p) = p
          /\ Customized.unique_keys (snd p)
          /\ dict_get property_name (Customized.observed_properties (snd p))
             = Some (fst p)
          /\ count_occ string_dec (keys (Customized.observed_properties (snd p)))
               property_name = 1)
      /\ (Customized.create_sensor property_name (snd s) = s
          /\ Customized.unique_keys (snd s)
          /\ dict_get property_name (Customized.sensors (snd s)) = Some (fst s)
          /\ count_occ string_dec (keys (Customized.sensors (snd s)))
               property_name = 1)
      /\ (Customized.create_datastream thing_id property_name (snd d) = d
          /\ Customized.unique_keys (snd d)
          /\ dict_get (thing_id ++ "_" ++ property_name)
               (Customized.datastreams (snd d)) = Some (fst d)
          /\ count_occ string_dec (keys (Customized.datastreams (snd d)))
               (thing_id ++ "_" ++ property_name) = 1)
      /\ (forall (fs : Final.state) info,
            NoDup (keys (Final.things fs)) ->
            let thing_key :=
              py_str (Final.hms info) ++ "_" ++ py_str (Final.bemerkung info)
              ++ "_" ++ id_ms in
            let r := Final.register_thing info id_ms category fs in
            Final.register_thing info id_ms category' (snd r) = r
            /\ NoDup (keys (Final.things (snd r)))
            /\ (exists thing,
                  dict_get thing_key (Final.things (snd r)) = Some thing
                  /\ thing_iot_id thing = fst r)
            /\ count_occ string_dec (keys (Final.things (snd r))) thing_key
               = 1).
Proof.
  intros st U id_ms category category' thing_id property_name t p s d.
  assert (B1 : Customized.create_thing id_ms category' (snd t) = t
       /\ Customized.unique_keys (snd t)
       /\ dict_get id_ms (Customized.things (snd t)) = Some (fst t)
       /\ count_occ string_dec (keys (Customized.things (snd t))) id_ms = 1).
  { split; [apply create_thing_again|].
    split; [now apply create_thing_unique|].
    split; [apply create_thing_registered|].
    apply count_keys_one.
    - now apply create_thing_unique.
    - eapply dict_get_Some_keys, create_thing_registered. }
  assert (B2 : forall l st1,
            Customized.create_location thing_id st = Ok (l, st1) ->
            Customized.create_location thing_id st1 = Ok (l, st1)
            /\ Customized.unique_keys st1
            /\ dict_get thing_id (Customized.locations st1) = Some l
            /\ count_occ string_dec (keys (Customized.locations st1)) thing_id = 1).
  { intros l st1 E.
    pose proof (create_location_again _ _ _ _ E) as [E1 E2].
    pose proof (create_location_unique _ _ _ _ E U) as U1.
    split; [assumption|]. split; [assumption|]. split; [assumption|].
    apply count_keys_one; [apply U1 | eapply dict_get_Some_keys; eassumption]. }
  assert (B3 : Customized.create_observed_property property_name (snd p) = p
          /\ Customized.unique_keys (snd p)
          /\ dict_get property_name (Customized.observed_properties (snd p))
             = Some (fst p)
          /\ count_occ string_dec (keys (Customized.observed_properties (snd p)))
               property_name = 1).
  { split; [apply create_observed_property_again|].
    split; [now apply create_observed_property_unique|].
    split; [apply create_observed_property_registered|].
    apply count_keys_one.
    - now apply create_observed_property_unique.
    - eapply dict_get_Some_keys, create_observed_property_registered. }
  assert (B4 : Customized.create_sensor property_name (snd s) = s
          /\ Customized.unique_keys (snd s)
          /\ dict_get property_name (Customized.sensors (snd s)) = Some (fst s)
          /\ count_occ string_dec (keys (Customized.sensors (snd s)))
               property_name = 1).
  { split; [apply create_sensor_again|].
    split; [now apply create_sensor_unique|].
    split; [apply create_sensor_registered|].
    apply count_keys_one.
    - now apply create_sensor_unique.
    - eapply dict_get_Some_keys, create_sensor_registered. }
  assert (B5 : Customized.create_datastream thing_id property_name (snd d) = d
          /\ Customized.unique_keys (snd d)
          /\ dict_get (thing_id ++ "_" ++ property_name)
               (Customized.datastreams (snd d)) = Some (fst d)
          /\ count_occ string_dec (keys (Customized.datastreams (snd d)))
               (thing_id ++ "_" ++ property_name) = 1).
  { split; [apply create_datastream_again|].
    split; [now apply create_datastream_unique|].
    split; [apply create_datastream_registered|].
    apply count_keys_one.
    - now apply create_datastream_unique.
    - eapply dict_get_Some_keys, create_datastream_registered. }
  refine (conj B1 (conj B2 (conj B3 (conj B4 (conj B5 _))))).
  intros fs info N thing_key r.
  destruct (register_thing_registered info id_ms category fs)
    as (thing & Et & Ei).
  split; [apply register_thing_again|].
  split; [now apply register_thing_unique|].
  split; [now exists thing|].
  apply count_keys_one.
  - now apply register_thing_unique.
  - eapply dict_get_Some_keys. exact Et.
Qed.

Lemma create_or_get_is_idempotent_witness :
  Customized.unique_keys Customized.init
  /\ Customized.create_thing "MS1" "Soil Sensor"
       (snd (Customized.create_thing "MS1" "Weather Station" Customized.init))
     = Customized.create_thing "MS1" "Weather Station" Customized.init
  /\ exists thing,
       dict_get "Unknown__MS1"
         (Final.things
            (snd (@Final.register_thing sample_runtime Final.unknown_hms "MS1"
                    "Weather Station" Final.init))) = Some thing
       /\ thing_iot_id thing = "thing_Unknown__MS1".
Proof.
  assert (U : Customized.unique_keys Customized.init)
    by (repeat split; constructor).
  pose proof (@create_or_get_is_idempotent sample_runtime Customized.init U
                "MS1" "Weather Station" "Soil Sensor" "thing_MS1" "TEMP")
    as (B1 & _ & _ & _ & _ & BF).
  split; [exact U|]. split; [exact (proj1 B1)|].
  exact (proj1 (proj2 (proj2 (BF Final.init Final.unknown_hms
                                (NoDup_nil string))))).
Defined.

(* ====================================================================== *)
(** ** Unknown measurement codes *)
(* ====================================================================== *)

Section UnknownCode.
Import Customized.

Lemma create_sensor_observed_properties property_name st :
  observed_properties (snd (create_sensor property_name st))
  = observed_properties st.
Proof.
  unfold create_sensor. now destruct (dict_get _ _).
Qed.

(** What a first registration of an observed property builds. *)
Lemma create_observed_property_fresh code st :
  dict_get code (observed_properties st) = None ->
  fst (create_observed_property code st)
  = {| op_iot_id := "op_" ++ code;
       op_name := friendly_name code;
       op_description := "Observed property for " ++ friendly_name code;
       op_definition := "http://example.org/properties/" ++ code |}.
Proof.
  intros E. unfold create_observed_property. now rewrite E.
Qed.

(** What a first registration of a datastream builds. *)
Lemma create_datastream_fresh thing_id code st :
  dict_get (thing_id ++ "_" ++ code) (datastreams st) = None ->
  let d := fst (create_datastream thing_id code st) in
  ds_iot_id d = "ds_" ++ thing_id ++ "_" ++ code
  /\ ds_unitOfMeasurement d = unit_of_measurement code
  /\ ds_Sensor d = fst (create_sensor code st)
  /\ ds_ObservedProperty d
     = fst (create_observed_property code (snd (create_sensor code st))).
Proof.
  intros E. unfold create_datastream. rewrite E.
  destruct (create_sensor code st) as [s st1]. cbn [fst snd].
  destruct (create_observed_property code st1) as [p st2].
  cbn. repeat split.
Qed.

End UnknownCode.

(** C5.  A measurement code that the static unit mapping does not know is
    never an error.  Registering it builds degenerate entities: the
    observed property is named after the code and its definition ends in
    the code, and the datastream has the unit of measurement
    [{"name": "Unknown", "symbol": "", "definition": "ucum:"}] and carries
    that observed property.  A cell in a column of that code is processed
    like any other: if its value is a number the round returns normally,
    with the datastream registered. *)
Theorem unknown_code_falls_back `{PyBuiltins} :
  forall (code thing_id : string) (st : Customized.state),
    dict_get code unit_mapping = None ->
    dict_get code (Customized.observed_properties st) = None ->
    dict_get (thing_id ++ "_" ++ code) (Customized.datastreams st) = None ->
    let p := fst (Customized.create_observed_property code st) in
    let d := fst (Customized.create_datastream thing_id code st) in
    op_name p = code
    /\ op_definition p = "http://example.org/properties/" ++ code
    /\ ds_ObservedProperty d = p
    /\ unit_json (ds_unitOfMeasurement d)
       = VDict [("name", VStr "Unknown"); ("symbol", VStr "");
                ("definition", VStr "ucum:")]
    /\ (forall cols row timestamp_column timestamp column v x,
          measurement_type_of column = code ->
          skipped_column timestamp_column column = false ->
          row_getitem cols row column = Ok v ->
          isna v = false ->
          py_float v = Ok x ->
          exists st',
            Customized.process_cell cols row timestamp_column thing_id
              timestamp column st = Ok st'
            /\ dict_get (thing_id ++ "_" ++ code) (Customized.datastreams st')
               = Some d).
Proof.
  intros code thing_id st U P D p d.
  pose proof (create_observed_property_fresh code st P) as Ep.
  pose proof (create_datastream_fresh thing_id code st D) as (_ & Eu & _ & Eo).
  fold d in Eu, Eo. fold p in Ep.
  split; [rewrite Ep; cbn; unfold friendly_name; now rewrite U|].
  split; [now rewrite Ep|].
  split.
  { rewrite Eo, Ep. apply create_observed_property_fresh.
    now rewrite create_sensor_observed_properties. }
  split.
  { rewrite Eu. unfold unit_of_measurement. now rewrite U. }
  intros cols row tc ts column v x Em Es Ev En Ex.
  unfold Customized.process_cell. rewrite Es, Ev. cbn [bind]. rewrite En, Em.
  pose proof (create_datastream_registered thing_id code st) as R.
  destruct (Customized.create_datastream thing_id code st) as [d' st1] eqn:Ec.
  rewrite Ex. cbn [bind]. eexists. split; [reflexivity|].
  cbn [fst snd] in *. subst d. cbn [fst]. exact R.
Qed.

Lemma unknown_code_falls_back_witness :
  dict_get "FOO" unit_mapping = None
  /\ op_name (fst (Customized.create_observed_property "FOO" Customized.init))
     = "FOO".
Proof.
  split; [reflexivity|].
  exact (proj1 (@unknown_code_falls_back sample_runtime "FOO" "thing_MS1"
                  Customized.init eq_refl eq_refl eq_refl)).
Defined.

(* ====================================================================== *)
(** ** Which observations and datastreams the assembly nests *)
(* ====================================================================== *)

(** In [Customized] the observations nested under a datastream do not
    depend on the datastream: they are all the observations of the run. *)
Lemma customized_nests_all_observations (st : Customized.state) (d : Datastream) :
  datastream_observations (Customized.datastream_with_observations st d)
  = map Customized.observation_json (Customized.observations st).
Proof.
  unfold Customized.datastream_with_observations, datastream_observations, field.
  destruct (map Customized.observation_json (Customized.observations st)) eqn:E.
  - reflexivity.
  - now rewrite dict_get_set_same.
Qed.

(** In [Final] they are the observations created for that datastream,
    without their back-reference. *)
Lemma final_nests_own_observations (obs : list Final.Observation) (d : Datastream) :
  datastream_observations (Final.datastream_with_observations obs d)
  = map (fun o => VDict (dict_pop "Datastream" (Final.observation_json o)))
      (filter (fun o => String.eqb (Final.obs_Datastream o) (ds_iot_id d)) obs).
Proof.
  unfold Final.datastream_with_observations, datastream_observations, field.
  destruct (map _ (filter _ obs)) eqn:E.
  - reflexivity.
  - now rewrite dict_get_set_same.
Qed.

(** C1 (the code departs from it).  On a sheet with one station, one row
    and the two measurement columns TEMP (20.5) and WINDR (10),
    [excel_to_sta_customized.py] nests both observations under both
    datastreams: the temperature reading is also a wind reading and the
    other way round.  [create_observation] receives the datastream id and
    drops it, and the loop under the comment "Find Observations for this
    Datastream" appends every observation. *)
Theorem customized_duplicates_observations :
  on_doc observation_table (@Customized.transform sample_runtime wb_two_columns)
  = Some [(VStr "ds_thing_MS1_TEMP", [VFloat (Fin (41 # 2)); VFloat (Fin (10 # 1))]);
          (VStr "ds_thing_MS1_WINDR", [VFloat (Fin (41 # 2)); VFloat (Fin (10 # 1))])].
Proof. vm_compute. reflexivity. Qed.

(** The same sheet through [final_version_6things.py]: each observation
    under the datastream it was created for, and under no other. *)
Lemma final_keeps_observations_apart :
  on_doc observation_table
    (@Final.excel_to_sensorthings sample_runtime wb_two_columns)
  = Some [(VStr "ds_thing_Unknown__MS1_TEMP_Unknown_", [VFloat (Fin (41 # 2))]);
          (VStr "ds_thing_Unknown__MS1_WINDR_Unknown_", [VFloat (Fin (10 # 1))])].
Proof. vm_compute. reflexivity. Qed.

(** C2 (the code departs from it).  With the two stations 1 and 10, both
    wide-sheet converters nest the datastream of station 10 under station 1
    as well: the key of the datastream, [thing_10_TEMP], starts with the id
    [thing_1].  The datastreams of a thing are found by
    [datastream_key.startswith(thing["@iot.id"])], not by the thing the
    datastream was registered for. *)
Theorem prefix_match_nests_foreign_datastreams :
  on_doc datastream_table (@Customized.transform sample_runtime wb_prefix_ids)
  = Some [(VStr "thing_1", [VStr "ds_thing_1_TEMP"; VStr "ds_thing_10_TEMP"]);
          (VStr "thing_10", [VStr "ds_thing_10_TEMP"])]
  /\ on_doc datastream_table
       (@Final.excel_to_sensorthings sample_runtime wb_prefix_ids)
     = Some [(VStr "thing_Unknown__1",
              [VStr "ds_thing_Unknown__1_TEMP_Unknown_";
               VStr "ds_thing_Unknown__10_TEMP_Unknown_"]);
             (VStr "thing_Unknown__10",
              [VStr "ds_thing_Unknown__10_TEMP_Unknown_"])].
Proof. split; vm_compute; reflexivity. Qed.

(** A consequence in [Final]: the reading of station 10 is in the document
    twice, once under each copy of its datastream. *)
Lemma prefix_match_repeats_observations :
  on_doc observation_table
    (@Final.excel_to_sensorthings sample_runtime wb_prefix_ids)
  = Some [(VStr "ds_thing_Unknown__1_TEMP_Unknown_", [VFloat (Fin (41 # 2))]);
          (VStr "ds_thing_Unknown__10_TEMP_Unknown_", [VFloat (Fin (7 # 1))]);
          (VStr "ds_thing_Unknown__10_TEMP_Unknown_", [VFloat (Fin (7 # 1))])].
Proof. vm_compute. reflexivity. Qed.

(* ====================================================================== *)
(** ** Rows without a timestamp or without an identifier *)
(* ====================================================================== *)

Lemma split_nonempty sep s : split sep s <> [].
Proof.
  destruct s as [|c s]; simpl; [discriminate|].
  destruct (Ascii.eqb c sep); [discriminate|].
  destruct (split sep s); discriminate.
Qed.

Lemma split_thing_id k :
  exists part, nth_error (split "_" ("thing_" ++ k)) 1 = Some part.
Proof.
  cbn. pose proof (split_nonempty "_" k) as N.
  destruct (split "_" k) as [|w ws]; [congruence|].
  now exists w.
Qed.

Section LoopExt.
Context {A S : Type}.

Lemma foldM_ext (f g : A -> S -> result S) l :
  (forall a s, In a l -> f a s = g a s) ->
  forall s, foldM f l s = foldM g l s.
Proof.
  induction l as [|a l IH]; simpl; intros E s; [reflexivity|].
  rewrite (E a s) by now left.
  destruct (g a s); simpl; auto.
Qed.

End LoopExt.

(** Two rows that differ in their first cell read alike elsewhere. *)
Lemma row_getitem_tail k cols x y rest column :
  column <> k ->
  row_getitem (k :: cols) (x :: rest) column
  = row_getitem (k :: cols) (y :: rest) column.
Proof.
  intros N. unfold row_getitem. cbn [index_of].
  destruct (String.eqb_spec k column) as [->|_]; [now elim N|].
  destruct (index_of column cols); reflexivity.
Qed.

Section SkippedRows.
Context `{PyBuiltins}.
Import Customized.

Lemma things_well_named_init : things_well_named init.
Proof. intros k t E. discriminate. Qed.

Lemma create_thing_well_named id_ms category st :
  things_well_named st ->
  things_well_named (snd (create_thing id_ms category st))
  /\ thing_iot_id (fst (create_thing id_ms category st)) = "thing_" ++ id_ms.
Proof.
  intros W. unfold create_thing.
  destruct (dict_get id_ms (things st)) eqn:E; cbn [fst snd].
  - split; [assumption | now apply W].
  - split; [|reflexivity].
    intros k t. cbn [things set_things].
    destruct (String.eqb_spec id_ms k) as [<-|N].
    + rewrite dict_get_set_same. now intros [= <-].
    + rewrite dict_get_set_other by assumption. apply W.
Qed.

(** The location of a well-named thing can always be registered, and the
    registration touches only the locations. *)
Lemma create_location_ok k st :
  exists l st',
    create_location ("thing_" ++ k) st = Ok (l, st')
    /\ things st' = things st
    /\ observed_properties st' = observed_properties st
    /\ sensors st' = sensors st
    /\ datastreams st' = datastreams st
    /\ observations st' = observations st
    /\ dict_get ("thing_" ++ k) (locations st') = Some l.
Proof.
  unfold create_location.
  destruct (dict_get ("thing_" ++ k) (locations st)) eqn:E.
  - exists l, st. repeat split; assumption.
  - destruct (split_thing_id k) as [part ->].
    eexists. eexists. split; [reflexivity|].
    cbn [things observed_properties sensors datastreams observations
         locations set_locations].
    repeat split. apply dict_get_set_same.
Qed.

Lemma create_thing_frame id_ms category st :
  let st' := snd (create_thing id_ms category st) in
  locations st' = locations st
  /\ observed_properties st' = observed_properties st
  /\ sensors st' = sensors st
  /\ datastreams st' = datastreams st
  /\ observations st' = observations st.
Proof.
  unfold create_thing. destruct (dict_get id_ms (things st)); cbn; tauto.
Qed.

(** A row without a timestamp registers its thing and its location and
    nothing else. *)
Lemma customized_row_without_timestamp cols category timestamp_column row st
  id_cell timestamp :
  things_well_named st ->
  row_getitem cols row id_column = Ok id_cell ->
  row_getitem cols row timestamp_column = Ok timestamp ->
  isna timestamp = true ->
  exists st',
    process_row cols category timestamp_column row st = Ok st'
    /\ observations st' = observations st
    /\ datastreams st' = datastreams st
    /\ sensors st' = sensors st
    /\ observed_properties st' = observed_properties st
    /\ things st' = things (snd (create_thing (py_str id_cell) category st))
    /\ dict_in (py_str id_cell) (things st') = true
    /\ dict_in ("thing_" ++ py_str id_cell) (locations st') = true.
Proof.
  intros W Ei Et En. unfold process_row. rewrite Ei. cbn [bind].
  pose proof (create_thing_well_named (py_str id_cell) category st W) as [_ Eid].
  pose proof (create_thing_frame (py_str id_cell) category st) as F.
  pose proof (create_thing_registered (py_str id_cell) category st) as R.
  destruct (create_thing (py_str id_cell) category st) as [thing st1].
  cbn [fst snd] in *. rewrite Eid.
  destruct (create_location_ok (py_str id_cell) st1)
    as (l & st2 & -> & Ft & Fo & Fs & Fd & Fb & Fl).
  cbn [bind]. rewrite Et. cbn [bind]. rewrite En.
  exists st2. destruct F as (F1 & F2 & F3 & F4 & F5).
  split; [reflexivity|].
  repeat split; try congruence.
  - unfold dict_in. now rewrite Ft, R.
  - unfold dict_in. now rewrite Fl.
Qed.

(** The loop over the columns never reads the identifier cell. *)
Lemma not_skipped_not_id timestamp_column column :
  skipped_column timestamp_column column = false -> column <> id_column.
Proof.
  unfold skipped_column. intros E ->. now rewrite String.eqb_refl in E.
Qed.

Lemma customized_row_depends_on_id_text cols category timestamp_column
  row row' st c c' :
  timestamp_column <> id_column ->
  row_getitem cols row id_column = Ok c ->
  row_getitem cols row' id_column = Ok c' ->
  py_str c = py_str c' ->
  (forall column, column <> id_column ->
     row_getitem cols row column = row_getitem cols row' column) ->
  process_row cols category timestamp_column row st
  = process_row cols category timestamp_column row' st.
Proof.
  intros N E E' Es Eo. unfold process_row.
  rewrite E, E'. cbn [bind]. rewrite Es.
  destruct (create_thing (py_str c') category st) as [thing st1].
  destruct (create_location (thing_iot_id thing) st1) as [[l st2]|e];
    cbn [bind]; [|reflexivity].
  rewrite (Eo _ N).
  destruct (row_getitem cols row' timestamp_column) as [ts|e]; cbn [bind];
    [|reflexivity].
  destruct (isna ts); [reflexivity|].
  apply foldM_ext. intros column s _. unfold process_cell.
  destruct (skipped_column timestamp_column column) eqn:Sk; [reflexivity|].
  now rewrite (Eo _ (not_skipped_not_id _ _ Sk)).
Qed.

(** The same two facts for [final_version_6things.py]. *)
Lemma register_thing_frame info id_ms category st :
  let st' := snd (Final.register_thing info id_ms category st) in
  Final.locations st' = Final.locations st
  /\ Final.observed_properties st' = Final.observed_properties st
  /\ Final.sensors st' = Final.sensors st
  /\ Final.datastreams st' = Final.datastreams st
  /\ Final.observations st' = Final.observations st.
Proof.
  unfold Final.register_thing.
  destruct (dict_get _ (Final.things st)); cbn; tauto.
Qed.

Lemma register_location_spec info thing_id st :
  let st' := Final.register_location info thing_id st in
  Final.things st' = Final.things st
  /\ Final.observed_properties st' = Final.observed_properties st
  /\ Final.sensors st' = Final.sensors st
  /\ Final.datastreams st' = Final.datastreams st
  /\ Final.observations st' = Final.observations st
  /\ dict_in thing_id (Final.locations st') = true.
Proof.
  unfold Final.register_location.
  destruct (dict_in thing_id (Final.locations st)) eqn:E.
  - cbn. tauto.
  - cbn [Final.things Final.observed_properties Final.sensors
         Final.datastreams Final.observations Final.locations].
    repeat split. unfold dict_in. now rewrite dict_get_set_same.
Qed.

Lemma final_row_without_timestamp legend cols category timestamp_column row st
  id_cell timestamp :
  row_getitem cols row id_column = Ok id_cell ->
  row_getitem cols row timestamp_column = Ok timestamp ->
  isna timestamp = true ->
  let info := match dict_get (py_str id_cell) legend with
              | Some i => i
              | None => Final.unknown_hms
              end in
  let r := Final.register_thing info (py_str id_cell) category st in
  exists st',
    Final.process_row legend cols category timestamp_column row st = Ok st'
    /\ Final.observations st' = Final.observations st
    /\ Final.datastreams st' = Final.datastreams st
    /\ Final.sensors st' = Final.sensors st
    /\ Final.observed_properties st' = Final.observed_properties st
    /\ Final.things st' = Final.things (snd r)
    /\ dict_in (fst r) (Final.locations st') = true.
Proof.
  intros Ei Et En info r. unfold Final.process_row.
  rewrite Ei. cbn [bind]. fold info.
  pose proof (register_thing_frame info (py_str id_cell) category st) as F.
  subst r.
  destruct (Final.register_thing info (py_str id_cell) category st)
    as [thing_id st1].
  cbn [fst snd] in *.
  pose proof (register_location_spec info thing_id st1) as L.
  cbn zeta in L. rewrite Et. cbn [bind]. rewrite En.
  eexists. split; [reflexivity|].
  destruct F as (F1 & F2 & F3 & F4 & F5).
  destruct L as (L1 & L2 & L3 & L4 & L5 & L6).
  repeat split; congruence.
Qed.

Lemma final_row_depends_on_id_text legend cols category timestamp_column
  row row' st c c' :
  timestamp_column <> id_column ->
  row_getitem cols row id_column = Ok c ->
  row_getitem cols row' id_column = Ok c' ->
  py_str c = py_str c' ->
  (forall column, column <> id_column ->
     row_getitem cols row column = row_getitem cols row' column) ->
  Final.process_row legend cols category timestamp_column row st
  = Final.process_row legend cols category timestamp_column row' st.
Proof.
  intros N E E' Es Eo. unfold Final.process_row.
  rewrite E, E'. cbn [bind]. rewrite Es.
  destruct (Final.register_thing _ (py_str c') category st) as [thing_id st1].
  rewrite (Eo _ N).
  destruct (row_getitem cols row' timestamp_column) as [ts|e]; cbn [bind];
    [|reflexivity].
  destruct (isna ts); [reflexivity|].
  apply foldM_ext. intros column s _. unfold Final.process_cell.
  destruct (skipped_column timestamp_column column) eqn:Sk; [reflexivity|].
  now rewrite (Eo _ (not_skipped_not_id _ _ Sk)).
Qed.

Lemma missing_identifier_text c :
  isna c = true -> py_str c = "nan" \/ py_str c = "NaT".
Proof.
  destruct c as [| [] | | |]; cbn; try discriminate; tauto.
Qed.

End SkippedRows.

(** C3, as the code has it.  A wide-sheet row whose timestamp is missing
    emits no observation and registers no datastream, sensor or observed
    property, but it is not without effect: its thing and the location of
    that thing are registered (create-or-get) before the timestamp is
    looked at.  A missing identifier is not detected at all: the cell is
    turned into the text "nan" (or "NaT") and the row is processed exactly
    like the row of a station of that name.  Both hold for
    [excel_to_sta_customized.py] and for [final_version_6things.py]. *)
Theorem row_without_timestamp_or_identifier `{PyBuiltins} :
  forall (cols : list string) (category timestamp_column : string)
         (row : list cell) (id_cell : cell),
    row_getitem cols row id_column = Ok id_cell ->
    (forall timestamp,
        row_getitem cols row timestamp_column = Ok timestamp ->
        isna timestamp = true ->
        (forall st,
            Customized.things_well_named st ->
            exists st',
              Customized.process_row cols category timestamp_column row st = Ok st'
              /\ Customized.observations st' = Customized.observations st
              /\ Customized.datastreams st' = Customized.datastreams st
              /\ Customized.sensors st' = Customized.sensors st
              /\ Customized.observed_properties st'
                 = Customized.observed_properties st
              /\ Customized.things st'
                 = Customized.things
                     (snd (Customized.create_thing (py_str id_cell) category st))
              /\ dict_in (py_str id_cell) (Customized.things st') = true
              /\ dict_in ("thing_" ++ py_str id_cell) (Customized.locations st')
                 = true)
        /\ (forall legend st,
               let info := match dict_get (py_str id_cell) legend with
                           | Some i => i
                           | None => Final.unknown_hms
                           end in
               let r := Final.register_thing info (py_str id_cell) category st in
               exists st',
                 Final.process_row legend cols category timestamp_column row st
                 = Ok st'
                 /\ Final.observations st' = Final.observations st
                 /\ Final.datastreams st' = Final.datastreams st
                 /\ Final.sensors st' = Final.sensors st
                 /\ Final.observed_properties st' = Final.observed_properties st
                 /\ Final.things st' = Final.things (snd r)
                 /\ dict_in (fst r) (Final.locations st') = true))
    /\ (isna id_cell = true ->
        timestamp_column <> id_column ->
        (py_str id_cell = "nan" \/ py_str id_cell = "NaT")
        /\ forall row',
            row_getitem cols row' id_column = Ok (Str (py_str id_cell)) ->
            (forall column, column <> id_column ->
               row_getitem cols row column = row_getitem cols row' column) ->
            (forall st,
                Customized.process_row cols category timestamp_column row st
                = Customized.process_row cols category timestamp_column row' st)
            /\ (forall legend st,
                   Final.process_row legend cols category timestamp_column row st
                   = Final.process_row legend cols category timestamp_column
                       row' st)).
Proof.
  intros cols category timestamp_column row id_cell Ei. split.
  - intros timestamp Et En. split.
    + intros st W. now apply customized_row_without_timestamp with timestamp.
    + intros legend st. now apply final_row_without_timestamp with timestamp.
  - intros En N. split; [now apply missing_identifier_text|].
    intros row' Ei' Eo. split.
    + intros st.
      now apply customized_row_depends_on_id_text with id_cell (Str (py_str id_cell)).
    + intros legend st.
      now apply final_row_depends_on_id_text with id_cell (Str (py_str id_cell)).
Qed.

(** The theorem at a row without a timestamp and at a row without an
    identifier. *)
Lemma row_without_timestamp_or_identifier_witness :
  (exists st',
      @Customized.process_row sample_runtime
        ["ID_MS"; "DATUM_ZEIT"; "TEMP [C°]"] "Weather Station" "DATUM_ZEIT"
        [Str "MS1"; NaT; Float (Fin (41 # 2))] Customized.init = Ok st'
      /\ Customized.observations st' = []
      /\ dict_in "MS1" (Customized.things st') = true)
  /\ @Customized.process_row sample_runtime
       ["ID_MS"; "DATUM_ZEIT"; "TEMP [C°]"] "Weather Station" "DATUM_ZEIT"
       [NaN; T1; Float (Fin (41 # 2))] Customized.init
     = @Customized.process_row sample_runtime
         ["ID_MS"; "DATUM_ZEIT"; "TEMP [C°]"] "Weather Station" "DATUM_ZEIT"
         [Str "nan"; T1; Float (Fin (41 # 2))] Customized.init.
Proof.
  split.
  - destruct (proj1 (proj1 (@row_without_timestamp_or_identifier sample_runtime
                       ["ID_MS"; "DATUM_ZEIT"; "TEMP [C°]"] "Weather Station"
                       "DATUM_ZEIT" [Str "MS1"; NaT; Float (Fin (41 # 2))]
                       (Str "MS1") eq_refl) NaT eq_refl eq_refl)
                Customized.init things_well_named_init)
      as (st' & E & Eo & _ & _ & _ & _ & Et & _).
    exists st'. repeat split; assumption.
  - refine (proj1 (proj2 (proj2 (@row_without_timestamp_or_identifier
              sample_runtime ["ID_MS"; "DATUM_ZEIT"; "TEMP [C°]"]
              "Weather Station" "DATUM_ZEIT" [NaN; T1; Float (Fin (41 # 2))]
              NaN eq_refl) eq_refl _) [Str "nan"; T1; Float (Fin (41 # 2))]
              eq_refl _) Customized.init).
    + discriminate.
    + intros column N. now apply row_getitem_tail.
Defined.

(** C3 as it was stated fails.  The only row of the sheet has no
    timestamp, yet the document has its thing and location, where the sheet
    without the row gives an empty document; and a row without identifier
    yields an observation, under the station called "nan". *)
Lemma row_without_timestamp_leaves_a_thing :
  @Customized.transform sample_runtime wb_no_timestamp
  <> @Customized.transform sample_runtime wb_no_rows
  /\ @Final.excel_to_sensorthings sample_runtime wb_no_timestamp
     <> @Final.excel_to_sensorthings sample_runtime wb_no_rows
  /\ on_doc (fun doc => map (fun t => (iot_id t, map iot_id (thing_locations t)))
                          (doc_things doc))
       (@Customized.transform sample_runtime wb_no_timestamp)
     = Some [(VStr "thing_MS1", [VStr "location_MS1"])]
  /\ on_doc observation_table
       (@Customized.transform sample_runtime wb_no_identifier)
     = Some [(VStr "ds_thing_nan_TEMP", [VFloat (Fin (41 # 2))])].
Proof.
  repeat split; try (vm_compute; reflexivity); vm_compute; discriminate.
Qed.

(* ====================================================================== *)
(** ** A value that is not a number *)
(* ====================================================================== *)

Section BadValue.
Context `{PyBuiltins}.

Variables (cols : list string) (row : list cell).
Variables (timestamp_column column : string) (timestamp value : cell) (e : exn).
Hypothesis Htimestamp : row_getitem cols row timestamp_column = Ok timestamp.
Hypothesis Hpresent : isna timestamp = false.
Hypothesis Hcolumn : In column cols.
Hypothesis Hmeasure : skipped_column timestamp_column column = false.
Hypothesis Hvalue : row_getitem cols row column = Ok value.
Hypothesis Hnotna : isna value = false.
Hypothesis Hfloat : py_float value = Err e.

Lemma customized_cell_raises thing_id ts st :
  Customized.process_cell cols row timestamp_column thing_id ts column st = Err e.
Proof.
  unfold Customized.process_cell. rewrite Hmeasure, Hvalue. cbn [bind].
  rewrite Hnotna.
  destruct (Customized.create_datastream _ _ st) as [d st1].
  now rewrite Hfloat.
Qed.

Lemma customized_row_raises category st :
  exists e', Customized.process_row cols category timestamp_column row st = Err e'.
Proof.
  unfold Customized.process_row.
  destruct (row_getitem cols row id_column) as [id_cell|e1]; cbn [bind];
    [|now exists e1].
  destruct (Customized.create_thing _ category st) as [thing st1].
  destruct (Customized.create_location _ st1) as [[l st2]|e2]; cbn [bind];
    [|now exists e2].
  rewrite Htimestamp. cbn [bind]. rewrite Hpresent.
  apply foldM_raises with column; [assumption|].
  intros s. exists e. apply customized_cell_raises.
Qed.

Lemma final_cell_raises info thing_id ts st :
  Final.process_cell cols row info timestamp_column thing_id ts column st = Err e.
Proof.
  unfold Final.process_cell. rewrite Hmeasure, Hvalue. cbn [bind].
  rewrite Hnotna.
  destruct (Final.register_observed_property _ _) as [p ops].
  destruct (Final.register_sensor _ _) as [s sens].
  destruct (Final.register_datastream _ _ _ _ _ _) as [d dss].
  now rewrite Hfloat.
Qed.

Lemma final_row_raises legend category st :
  exists e', Final.process_row legend cols category timestamp_column row st = Err e'.
Proof.
  unfold Final.process_row.
  destruct (row_getitem cols row id_column) as [id_cell|e1]; cbn [bind];
    [|now exists e1].
  destruct (Final.register_thing _ _ category st) as [thing_id st1].
  rewrite Htimestamp. cbn [bind]. rewrite Hpresent.
  apply foldM_raises with column; [assumption|].
  intros s. exists e. apply final_cell_raises.
Qed.

End BadValue.

Lemma row_getitem_has_column cols row c v :
  row_getitem cols row c = Ok v -> has_column c cols = true.
Proof.
  unfold row_getitem, has_column. now destruct (index_of c cols).
Qed.

(** C4.  A measurement cell that is present and is not a number ends the
    run: when a sheet other than LEGENDE has a row with a timestamp and, in
    a column that is neither the identifier, the timestamp nor an unnamed
    one, a value that is not missing and that [float] rejects, the
    transform raises and returns no document.  This holds for
    [excel_to_sta_customized.py], and for [final_version_6things.py] when
    the sheet has the identifier column (it skips the sheet otherwise). *)
Theorem unparsable_value_aborts `{PyBuiltins} :
  forall (excel_data : workbook) (sheet_name : string) (df : DataFrame)
         (row : list cell) (column : string) (timestamp value : cell) (e : exn),
    dict_get sheet_name excel_data = Some df ->
    sheet_name <> "LEGENDE" ->
    In row (rows df) ->
    row_getitem (columns df) row (timestamp_column_of sheet_name) = Ok timestamp ->
    isna timestamp = false ->
    In column (columns df) ->
    skipped_column (timestamp_column_of sheet_name) column = false ->
    row_getitem (columns df) row column = Ok value ->
    isna value = false ->
    py_float value = Err e ->
    (exists e', Customized.transform excel_data = Err e')
    /\ (has_column id_column (columns df) = true ->
        exists e', Final.excel_to_sensorthings excel_data = Err e').
Proof.
  intros excel_data sheet_name df row column timestamp value e
    Hdf Hleg Hrow Hts Hpres Hcol Hsk Hval Hna Hfl.
  apply String.eqb_neq in Hleg.
  split.
  - unfold Customized.transform.
    destruct (foldM_raises (Customized.process_sheet excel_data)
                (keys excel_data) sheet_name
                (dict_get_Some_keys _ _ _ Hdf)) with (s := Customized.init)
      as [e' E'].
    + intros s. unfold Customized.process_sheet, getitem.
      rewrite Hleg, Hdf. cbn [bind].
      apply foldM_raises with row; [assumption|].
      intros s'. eapply customized_row_raises; eassumption.
    + exists e'. now rewrite E'.
  - intros Hid. unfold Final.excel_to_sensorthings, Final.collect.
    destruct (Final.read_legend excel_data) as [legend|e0]; cbn [bind];
      [|now exists e0].
    destruct (foldM_raises (Final.process_sheet legend) excel_data
                (sheet_name, df) (dict_get_In _ _ _ Hdf))
      with (s := Final.init) as [e' E'].
    + intros s. unfold Final.process_sheet.
      rewrite Hleg, Hid, (row_getitem_has_column _ _ _ _ Hts). cbn [negb orb].
      apply foldM_raises with row; [assumption|].
      intros s'. eapply final_row_raises; eassumption.
    + exists e'. now rewrite E'.
Qed.

Lemma unparsable_value_aborts_witness :
  py_float (H := sample_runtime) (Str "abc") = Err ValueError
  /\ (exists e', @Customized.transform sample_runtime wb_bad_value = Err e')
  /\ (exists e', @Final.excel_to_sensorthings sample_runtime wb_bad_value = Err e').
Proof.
  pose proof (@unparsable_value_aborts sample_runtime wb_bad_value
                "FREIFLÄCHE"
                (sheet ["ID_MS"; "DATUM_ZEIT"; "TEMP [C°]"; "WINDR"]
                   [[Str "MS1"; T1; Float (Fin (41 # 2)); Int 10];
                    [Str "MS1"; T2; Str "abc"; Int 20]])
                [Str "MS1"; T2; Str "abc"; Int 20] "TEMP [C°]" T2 (Str "abc")
                ValueError eq_refl ltac:(discriminate)
                ltac:(right; left; reflexivity) eq_refl eq_refl
                ltac:(right; right; left; reflexivity) eq_refl eq_refl
                eq_refl eq_refl) as [A B].
  split; [reflexivity|]. split; [exact A | exact (B eq_refl)].
Defined.

(* ====================================================================== *)
(** ** The normalized converter: the loop and the nested document *)
(* ====================================================================== *)

Section Comprehensions.
Context {A : Type}.

Lemma filterM_ok (p : A -> result bool) l r :
  filterM p l = Ok r -> r = filter (test_b p) l.
Proof.
  revert r. induction l as [|a l IH]; simpl; intros r E.
  - now inversion E.
  - unfold test_b at 1. destruct (p a) as [b|e]; cbn [bind] in E; [|discriminate].
    destruct (filterM p l) as [r'|e]; cbn [bind] in E; [|discriminate].
    inversion E; subst. rewrite (IH r' eq_refl). reflexivity.
Qed.

Lemma filterM_total (p : A -> result bool) l :
  Forall (fun x => exists b, p x = Ok b) l -> exists r, filterM p l = Ok r.
Proof.
  induction 1 as [|a l [b Eb] _ [r Er]]; simpl.
  - now exists [].
  - rewrite Eb, Er. cbn [bind]. eauto.
Qed.

End Comprehensions.

Section NormalizedLoop.
Import Normalized.

Lemma positions_from_ok p l : forall i r,
  positions_from i p l = Ok r -> r = positions_b i (test_b p) l.
Proof.
  induction l as [|a l IH]; simpl; intros i r E.
  - now inversion E.
  - unfold test_b at 1. destruct (p a) as [b|e]; cbn [bind] in E; [|discriminate].
    destruct (positions_from (S i) p l) as [r'|e] eqn:E'; cbn [bind] in E;
      [|discriminate].
    inversion E; subst. rewrite (IH _ _ E'). reflexivity.
Qed.

Lemma positions_from_total p l : forall i,
  Forall (fun x => exists b, p x = Ok b) l -> exists r, positions_from i p l = Ok r.
Proof.
  intros i F. revert i. induction F as [|a l [b Eb] _ IH]; simpl; intros i.
  - now exists [].
  - destruct (IH (S i)) as [r Er]. rewrite Eb, Er. cbn [bind]. eauto.
Qed.

Lemma refers_b_test k id : refers_b k id = test_b (refers_to k id).
Proof. reflexivity. Qed.

(** A position is listed when it is in range and passes the test. *)
Lemma in_positions_b p l : forall i j,
  In j (positions_b i p l)
  <-> i <= j /\ j - i < List.length l /\ p (nth (j - i) l []) = true.
Proof.
  induction l as [|a l IH]; simpl; intros i j.
  - split; [tauto | intros (_ & L & _); lia].
  - assert (C : In j (positions_b (S i) p l)
                <-> S i <= j /\ j - i < S (List.length l)
                    /\ p (nth (j - i) (a :: l) []) = true).
    { rewrite IH. split.
      - intros (L1 & L2 & E). replace (j - i) with (S (j - S i)) by lia.
        simpl. repeat split; try lia. exact E.
      - intros (L1 & L2 & E). replace (j - i) with (S (j - S i)) in E by lia.
        simpl in E. repeat split; try lia. exact E. }
    destruct (p a) eqn:Pa.
    + simpl. rewrite C. split.
      * intros [<-|(L1 & L2 & E)].
        -- rewrite Nat.sub_diag. simpl. repeat split; try lia. exact Pa.
        -- repeat split; try lia. exact E.
      * intros (L1 & L2 & E). destruct (Nat.eq_dec i j) as [->|N]; [now left|].
        right. repeat split; try lia. exact E.
    + rewrite C. split.
      * intros (L1 & L2 & E). repeat split; try lia. exact E.
      * intros (L1 & L2 & E). destruct (Nat.eq_dec i j) as [->|N].
        -- rewrite Nat.sub_diag in E. simpl in E. congruence.
        -- repeat split; try lia. exact E.
Qed.

Lemma positions_b_NoDup p l : forall i, NoDup (positions_b i p l).
Proof.
  induction l as [|a l IH]; simpl; intros i; [constructor|].
  destruct (p a); [|apply IH].
  constructor; [|apply IH].
  rewrite in_positions_b. lia.
Qed.

(** Two lists whose elements pass the test alike give the same positions. *)
Lemma positions_b_ext p l l' : forall i,
  List.length l = List.length l' ->
  (forall j, j < List.length l -> p (nth j l []) = p (nth j l' [])) ->
  positions_b i p l = positions_b i p l'.
Proof.
  revert l'. induction l as [|a l IH]; intros [|a' l'] i L E; simpl in *;
    try discriminate; [reflexivity|].
  rewrite (E 0) by lia. simpl.
  rewrite (IH l' (S i)); [reflexivity | lia |].
  intros j Lj. apply (E (S j)). lia.
Qed.

End NormalizedLoop.


Section NormalizedResolve.
Import Normalized.
Variable sta : sta_data.

Lemma filter_head_find {A} (f : A -> bool) l :
  match filter f l with [] => None | x :: _ => Some x end = find f l.
Proof.
  induction l as [|a l IH]; simpl; [reflexivity|]. now destruct (f a).
Qed.

(** What [associate] leaves under the key: the first target with an equal
    id, and the reference as it was when there is none. *)
Lemma associate_spec k targets ds ds' :
  associate k targets ds = Ok ds' ->
  match dict_get k ds with
  | None => ds' = ds
  | Some r =>
      exists id,
        value_get "@iot.id" r = Ok id
        /\ dict_get k ds'
           = Some match find (fun t => py_eq (dict_get_none "@iot.id" t) id)
                          targets with
                  | Some first => VDict first
                  | None => r
                  end
  end.
Proof.
  unfold associate. destruct (dict_get k ds) as [r|] eqn:E.
  - destruct (value_get "@iot.id" r) as [id|e]; cbn [bind]; [|discriminate].
    intros E'. exists id. split; [reflexivity|].
    rewrite <- filter_head_find.
    destruct (filter (fun t => py_eq (dict_get_none "@iot.id" t) id) targets)
      as [|first rest]; inversion E'; subst.
    + assumption.
    + apply dict_get_set_same.
  - now intros [= <-].
Qed.

Lemma associate_other k targets ds ds' k' :
  associate k targets ds = Ok ds' -> k <> k' ->
  dict_get k' ds' = dict_get k' ds.
Proof.
  unfold associate. destruct (dict_get k ds) as [r|].
  - destruct (value_get "@iot.id" r) as [id|e]; cbn [bind]; [|discriminate].
    destruct (filter (fun t => py_eq (dict_get_none "@iot.id" t) id) targets)
      as [|first rest]; intros [= <-] N; [reflexivity|].
    now apply dict_get_set_other.
  - now intros [= <-].
Qed.

(** The loop body writes under three keys and under no other. *)
Lemma resolve_datastream_other ds ds' k :
  resolve_datastream sta ds = Ok ds' ->
  k <> "Sensor" -> k <> "ObservedProperty" -> k <> "Observations" ->
  dict_get k ds' = dict_get k ds.
Proof.
  unfold resolve_datastream. intros E N1 N2 N3.
  destruct (associate "Sensor" (Sensors sta) ds) as [ds1|e] eqn:E1;
    cbn [bind] in E; [|discriminate].
  destruct (associate "ObservedProperty" (ObservedProperties sta) ds1)
    as [ds2|e] eqn:E2; cbn [bind] in E; [|discriminate].
  destruct (filterM _ (Observations sta)) as [obs|e]; cbn [bind] in E;
    [|discriminate].
  assert (E3 : dict_get k ds2 = dict_get k ds).
  { rewrite (associate_other _ _ _ _ k E2) by congruence.
    apply (associate_other _ _ _ _ k E1). congruence. }
  destruct obs; inversion E; subst; [assumption|].
  rewrite dict_get_set_other by congruence. assumption.
Qed.

Lemma resolve_datastream_refers ds ds' id :
  resolve_datastream sta ds = Ok ds' ->
  refers_to "Thing" id ds' = refers_to "Thing" id ds.
Proof.
  intros E. unfold refers_to.
  now rewrite (resolve_datastream_other _ _ "Thing" E) by discriminate.
Qed.

(** The matching policy of the loop body. *)
Lemma resolve_datastream_spec ds ds' :
  resolve_datastream sta ds = Ok ds' ->
  (forall r, dict_get "Sensor" ds = Some r ->
     exists id,
       value_get "@iot.id" r = Ok id
       /\ dict_get "Sensor" ds'
          = Some match find (fun t => py_eq (dict_get_none "@iot.id" t) id)
                         (Sensors sta) with
                 | Some first => VDict first
                 | None => r
                 end)
  /\ (forall r, dict_get "ObservedProperty" ds = Some r ->
        exists id,
          value_get "@iot.id" r = Ok id
          /\ dict_get "ObservedProperty" ds'
             = Some match find (fun t => py_eq (dict_get_none "@iot.id" t) id)
                            (ObservedProperties sta) with
                    | Some first => VDict first
                    | None => r
                    end)
  /\ dict_get "Observations" ds'
     = match filter (refers_b "Datastream" (dict_get_none "@iot.id" ds))
               (Observations sta) with
       | [] => dict_get "Observations" ds
       | obs => Some (VList (map VDict obs))
       end.
Proof.
  unfold resolve_datastream. intros E.
  destruct (associate "Sensor" (Sensors sta) ds) as [ds1|e] eqn:E1;
    cbn [bind] in E; [|discriminate].
  destruct (associate "ObservedProperty" (ObservedProperties sta) ds1)
    as [ds2|e] eqn:E2; cbn [bind] in E; [|discriminate].
  destruct (filterM _ (Observations sta)) as [obs|e] eqn:E3; cbn [bind] in E;
    [|discriminate].
  pose proof (associate_spec _ _ _ _ E1) as S1.
  pose proof (associate_spec _ _ _ _ E2) as S2.
  assert (Eid : dict_get_none "@iot.id" ds2 = dict_get_none "@iot.id" ds).
  { unfold dict_get_none.
    rewrite (associate_other _ _ _ _ "@iot.id" E2) by discriminate.
    now rewrite (associate_other _ _ _ _ "@iot.id" E1) by discriminate. }
  apply filterM_ok in E3. rewrite Eid in E3. fold (refers_b "Datastream"
    (dict_get_none "@iot.id" ds)) in E3. rewrite <- refers_b_test in E3.
  assert (K : forall k, k <> "Observations" -> dict_get k ds' = dict_get k ds2).
  { intros k N. destruct obs; inversion E; subst; [reflexivity|].
    now apply dict_get_set_other. }
  split; [|split].
  - intros r Er. rewrite Er in S1. destruct S1 as (id & Ei & Es).
    exists id. split; [assumption|].
    rewrite K by discriminate.
    now rewrite (associate_other _ _ _ _ "Sensor" E2) by discriminate.
  - intros r Er.
    rewrite <- (associate_other _ _ _ _ "ObservedProperty" E1) in Er
      by discriminate.
    rewrite Er in S2. destruct S2 as (id & Ei & Es).
    exists id. split; [assumption|]. now rewrite K by discriminate.
  - rewrite <- E3. destruct obs as [|o obs]; inversion E; subst.
    + rewrite (associate_other _ _ _ _ "Observations" E2) by discriminate.
      now rewrite (associate_other _ _ _ _ "Observations" E1) by discriminate.
    + apply dict_get_set_same.
Qed.

End NormalizedResolve.


Section NormalizedStore.
Import Normalized.
Variable sta : sta_data.

Lemma update_length {A} (x : A) l : forall i,
  List.length (update i x l) = List.length l.
Proof.
  induction l as [|a l IH]; intros [|i]; simpl; auto.
Qed.

Lemma nth_update_same {A} (x d : A) l : forall i,
  i < List.length l -> nth i (update i x l) d = x.
Proof.
  induction l as [|a l IH]; intros [|i] L; simpl in *; try lia; auto.
  apply IH. lia.
Qed.

Lemma nth_update_other {A} (x d : A) l : forall i j,
  i <> j -> nth j (update i x l) d = nth j l d.
Proof.
  induction l as [|a l IH]; intros [|i] [|j] N; simpl; auto; try congruence.
Qed.

(** The loop over the datastreams of a thing runs the body once on each of
    them and leaves the others alone. *)
Lemma resolve_positions idxs : forall store store',
  NoDup idxs ->
  (forall j, In j idxs -> j < List.length store) ->
  foldM (resolve_at sta) idxs store = Ok store' ->
  List.length store' = List.length store
  /\ forall j,
       (In j idxs ->
        resolve_datastream sta (nth j store []) = Ok (nth j store' []))
       /\ (~ In j idxs -> nth j store' [] = nth j store []).
Proof.
  induction idxs as [|i idxs IH]; intros store store' N B E; simpl in E.
  - inversion E; subst. split; [reflexivity|]. intros j. split; [intros []|auto].
  - unfold resolve_at at 1 in E.
    destruct (resolve_datastream sta (nth i store [])) as [ds'|e] eqn:R;
      cbn [bind] in E; [|discriminate].
    inversion N as [|? ? Ni N']; subst.
    destruct (IH (update i ds' store) store' N') as [L K].
    { intros j I. rewrite update_length. apply B. now right. }
    { exact E. }
    rewrite update_length in L. split; [exact L|].
    intros j. split.
    + intros [<-|I].
      * destruct (K i) as [_ K2]. rewrite (K2 Ni).
        rewrite nth_update_same by (apply B; now left). exact R.
      * destruct (K j) as [K1 _]. specialize (K1 I).
        rewrite nth_update_other in K1 by (intros ->; contradiction).
        exact K1.
    + intros NI. destruct (K j) as [_ K2].
      rewrite K2 by (intros I; apply NI; now right).
      apply nth_update_other. intros ->. apply NI. now left.
Qed.

Lemma resolve_times_refers n : forall ds ds' id,
  resolve_times sta n ds = Ok ds' ->
  refers_to "Thing" id ds' = refers_to "Thing" id ds.
Proof.
  induction n as [|n IH]; simpl; intros ds ds' id E.
  - now inversion E.
  - destruct (resolve_datastream sta ds) as [d1|e] eqn:R; cbn [bind] in E;
      [|discriminate].
    rewrite (IH _ _ _ E). now apply (resolve_datastream_refers sta).
Qed.

Lemma resolve_times_last n : forall ds,
  resolve_times sta (S n) ds
  = (d <- resolve_times sta n ds ;; resolve_datastream sta d).
Proof.
  induction n as [|n IH]; intros ds.
  - simpl. now destruct (resolve_datastream sta ds).
  - change (resolve_times sta (S (S n)) ds)
      with (d <- resolve_datastream sta ds ;; resolve_times sta (S n) d).
    change (resolve_times sta (S n) ds)
      with (d <- resolve_datastream sta ds ;; resolve_times sta n d).
    destruct (resolve_datastream sta ds) as [d1|e]; cbn [bind]; [|reflexivity].
    apply IH.
Qed.

Lemma visits_last ids id ds :
  visits (ids ++ [id]) ds
  = visits ids ds + (if refers_b "Thing" id ds then 1 else 0).
Proof.
  unfold visits. rewrite filter_app, length_app. simpl.
  now destruct (refers_b "Thing" id ds).
Qed.

Lemma store_after_start : store_after sta [] (Datastreams sta).
Proof.
  split; [reflexivity|]. intros j _. reflexivity.
Qed.

(** In a store a datastream refers to the things it referred to at the
    start. *)
Lemma store_after_refers ids store id :
  store_after sta ids store ->
  forall j, j < List.length store ->
    refers_b "Thing" id (nth j store [])
    = refers_b "Thing" id (nth j (Datastreams sta) []).
Proof.
  intros [L K] j Lj. unfold refers_b.
  now rewrite (resolve_times_refers _ _ _ id (K j ltac:(lia))).
Qed.

(** One round of the loop over the things. *)
Lemma nest_thing_step ids thing ls ls' :
  store_after sta ids (store ls) ->
  nest_thing sta thing ls = Ok ls' ->
  let id := thing_id_at (List.length (result_things ls)) thing in
  result_things ls' = (result_things ls ++ [nested_thing sta id thing])%list
  /\ store_after sta (ids ++ [id]) (store ls').
Proof.
  intros SA E id. unfold nest_thing in E. fold (thing_id_at (List.length (result_things ls)) thing) in E.
  fold id in E.
  destruct (filterM (refers_to "Thing" id) (Locations sta)) as [locs|e] eqn:El;
    cbn [bind] in E; [|discriminate].
  destruct (positions_from 0 (refers_to "Thing" id) (store ls)) as [idxs|e]
    eqn:Ep; cbn [bind] in E; [|discriminate].
  destruct (foldM (resolve_at sta) idxs (store ls)) as [store'|e] eqn:Ef;
    cbn [bind] in E; [|discriminate].
  inversion E; subst ls'; clear E. cbn [result_things store].
  apply filterM_ok in El. apply positions_from_ok in Ep.
  rewrite <- refers_b_test in El, Ep.
  assert (Ep' : idxs = positions_b 0 (refers_b "Thing" id) (Datastreams sta)).
  { rewrite Ep. apply positions_b_ext; [apply SA|].
    intros j Lj. now apply store_after_refers with ids. }
  destruct (resolve_positions idxs (store ls) store') as [L K].
  { rewrite Ep. apply positions_b_NoDup. }
  { intros j I. rewrite Ep in I. apply in_positions_b in I. lia. }
  { exact Ef. }
  split.
  - f_equal. unfold nested_thing. rewrite <- Ep'. f_equal. f_equal.
    rewrite El. unfold attach.
    now destruct (filter (refers_b "Thing" id) (Locations sta)).
  - destruct SA as [L0 K0]. split; [congruence|].
    intros j Lj. rewrite visits_last.
    destruct (refers_b "Thing" id (nth j (Datastreams sta) [])) eqn:Rj.
    + rewrite Nat.add_1_r, resolve_times_last, (K0 j Lj). cbn [bind].
      apply K. rewrite Ep'. apply in_positions_b.
      rewrite Nat.sub_0_r. repeat split; [lia | assumption | assumption].
    + rewrite Nat.add_0_r, (K0 j Lj). f_equal. symmetry. apply K.
      rewrite Ep'. rewrite in_positions_b, Nat.sub_0_r. intros (_ & _ & T).
      congruence.
Qed.

Lemma nest_things_loop things : forall ids ls ls',
  store_after sta ids (store ls) ->
  foldM (nest_thing sta) things ls = Ok ls' ->
  result_things ls'
  = (result_things ls
     ++ nested_things_from sta (List.length (result_things ls)) things)%list
  /\ store_after sta
       (ids ++ thing_ids_from (List.length (result_things ls)) things)
       (store ls').
Proof.
  induction things as [|thing things IH]; intros ids ls ls' SA E; simpl in E.
  - inversion E; subst. simpl. now rewrite !app_nil_r.
  - destruct (nest_thing sta thing ls) as [ls1|e] eqn:E1; cbn [bind] in E;
      [|discriminate].
    destruct (nest_thing_step ids thing ls ls1 SA E1) as [R1 S1].
    destruct (IH _ _ _ S1 E) as [R2 S2].
    rewrite R1, length_app, Nat.add_1_r in R2, S2. simpl.
    split.
    + rewrite R2, <- app_assoc. reflexivity.
    + rewrite <- app_assoc in S2. exact S2.
Qed.

(** The document is the nested description, rendered in the final store. *)
Lemma construct_nested_structure_spec doc :
  construct_nested_structure sta = Ok doc ->
  exists final,
    store_after sta (thing_ids_from 0 (Things sta)) final
    /\ doc = VDict [("Things",
                     VList (map (render_thing final)
                              (nested_things_from sta 0 (Things sta))))].
Proof.
  unfold construct_nested_structure. intros E.
  destruct (foldM (nest_thing sta) (Things sta) _) as [ls|e] eqn:El;
    cbn [bind] in E; [|discriminate].
  inversion E; subst doc.
  destruct (nest_things_loop (Things sta) []
              {| result_things := []; store := Datastreams sta |} ls
              store_after_start El) as [R S].
  cbn [result_things app List.length] in R, S.
  exists (store ls). split; [exact S|]. now rewrite R.
Qed.

End NormalizedStore.


(* ---------------------------------------------------------------------- *)
(** *** The assembly does not raise on reference fragments *)

Section NormalizedTotal.
Import Normalized.
Variable sta : sta_data.
Hypothesis Hfrag : fragments sta.

Lemma refers_to_total k id e :
  fragment_at k e -> exists b, refers_to k id e = Ok b.
Proof.
  unfold fragment_at, refers_to. destruct (dict_get k e) as [[]|]; cbn;
    try tauto; eauto.
Qed.

Lemma associate_total k targets ds :
  fragment_at k ds -> exists ds', associate k targets ds = Ok ds'.
Proof.
  unfold fragment_at, associate. destruct (dict_get k ds) as [[]|]; cbn;
    try tauto; eauto.
  intros _.
  destruct (filter (fun t => py_eq (dict_get_none "@iot.id" t)
                               (dict_get_none "@iot.id" d)) targets); eauto.
Qed.

Lemma associate_fragment k targets ds ds' k' :
  associate k targets ds = Ok ds' -> fragment_at k' ds -> fragment_at k' ds'.
Proof.
  intros E F. destruct (String.eqb_spec k k') as [<-|N].
  - pose proof (associate_spec _ _ _ _ E) as S. unfold fragment_at in *.
    destruct (dict_get k ds) as [r|] eqn:E0; [|subst; now rewrite E0].
    destruct S as (id & _ & ->).
    now destruct (find (fun t => py_eq (dict_get_none "@iot.id" t) id) targets).
  - unfold fragment_at. now rewrite (associate_other _ _ _ _ k' E N).
Qed.

Local Abbreviation good := datastream_fragments.

Lemma resolve_datastream_total ds :
  good ds -> exists ds', resolve_datastream sta ds = Ok ds' /\ good ds'.
Proof.
  intros (Gt & Gs & Go). unfold resolve_datastream.
  destruct (associate_total "Sensor" (Sensors sta) ds Gs) as [ds1 E1].
  rewrite E1. cbn [bind].
  destruct (associate_total "ObservedProperty" (ObservedProperties sta) ds1)
    as [ds2 E2].
  { now apply (associate_fragment _ _ _ _ _ E1). }
  rewrite E2. cbn [bind].
  destruct (filterM_total
              (refers_to "Datastream" (dict_get_none "@iot.id" ds2))
              (Observations sta)) as [obs Eo].
  { destruct Hfrag as (_ & _ & Fo). revert Fo. apply Forall_impl.
    intros o. apply refers_to_total. }
  rewrite Eo. cbn [bind]. eexists. split; [reflexivity|].
  assert (G2 : good ds2).
  { repeat split; apply (associate_fragment _ _ _ _ _ E2);
      now apply (associate_fragment _ _ _ _ _ E1). }
  destruct obs; [exact G2|].
  destruct G2 as (A & B & C). unfold good, fragment_at in *.
  now rewrite !dict_get_set_other by discriminate.
Qed.

Lemma Forall_update {A} (P : A -> Prop) x l : forall i,
  P x -> Forall P l -> Forall P (update i x l).
Proof.
  induction l as [|a l IH]; intros [|i] Px F; simpl; inversion F; subst;
    auto.
Qed.

Lemma Forall_nth_default {A} (P : A -> Prop) l d i :
  P d -> Forall P l -> P (nth i l d).
Proof.
  intros Pd F. revert i. induction F; intros [|i]; simpl; auto.
Qed.

Lemma good_empty : good [].
Proof. repeat split. Qed.

Lemma resolve_at_total idxs : forall store,
  Forall good store ->
  exists store', foldM (resolve_at sta) idxs store = Ok store'
                 /\ Forall good store'.
Proof.
  induction idxs as [|i idxs IH]; intros store G; simpl.
  - eauto.
  - unfold resolve_at at 1.
    destruct (resolve_datastream_total (nth i store [])) as (ds' & -> & G').
    { apply Forall_nth_default; [apply good_empty | assumption]. }
    cbn [bind]. apply IH. now apply Forall_update.
Qed.

Lemma nest_thing_total thing ls :
  Forall good (store ls) ->
  exists ls', nest_thing sta thing ls = Ok ls' /\ Forall good (store ls').
Proof.
  intros G. unfold nest_thing.
  set (id := match dict_get "@iot.id" thing with
             | Some id => id
             | None => VInt (Z.of_nat (List.length (result_things ls)) + 1)
             end).
  destruct (filterM_total (refers_to "Thing" id) (Locations sta)) as [locs ->].
  { destruct Hfrag as (Fl & _). revert Fl. apply Forall_impl.
    intros l. apply refers_to_total. }
  cbn [bind].
  destruct (positions_from_total (refers_to "Thing" id) (store ls) 0)
    as [idxs ->].
  { revert G. apply Forall_impl. intros ds (Gt & _).
    now apply refers_to_total. }
  cbn [bind].
  destruct (resolve_at_total idxs (store ls) G) as (store' & -> & G').
  cbn [bind]. eexists. split; [reflexivity | exact G'].
Qed.

Lemma nest_things_total things : forall ls,
  Forall good (store ls) ->
  exists ls', foldM (nest_thing sta) things ls = Ok ls'.
Proof.
  induction things as [|thing things IH]; intros ls G; simpl; [eauto|].
  destruct (nest_thing_total thing ls G) as (ls1 & -> & G1). cbn [bind].
  now apply IH.
Qed.

Lemma construct_nested_structure_total :
  exists doc, construct_nested_structure sta = Ok doc.
Proof.
  unfold construct_nested_structure.
  destruct (nest_things_total (Things sta)
              {| result_things := []; store := Datastreams sta |})
    as [ls ->].
  { destruct Hfrag as (_ & Fd & _). exact Fd. }
  cbn [bind]. eauto.
Qed.

End NormalizedTotal.


(* ---------------------------------------------------------------------- *)
(** *** What the loops over the sheets produce *)

Section NormalizedLoad.
Import Normalized.
Context `{PyBuiltins}.
Variable uuid4 : nat -> string.

Lemma link_fragment cols row c k e k' :
  fragment_at k' e -> fragment_at k' (link cols row c k e).
Proof.
  unfold link. destruct (present cols row c) as [id|]; [|auto].
  unfold fragment_at. destruct (String.eqb_spec k k') as [<-|N].
  - now rewrite dict_get_set_same.
  - now rewrite dict_get_set_other.
Qed.

Lemma link_other cols row c k e k' :
  k <> k' -> dict_get k' (link cols row c k e) = dict_get k' e.
Proof.
  unfold link. destruct (present cols row c); [|reflexivity].
  apply dict_get_set_other.
Qed.

(** The reference a foreign key leaves: the fragment with the cell, when
    the cell is there. *)
Lemma link_same cols row c k e :
  dict_get k (link cols row c k e)
  = match present cols row c with
    | Some id => Some (ref (VCell id))
    | None => dict_get k e
    end.
Proof.
  unfold link. destruct (present cols row c); [|reflexivity].
  apply dict_get_set_same.
Qed.

Lemma dict_get_filter_None {V} (f : string * V -> bool) k (d : dict V) :
  dict_get k d = None -> dict_get k (filter f d) = None.
Proof.
  induction d as [|[k' v] d IH]; simpl; [auto|].
  destruct (String.eqb k' k) eqn:E; [discriminate|].
  intros N. destruct (f (k', v)); simpl; [rewrite E|]; auto.
Qed.

Lemma thing_of_row_no_id cols row n e :
  thing_of_row uuid4 cols row n = Ok e -> dict_get "@iot.id" e = None.
Proof.
  unfold thing_of_row.
  destruct (json_field cols row "properties" (VDict [])); cbn [bind];
    [|discriminate].
  now intros [= <-].
Qed.

Lemma location_of_row_fragment cols row n e :
  location_of_row uuid4 cols row n = Ok e -> fragment_at "Thing" e.
Proof.
  unfold location_of_row.
  destruct (json_field cols row "location" point_0_0); cbn [bind];
    [|discriminate].
  intros [= <-]. apply link_fragment. exact I.
Qed.

Lemma datastream_of_row_fragments cols row n e :
  datastream_of_row uuid4 cols row n = Ok e -> datastream_fragments e.
Proof.
  unfold datastream_of_row.
  destruct (json_field cols row "unitOfMeasurement" (VDict [])); cbn [bind];
    [|discriminate].
  intros [= <-]. repeat split; repeat apply link_fragment; exact I.
Qed.

Lemma datastream_of_row_no_id cols row n e :
  datastream_of_row uuid4 cols row n = Ok e -> dict_get "@iot.id" e = None.
Proof.
  unfold datastream_of_row.
  destruct (json_field cols row "unitOfMeasurement" (VDict [])); cbn [bind];
    [|discriminate].
  intros [= <-]. now rewrite !link_other by discriminate.
Qed.

Lemma sensor_of_row_no_id cols row n e :
  sensor_of_row uuid4 cols row n = Ok e -> dict_get "@iot.id" e = None.
Proof. now intros [= <-]. Qed.

Lemma observed_property_of_row_no_id cols row n e :
  observed_property_of_row uuid4 cols row n = Ok e ->
  dict_get "@iot.id" e = None.
Proof. now intros [= <-]. Qed.

Lemma observation_of_row_fragment cols row e :
  observation_of_row cols row = Ok e -> fragment_at "Datastream" e.
Proof.
  unfold observation_of_row.
  destruct (json_field cols row "parameters" (VDict [])) as [parameters|];
    cbn [bind]; [|discriminate].
  set (base := filter is_not_none _).
  assert (F : fragment_at "Datastream"
                (link cols row "datastream_id" "Datastream" base)).
  { apply link_fragment. unfold fragment_at, base.
    now rewrite dict_get_filter_None. }
  assert (G : forall v, fragment_at "Datastream"
                (dict_set "FeatureOfInterest" v
                   (link cols row "datastream_id" "Datastream" base))).
  { intros v. unfold fragment_at in *.
    now rewrite dict_get_set_other by discriminate. }
  destruct (present cols row "feature_of_interest") as [[]|];
    try (intros [= <-]; auto).
  destruct (loads s); cbn [bind]; [|discriminate]. intros [= <-]. auto.
Qed.

Lemma load_rows_Forall (P : entity -> Prop) of_row cols :
  (forall row n e, of_row cols row n = Ok e -> P e) ->
  forall rs n es n', load_rows of_row cols rs n = Ok (es, n') -> Forall P es.
Proof.
  intros Hp. induction rs as [|row rs IH]; simpl; intros n es n' E.
  - inversion E. constructor.
  - destruct (of_row cols row n) as [e|] eqn:E1; cbn [bind] in E;
      [|discriminate].
    destruct (load_rows of_row cols rs (S n)) as [[es1 n1]|] eqn:E2;
      cbn [bind] in E; [|discriminate].
    inversion E; subst. constructor; eauto.
Qed.

Lemma load_sheet_Forall (P : entity -> Prop) of_row excel_data sheet_name :
  (forall cols row n e, of_row cols row n = Ok e -> P e) ->
  forall n es n',
    load_sheet of_row excel_data sheet_name n = Ok (es, n') -> Forall P es.
Proof.
  intros Hp n es n'. unfold load_sheet.
  destruct (dict_get sheet_name excel_data) as [df|].
  - apply load_rows_Forall. apply Hp.
  - intros [= <- _]. constructor.
Qed.

(** The tables as loaded: every reference is a fragment and nothing but
    a foreign key gives an entity an id. *)
Lemma load_spec excel_data sta :
  load uuid4 excel_data = Ok sta ->
  fragments sta
  /\ Forall (fun e => dict_get "@iot.id" e = None) (Things sta)
  /\ Forall (fun e => dict_get "@iot.id" e = None) (Sensors sta)
  /\ Forall (fun e => dict_get "@iot.id" e = None) (ObservedProperties sta)
  /\ Forall (fun e => dict_get "@iot.id" e = None) (Datastreams sta).
Proof.
  unfold load. intros E.
  destruct (load_sheet (thing_of_row uuid4) excel_data "Things" 0)
    as [[things n1]|] eqn:E1; cbn [bind] in E; [|discriminate].
  destruct (load_sheet (location_of_row uuid4) excel_data "Locations" n1)
    as [[locations n2]|] eqn:E2; cbn [bind] in E; [|discriminate].
  destruct (load_sheet (observed_property_of_row uuid4) excel_data
              "ObservedProperties" n2)
    as [[ops n3]|] eqn:E3; cbn [bind] in E; [|discriminate].
  destruct (load_sheet (sensor_of_row uuid4) excel_data "Sensors" n3)
    as [[sens n4]|] eqn:E4; cbn [bind] in E; [|discriminate].
  destruct (load_sheet (datastream_of_row uuid4) excel_data "Datastreams" n4)
    as [[dss n5]|] eqn:E5; cbn [bind] in E; [|discriminate].
  destruct (load_sheet (fun cols row _ => observation_of_row cols row)
              excel_data "Observations" n5)
    as [[obs n6]|] eqn:E6; cbn [bind] in E; [|discriminate].
  inversion E; subst sta; clear E.
  cbn [Things Locations ObservedProperties Sensors Datastreams Observations].
  unfold fragments.
  cbn [Things Locations ObservedProperties Sensors Datastreams Observations].
  repeat split.
  - eapply load_sheet_Forall; [|exact E2]. apply location_of_row_fragment.
  - eapply load_sheet_Forall; [|exact E5]. apply datastream_of_row_fragments.
  - eapply load_sheet_Forall; [|exact E6].
    intros cols row n e. apply observation_of_row_fragment.
  - eapply load_sheet_Forall; [|exact E1]. apply thing_of_row_no_id.
  - eapply load_sheet_Forall; [|exact E4]. apply sensor_of_row_no_id.
  - eapply load_sheet_Forall; [|exact E3]. apply observed_property_of_row_no_id.
  - eapply load_sheet_Forall; [|exact E5]. apply datastream_of_row_no_id.
Qed.

End NormalizedLoad.


(* ---------------------------------------------------------------------- *)
(** *** Positional ids and the matching policy *)

Section NormalizedDocument.
Import Normalized.

Lemma render_thing_attach final twr idxs :
  render_thing final (twr, idxs)
  = VDict (attach "Datastreams"
             (map (fun j => VDict (nth j final [])) idxs) twr).
Proof.
  unfold render_thing, attach. cbn [fst snd]. now destruct idxs.
Qed.

Lemma nth_error_nested_things_from sta things : forall n i thing,
  nth_error things i = Some thing ->
  nth_error (nested_things_from sta n things) i
  = Some (nested_thing sta (thing_id_at (n + i) thing) thing).
Proof.
  induction things as [|t things IH]; intros n [|i] thing E; simpl in *;
    try discriminate.
  - inversion E; subst. now rewrite Nat.add_0_r.
  - rewrite (IH (S n) i thing E). do 3 f_equal. lia.
Qed.



End NormalizedDocument.




Section PositionalIds.
Import Normalized.

(** Nothing equals two different integers. *)
Lemma py_eq_int_unique x a b :
  py_eq x (VInt a) = true -> py_eq x (VInt b) = true -> a = b.
Proof.
  destruct x as [| t | [m | [q| | |] | s | s |] | l | d]; cbn;
    try discriminate.
  - intros A B. apply Z.eqb_eq in A, B. congruence.
  - intros A B. apply Z.eqb_eq in A, B. congruence.
  - intros A B. apply Qeq_bool_iff in A, B. rewrite A in B.
    unfold Qeq in B. cbn in B. lia.
Qed.

Lemma refers_b_int_unique k e a b :
  refers_b k (VInt a) e = true -> refers_b k (VInt b) e = true -> a = b.
Proof.
  unfold refers_b, refers_to. destruct (dict_get k e) as [r|]; [|discriminate].
  destruct (value_get "@iot.id" r) as [x|]; cbn [bind]; [|discriminate].
  apply py_eq_int_unique.
Qed.

Lemma thing_ids_positional things : forall n,
  Forall (fun t => dict_get "@iot.id" t = None) things ->
  thing_ids_from n things
  = map (fun i => VInt (Z.of_nat i + 1)) (seq n (List.length things)).
Proof.
  induction things as [|t things IH]; intros n F; simpl; [reflexivity|].
  inversion F; subst. unfold thing_id_at at 1. rewrite H1.
  now rewrite IH.
Qed.

Lemma filter_at_most_one {A} (p : A -> bool) l :
  NoDup l ->
  (forall x y, In x l -> In y l -> p x = true -> p y = true -> x = y) ->
  List.length (filter p l) <= 1.
Proof.
  induction 1 as [|a l Na N IH]; intros U; simpl; [lia|].
  assert (IH' : List.length (filter p l) <= 1).
  { apply IH. intros x y Ix Iy. apply U; now right. }
  destruct (p a) eqn:Pa; [|assumption].
  destruct (filter p l) as [|b rest] eqn:Ef; simpl; [lia|].
  exfalso. assert (Ib : In b (filter p l)) by (rewrite Ef; now left).
  apply filter_In in Ib. destruct Ib as [Ib Pb].
  apply Na.
  assert (Eab : a = b) by (apply U; [now left | now right | assumption..]).
  now rewrite Eab.
Qed.

(** With positional ids a datastream belongs to one thing at most, so the
    loop body runs on it once at most. *)
Lemma visits_positional things ds :
  Forall (fun t => dict_get "@iot.id" t = None) things ->
  visits (thing_ids_from 0 things) ds <= 1.
Proof.
  intros F. unfold visits. rewrite (thing_ids_positional things 0 F).
  set (l := seq 0 (List.length things)).
  assert (E : filter (fun id => refers_b "Thing" id ds)
                (map (fun i => VInt (Z.of_nat i + 1)) l)
              = map (fun i => VInt (Z.of_nat i + 1))
                  (filter (fun i => refers_b "Thing" (VInt (Z.of_nat i + 1)) ds) l)).
  { induction l as [|a l IH]; simpl; [reflexivity|].
    destruct (refers_b "Thing" (VInt (Z.of_nat a + 1)) ds); simpl;
      now rewrite IH. }
  rewrite E, length_map. apply filter_at_most_one.
  - apply seq_NoDup.
  - intros x y _ _ Px Py.
    pose proof (refers_b_int_unique _ _ _ _ Px Py). lia.
Qed.

End PositionalIds.

(** C6, as the code has it.  On tables whose reference fields are
    fragments (everything the sheets are read into) the assembly never
    raises.  Each time the loop body handles a datastream, its ["Sensor"]
    and its ["ObservedProperty"] reference become the first entity of the
    target collection whose ["@iot.id"] equals the referenced id, and stay
    the raw fragment when there is none; its ["Observations"] become all
    the observations whose ["Datastream"] reference equals its id, each
    with that reference left as it is.  A [thing_id] or [datastream_id]
    reference is never expanded: the document is the list of the things,
    each with the locations and datastreams that refer to it, so an entity
    that refers to no thing (or an observation that refers to no nested
    datastream) is not in the document at all.  A datastream is handled
    once for every thing it refers to, hence once at most when the ids are
    positional. *)
Theorem references_resolve_to_first_match :
  forall sta : Normalized.sta_data,
    Normalized.fragments sta ->
    (exists doc, Normalized.construct_nested_structure sta = Ok doc)
    /\ (forall ds ds',
          Normalized.resolve_datastream sta ds = Ok ds' ->
          (forall r, dict_get "Sensor" ds = Some r ->
             exists id,
               value_get "@iot.id" r = Ok id
               /\ dict_get "Sensor" ds'
                  = Some match find (fun t => py_eq (dict_get_none "@iot.id" t) id)
                                 (Normalized.Sensors sta) with
                         | Some first => VDict first
                         | None => r
                         end)
          /\ (forall r, dict_get "ObservedProperty" ds = Some r ->
                exists id,
                  value_get "@iot.id" r = Ok id
                  /\ dict_get "ObservedProperty" ds'
                     = Some match find (fun t => py_eq (dict_get_none "@iot.id" t) id)
                                    (Normalized.ObservedProperties sta) with
                            | Some first => VDict first
                            | None => r
                            end)
          /\ dict_get "Observations" ds'
             = match filter (Normalized.refers_b "Datastream"
                               (dict_get_none "@iot.id" ds))
                       (Normalized.Observations sta) with
               | [] => dict_get "Observations" ds
               | obs => Some (VList (map VDict obs))
               end)
    /\ (forall doc,
          Normalized.construct_nested_structure sta = Ok doc ->
          exists final,
            Normalized.store_after sta
              (Normalized.thing_ids_from 0 (Normalized.Things sta)) final
            /\ doc = VDict [("Things",
                             VList (map (Normalized.render_thing final)
                                      (Normalized.nested_things_from sta 0
                                         (Normalized.Things sta))))])
    /\ (Forall (fun t => dict_get "@iot.id" t = None) (Normalized.Things sta) ->
        forall ds,
          Normalized.visits
            (Normalized.thing_ids_from 0 (Normalized.Things sta)) ds <= 1).
Proof.
  intros sta F. split; [|split; [|split]].
  - now apply construct_nested_structure_total.
  - intros ds ds'. apply resolve_datastream_spec.
  - intros doc. apply construct_nested_structure_spec.
  - intros N ds. now apply visits_positional.
Qed.

Lemma sta_with_ids_fragments : Normalized.fragments sta_with_ids.
Proof.
  repeat split; repeat constructor.
Qed.

(** The theorem on [sta_with_ids]: the reference to sensor 9 becomes the
    first of the two sensors with that id. *)
Lemma references_resolve_to_first_match_witness :
  Normalized.fragments sta_with_ids
  /\ forall ds',
       Normalized.resolve_datastream sta_with_ids
         [("@iot.id", VInt 4); ("Thing", Normalized.ref (VInt 1));
          ("Sensor", Normalized.ref (VInt 9));
          ("ObservedProperty", Normalized.ref (VInt 3))] = Ok ds' ->
       dict_get "Sensor" ds'
       = Some (VDict [("@iot.id", VInt 9); ("name", VStr "first sensor")])
       /\ dict_get "ObservedProperty" ds' = Some (Normalized.ref (VInt 3)).
Proof.
  split; [exact sta_with_ids_fragments|].
  intros ds' E.
  destruct (proj1 (proj2 (references_resolve_to_first_match sta_with_ids
                            sta_with_ids_fragments)) _ _ E)
    as (S & O & _).
  destruct (S _ eq_refl) as (id & Ei & Es).
  destruct (O _ eq_refl) as (id' & Ei' & Eo).
  inversion Ei; subst id. inversion Ei'; subst id'.
  split; [exact Es | exact Eo].
Defined.

(** C6 as it was stated fails for [thing_id] and [datastream_id].  In
    [wb_normalized] a datastream refers to a thing 5 and an observation to
    a datastream 7, neither of which exists: the run does not abort, but
    neither fragment is left in the output, the two entities are simply
    not in the document.  The fragment of the sensor 9, which does not
    exist either, is there. *)
Lemma unmatched_parent_reference_is_dropped :
  on_doc (fun doc => (mentions (Normalized.ref (VInt 5)) doc,
                      mentions (Normalized.ref (VInt 7)) doc,
                      mentions (Normalized.ref (VInt 9)) doc))
    (@Normalized.excel_to_sensorthings sample_runtime uuid_run1 wb_normalized)
  = Some (false, false, true)
  /\ exists sta ds obs,
       @Normalized.load sample_runtime uuid_run1 wb_normalized = Ok sta
       /\ In ds (Normalized.Datastreams sta)
       /\ dict_get "Thing" ds = Some (Normalized.ref (VInt 5))
       /\ In obs (Normalized.Observations sta)
       /\ dict_get "Datastream" obs = Some (Normalized.ref (VInt 7)).
Proof.
  split; [vm_compute; reflexivity|].
  eexists. eexists. eexists. split; [vm_compute; reflexivity|].
  split; [right; right; left; reflexivity|].
  split; [reflexivity|].
  split; [left; reflexivity | reflexivity].
Qed.

(** The scenario of the specification: thing 1 with a datastream that
    refers to a sensor 9 where no sensor has that id. *)
Lemma scenario_unknown_sensor :
  on_doc (fun doc => map (fun t => (iot_id t,
                                    map (field "Sensor") (thing_datastreams t)))
                       (doc_things doc))
    (@Normalized.excel_to_sensorthings sample_runtime uuid_run1 wb_normalized)
  = Some [(VInt 1, [Some (Normalized.ref (VInt 9))]); (VInt 2, [None])].
Proof. vm_compute. reflexivity. Qed.


(* ====================================================================== *)
(** ** Two runs on the same tables *)
(* ====================================================================== *)

Section TwoRuns.
Import Normalized.
Context `{PyBuiltins}.
Variables uuid_a uuid_b : nat -> string.

Lemma load_rows_is_ok of_a of_b cols :
  (forall row n m, is_ok (of_a cols row n) = is_ok (of_b cols row m)) ->
  forall rs n m,
    is_ok (load_rows of_a cols rs n) = is_ok (load_rows of_b cols rs m).
Proof.
  intros Hr. induction rs as [|row rs IH]; intros n m; simpl; [reflexivity|].
  specialize (Hr row n m). specialize (IH (S n) (S m)).
  destruct (of_a cols row n), (of_b cols row m); cbn in *; try discriminate;
    try reflexivity.
  destruct (load_rows of_a cols rs (S n)) as [[? ?]|],
           (load_rows of_b cols rs (S m)) as [[? ?]|]; cbn in *;
    try discriminate; reflexivity.
Qed.

Lemma load_sheet_is_ok of_a of_b excel_data sheet_name n m :
  (forall cols row n m, is_ok (of_a cols row n) = is_ok (of_b cols row m)) ->
  is_ok (load_sheet of_a excel_data sheet_name n)
  = is_ok (load_sheet of_b excel_data sheet_name m).
Proof.
  intros Hr. unfold load_sheet.
  destruct (dict_get sheet_name excel_data); [|reflexivity].
  apply load_rows_is_ok. apply Hr.
Qed.

Lemma load_rows_length of_row cols : forall rs n es n',
  load_rows of_row cols rs n = Ok (es, n') ->
  List.length es = List.length rs.
Proof.
  induction rs as [|row rs IH]; simpl; intros n es n' E.
  - now inversion E.
  - destruct (of_row cols row n); cbn [bind] in E; [|discriminate].
    destruct (load_rows of_row cols rs (S n)) as [[es1 n1]|] eqn:E1;
      cbn [bind] in E; [|discriminate].
    inversion E; subst. simpl. f_equal. eauto.
Qed.

Lemma load_sheet_length of_a of_b excel_data sheet_name n m es_a n_a es_b n_b :
  load_sheet of_a excel_data sheet_name n = Ok (es_a, n_a) ->
  load_sheet of_b excel_data sheet_name m = Ok (es_b, n_b) ->
  List.length es_a = List.length es_b.
Proof.
  unfold load_sheet. destruct (dict_get sheet_name excel_data) as [df|].
  - intros A B. apply load_rows_length in A, B. congruence.
  - now intros [= <- _] [= <- _].
Qed.

Lemma load_rows_ext of_a of_b cols :
  (forall row n, of_a cols row n = of_b cols row n) ->
  forall rs n, load_rows of_a cols rs n = load_rows of_b cols rs n.
Proof.
  intros Hr. induction rs as [|row rs IH]; intros n; simpl; [reflexivity|].
  now rewrite Hr, IH.
Qed.

Lemma load_sheet_named of_a of_b excel_data sheet_name n :
  (forall df, dict_get sheet_name excel_data = Some df ->
     forall row n, of_a (columns df) row n = of_b (columns df) row n) ->
  load_sheet of_a excel_data sheet_name n
  = load_sheet of_b excel_data sheet_name n.
Proof.
  intros Hn. unfold load_sheet.
  destruct (dict_get sheet_name excel_data) as [df|]; [|reflexivity].
  apply load_rows_ext. now apply Hn.
Qed.

(** With a [name] column the default name is not used. *)
Lemma row_get_named cols row d d' :
  has_column "name" cols = true ->
  row_get cols row "name" d = row_get cols row "name" d'.
Proof.
  unfold has_column, row_get. now destruct (index_of "name" cols).
Qed.

Ltac same_success :=
  match goal with
  | |- is_ok (bind ?a _) = is_ok (bind ?b _) =>
      let E := fresh "E" in
      assert (E : is_ok a = is_ok b)
        by (apply load_sheet_is_ok; intros ? ? ? ?;
            unfold thing_of_row, location_of_row, observed_property_of_row,
              sensor_of_row, datastream_of_row;
            try reflexivity;
            match goal with
            | |- context [json_field ?c ?r ?k ?d] =>
                destruct (json_field c r k d); reflexivity
            end);
      destruct a as [[? ?]|], b as [[? ?]|]; cbn in E; try discriminate;
      cbn [bind]; try reflexivity
  end.

(** Whether the tables load does not depend on the uuids. *)
Lemma load_is_ok excel_data :
  is_ok (load uuid_a excel_data) = is_ok (load uuid_b excel_data).
Proof.
  unfold load. do 6 same_success.
Qed.

Lemma load_things_length excel_data sta_a sta_b :
  load uuid_a excel_data = Ok sta_a ->
  load uuid_b excel_data = Ok sta_b ->
  List.length (Things sta_a) = List.length (Things sta_b).
Proof.
  unfold load. intros A B.
  destruct (load_sheet (thing_of_row uuid_a) excel_data "Things" 0)
    as [[ta na]|] eqn:Ta; cbn [bind] in A; [|discriminate].
  destruct (load_sheet (thing_of_row uuid_b) excel_data "Things" 0)
    as [[tb nb]|] eqn:Tb; cbn [bind] in B; [|discriminate].
  pose proof (load_sheet_length _ _ _ _ _ _ _ _ _ _ Ta Tb) as L.
  repeat match type of A with
         | bind ?x _ = _ => destruct x as [[? ?]|]; cbn [bind] in A;
                            [|discriminate]
         end.
  repeat match type of B with
         | bind ?x _ = _ => destruct x as [[? ?]|]; cbn [bind] in B;
                            [|discriminate]
         end.
  inversion A; inversion B; subst. exact L.
Qed.

Lemma load_named excel_data :
  named excel_data -> load uuid_a excel_data = load uuid_b excel_data.
Proof.
  intros N. unfold load.
  rewrite (load_sheet_named (thing_of_row uuid_a) (thing_of_row uuid_b)).
  2:{ intros df E row n. unfold thing_of_row.
      rewrite (row_get_named _ _ _ (VStr ("Thing_" ++ uuid_b n)));
        [reflexivity|].
      apply (N "Things" df); [simpl; tauto | exact E]. }
  destruct (load_sheet (thing_of_row uuid_b) excel_data "Things" 0)
    as [[things n1]|]; cbn [bind]; [|reflexivity].
  rewrite (load_sheet_named (location_of_row uuid_a) (location_of_row uuid_b)).
  2:{ intros df E row n. unfold location_of_row.
      rewrite (row_get_named _ _ _ (VStr ("Location_" ++ uuid_b n)));
        [reflexivity|].
      apply (N "Locations" df); [simpl; tauto | exact E]. }
  destruct (load_sheet (location_of_row uuid_b) excel_data "Locations" n1)
    as [[locations n2]|]; cbn [bind]; [|reflexivity].
  rewrite (load_sheet_named (observed_property_of_row uuid_a)
             (observed_property_of_row uuid_b)).
  2:{ intros df E row n. unfold observed_property_of_row.
      rewrite (row_get_named _ _ _ (VStr ("ObservedProperty_" ++ uuid_b n)));
        [reflexivity|].
      apply (N "ObservedProperties" df); [simpl; tauto | exact E]. }
  destruct (load_sheet (observed_property_of_row uuid_b) excel_data
              "ObservedProperties" n2)
    as [[ops n3]|]; cbn [bind]; [|reflexivity].
  rewrite (load_sheet_named (sensor_of_row uuid_a) (sensor_of_row uuid_b)).
  2:{ intros df E row n. unfold sensor_of_row.
      rewrite (row_get_named _ _ _ (VStr ("Sensor_" ++ uuid_b n)));
        [reflexivity|].
      apply (N "Sensors" df); [simpl; tauto | exact E]. }
  destruct (load_sheet (sensor_of_row uuid_b) excel_data "Sensors" n3)
    as [[sens n4]|]; cbn [bind]; [|reflexivity].
  rewrite (load_sheet_named (datastream_of_row uuid_a)
             (datastream_of_row uuid_b)).
  2:{ intros df E row n. unfold datastream_of_row.
      rewrite (row_get_named _ _ _ (VStr ("Datastream_" ++ uuid_b n)));
        [reflexivity|].
      apply (N "Datastreams" df); [simpl; tauto | exact E]. }
  reflexivity.
Qed.

End TwoRuns.


Section DocumentIds.
Import Normalized.

Lemma dict_get_attach_other k l d k' :
  k <> k' -> dict_get k' (attach k l d) = dict_get k' d.
Proof.
  intros N. unfold attach. destruct l; [reflexivity|].
  now apply dict_get_set_other.
Qed.

Lemma iot_id_render_thing sta final id thing :
  iot_id (render_thing final (nested_thing sta id thing)) = id.
Proof.
  unfold nested_thing. rewrite render_thing_attach. unfold iot_id, field.
  rewrite !dict_get_attach_other by discriminate.
  now rewrite dict_get_set_same.
Qed.

Lemma nested_things_ids sta final things : forall n,
  map iot_id (map (render_thing final) (nested_things_from sta n things))
  = thing_ids_from n things.
Proof.
  induction things as [|t things IH]; intros n; simpl; [reflexivity|].
  now rewrite iot_id_render_thing, IH.
Qed.

(** The ids in the document of tables whose things carry none. *)
Lemma document_ids_positional sta doc :
  Forall (fun t => dict_get "@iot.id" t = None) (Things sta) ->
  construct_nested_structure sta = Ok doc ->
  map iot_id (doc_things doc)
  = map (fun i => VInt (Z.of_nat i + 1)) (seq 0 (List.length (Things sta)))
  /\ List.length (doc_things doc) = List.length (Things sta).
Proof.
  intros F E.
  destruct (construct_nested_structure_spec sta doc E) as (final & _ & ->).
  unfold doc_things, field, items.
  cbn [dict_get String.eqb Ascii.eqb Bool.eqb].
  rewrite nested_things_ids, (thing_ids_positional _ 0 F). split; [reflexivity|].
  rewrite length_map. clear. generalize 0.
  induction (Things sta); intros n; simpl; auto.
Qed.

End DocumentIds.

(** C8, as the code has it.  Two runs of the normalized converter on the
    same tables, whatever [uuid4] returns in each, succeed or fail
    together and give their things the same synthetic ids, the positions
    1, 2, ...; the two documents are identical when every entity sheet has
    a [name] column.  (An entity of a sheet without that column is named
    after a fresh uuid, which differs from run to run.  The wide-sheet
    converters read no random source at all: their document is a function
    of the workbook.) *)
Theorem runs_agree_up_to_default_names `{PyBuiltins} :
  forall (uuid_a uuid_b : nat -> string) (excel_data : workbook),
    let run_a := Normalized.excel_to_sensorthings uuid_a excel_data in
    let run_b := Normalized.excel_to_sensorthings uuid_b excel_data in
    is_ok run_a = is_ok run_b
    /\ (forall doc_a doc_b,
          run_a = Ok doc_a -> run_b = Ok doc_b ->
          map iot_id (doc_things doc_a) = map iot_id (doc_things doc_b)
          /\ map iot_id (doc_things doc_a)
             = map (fun i => VInt (Z.of_nat i + 1))
                 (seq 0 (List.length (doc_things doc_a))))
    /\ (named excel_data -> run_a = run_b).
Proof.
  intros uuid_a uuid_b excel_data run_a run_b.
  subst run_a run_b. unfold Normalized.excel_to_sensorthings.
  pose proof (load_is_ok uuid_a uuid_b excel_data) as Eok.
  split; [|split].
  - destruct (Normalized.load uuid_a excel_data) as [sta_a|] eqn:La,
             (Normalized.load uuid_b excel_data) as [sta_b|] eqn:Lb;
      cbn in Eok; try discriminate; cbn [bind]; [|reflexivity].
    destruct (construct_nested_structure_total sta_a) as [da ->].
    { apply (load_spec uuid_a excel_data sta_a La). }
    destruct (construct_nested_structure_total sta_b) as [db ->].
    { apply (load_spec uuid_b excel_data sta_b Lb). }
    reflexivity.
  - intros doc_a doc_b.
    destruct (Normalized.load uuid_a excel_data) as [sta_a|] eqn:La;
      cbn [bind]; [|discriminate].
    destruct (Normalized.load uuid_b excel_data) as [sta_b|] eqn:Lb;
      cbn [bind]; [|discriminate].
    intros Ea Eb.
    destruct (load_spec uuid_a excel_data sta_a La) as (_ & Na & _).
    destruct (load_spec uuid_b excel_data sta_b Lb) as (_ & Nb & _).
    destruct (document_ids_positional sta_a doc_a Na Ea) as [Ia La'].
    destruct (document_ids_positional sta_b doc_b Nb Eb) as [Ib Lb'].
    rewrite La', Ia, Ib.
    now rewrite (load_things_length uuid_a uuid_b excel_data sta_a sta_b La Lb).
  - intros N. now rewrite (load_named uuid_a uuid_b excel_data N).
Qed.

Lemma wb_normalized_named : named wb_normalized.
Proof.
  intros sheet_name df I E. simpl in I.
  destruct I as [<-|[<-|[<-|[<-|[<-|[]]]]]]; vm_compute in E;
    try discriminate; inversion E; reflexivity.
Qed.

Lemma runs_agree_up_to_default_names_witness :
  named wb_normalized
  /\ @Normalized.excel_to_sensorthings sample_runtime uuid_run1 wb_normalized
     = @Normalized.excel_to_sensorthings sample_runtime uuid_run2 wb_normalized.
Proof.
  split; [exact wb_normalized_named|].
  exact (proj2 (proj2 (@runs_agree_up_to_default_names sample_runtime
                         uuid_run1 uuid_run2 wb_normalized))
           wb_normalized_named).
Defined.

(** C8 as it was stated fails.  The things sheet of [wb_unnamed] has no
    [name] column: the thing is called [Thing_] followed by the uuid drawn
    in that run, and two runs that draw different uuids return different
    documents. *)
Lemma default_names_differ_between_runs :
  @Normalized.excel_to_sensorthings sample_runtime uuid_run1 wb_unnamed
  <> @Normalized.excel_to_sensorthings sample_runtime uuid_run2 wb_unnamed
  /\ on_doc (fun doc => map (field "name") (doc_things doc))
       (@Normalized.excel_to_sensorthings sample_runtime uuid_run1 wb_unnamed)
     = Some [Some (VStr "Thing_a0")]
  /\ on_doc (fun doc => map (field "name") (doc_things doc))
       (@Normalized.excel_to_sensorthings sample_runtime uuid_run2 wb_unnamed)
     = Some [Some (VStr "Thing_b0")].
Proof.
  split; [vm_compute; discriminate|]. split; vm_compute; reflexivity.
Qed.


(* ====================================================================== *)
(** ** The assembly of [final_version_6things.py] changes no stored object *)
(* ====================================================================== *)

Section HeapSteps.
Import FinalHeap.

Lemma bindM_ok {A B} (m : M A) (f : A -> M B) h a h' :
  m h = Ok (a, h') -> bindM m f h = f a h'.
Proof. unfold bindM. now intros ->. Qed.

Lemma heap_update_length {A} (x : A) l : forall i,
  List.length (FinalHeap.update i x l) = List.length l.
Proof.
  induction l as [|a l IH]; intros [|i]; simpl; auto.
Qed.

Lemma nth_error_update_same {A} (x : A) l : forall i,
  i < List.length l -> nth_error (FinalHeap.update i x l) i = Some x.
Proof.
  induction l as [|a l IH]; intros [|i] L; simpl in *; try lia; auto.
  apply IH. lia.
Qed.

Lemma nth_error_update_other {A} (x : A) l : forall i j,
  i <> j -> nth_error (FinalHeap.update i x l) j = nth_error l j.
Proof.
  induction l as [|a l IH]; intros [|i] [|j] N; simpl; auto; try congruence.
Qed.

Lemma nth_error_Some_lt {A} (l : list A) i x :
  nth_error l i = Some x -> i < List.length l.
Proof. intros E. apply nth_error_Some. congruence. Qed.

Lemma read_dict_ok h a d :
  nth_error h a = Some (ODict d) -> read_dict a h = Ok (d, h).
Proof. intros E. unfold read_dict, bindM, read. now rewrite E. Qed.

Lemma read_list_ok h a l :
  nth_error h a = Some (OList l) -> read_list a h = Ok (l, h).
Proof. intros E. unfold read_list, bindM, read. now rewrite E. Qed.

Lemma getitem_ok h a d k v :
  nth_error h a = Some (ODict d) -> dict_get k d = Some v ->
  getitem a k h = Ok (v, h).
Proof.
  intros E Ek. unfold getitem. rewrite (bindM_ok _ _ _ _ _ (read_dict_ok _ _ _ E)).
  now rewrite Ek.
Qed.

Lemma copy_ok h a o :
  nth_error h a = Some o -> copy a h = Ok (List.length h, (h ++ [o])%list).
Proof. intros E. unfold copy, bindM, read. now rewrite E. Qed.

Lemma write_ok h a o o' :
  nth_error h a = Some o -> write a o' h = Ok (tt, FinalHeap.update a o' h).
Proof. intros E. unfold write. now rewrite E. Qed.

Lemma setitem_ok h a d k v :
  nth_error h a = Some (ODict d) ->
  setitem a k v h = Ok (tt, FinalHeap.update a (ODict (dict_set k v d)) h).
Proof.
  intros E. unfold setitem.
  rewrite (bindM_ok _ _ _ _ _ (read_dict_ok _ _ _ E)).
  now apply write_ok with (ODict d).
Qed.

Lemma pop_ok h a d k :
  nth_error h a = Some (ODict d) ->
  pop a k h = Ok (tt, FinalHeap.update a (ODict (dict_pop k d)) h).
Proof.
  intros E. unfold pop.
  rewrite (bindM_ok _ _ _ _ _ (read_dict_ok _ _ _ E)).
  now apply write_ok with (ODict d).
Qed.

Lemma append_ok h a l v :
  nth_error h a = Some (OList l) ->
  append a v h = Ok (tt, FinalHeap.update a (OList (l ++ [v])%list) h).
Proof.
  intros E. unfold append.
  rewrite (bindM_ok _ _ _ _ _ (read_list_ok _ _ _ E)).
  now apply write_ok with (OList l).
Qed.

Variable h0 : heap.

Lemma grows_refl h : grows h0 h h.
Proof. split; [|split]; auto. Qed.

Lemma grows_trans h1 h2 h3 : grows h0 h1 h2 -> grows h0 h2 h3 -> grows h0 h1 h3.
Proof.
  intros (A1 & B1 & C1) (A2 & B2 & C2). split; [|split]; auto.
Qed.

(** Allocation changes nothing that exists. *)
Lemma nth_error_alloc (h : heap) o a x :
  nth_error h a = Some x -> nth_error (h ++ [o])%list a = Some x.
Proof.
  intros E. rewrite nth_error_app1; [assumption|].
  now apply nth_error_Some_lt with x.
Qed.

Lemma grows_alloc h o : grows h0 h (h ++ [o])%list.
Proof.
  split; [|split].
  - intros b [l E]. exists l. now apply nth_error_alloc.
  - intros b [d E]. exists d. now apply nth_error_alloc.
  - intros (X & [l L] & R). split; [|split].
    + intros a La. pose proof (X a La) as Xa.
      destruct (nth_error h0 a) as [x|] eqn:E.
      * now rewrite (nth_error_alloc h o a x Xa).
      * apply nth_error_None in E. lia.
    + exists l. now apply nth_error_alloc.
    + now apply nth_error_alloc.
Qed.

(** A write that keeps the kind of the object, at an address allocated
    after [result] or at the list of things of [result]. *)
Lemma grows_write h a o o' :
  nth_error h a = Some o -> same_kind o o' ->
  later h0 a \/ a = List.length h0 ->
  grows h0 h (FinalHeap.update a o' h).
Proof.
  intros E K W.
  assert (La : a < List.length h) by now apply nth_error_Some_lt with o.
  assert (Keep : forall b, b <> a ->
            nth_error (FinalHeap.update a o' h) b = nth_error h b).
  { intros b N. apply nth_error_update_other. congruence. }
  split; [|split].
  - intros b [l L]. destruct (Nat.eq_dec b a) as [->|N].
    + rewrite E in L. inversion L; subst.
      destruct o' as [d'|l']; [destruct K|].
      exists l'. now apply nth_error_update_same.
    + exists l. now rewrite Keep.
  - intros b [d D]. destruct (Nat.eq_dec b a) as [->|N].
    + rewrite E in D. inversion D; subst.
      destruct o' as [d'|l']; [|destruct K].
      exists d'. now apply nth_error_update_same.
    + exists d. now rewrite Keep.
  - intros (X & [l L] & R). unfold later in W. split; [|split].
    + intros b Lb. rewrite Keep by lia. now apply X.
    + destruct (Nat.eq_dec (List.length h0) a) as [Ea|N].
      * subst a. rewrite E in L. inversion L; subst o.
        destruct o' as [d'|l']; [destruct K|].
        exists l'. now apply nth_error_update_same.
      * exists l. rewrite Keep by congruence. assumption.
    + rewrite Keep by lia. assumption.
Qed.

End HeapSteps.


Section HeapAssembly.
Import FinalHeap.

Variable h0 : heap.
Variable st : stores.
Hypothesis Hwf : well_formed st h0.

(** Runs the computation at the head of a sequence. *)
Ltac run :=
  erewrite bindM_ok
    by first [ reflexivity
             | eapply getitem_ok; [eassumption | first [eassumption | reflexivity]]
             | eapply read_dict_ok; eassumption
             | eapply read_list_ok; eassumption
             | eapply copy_ok; eassumption ].

Lemma forM_runs {A} (body : A -> M unit) (J : heap -> Prop) l :
  (forall x, In x l -> forall h, J h -> exists h', body x h = Ok (tt, h') /\ J h') ->
  forall h, J h -> exists h', forM body l h = Ok (tt, h') /\ J h'.
Proof.
  induction l as [|x l IH]; intros B h Jh; simpl.
  - exists h. now split.
  - destruct (B x (or_introl eq_refl) h Jh) as (h1 & E1 & J1).
    rewrite (bindM_ok _ _ _ _ _ E1).
    apply IH; [|assumption]. intros y Iy. apply B. now right.
Qed.

Lemma nth_error_new (h : heap) o :
  nth_error (h ++ [o])%list (List.length h) = Some o.
Proof. rewrite nth_error_app2, Nat.sub_diag; [reflexivity | lia]. Qed.

Lemma assembling_later h : assembling h0 h -> later h0 (List.length h).
Proof.
  intros (_ & _ & R). apply nth_error_Some_lt in R. unfold later. lia.
Qed.

(** An old object is where it was. *)
Lemma old_object h a o :
  assembling h0 h -> nth_error h0 a = Some o -> nth_error h a = Some o.
Proof.
  intros (X & _) E. rewrite X; [assumption|]. now apply nth_error_Some_lt with o.
Qed.

Lemma attach_observation_runs h datastream datastream_observations observation :
  assembling h0 h ->
  has_text_id h0 (HRef datastream) ->
  is_observation h0 observation ->
  later h0 datastream_observations ->
  is_list h datastream_observations ->
  exists h',
    attach_observation datastream datastream_observations observation h
    = Ok (tt, h')
    /\ grows h0 h h'.
Proof.
  intros As (a & dd & did & Ea & Ed & Edid)
         (o & od & r & -> & Eo & Er & (ra & rd & rid & -> & Era & Erid)) Ld Ll.
  inversion Ea; subst a; clear Ea.
  pose proof (old_object _ _ _ As Ed) as Ld'.
  pose proof (old_object _ _ _ As Eo) as Lo.
  pose proof (old_object _ _ _ As Era) as Lra.
  unfold attach_observation. do 7 run.
  destruct (String.eqb rid did).
  2:{ exists h. split; [reflexivity | apply grows_refl]. }
  run.
  pose proof (nth_error_new h (ODict od)) as E1.
  rewrite (bindM_ok _ _ _ _ _ (pop_ok _ _ _ "Datastream" E1)).
  assert (G1 : grows h0 h (h ++ [ODict od])%list) by apply grows_alloc.
  assert (G2 : grows h0 (h ++ [ODict od])%list
                 (FinalHeap.update (List.length h)
                    (ODict (dict_pop "Datastream" od)) (h ++ [ODict od])%list)).
  { apply grows_write with (ODict od); [assumption | exact I |].
    left. now apply assembling_later. }
  pose proof (grows_trans _ _ _ _ G1 G2) as G12.
  destruct (proj1 G12 _ Ll) as [l L2].
  rewrite (append_ok _ _ _ (HRef (List.length h)) L2).
  eexists. split; [reflexivity|].
  eapply grows_trans; [exact G12|].
  apply grows_write with (OList l); [assumption | exact I | now left].
Qed.

Lemma attach_datastream_runs h thing thing_datastreams key dv :
  assembling h0 h ->
  has_text_id h0 (HRef thing) ->
  has_text_id h0 dv ->
  later h0 thing_datastreams ->
  is_list h thing_datastreams ->
  exists h',
    attach_datastream st thing thing_datastreams (key, dv) h = Ok (tt, h')
    /\ grows h0 h h'.
Proof.
  intros As Ht Hd Lt Ll.
  pose proof Ht as (a & td & tid & Ea & Et & Etid).
  inversion Ea; subst a; clear Ea.
  pose proof Hd as (ds & dd & did & -> & Ed & Edid).
  pose proof (old_object _ _ _ As Et) as Lt'.
  pose proof (old_object _ _ _ As Ed) as Ld'.
  unfold attach_datastream. do 2 run.
  destruct (startswith key tid).
  2:{ exists h. split; [reflexivity | apply grows_refl]. }
  do 2 run.
  set (h1 := (h ++ [ODict dd])%list).
  assert (G1 : grows h0 h h1) by apply grows_alloc.
  assert (As1 : assembling h0 h1) by now apply G1.
  run. cbv beta.
  set (h2 := (h1 ++ [OList []])%list).
  assert (G2 : grows h0 h1 h2) by apply grows_alloc.
  assert (As2 : assembling h0 h2) by now apply G2.
  destruct Hwf as (_ & _ & _ & (os & Eos & Fos)).
  pose proof (old_object _ _ _ As2 Eos) as Los.
  run.
  assert (Ldobs : is_list h2 (List.length h1))
    by (exists []; apply nth_error_new).
  assert (Ldwo : is_dict h2 (List.length h))
    by (apply G2; exists dd; apply nth_error_new).
  destruct (forM_runs (attach_observation ds (List.length h1))
              (fun hx => grows h0 h2 hx) os) with (h := h2)
    as (h3 & E3 & G3).
  { intros x Ix hx Gx.
    destruct (attach_observation_runs hx ds (List.length h1) x)
      as (hy & Ey & Gy).
    - now apply Gx.
    - exact Hd.
    - rewrite Forall_forall in Fos. now apply Fos.
    - now apply assembling_later.
    - now apply Gx.
    - exists hy. split; [exact Ey | now apply grows_trans with hx]. }
  { apply grows_refl. }
  rewrite (bindM_ok _ _ _ _ _ E3).
  destruct (proj1 G3 _ Ldobs) as [l L3].
  run.
  assert (G4 : exists h4,
             match l with
             | [] => ret tt
             | _ => setitem (List.length h) "Observations"
                      (HRef (List.length h1))
             end h3 = Ok (tt, h4) /\ grows h0 h3 h4).
  { destruct l.
    - exists h3. split; [reflexivity | apply grows_refl].
    - destruct (proj1 (proj2 G3) _ Ldwo) as [d4 D4].
      rewrite (setitem_ok _ _ _ "Observations" (HRef (List.length h1)) D4).
      eexists. split; [reflexivity|].
      apply grows_write with (ODict d4); [assumption | exact I |].
      left. now apply assembling_later. }
  destruct G4 as (h4 & E4 & G4).
  rewrite (bindM_ok _ _ _ _ _ E4).
  assert (G04 : grows h0 h h4).
  { apply grows_trans with h1; [assumption|].
    apply grows_trans with h2; [assumption|].
    now apply grows_trans with h3. }
  destruct (proj1 G04 _ Ll) as [l5 L5].
  rewrite (append_ok _ _ _ (HRef (List.length h)) L5).
  eexists. split; [reflexivity|].
  eapply grows_trans; [exact G04|].
  apply grows_write with (OList l5); [assumption | exact I | now left].
Qed.

Lemma nest_thing_runs h key tv :
  assembling h0 h ->
  has_text_id h0 tv ->
  exists h',
    nest_thing st (S (List.length h0)) (key, tv) h = Ok (tt, h')
    /\ grows h0 h h'.
Proof.
  intros As Ht.
  pose proof Ht as (thing & td & tid & -> & Et & Etid).
  pose proof (old_object _ _ _ As Et) as Lt.
  unfold nest_thing. do 2 run.
  set (h1 := (h ++ [ODict td])%list).
  assert (G1 : grows h0 h h1) by apply grows_alloc.
  assert (As1 : assembling h0 h1) by now apply G1.
  assert (Ltwr : is_dict h1 (List.length h))
    by (exists td; apply nth_error_new).
  pose proof (old_object _ _ _ As1 Et) as Lt1.
  do 2 run.
  destruct Hwf as ((ts & Ets & Fts) & (ls & Els) & (dss & Edss & Fdss) & _).
  pose proof (old_object _ _ _ As1 Els) as Lls.
  run.
  assert (G2 : exists h2,
             match dict_get tid ls with
             | Some location =>
                 l <~ new (OList [location]) ;;
                 setitem (List.length h) "Locations" (HRef l)
             | None => ret tt
             end h1 = Ok (tt, h2) /\ grows h0 h1 h2).
  { destruct (dict_get tid ls) as [location|].
    - run. cbv beta.
      assert (Ga : grows h0 h1 (h1 ++ [OList [location]])%list)
        by apply grows_alloc.
      destruct (proj1 (proj2 Ga) _ Ltwr) as [d2 D2].
      rewrite (setitem_ok _ _ _ "Locations" (HRef (List.length h1)) D2).
      eexists. split; [reflexivity|].
      eapply grows_trans; [exact Ga|].
      apply grows_write with (ODict d2); [assumption | exact I |].
      left. now apply assembling_later.
    - exists h1. split; [reflexivity | apply grows_refl]. }
  destruct G2 as (h2 & E2 & G2).
  rewrite (bindM_ok _ _ _ _ _ E2).
  assert (As2 : assembling h0 h2) by now apply G2.
  run. cbv beta.
  set (h3 := (h2 ++ [OList []])%list).
  assert (G3 : grows h0 h2 h3) by apply grows_alloc.
  assert (As3 : assembling h0 h3) by now apply G3.
  pose proof (old_object _ _ _ As3 Edss) as Ldss.
  run.
  assert (Ltds : is_list h3 (List.length h2))
    by (exists []; apply nth_error_new).
  destruct (forM_runs (attach_datastream st thing (List.length h2))
              (fun hx => grows h0 h3 hx) dss) with (h := h3)
    as (h4 & E4 & G4).
  { intros [k dv] Ix hx Gx.
    destruct (attach_datastream_runs hx thing (List.length h2) k dv)
      as (hy & Ey & Gy).
    - now apply Gx.
    - exact Ht.
    - rewrite Forall_forall in Fdss. apply (Fdss _ Ix).
    - now apply assembling_later.
    - now apply Gx.
    - exists hy. split; [exact Ey | now apply grows_trans with hx]. }
  { apply grows_refl. }
  rewrite (bindM_ok _ _ _ _ _ E4).
  destruct (proj1 G4 _ Ltds) as [l L4].
  run.
  assert (G13 : grows h0 h1 h3) by now apply grows_trans with h2.
  assert (G14 : grows h0 h1 h4) by now apply grows_trans with h3.
  assert (G5 : exists h5,
             match l with
             | [] => ret tt
             | _ => setitem (List.length h) "Datastreams"
                      (HRef (List.length h2))
             end h4 = Ok (tt, h5) /\ grows h0 h4 h5).
  { destruct l.
    - exists h4. split; [reflexivity | apply grows_refl].
    - destruct (proj1 (proj2 G14) _ Ltwr) as [d5 D5].
      rewrite (setitem_ok _ _ _ "Datastreams" (HRef (List.length h2)) D5).
      eexists. split; [reflexivity|].
      apply grows_write with (ODict d5); [assumption | exact I |].
      left. now apply assembling_later. }
  destruct G5 as (h5 & E5 & G5).
  rewrite (bindM_ok _ _ _ _ _ E5).
  assert (G05 : grows h0 h h5).
  { apply grows_trans with h1; [assumption|].
    now apply grows_trans with h4. }
  assert (As5 : assembling h0 h5) by now apply G05.
  destruct As5 as (_ & [l6 L6] & R5).
  do 2 run.
  rewrite (append_ok _ _ _ (HRef (List.length h)) L6).
  eexists. split; [reflexivity|].
  eapply grows_trans; [exact G05|].
  apply grows_write with (OList l6); [assumption | exact I | now right].
Qed.

(** The assembly returns, and the heap it leaves is the heap it found
    followed by new objects. *)
Lemma assemble_runs :
  exists result h',
    assemble st h0 = Ok (result, h') /\ assembling h0 h'.
Proof.
  unfold assemble. run. cbv beta. run. cbv beta.
  set (h2 := ((h0 ++ [OList []]) ++
              [ODict [("Things", HRef (List.length h0))]])%list).
  assert (As2 : assembling h0 h2).
  { split; [|split].
    - intros a La. unfold h2. rewrite !nth_error_app1; [reflexivity | lia |].
      rewrite length_app. simpl. lia.
    - exists []. unfold h2. rewrite nth_error_app1.
      + apply nth_error_new.
      + rewrite length_app. simpl. lia.
    - unfold h2. replace (S (List.length h0))
        with (List.length (h0 ++ [OList []])%list)
        by (rewrite length_app; simpl; lia).
      apply nth_error_new. }
  destruct Hwf as ((ts & Ets & Fts) & _).
  pose proof (old_object _ _ _ As2 Ets) as Lts.
  replace (List.length (h0 ++ [OList []])%list) with (S (List.length h0))
    by (rewrite length_app; simpl; lia).
  run.
  destruct (forM_runs (nest_thing st (S (List.length h0)))
              (fun hx => grows h0 h2 hx) ts) with (h := h2)
    as (h3 & E3 & G3).
  { intros [k tv] Ix hx Gx.
    destruct (nest_thing_runs hx k tv) as (hy & Ey & Gy).
    - now apply Gx.
    - rewrite Forall_forall in Fts. apply (Fts _ Ix).
    - exists hy. split; [exact Ey | now apply grows_trans with hx]. }
  { apply grows_refl. }
  rewrite (bindM_ok _ _ _ _ _ E3).
  eexists. eexists. split; [reflexivity|]. now apply G3.
Qed.

End HeapAssembly.


Section HeapFrame.
Import FinalHeap.

Lemma extends_app h0 : forall h, extends h0 h -> exists fresh, h = (h0 ++ fresh)%list.
Proof.
  induction h0 as [|x h0 IH]; intros h X.
  - now exists h.
  - destruct h as [|y h].
    + specialize (X 0 ltac:(simpl; lia)). discriminate.
    + pose proof (X 0 ltac:(simpl; lia)) as E0. simpl in E0.
      inversion E0; subst y.
      destruct (IH h) as [fresh ->].
      * intros a La. apply (X (S a)). simpl. lia.
      * now exists fresh.
Qed.

Lemma fold_dict_grown (f g : hval -> option value) (d : dict hval) :
  (forall v x, f v = Some x -> g v = Some x) ->
  forall ys,
    fold_right (fun kx acc =>
                  match f (snd kx), acc with
                  | Some y, Some ys => Some ((fst kx, y) :: ys)
                  | _, _ => None
                  end) (Some []) d = Some ys ->
    fold_right (fun kx acc =>
                  match g (snd kx), acc with
                  | Some y, Some ys => Some ((fst kx, y) :: ys)
                  | _, _ => None
                  end) (Some []) d = Some ys.
Proof.
  intros Hfg. induction d as [|[k v] d IHd]; simpl; intros ys F;
    [assumption|].
  destruct (f v) as [y|] eqn:Ry; [|discriminate].
  destruct (fold_right _ (Some []) d) as [ys'|] eqn:F'; [|discriminate].
  now rewrite (Hfg _ _ Ry), (IHd _ eq_refl).
Qed.

Lemma fold_list_grown (f g : hval -> option value) (l : list hval) :
  (forall v x, f v = Some x -> g v = Some x) ->
  forall ys,
    fold_right (fun v acc =>
                  match f v, acc with
                  | Some y, Some ys => Some (y :: ys)
                  | _, _ => None
                  end) (Some []) l = Some ys ->
    fold_right (fun v acc =>
                  match g v, acc with
                  | Some y, Some ys => Some (y :: ys)
                  | _, _ => None
                  end) (Some []) l = Some ys.
Proof.
  intros Hfg. induction l as [|v l IHl]; simpl; intros ys F; [assumption|].
  destruct (f v) as [y|] eqn:Ry; [|discriminate].
  destruct (fold_right _ (Some []) l) as [ys'|] eqn:F'; [|discriminate].
  now rewrite (Hfg _ _ Ry), (IHl _ eq_refl).
Qed.

(** What could be read in a heap reads the same once the heap has grown. *)
Lemma reify_grown h0 fresh : forall fuel v x,
  reify fuel h0 v = Some x -> reify fuel (h0 ++ fresh)%list v = Some x.
Proof.
  induction fuel as [|fuel IH]; intros [| b | c | a] x; simpl; auto.
  destruct (nth_error h0 a) as [o|] eqn:E; [|discriminate].
  rewrite (nth_error_app1 _ _ (nth_error_Some_lt _ _ _ E)), E.
  destruct o as [d|l].
  - intros R. destruct (fold_right _ (Some []) d) as [ys|] eqn:F;
      [|discriminate].
    now rewrite (fold_dict_grown _ (reify fuel (h0 ++ fresh)%list) d IH ys F).
  - intros R. destruct (fold_right _ (Some []) l) as [ys|] eqn:F;
      [|discriminate].
    now rewrite (fold_list_grown _ (reify fuel (h0 ++ fresh)%list) l IH ys F).
Qed.

End HeapFrame.

(** C10.  In [final_version_6things.py] the assembly of the nested
    document changes no object that existed before it.  On stores as the
    main loop leaves them it returns, and the heap it leaves is the heap it
    found followed by newly allocated objects: the copies of the things,
    datastreams and observations and the new lists.  The children are
    attached to the copies and [pop("Datastream")] is applied to the copy
    of an observation, so every object of the stores, in particular the
    list of observations and the dictionary of datastreams, is at the same
    place with the same content, and whatever could be read from the heap
    before reads the same after. *)
Theorem assembly_changes_no_stored_object :
  forall (st : FinalHeap.stores) (h0 : FinalHeap.heap),
    FinalHeap.well_formed st h0 ->
    exists result fresh,
      FinalHeap.assemble st h0 = Ok (result, (h0 ++ fresh)%list)
      /\ (forall a, a < List.length h0 ->
            nth_error (h0 ++ fresh)%list a = nth_error h0 a)
      /\ nth_error (h0 ++ fresh)%list (FinalHeap.observations st)
         = nth_error h0 (FinalHeap.observations st)
      /\ nth_error (h0 ++ fresh)%list (FinalHeap.datastreams st)
         = nth_error h0 (FinalHeap.datastreams st)
      /\ (forall fuel v x,
            FinalHeap.reify fuel h0 v = Some x ->
            FinalHeap.reify fuel (h0 ++ fresh)%list v = Some x).
Proof.
  intros st h0 W.
  destruct (assemble_runs h0 st W) as (result & h' & E & (X & _)).
  destruct (extends_app h0 h' X) as [fresh ->].
  exists result, fresh. split; [exact E|].
  assert (Old : forall a, a < List.length h0 ->
                  nth_error (h0 ++ fresh)%list a = nth_error h0 a)
    by (intros a La; now apply nth_error_app1).
  destruct W as (_ & _ & (ds & Ed & _) & (os & Eo & _)).
  split; [exact Old|]. split; [|split].
  - apply Old. now apply nth_error_Some_lt with (FinalHeap.OList os).
  - apply Old. now apply nth_error_Some_lt with (FinalHeap.ODict ds).
  - apply reify_grown.
Qed.

Lemma sample_heap_well_formed : FinalHeap.well_formed sample_stores sample_heap.
Proof.
  unfold FinalHeap.well_formed. repeat split.
  - eexists. split; [reflexivity|]. repeat constructor.
    do 3 eexists. repeat split; reflexivity.
  - eexists. reflexivity.
  - eexists. split; [reflexivity|]. repeat constructor.
    do 3 eexists. repeat split; reflexivity.
  - eexists. split; [reflexivity|]. repeat constructor.
    do 3 eexists. split; [reflexivity|]. split; [reflexivity|].
    split; [reflexivity|]. do 3 eexists. repeat split; reflexivity.
Qed.

Lemma assembly_changes_no_stored_object_witness :
  FinalHeap.well_formed sample_stores sample_heap
  /\ exists result fresh,
       FinalHeap.assemble sample_stores sample_heap
       = Ok (result, (sample_heap ++ fresh)%list).
Proof.
  split; [exact sample_heap_well_formed|].
  destruct (assembly_changes_no_stored_object sample_stores sample_heap
              sample_heap_well_formed) as (result & fresh & E & _).
  exists result, fresh. exact E.
Defined.

(** The document built on the heap, read back, is the document of
    [Final.assemble], and the stores are left as they were, on the sample
    workbooks. *)
Lemma heap_assembly_agrees_on_samples :
  forall wb, In wb [wb_two_columns; wb_prefix_ids; wb_scenario; wb_no_timestamp] ->
    match @assembled_on_heap sample_runtime wb with
    | Some (read_back, doc, kept, before) =>
        read_back = Some doc /\ kept = before
    | None => False
    end.
Proof.
  intros wb [<-|[<-|[<-|[<-|[]]]]]; vm_compute; split; reflexivity.
Qed.

(** What the assembly makes of the sample heap. *)
Lemma sample_heap_document :
  match FinalHeap.assemble sample_stores sample_heap with
  | Ok (result, h') =>
      FinalHeap.reify 10 h' (FinalHeap.HRef result)
      = Some (VDict
                [("Things",
                  VList
                    [VDict
                       [("@iot.id", VStr "thing_MS1");
                        ("name", VStr "Station MS1");
                        ("Datastreams",
                         VList
                           [VDict
                              [("@iot.id", VStr "ds_thing_MS1_TEMP");
                               ("Observations",
                                VList [VDict [("result", VFloat (Fin (41 # 2)))]])]])]])])
      /\ firstn 8 h' = sample_heap
  | Err _ => False
  end.
Proof. vm_compute. split; reflexivity. Qed.


(* ====================================================================== *)
(** ** The states of a run and the scenario of the specification *)
(* ====================================================================== *)

Section CustomizedRun.
Context `{PyBuiltins}.
Import Customized.

Lemma create_datastream_things thing_id property_name st :
  things (snd (create_datastream thing_id property_name st)) = things st.
Proof.
  unfold create_datastream. destruct (dict_get _ (datastreams st));
    [reflexivity|].
  unfold create_sensor. destruct (dict_get _ (sensors st)); cbn [fst snd];
    unfold create_observed_property;
    match goal with
    | |- context [dict_get property_name (observed_properties ?s)] =>
        destruct (dict_get property_name (observed_properties s))
    end; reflexivity.
Qed.

Lemma process_cell_things cols row timestamp_column thing_id timestamp column
  st st' :
  process_cell cols row timestamp_column thing_id timestamp column st = Ok st' ->
  things st' = things st.
Proof.
  unfold process_cell. destruct (skipped_column _ _); [now intros [= <-]|].
  destruct (row_getitem cols row column) as [v|]; cbn [bind]; [|discriminate].
  destruct (isna v); [now intros [= <-]|].
  pose proof (create_datastream_things thing_id (measurement_type_of column) st)
    as T.
  destruct (create_datastream _ _ st) as [d st1]. cbn [snd] in T.
  destruct (py_float v); cbn [bind]; [|discriminate].
  intros [= <-]. exact T.
Qed.

Lemma process_row_well_named cols category timestamp_column row st st' :
  things_well_named st ->
  process_row cols category timestamp_column row st = Ok st' ->
  things_well_named st'.
Proof.
  intros W. unfold process_row.
  destruct (row_getitem cols row id_column) as [id_cell|]; cbn [bind];
    [|discriminate].
  pose proof (create_thing_well_named (py_str id_cell) category st W) as [W1 Eid].
  destruct (create_thing (py_str id_cell) category st) as [thing st1].
  cbn [fst snd] in *. rewrite Eid.
  destruct (create_location_ok (py_str id_cell) st1)
    as (l & st2 & -> & Ft & _).
  cbn [bind].
  destruct (row_getitem cols row timestamp_column) as [ts|]; cbn [bind];
    [|discriminate].
  assert (W2 : things_well_named st2)
    by (unfold things_well_named; now rewrite Ft).
  destruct (isna ts); [now intros [= <-]|].
  apply (foldM_invariant things_well_named); [|assumption].
  intros column s s' _ Ws E. unfold things_well_named.
  now rewrite (process_cell_things _ _ _ _ _ _ _ _ E).
Qed.

(** Every state of a run of [transform] has well-named things, so the
    location of a thing can always be registered. *)
Lemma customized_run_well_named excel_data sheets st :
  foldM (process_sheet excel_data) sheets init = Ok st ->
  things_well_named st.
Proof.
  apply (foldM_invariant things_well_named); [|apply things_well_named_init].
  intros sheet_name s s' _ Ws. unfold process_sheet.
  destruct (String.eqb sheet_name "LEGENDE"); [now intros [= <-]|].
  destruct (getitem sheet_name excel_data) as [df|]; cbn [bind];
    [|discriminate].
  apply (foldM_invariant things_well_named); [|assumption].
  intros row s1 s2 _. apply process_row_well_named.
Qed.

End CustomizedRun.

(** Station MS1 at T1 and T2 with the temperatures 20.5 and NaN: one thing,
    one datastream (TEMP), one observation, 20.5 at T1, in both wide-sheet
    converters. *)
Lemma scenario_missing_value :
  on_doc observation_table (@Customized.transform sample_runtime wb_scenario)
  = Some [(VStr "ds_thing_MS1_TEMP", [VFloat (Fin (41 # 2))])]
  /\ on_doc datastream_table (@Customized.transform sample_runtime wb_scenario)
     = Some [(VStr "thing_MS1", [VStr "ds_thing_MS1_TEMP"])]
  /\ on_doc (fun doc =>
               flat_map (fun t =>
                  flat_map (fun d => map (field "phenomenonTime")
                                       (datastream_observations d))
                    (thing_datastreams t)) (doc_things doc))
       (@Final.excel_to_sensorthings sample_runtime wb_scenario)
     = Some [Some (VStr "2024-05-01T00:00:00")]
  /\ on_doc observation_table
       (@Final.excel_to_sensorthings sample_runtime wb_scenario)
     = Some [(VStr "ds_thing_Unknown__MS1_TEMP_Unknown_", [VFloat (Fin (41 # 2))])].
Proof. repeat split; vm_compute; reflexivity. Qed.


(* ====================================================================== *)
(** ** The normalized converter on what the sheets give *)
(* ====================================================================== *)

Section NormalizedPipeline.
Import Normalized.
Context `{PyBuiltins}.
Variable uuid4 : nat -> string.

Lemma link_raw cols row c k e :
  dict_get k e = None -> raw_reference k (link cols row c k e).
Proof.
  intros E. unfold raw_reference. rewrite link_same.
  destruct (present cols row c) as [id|]; [right; now exists id | now left].
Qed.

Lemma link_raw_other cols row c k e k' :
  k <> k' -> raw_reference k' e -> raw_reference k' (link cols row c k e).
Proof.
  intros N. unfold raw_reference. now rewrite link_other.
Qed.

Lemma datastream_of_row_raw cols row n e :
  datastream_of_row uuid4 cols row n = Ok e ->
  raw_reference "Sensor" e /\ raw_reference "ObservedProperty" e.
Proof.
  unfold datastream_of_row.
  destruct (json_field cols row "unitOfMeasurement" (VDict [])); cbn [bind];
    [|discriminate].
  intros [= <-]. split.
  - apply link_raw_other; [discriminate|]. apply link_raw.
    now rewrite link_other by discriminate.
  - apply link_raw. now rewrite !link_other by discriminate.
Qed.

Lemma observation_of_row_raw cols row e :
  observation_of_row cols row = Ok e -> raw_reference "Datastream" e.
Proof.
  unfold observation_of_row.
  destruct (json_field cols row "parameters" (VDict [])) as [parameters|];
    cbn [bind]; [|discriminate].
  set (base := filter is_not_none _).
  assert (F : raw_reference "Datastream"
                (link cols row "datastream_id" "Datastream" base)).
  { apply link_raw. unfold base. now rewrite dict_get_filter_None. }
  assert (G : forall v, raw_reference "Datastream"
                (dict_set "FeatureOfInterest" v
                   (link cols row "datastream_id" "Datastream" base))).
  { intros v. unfold raw_reference in *.
    now rewrite dict_get_set_other by discriminate. }
  destruct (present cols row "feature_of_interest") as [[]|];
    try (intros [= <-]; auto).
  destruct (loads s); cbn [bind]; [|discriminate]. intros [= <-]. auto.
Qed.

(** No entity without an id is the target of a raw reference. *)
Lemma associate_no_ids k targets ds :
  Forall (fun t => dict_get "@iot.id" t = None) targets ->
  raw_reference k ds -> associate k targets ds = Ok ds.
Proof.
  intros F [E|[c E]]; unfold associate; rewrite E; [reflexivity|].
  cbn [ref value_get bind dict_get_none dict_get String.eqb Ascii.eqb Bool.eqb].
  replace (filter (fun t => py_eq (dict_get_none "@iot.id" t) (VCell c)) targets)
    with (@nil entity); [reflexivity|].
  symmetry. induction F as [|t targets Et _ IH]; simpl; [reflexivity|].
  unfold dict_get_none at 1. now rewrite Et.
Qed.

Lemma no_observation_of_none observations :
  Forall (raw_reference "Datastream") observations ->
  filterM (refers_to "Datastream" VNone) observations = Ok [].
Proof.
  induction 1 as [|o observations R _ IH]; simpl; [reflexivity|].
  rewrite IH. unfold refers_to.
  destruct R as [E|[c E]]; rewrite E; [reflexivity|].
  cbn. now destruct c.
Qed.

Variable sta : sta_data.
Hypothesis Hsensors : Forall (fun t => dict_get "@iot.id" t = None) (Sensors sta).
Hypothesis Hproperties :
  Forall (fun t => dict_get "@iot.id" t = None) (ObservedProperties sta).
Hypothesis Hobservations : Forall (raw_reference "Datastream") (Observations sta).

(** On such tables the body of the datastream loop changes nothing. *)
Lemma resolve_datastream_no_ids ds :
  dict_get "@iot.id" ds = None ->
  raw_reference "Sensor" ds -> raw_reference "ObservedProperty" ds ->
  resolve_datastream sta ds = Ok ds.
Proof.
  intros Ei Rs Ro. unfold resolve_datastream.
  rewrite (associate_no_ids _ _ _ Hsensors Rs). cbn [bind].
  rewrite (associate_no_ids _ _ _ Hproperties Ro). cbn [bind].
  unfold dict_get_none. rewrite Ei.
  now rewrite (no_observation_of_none _ Hobservations).
Qed.

Lemma resolve_times_no_ids n ds :
  dict_get "@iot.id" ds = None ->
  raw_reference "Sensor" ds -> raw_reference "ObservedProperty" ds ->
  resolve_times sta n ds = Ok ds.
Proof.
  intros Ei Rs Ro. induction n as [|n IH]; simpl; [reflexivity|].
  now rewrite (resolve_datastream_no_ids ds Ei Rs Ro).
Qed.

Lemma store_after_no_ids ids final :
  Forall (fun ds => dict_get "@iot.id" ds = None /\ raw_reference "Sensor" ds
                    /\ raw_reference "ObservedProperty" ds) (Datastreams sta) ->
  store_after sta ids final -> final = Datastreams sta.
Proof.
  intros F [L K]. apply (nth_ext _ _ [] [] L).
  intros j Lj.
  assert (Lj' : j < List.length (Datastreams sta)) by (rewrite <- L; exact Lj).
  specialize (K j Lj').
  rewrite Forall_forall in F.
  destruct (F (nth j (Datastreams sta) []) (nth_In _ _ Lj')) as (Ei & Rs & Ro).
  rewrite (resolve_times_no_ids _ _ Ei Rs Ro) in K. now inversion K.
Qed.

End NormalizedPipeline.

(** Through [excel_to_sensorthings] no reference to a sensor, an observed
    property or a datastream ever finds its target, because the loops over
    the sheets read no id column: the run fails only on a JSON text that
    does not parse, and otherwise the document is the things with their
    positional ids, each with the locations and the datastreams that name
    its position, the datastreams exactly as they were read, without
    observations. *)
Lemma normalized_document `{PyBuiltins} (uuid4 : nat -> string)
  (excel_data : workbook) (sta : Normalized.sta_data) :
  Normalized.load uuid4 excel_data = Ok sta ->
  Normalized.excel_to_sensorthings uuid4 excel_data
  = Ok (VDict [("Things",
                VList (map (Normalized.render_thing (Normalized.Datastreams sta))
                         (Normalized.nested_things_from sta 0
                            (Normalized.Things sta))))]).
Proof.
  intros L. unfold Normalized.excel_to_sensorthings. rewrite L. cbn [bind].
  destruct (load_spec uuid4 excel_data sta L) as (F & Nt & Ns & No & Nd).
  destruct (construct_nested_structure_total sta F) as [doc E].
  rewrite E. f_equal.
  destruct (construct_nested_structure_spec sta doc E) as (final & SA & ->).
  assert (Ro : Forall (Normalized.raw_reference "Datastream")
                 (Normalized.Observations sta)).
  { revert L. unfold Normalized.load.
    repeat match goal with
           | |- bind ?x _ = _ -> _ =>
               let E := fresh "E" in
               destruct x as [[? ?]|] eqn:E; cbn [bind]; [|discriminate]
           end.
    intros [= <-]. cbn [Normalized.Observations].
    match goal with
    | E : Normalized.load_sheet _ _ "Observations" _ = _ |- _ =>
        apply (load_sheet_Forall _ _ _ _
                 (fun cols row n e => observation_of_row_raw cols row e)
                 _ _ _ E)
    end. }
  assert (Rd : Forall (fun ds => dict_get "@iot.id" ds = None
                                 /\ Normalized.raw_reference "Sensor" ds
                                 /\ Normalized.raw_reference "ObservedProperty" ds)
                 (Normalized.Datastreams sta)).
  { revert L. unfold Normalized.load.
    repeat match goal with
           | |- bind ?x _ = _ -> _ =>
               let E := fresh "E" in
               destruct x as [[? ?]|] eqn:E; cbn [bind]; [|discriminate]
           end.
    intros [= <-]. cbn [Normalized.Datastreams].
    match goal with
    | E : Normalized.load_sheet _ _ "Datastreams" _ = _ |- _ =>
        apply (load_sheet_Forall _ _ _ _
                 (fun cols row n e Er =>
                    conj (datastream_of_row_no_id uuid4 cols row n e Er)
                      (datastream_of_row_raw uuid4 cols row n e Er))
                 _ _ _ E)
    end. }
  now rewrite (store_after_no_ids sta Ns No Ro _ final Rd SA).
Qed.


(* ====================================================================== *)
(** ** What makes a run fail *)
(* ====================================================================== *)

Section LoopFailures.
Context {A S : Type}.
Implicit Types (body : A -> S -> result S) (l : list A).

(** A loop that raises does so in one of its rounds, from a state that
    every property kept by the rounds holds of. *)
Lemma foldM_Err (P : S -> Prop) body l :
  (forall a s s', In a l -> P s -> body a s = Ok s' -> P s') ->
  forall s e, P s -> foldM body l s = Err e ->
  exists a s', In a l /\ P s' /\ body a s' = Err e.
Proof.
  induction l as [|a l IH]; simpl; intros Hb s e Ps E; [discriminate|].
  destruct (body a s) as [s1|e1] eqn:E1; cbn [bind] in E.
  - destruct (IH (fun b t t' I => Hb b t t' (or_intror I)) s1 e) as (b & t & I & Pt & Eb);
      eauto.
    exists b, t. auto.
  - inversion E; subst. exists a, s. auto.
Qed.

(** A loop none of whose rounds raises does not raise. *)
Lemma foldM_Ok body l :
  (forall a s, In a l -> exists s', body a s = Ok s') ->
  forall s, exists s', foldM body l s = Ok s'.
Proof.
  induction l as [|a l IH]; simpl; intros Hb s; [now exists s|].
  destruct (Hb a s (or_introl eq_refl)) as [s1 ->]. cbn [bind].
  apply IH. intros b t I. apply Hb. now right.
Qed.

End LoopFailures.

Lemma row_getitem_present cols row c :
  has_column c cols = true -> exists v, row_getitem cols row c = Ok v.
Proof.
  unfold has_column, row_getitem. destruct (index_of c cols); [eauto|discriminate].
Qed.

Lemma row_getitem_absent cols row c :
  has_column c cols = false -> row_getitem cols row c = Err (KeyError c).
Proof.
  unfold has_column, row_getitem. now destruct (index_of c cols).
Qed.

Lemma py_float_raises `{PyBuiltins} c e :
  py_float c = Err e -> e = ValueError \/ e = TypeError.
Proof.
  destruct c as [n|x|s| |]; cbn; try discriminate.
  - destruct (float_of_str s); [discriminate|]. intros [= <-]. now left.
  - intros [= <-]. now right.
  - intros [= <-]. now right.
Qed.

Section Failures.
Context `{PyBuiltins}.

(** The legend is read without an error whatever it holds. *)
Lemma read_legend_total excel_data :
  exists legend, Final.read_legend excel_data = Ok legend.
Proof.
  unfold Final.read_legend.
  destruct (dict_get "LEGENDE" excel_data) as [df|]; [|now exists []].
  destruct (has_column "HMS" (columns df)) eqn:Eh; cbn [andb]; [|now exists []].
  destruct (has_column "ID_MS" (columns df)) eqn:Ei; [|now exists []].
  apply foldM_Ok. intros row m _. unfold Final.legend_row.
  destruct (row_getitem_present (columns df) row "ID_MS" Ei) as [c ->].
  destruct (row_getitem_present (columns df) row "HMS" Eh) as [h ->].
  cbn [bind]. eauto.
Qed.

(** The loops over the sheets of the normalized shape raise only where a
    JSON text does not parse. *)
Lemma json_field_fails cols row c default e :
  Normalized.json_field cols row c default = Err e ->
  e = JSONDecodeError
  /\ exists s, row_getitem cols row c = Ok (Str s) /\ json_loads s = None.
Proof.
  unfold Normalized.json_field, row_getitem.
  destruct (index_of c cols) as [i|]; [|discriminate].
  destruct (nth i row NaN) as [| |s| |]; try discriminate.
  unfold Normalized.loads. destruct (json_loads s) eqn:E; [discriminate|].
  intros [= <-]. split; [reflexivity|]. now exists s.
Qed.

Lemma load_rows_fails of_row cols rs n e :
  Normalized.load_rows of_row cols rs n = Err e ->
  exists row m, In row rs /\ of_row cols row m = Err e.
Proof.
  revert n. induction rs as [|row rs IH]; simpl; intros n; [discriminate|].
  destruct (of_row cols row n) as [x|e1] eqn:E1; cbn [bind].
  - destruct (Normalized.load_rows of_row cols rs (S n)) as [[es n']|e2] eqn:E2;
      cbn [bind]; [discriminate|].
    intros [= <-]. destruct (IH _ E2) as (r & m & I & E). exists r, m. auto.
  - intros [= <-]. exists row, n. auto.
Qed.

Lemma load_sheet_fails of_row excel_data sheet_name n e :
  Normalized.load_sheet of_row excel_data sheet_name n = Err e ->
  exists df row m,
    dict_get sheet_name excel_data = Some df /\ In row (rows df)
    /\ of_row (columns df) row m = Err e.
Proof.
  unfold Normalized.load_sheet.
  destruct (dict_get sheet_name excel_data) as [df|]; [|discriminate].
  intros E. destruct (load_rows_fails _ _ _ _ _ E) as (row & m & I & Er).
  exists df, row, m. auto.
Qed.

End Failures.


(* ---------------------------------------------------------------------- *)
(** *** The wide-sheet converters, whatever the headers hold *)

Section LabelledFrames.

Lemma label_index_texts c cols : label_index c (map Str cols) = index_of c cols.
Proof.
  induction cols as [|c' cols IH]; cbn [map label_index index_of is_label];
    [reflexivity|].
  now rewrite IH.
Qed.

Lemma row_at_texts cols row c : row_at (map Str cols) row c = row_getitem cols row c.
Proof. unfold row_at, row_getitem. now rewrite label_index_texts. Qed.

Lemma has_label_texts c cols : has_label c (map Str cols) = has_column c cols.
Proof. unfold has_label, has_column. now rewrite label_index_texts. Qed.

Lemma foldM_map {A B S} (f : A -> B) (body : B -> S -> result S) l : forall s,
  foldM body (map f l) s = foldM (fun a => body (f a)) l s.
Proof.
  induction l as [|a l IH]; intros s; cbn [map foldM]; [reflexivity|].
  destruct (body (f a) s); cbn [bind]; [apply IH|reflexivity].
Qed.

Lemma foldM_ext_in {A S} (f g : A -> S -> result S) l :
  (forall a s, In a l -> f a s = g a s) ->
  forall s, foldM f l s = foldM g l s.
Proof.
  induction l as [|a l IH]; intros E s; cbn [foldM]; [reflexivity|].
  rewrite (E a s) by now left.
  destruct (g a s); cbn [bind]; [|reflexivity].
  apply IH. intros b t I. apply E. now right.
Qed.

Lemma dict_get_labelled_sheets excel_data sheet_name :
  dict_get sheet_name (labelled_sheets excel_data)
  = option_map labelled (dict_get sheet_name excel_data).
Proof.
  induction excel_data as [|[k df] wb IH]; cbn; [reflexivity|].
  destruct (String.eqb k sheet_name); [reflexivity|exact IH].
Qed.

Lemma keys_labelled_sheets excel_data :
  keys (labelled_sheets excel_data) = keys excel_data.
Proof. unfold keys, labelled_sheets. rewrite map_map. reflexivity. Qed.

Lemma label_index_In c labels :
  In (Str c) labels -> exists i, label_index c labels = Some i.
Proof.
  induction labels as [|l labels IH]; cbn [In label_index]; [tauto|].
  intros I. destruct (is_label c l) eqn:El; [now exists 0|].
  destruct I as [->|I]; [cbn in El; now rewrite String.eqb_refl in El|].
  destruct (IH I) as [i ->]. now exists (S i).
Qed.

Lemma row_at_In labels row c :
  In (Str c) labels -> exists v, row_at labels row c = Ok v.
Proof.
  intros I. unfold row_at. destruct (label_index_In c labels I) as [i ->]. eauto.
Qed.

Lemma row_at_present labels row c :
  has_label c labels = true -> exists v, row_at labels row c = Ok v.
Proof.
  unfold has_label, row_at. destruct (label_index c labels); [eauto|discriminate].
Qed.

Lemma row_at_absent labels row c :
  has_label c labels = false -> row_at labels row c = Err (KeyError c).
Proof.
  unfold has_label, row_at. now destruct (label_index c labels).
Qed.

Lemma row_at_has_label labels row c v :
  row_at labels row c = Ok v -> has_label c labels = true.
Proof.
  unfold has_label, row_at. now destruct (label_index c labels).
Qed.

End LabelledFrames.

(** On a workbook all of whose headers are texts the converters over any
    labels are the converters over text headers. *)
Section TextHeaders.
Context `{PyBuiltins}.

Lemma customized_process_row_texts cols category timestamp_column row st :
  LabelledCustomized.process_row (map Str cols) category timestamp_column row st
  = Customized.process_row cols category timestamp_column row st.
Proof.
  unfold LabelledCustomized.process_row, Customized.process_row.
  rewrite !row_at_texts.
  destruct (row_getitem cols row id_column) as [id_cell|]; cbn [bind];
    [|reflexivity].
  destruct (Customized.create_thing _ category st) as [thing st1].
  destruct (Customized.create_location _ st1) as [[l st2]|]; cbn [bind];
    [|reflexivity].
  destruct (row_getitem cols row timestamp_column) as [ts|]; cbn [bind];
    [|reflexivity].
  destruct (isna ts); [reflexivity|].
  rewrite foldM_map. apply foldM_ext_in. intros column s _.
  unfold LabelledCustomized.process_cell, Customized.process_cell.
  now rewrite row_at_texts.
Qed.

Lemma customized_transform_texts (excel_data : workbook) :
  LabelledCustomized.transform (labelled_sheets excel_data)
  = Customized.transform excel_data.
Proof.
  unfold LabelledCustomized.transform, Customized.transform.
  rewrite keys_labelled_sheets.
  rewrite (foldM_ext_in _ (Customized.process_sheet excel_data)); [reflexivity|].
  intros sheet_name st _.
  unfold LabelledCustomized.process_sheet, Customized.process_sheet.
  destruct (String.eqb sheet_name "LEGENDE"); [reflexivity|].
  unfold getitem. rewrite dict_get_labelled_sheets.
  destruct (dict_get sheet_name excel_data) as [df|]; cbn [option_map bind];
    [|reflexivity].
  cbn [labelled labels records].
  apply foldM_ext_in. intros row s _. apply customized_process_row_texts.
Qed.

Lemma final_read_legend_texts (excel_data : workbook) :
  LabelledFinal.read_legend (labelled_sheets excel_data)
  = Final.read_legend excel_data.
Proof.
  unfold LabelledFinal.read_legend, Final.read_legend.
  rewrite dict_get_labelled_sheets.
  destruct (dict_get "LEGENDE" excel_data) as [df|]; cbn [option_map];
    [|reflexivity].
  cbn [labelled labels records]. rewrite !has_label_texts.
  destruct (has_column "HMS" (columns df) && has_column "ID_MS" (columns df));
    [|reflexivity].
  apply foldM_ext_in. intros row m _.
  unfold LabelledFinal.legend_row, Final.legend_row.
  now rewrite !row_at_texts.
Qed.

Lemma final_process_row_texts legend cols category timestamp_column row st :
  LabelledFinal.process_row legend (map Str cols) category timestamp_column row st
  = Final.process_row legend cols category timestamp_column row st.
Proof.
  unfold LabelledFinal.process_row, Final.process_row.
  rewrite !row_at_texts.
  destruct (row_getitem cols row id_column) as [id_cell|]; cbn [bind];
    [|reflexivity].
  destruct (Final.register_thing _ _ category st) as [thing_id st1].
  destruct (row_getitem cols row timestamp_column) as [ts|]; cbn [bind];
    [|reflexivity].
  destruct (isna ts); [reflexivity|].
  rewrite foldM_map. apply foldM_ext_in. intros column s _.
  unfold LabelledFinal.process_cell, Final.process_cell.
  now rewrite row_at_texts.
Qed.

Lemma final_excel_to_sensorthings_texts (excel_data : workbook) :
  LabelledFinal.excel_to_sensorthings (labelled_sheets excel_data)
  = Final.excel_to_sensorthings excel_data.
Proof.
  unfold LabelledFinal.excel_to_sensorthings, Final.excel_to_sensorthings.
  unfold LabelledFinal.collect, Final.collect.
  rewrite final_read_legend_texts.
  destruct (Final.read_legend excel_data) as [legend|]; cbn [bind];
    [|reflexivity].
  unfold labelled_sheets. rewrite foldM_map.
  rewrite (foldM_ext_in _ (Final.process_sheet legend)); [reflexivity|].
  intros [sheet_name df] st _.
  unfold LabelledFinal.process_sheet, Final.process_sheet. cbn [fst snd].
  destruct (String.eqb sheet_name "LEGENDE"); [reflexivity|].
  cbn [labelled labels records]. rewrite !has_label_texts.
  destruct (negb (has_column id_column (columns df))
            || negb (has_column (timestamp_column_of sheet_name) (columns df)));
    [reflexivity|].
  apply foldM_ext_in. intros row s _. apply final_process_row_texts.
Qed.

End TextHeaders.

Section LabelledFailures.
Context `{PyBuiltins}.

Lemma labelled_read_legend_total excel_data :
  exists legend, LabelledFinal.read_legend excel_data = Ok legend.
Proof.
  unfold LabelledFinal.read_legend.
  destruct (dict_get "LEGENDE" excel_data) as [df|]; [|now exists []].
  destruct (has_label "HMS" (labels df)) eqn:Eh; cbn [andb]; [|now exists []].
  destruct (has_label "ID_MS" (labels df)) eqn:Ei; [|now exists []].
  apply foldM_Ok. intros row m _. unfold LabelledFinal.legend_row.
  destruct (row_at_present (labels df) row "ID_MS" Ei) as [c ->].
  destruct (row_at_present (labels df) row "HMS" Eh) as [h ->].
  cbn [bind]. eauto.
Qed.

Lemma labelled_final_cell_fails labels row info timestamp_column thing_id
  timestamp column st e :
  In column labels ->
  LabelledFinal.process_cell labels row info timestamp_column thing_id
    timestamp column st = Err e ->
  cell_failure labels row timestamp_column column e.
Proof.
  intros I. unfold LabelledFinal.process_cell, cell_failure.
  destruct column as [n|x|name|iso|];
    try (intros [= <-]; right; split; reflexivity).
  destruct (skipped_column timestamp_column name) eqn:Sk; [discriminate|].
  destruct (row_at_In labels row name I) as [c Ec]. rewrite Ec.
  cbn [bind]. destruct (isna c) eqn:En; [discriminate|].
  destruct (Final.register_observed_property _ _) as [p ops].
  destruct (Final.register_sensor _ _) as [s sens].
  destruct (Final.register_datastream _ _ _ _ _ _) as [d dss].
  destruct (py_float c) as [x|e'] eqn:Ef; cbn [bind]; [discriminate|].
  intros [= <-]. left. exists name, c.
  repeat split; try assumption. exact (py_float_raises c e' Ef).
Qed.

Lemma labelled_customized_cell_fails labels row timestamp_column thing_id
  timestamp column st e :
  In column labels ->
  LabelledCustomized.process_cell labels row timestamp_column thing_id
    timestamp column st = Err e ->
  cell_failure labels row timestamp_column column e.
Proof.
  intros I. unfold LabelledCustomized.process_cell, cell_failure.
  destruct column as [n|x|name|iso|];
    try (intros [= <-]; right; split; reflexivity).
  destruct (skipped_column timestamp_column name) eqn:Sk; [discriminate|].
  destruct (row_at_In labels row name I) as [c Ec]. rewrite Ec.
  cbn [bind]. destruct (isna c) eqn:En; [discriminate|].
  destruct (Customized.create_datastream _ _ st) as [d st1].
  destruct (py_float c) as [x|e'] eqn:Ef; cbn [bind]; [discriminate|].
  intros [= <-]. left. exists name, c.
  repeat split; try assumption. exact (py_float_raises c e' Ef).
Qed.

Lemma labelled_final_row_fails legend labels category timestamp_column row st e :
  has_label id_column labels = true ->
  has_label timestamp_column labels = true ->
  LabelledFinal.process_row legend labels category timestamp_column row st
  = Err e ->
  exists timestamp column,
    row_at labels row timestamp_column = Ok timestamp
    /\ isna timestamp = false
    /\ In column labels
    /\ cell_failure labels row timestamp_column column e.
Proof.
  intros Hi Ht. unfold LabelledFinal.process_row.
  destruct (row_at_present labels row id_column Hi) as [id_cell ->].
  cbn [bind].
  destruct (Final.register_thing _ _ category st) as [thing_id st1].
  destruct (row_at_present labels row timestamp_column Ht) as [ts ->].
  cbn [bind]. destruct (isna ts) eqn:En; [discriminate|].
  intros E.
  destruct (foldM_Err (fun _ => True) _ _ (fun _ _ _ _ _ _ => I) _ _ I E)
    as (column & s & Ic & _ & Ec).
  exists ts, column. repeat split; try assumption.
  exact (labelled_final_cell_fails _ _ _ _ _ _ _ _ _ Ic Ec).
Qed.

Lemma labelled_process_cell_things labels row timestamp_column thing_id
  timestamp column st st' :
  LabelledCustomized.process_cell labels row timestamp_column thing_id
    timestamp column st = Ok st' ->
  Customized.things st' = Customized.things st.
Proof.
  unfold LabelledCustomized.process_cell.
  destruct column as [n|x|name|iso|]; try discriminate.
  destruct (skipped_column _ _); [now intros [= <-]|].
  destruct (row_at labels row name) as [v|]; cbn [bind]; [|discriminate].
  destruct (isna v); [now intros [= <-]|].
  pose proof (create_datastream_things thing_id (measurement_type_of name) st)
    as T.
  destruct (Customized.create_datastream _ _ st) as [d st1]. cbn [snd] in T.
  destruct (py_float v); cbn [bind]; [|discriminate].
  intros [= <-]. exact T.
Qed.

Lemma labelled_process_row_well_named labels category timestamp_column row
  st st' :
  Customized.things_well_named st ->
  LabelledCustomized.process_row labels category timestamp_column row st
  = Ok st' ->
  Customized.things_well_named st'.
Proof.
  intros W. unfold LabelledCustomized.process_row.
  destruct (row_at labels row id_column) as [id_cell|]; cbn [bind];
    [|discriminate].
  pose proof (create_thing_well_named (py_str id_cell) category st W)
    as [W1 Eid].
  destruct (Customized.create_thing (py_str id_cell) category st)
    as [thing st1].
  cbn [fst snd] in *. rewrite Eid.
  destruct (create_location_ok (py_str id_cell) st1)
    as (l & st2 & -> & Ft & _).
  cbn [bind].
  destruct (row_at labels row timestamp_column) as [ts|]; cbn [bind];
    [|discriminate].
  assert (W2 : Customized.things_well_named st2)
    by (unfold Customized.things_well_named; now rewrite Ft).
  destruct (isna ts); [now intros [= <-]|].
  apply (foldM_invariant Customized.things_well_named); [|assumption].
  intros column s s' _ Ws E. unfold Customized.things_well_named.
  now rewrite (labelled_process_cell_things _ _ _ _ _ _ _ _ E).
Qed.

Lemma labelled_process_sheet_well_named excel_data sheet_name st st' :
  Customized.things_well_named st ->
  LabelledCustomized.process_sheet excel_data sheet_name st = Ok st' ->
  Customized.things_well_named st'.
Proof.
  intros W. unfold LabelledCustomized.process_sheet.
  destruct (String.eqb sheet_name "LEGENDE"); [now intros [= <-]|].
  destruct (getitem sheet_name excel_data) as [df|]; cbn [bind]; [|discriminate].
  apply (foldM_invariant Customized.things_well_named); [|assumption].
  intros row s1 s2 _. apply labelled_process_row_well_named.
Qed.

Lemma labelled_customized_row_fails labels category timestamp_column row st e :
  Customized.things_well_named st ->
  LabelledCustomized.process_row labels category timestamp_column row st
  = Err e ->
  (has_label id_column labels = false /\ e = KeyError id_column)
  \/ (has_label timestamp_column labels = false
      /\ e = KeyError timestamp_column)
  \/ exists timestamp column,
       row_at labels row timestamp_column = Ok timestamp
       /\ isna timestamp = false
       /\ In column labels
       /\ cell_failure labels row timestamp_column column e.
Proof.
  intros W. unfold LabelledCustomized.process_row.
  destruct (has_label id_column labels) eqn:Hi.
  2:{ rewrite (row_at_absent labels row _ Hi). cbn [bind].
      intros [= <-]. now left. }
  destruct (row_at_present labels row id_column Hi) as [id_cell ->].
  cbn [bind].
  pose proof (create_thing_well_named (py_str id_cell) category st W) as [_ Eid].
  destruct (Customized.create_thing (py_str id_cell) category st)
    as [thing st1].
  cbn [fst snd] in Eid. rewrite Eid.
  destruct (create_location_ok (py_str id_cell) st1) as (l & st2 & -> & _).
  cbn [bind].
  destruct (has_label timestamp_column labels) eqn:Ht.
  2:{ rewrite (row_at_absent labels row _ Ht). cbn [bind].
      intros [= <-]. right. now left. }
  destruct (row_at_present labels row timestamp_column Ht) as [ts ->].
  cbn [bind]. destruct (isna ts) eqn:En; [discriminate|].
  intros E. right. right.
  destruct (foldM_Err (fun _ => True) _ _ (fun _ _ _ _ _ _ => I) _ _ I E)
    as (column & s & Ic & _ & Ec).
  exists ts, column. repeat split; try assumption.
  exact (labelled_customized_cell_fails _ _ _ _ _ _ _ _ Ic Ec).
Qed.

(** A row with a timestamp, in a frame with a label that is no text, makes
    the loop over the columns raise from any state. *)
Lemma labelled_final_columns_raise labels row info timestamp_column thing_id
  timestamp column :
  In column labels -> is_text column = false ->
  forall st, exists e,
    foldM (LabelledFinal.process_cell labels row info timestamp_column
             thing_id timestamp) labels st = Err e.
Proof.
  intros I T. apply (foldM_raises _ _ column I).
  intros s. exists AttributeError. now destruct column.
Qed.

Lemma labelled_customized_columns_raise labels row timestamp_column thing_id
  timestamp column :
  In column labels -> is_text column = false ->
  forall st, exists e,
    foldM (LabelledCustomized.process_cell labels row timestamp_column
             thing_id timestamp) labels st = Err e.
Proof.
  intros I T. apply (foldM_raises _ _ column I).
  intros s. exists AttributeError. now destruct column.
Qed.

End LabelledFailures.

(** X1.  [excel_to_sensorthings] of [final_version_6things.py], once the
    workbook is read, fails in two ways only, each in a row that has a
    timestamp, in a sheet other than LEGENDE that has its identifier and
    timestamp columns: a measurement cell under a text header is not
    missing and is rejected by [float], with its [ValueError] or
    [TypeError]; or a column of the sheet is headed by something that is no
    text, a number or a date, and [column.startswith] raises an
    [AttributeError].  A missing sheet, a missing column or a malformed
    legend never raise.  (The numbers of a sheet are doubles: [float] takes
    every one of them.) *)
Theorem final_fails_in_two_ways `{PyBuiltins} :
  forall (excel_data : labelled_workbook) (e : exn),
    LabelledFinal.excel_to_sensorthings excel_data = Err e ->
    exists sheet_name df row timestamp,
      In (sheet_name, df) excel_data
      /\ sheet_name <> "LEGENDE"
      /\ has_label id_column (labels df) = true
      /\ In row (records df)
      /\ row_at (labels df) row (timestamp_column_of sheet_name) = Ok timestamp
      /\ isna timestamp = false
      /\ ((exists column c,
             In (Str column) (labels df)
             /\ skipped_column (timestamp_column_of sheet_name) column = false
             /\ row_at (labels df) row column = Ok c
             /\ isna c = false
             /\ py_float c = Err e
             /\ (e = ValueError \/ e = TypeError))
          \/ (e = AttributeError
              /\ exists column,
                   In column (labels df) /\ is_text column = false)).
Proof.
  intros excel_data e.
  unfold LabelledFinal.excel_to_sensorthings, LabelledFinal.collect.
  destruct (labelled_read_legend_total excel_data) as [legend ->]. cbn [bind].
  destruct (foldM (LabelledFinal.process_sheet legend) excel_data Final.init)
    as [st|e'] eqn:E; cbn [bind]; [discriminate|].
  intros [= ->].
  destruct (foldM_Err (fun _ => True) _ _ (fun _ _ _ _ _ _ => I) _ _ I E)
    as ([sheet_name df] & s & Is & _ & Es).
  unfold LabelledFinal.process_sheet in Es.
  destruct (String.eqb_spec sheet_name "LEGENDE") as [|Nl]; [discriminate|].
  destruct (has_label id_column (labels df)) eqn:Hi; [|discriminate].
  destruct (has_label (timestamp_column_of sheet_name) (labels df)) eqn:Ht;
    [|discriminate].
  cbn [negb orb] in Es.
  destruct (foldM_Err (fun _ => True) _ _ (fun _ _ _ _ _ _ => I) _ _ I Es)
    as (row & s' & Ir & _ & Er).
  destruct (labelled_final_row_fails _ _ _ _ _ _ _ Hi Ht Er)
    as (ts & column & Ets & Nts & Ic & F).
  exists sheet_name, df, row, ts. repeat split; try assumption.
  destruct F as [(name & c & -> & Sk & Ec & Nc & Ef & Ee)|[T ->]].
  - left. exists name, c. auto 10.
  - right. split; [reflexivity|]. now exists column.
Qed.

Lemma final_fails_in_two_ways_witness :
  @LabelledFinal.excel_to_sensorthings sample_runtime wb_number_header
  = Err AttributeError
  /\ @LabelledFinal.excel_to_sensorthings sample_runtime wb_text_value
     = Err ValueError
  /\ exists sheet_name df,
       In (sheet_name, df) wb_number_header
       /\ exists column, In column (labels df) /\ is_text column = false.
Proof.
  split; [reflexivity|]. split; [reflexivity|].
  destruct (@final_fails_in_two_ways sample_runtime wb_number_header
              AttributeError eq_refl)
    as (sheet_name & df & row & ts & Is & _ & _ & _ & _ & _ & F).
  exists sheet_name, df. split; [exact Is|].
  destruct F as [(column & c & _ & _ & _ & _ & _ & [D|D])|[_ F]];
    [discriminate D|discriminate D|exact F].
Defined.

(** X2.  [transform] of [excel_to_sta_customized.py], once the workbook is
    read, fails in four ways only, each in a row of a sheet other than
    LEGENDE: the sheet has no [ID_MS] column ([KeyError]); it has no
    timestamp column of the name its sheet name calls for ([KeyError]); the
    row has a timestamp and a measurement cell under a text header that is
    not missing and that [float] rejects ([ValueError] or [TypeError]); or
    the row has a timestamp and a column of the sheet is headed by
    something that is no text, so that [column.startswith] raises an
    [AttributeError].  In particular [create_location] never raises the
    [IndexError] of [thing_id.split('_')[1]], and a sheet without rows
    never raises.  (The numbers of a sheet are doubles: [float] takes every
    one of them.) *)
Theorem customized_fails_in_four_ways `{PyBuiltins} :
  forall (excel_data : labelled_workbook) (e : exn),
    LabelledCustomized.transform excel_data = Err e ->
    exists sheet_name df row,
      dict_get sheet_name excel_data = Some df
      /\ sheet_name <> "LEGENDE"
      /\ In row (records df)
      /\ ((has_label id_column (labels df) = false /\ e = KeyError id_column)
          \/ (has_label (timestamp_column_of sheet_name) (labels df) = false
              /\ e = KeyError (timestamp_column_of sheet_name))
          \/ exists timestamp,
               row_at (labels df) row (timestamp_column_of sheet_name)
               = Ok timestamp
               /\ isna timestamp = false
               /\ ((exists column c,
                      In (Str column) (labels df)
                      /\ skipped_column (timestamp_column_of sheet_name) column
                         = false
                      /\ row_at (labels df) row column = Ok c
                      /\ isna c = false
                      /\ py_float c = Err e
                      /\ (e = ValueError \/ e = TypeError))
                   \/ (e = AttributeError
                       /\ exists column,
                            In column (labels df) /\ is_text column = false))).
Proof.
  intros excel_data e. unfold LabelledCustomized.transform.
  destruct (foldM (LabelledCustomized.process_sheet excel_data)
              (keys excel_data) Customized.init) as [st|e'] eqn:E;
    cbn [bind]; [discriminate|].
  intros [= ->].
  destruct (foldM_Err Customized.things_well_named _ _
              (fun a s s' _ =>
                 labelled_process_sheet_well_named excel_data a s s')
              _ _ things_well_named_init E)
    as (sheet_name & s & Is & Ws & Es).
  unfold LabelledCustomized.process_sheet in Es.
  destruct (String.eqb_spec sheet_name "LEGENDE") as [|Nl]; [discriminate|].
  unfold getitem in Es.
  destruct (dict_get sheet_name excel_data) as [df|] eqn:Ed.
  2:{ exfalso. now apply dict_get_None_keys in Ed. }
  cbn [bind] in Es.
  destruct (foldM_Err Customized.things_well_named _ _
              (fun a s1 s2 _ =>
                 labelled_process_row_well_named (labels df) _ _ a s1 s2)
              _ _ Ws Es)
    as (row & s' & Ir & Ws' & Er).
  exists sheet_name, df, row. repeat split; try assumption.
  destruct (labelled_customized_row_fails _ _ _ _ _ _ Ws' Er)
    as [K|[K|(ts & column & Ets & Nts & Ic & F)]]; [now left|right; now left|].
  right. right. exists ts. repeat split; try assumption.
  destruct F as [(name & c & -> & Sk & Ec & Nc & Ef & Ee)|[T ->]].
  - left. exists name, c. auto 10.
  - right. split; [reflexivity|]. now exists column.
Qed.

Lemma customized_fails_in_four_ways_witness :
  @LabelledCustomized.transform sample_runtime wb_number_header
  = Err AttributeError
  /\ @LabelledCustomized.transform sample_runtime wb_text_value
     = Err ValueError
  /\ exists sheet_name df row,
       dict_get sheet_name wb_number_header = Some df /\ In row (records df).
Proof.
  split; [reflexivity|]. split; [reflexivity|].
  destruct (@customized_fails_in_four_ways sample_runtime wb_number_header
              AttributeError eq_refl) as (sheet_name & df & row & Ed & _ & Ir & _).
  exists sheet_name, df, row. auto.
Defined.

(** X26.  A header that is no text aborts both wide-sheet converters as
    soon as a row has a timestamp: when a sheet other than LEGENDE has a
    column headed by a number or a date and a row whose timestamp is not
    missing, [transform] of [excel_to_sta_customized.py] raises, and so
    does [excel_to_sensorthings] of [final_version_6things.py] when the
    sheet has its [ID_MS] column; neither returns a document. *)
Theorem header_that_is_no_text_aborts `{PyBuiltins} :
  forall (excel_data : labelled_workbook) (sheet_name : string)
         (df : LabelledFrame) (row : list cell) (timestamp column : cell),
    dict_get sheet_name excel_data = Some df ->
    sheet_name <> "LEGENDE" ->
    In row (records df) ->
    row_at (labels df) row (timestamp_column_of sheet_name) = Ok timestamp ->
    isna timestamp = false ->
    In column (labels df) ->
    is_text column = false ->
    (exists e, LabelledCustomized.transform excel_data = Err e)
    /\ (has_label id_column (labels df) = true ->
        exists e, LabelledFinal.excel_to_sensorthings excel_data = Err e).
Proof.
  intros excel_data sheet_name df row ts column Ed Nl Ir Ets Nts Ic T.
  apply String.eqb_neq in Nl. split.
  - unfold LabelledCustomized.transform.
    destruct (foldM_raises (LabelledCustomized.process_sheet excel_data)
                (keys excel_data) sheet_name) with (s := Customized.init)
      as [e ->]; [| |now exists e].
    + eapply dict_get_Some_keys. exact Ed.
    + intros st. unfold LabelledCustomized.process_sheet, getitem.
      rewrite Nl, Ed. cbn [bind].
      apply (foldM_raises _ _ row Ir). intros s.
      unfold LabelledCustomized.process_row.
      destruct (row_at (labels df) row id_column) as [id_cell|e1];
        cbn [bind]; [|eauto].
      destruct (Customized.create_thing _ _ s) as [thing st1].
      destruct (Customized.create_location _ st1) as [[l st2]|e2];
        cbn [bind]; [|eauto].
      rewrite Ets. cbn [bind]. rewrite Nts.
      now apply (labelled_customized_columns_raise _ _ _ _ _ column).
  - intros Hi.
    unfold LabelledFinal.excel_to_sensorthings, LabelledFinal.collect.
    destruct (labelled_read_legend_total excel_data) as [legend ->].
    cbn [bind].
    destruct (foldM_raises (LabelledFinal.process_sheet legend) excel_data
                (sheet_name, df)) with (s := Final.init)
      as [e ->]; [| |now exists e].
    + now apply dict_get_In.
    + intros st. unfold LabelledFinal.process_sheet.
      rewrite Nl, Hi, (row_at_has_label _ _ _ _ Ets). cbn [negb orb].
      apply (foldM_raises _ _ row Ir). intros s.
      unfold LabelledFinal.process_row.
      destruct (row_at_present (labels df) row id_column Hi) as [id_cell ->].
      cbn [bind].
      destruct (Final.register_thing _ _ _ s) as [thing_id st1].
      rewrite Ets. cbn [bind]. rewrite Nts.
      now apply (labelled_final_columns_raise _ _ _ _ _ _ column).
Qed.

Lemma header_that_is_no_text_aborts_witness :
  (exists e, @LabelledCustomized.transform sample_runtime wb_number_header
             = Err e)
  /\ (exists e, @LabelledFinal.excel_to_sensorthings sample_runtime
                  wb_number_header = Err e).
Proof.
  destruct (@header_that_is_no_text_aborts sample_runtime wb_number_header
              "FREIFLÄCHE"
              {| labels := [Str "ID_MS"; Str "DATUM_ZEIT"; Str "TEMP [C°]";
                            Int 2024];
                 records := [[Str "MS1"; T1; Float (Fin (41 # 2)); Int 10]] |}
              [Str "MS1"; T1; Float (Fin (41 # 2)); Int 10] T1 (Int 2024))
    as [C F]; try reflexivity.
  - discriminate.
  - now left.
  - cbn. tauto.
  - split; [exact C | exact (F eq_refl)].
Defined.

(** X3.  [sensorthings_excel_converter.py] fails in one way only: a cell
    of one of the five columns read as JSON holds a text that [json.loads]
    rejects.  A workbook without such a cell always gives a document: a
    missing sheet, a missing column, an empty cell or a dangling foreign
    key never raise. *)
Theorem normalized_fails_only_on_json `{PyBuiltins} :
  forall (uuid4 : nat -> string) (excel_data : workbook) (e : exn),
    Normalized.excel_to_sensorthings uuid4 excel_data = Err e ->
    e = JSONDecodeError
    /\ exists sheet_name column df row s,
         In (sheet_name, column) json_columns
         /\ dict_get sheet_name excel_data = Some df
         /\ In row (rows df)
         /\ row_getitem (columns df) row column = Ok (Str s)
         /\ json_loads s = None.
Proof.
  intros uuid4 excel_data e. unfold Normalized.excel_to_sensorthings.
  destruct (Normalized.load uuid4 excel_data) as [sta|e'] eqn:L; cbn [bind].
  { destruct (load_spec uuid4 excel_data sta L) as (F & _).
    destruct (construct_nested_structure_total sta F) as [doc ->].
    discriminate. }
  intros [= ->]. revert L. unfold Normalized.load.
  assert (J : forall sheet_name column df row,
             In (sheet_name, column) json_columns ->
             dict_get sheet_name excel_data = Some df -> In row (rows df) ->
             forall default,
               Normalized.json_field (columns df) row column default = Err e ->
               e = JSONDecodeError
               /\ exists sheet_name column df row s,
                    In (sheet_name, column) json_columns
                    /\ dict_get sheet_name excel_data = Some df
                    /\ In row (rows df)
                    /\ row_getitem (columns df) row column = Ok (Str s)
                    /\ json_loads s = None).
  { intros sheet_name column df row Ij Ed Ir default Ej.
    destruct (json_field_fails _ _ _ _ _ Ej) as (-> & s & Es & El).
    split; [reflexivity|]. exists sheet_name, column, df, row, s. auto. }
  destruct (Normalized.load_sheet (Normalized.thing_of_row uuid4) excel_data
              "Things" 0) as [[things n1]|e1] eqn:E1; cbn [bind].
  2:{ intros [= ->].
      destruct (load_sheet_fails _ _ _ _ _ E1) as (df & row & m & Ed & Ir & Er).
      unfold Normalized.thing_of_row in Er.
      destruct (Normalized.json_field (columns df) row "properties" (VDict []))
        eqn:Ej; cbn [bind] in Er; [discriminate|].
      inversion Er; subst. eapply (J "Things"); eauto. cbn; tauto. }
  destruct (Normalized.load_sheet (Normalized.location_of_row uuid4) excel_data
              "Locations" n1) as [[locations n2]|e2] eqn:E2; cbn [bind].
  2:{ intros [= ->].
      destruct (load_sheet_fails _ _ _ _ _ E2) as (df & row & m & Ed & Ir & Er).
      unfold Normalized.location_of_row in Er.
      destruct (Normalized.json_field (columns df) row "location" point_0_0)
        eqn:Ej; cbn [bind] in Er; [discriminate|].
      inversion Er; subst. eapply (J "Locations"); eauto. cbn; tauto. }
  destruct (Normalized.load_sheet (Normalized.observed_property_of_row uuid4)
              excel_data "ObservedProperties" n2) as [[ops n3]|e3] eqn:E3;
    cbn [bind].
  2:{ intros _.
      destruct (load_sheet_fails _ _ _ _ _ E3) as (df & row & m & _ & _ & Er).
      discriminate. }
  destruct (Normalized.load_sheet (Normalized.sensor_of_row uuid4) excel_data
              "Sensors" n3) as [[sensors n4]|e4] eqn:E4; cbn [bind].
  2:{ intros _.
      destruct (load_sheet_fails _ _ _ _ _ E4) as (df & row & m & _ & _ & Er).
      discriminate. }
  destruct (Normalized.load_sheet (Normalized.datastream_of_row uuid4)
              excel_data "Datastreams" n4) as [[datastreams n5]|e5] eqn:E5;
    cbn [bind].
  2:{ intros [= ->].
      destruct (load_sheet_fails _ _ _ _ _ E5) as (df & row & m & Ed & Ir & Er).
      unfold Normalized.datastream_of_row in Er.
      destruct (Normalized.json_field (columns df) row "unitOfMeasurement"
                  (VDict [])) eqn:Ej; cbn [bind] in Er; [discriminate|].
      inversion Er; subst. eapply (J "Datastreams"); eauto. cbn; tauto. }
  destruct (Normalized.load_sheet
              (fun cols row _ => Normalized.observation_of_row cols row)
              excel_data "Observations" n5) as [[observations n6]|e6] eqn:E6;
    cbn [bind]; [discriminate|].
  intros [= ->].
  destruct (load_sheet_fails _ _ _ _ _ E6) as (df & row & m & Ed & Ir & Er).
  unfold Normalized.observation_of_row in Er.
  destruct (Normalized.json_field (columns df) row "parameters" (VDict []))
    eqn:Ej; cbn [bind] in Er.
  2:{ inversion Er; subst. eapply (J "Observations"); eauto. cbn; tauto. }
  unfold Normalized.present, Normalized.loads in Er.
  destruct (index_of "feature_of_interest" (columns df)) as [i|] eqn:Ei;
    [|discriminate].
  destruct (nth i row NaN) as [| [] |s| |] eqn:Ec; cbn [isna] in Er;
    try discriminate.
  destruct (json_loads s) eqn:El; cbn [bind] in Er; [discriminate|].
  inversion Er; subst. split; [reflexivity|].
  exists "Observations", "feature_of_interest", df, row, s.
  repeat split; try assumption; [cbn; tauto|].
  unfold row_getitem. now rewrite Ei, Ec.
Qed.

Lemma normalized_fails_only_on_json_witness :
  @Normalized.excel_to_sensorthings sample_runtime uuid_run1 wb_bad_json
  = Err JSONDecodeError
  /\ exists sheet_name column df row s,
       In (sheet_name, column) json_columns
       /\ dict_get sheet_name wb_bad_json = Some df
       /\ In row (rows df)
       /\ row_getitem (columns df) row column = Ok (Str s)
       /\ json_loads (PyBuiltins := sample_runtime) s = None.
Proof.
  split; [reflexivity|].
  apply (@normalized_fails_only_on_json sample_runtime uuid_run1 wb_bad_json
           JSONDecodeError eq_refl).
Defined.


(* ====================================================================== *)
(** ** The legend *)
(* ====================================================================== *)

Lemma dict_get_without_sheet name k (excel_data : workbook) :
  k <> name -> dict_get k (without_sheet name excel_data) = dict_get k excel_data.
Proof.
  intros N. induction excel_data as [|[k' df] wb IH]; simpl; [reflexivity|].
  destruct (String.eqb_spec k' name) as [->|N']; simpl.
  - destruct (String.eqb_spec name k); [congruence | exact IH].
  - destruct (String.eqb k' k); [reflexivity | exact IH].
Qed.

Lemma dict_get_without_sheet_same name (excel_data : workbook) :
  dict_get name (without_sheet name excel_data) = None.
Proof.
  induction excel_data as [|[k' df] wb IH]; simpl; [reflexivity|].
  destruct (String.eqb_spec k' name) as [->|N']; simpl; [exact IH|].
  destruct (String.eqb_spec k' name); [congruence | exact IH].
Qed.

Section Legend.
Context `{PyBuiltins}.

Lemma customized_sheet_without_legend excel_data sheet_name st :
  sheet_name <> "LEGENDE" ->
  Customized.process_sheet (without_sheet "LEGENDE" excel_data) sheet_name st
  = Customized.process_sheet excel_data sheet_name st.
Proof.
  intros N. unfold Customized.process_sheet, getitem.
  now rewrite dict_get_without_sheet.
Qed.

Lemma customized_sheets_without_legend excel_data (sheets : workbook) st :
  foldM (Customized.process_sheet (without_sheet "LEGENDE" excel_data))
    (keys (without_sheet "LEGENDE" sheets)) st
  = foldM (Customized.process_sheet excel_data) (keys sheets) st.
Proof.
  revert st. induction sheets as [|[name df] sheets IH]; intros st;
    [reflexivity|].
  cbn [without_sheet filter fst keys map foldM].
  destruct (String.eqb_spec name "LEGENDE") as [->|N]; cbn [negb].
  - unfold Customized.process_sheet at 2. cbn [String.eqb Ascii.eqb Bool.eqb bind].
    apply IH.
  - cbn [keys map foldM fst].
    rewrite customized_sheet_without_legend by assumption.
    destruct (Customized.process_sheet excel_data name st); cbn [bind];
      [apply IH | reflexivity].
Qed.

Lemma final_sheets_without_legend legend (sheets : workbook) st :
  foldM (Final.process_sheet legend) (without_sheet "LEGENDE" sheets) st
  = foldM (Final.process_sheet legend) sheets st.
Proof.
  revert st. induction sheets as [|[name df] sheets IH]; intros st;
    [reflexivity|].
  cbn [without_sheet filter fst foldM].
  destruct (String.eqb_spec name "LEGENDE") as [->|N]; cbn [negb].
  - cbn [Final.process_sheet String.eqb Ascii.eqb Bool.eqb bind]. apply IH.
  - cbn [foldM].
    destruct (Final.process_sheet legend (name, df) st); cbn [bind];
      [apply IH | reflexivity].
Qed.

(** One round of the loop over the legend. *)
Lemma legend_row_spec cols row m id_cell hms_cell :
  row_getitem cols row "ID_MS" = Ok id_cell ->
  row_getitem cols row "HMS" = Ok hms_cell ->
  Final.legend_row cols row m
  = Ok (dict_set (py_str id_cell) (legend_entry cols row hms_cell) m).
Proof.
  intros Ei Eh. unfold Final.legend_row, legend_entry. rewrite Ei, Eh.
  cbn [bind]. destruct (isna hms_cell); cbn [negb];
    destruct (row_getitem cols row "Bemerkung") as [c|]; try reflexivity;
    destruct (isna c); reflexivity.
Qed.

Lemma legend_entry_present cols row hms_cell :
  isna (Final.hms (legend_entry cols row hms_cell)) = false
  /\ isna (Final.bemerkung (legend_entry cols row hms_cell)) = false.
Proof.
  unfold legend_entry. cbn [Final.hms Final.bemerkung]. split.
  - destruct (isna hms_cell) eqn:E; [reflexivity | exact E].
  - destruct (row_getitem cols row "Bemerkung") as [c|]; [|reflexivity].
    destruct (isna c) eqn:E; [reflexivity | exact E].
Qed.

Lemma legend_row_present cols row m m' :
  (forall id info, dict_get id m = Some info ->
     isna (Final.hms info) = false /\ isna (Final.bemerkung info) = false) ->
  Final.legend_row cols row m = Ok m' ->
  forall id info, dict_get id m' = Some info ->
    isna (Final.hms info) = false /\ isna (Final.bemerkung info) = false.
Proof.
  intros P E.
  destruct (row_getitem cols row "ID_MS") as [id_cell|] eqn:Ei.
  2:{ unfold Final.legend_row in E. rewrite Ei in E. discriminate. }
  destruct (row_getitem cols row "HMS") as [hms_cell|] eqn:Eh.
  2:{ unfold Final.legend_row in E. rewrite Ei, Eh in E. discriminate. }
  rewrite (legend_row_spec _ _ _ _ _ Ei Eh) in E. inversion E; subst.
  intros id info.
  destruct (String.eqb_spec (py_str id_cell) id) as [<-|N].
  - rewrite dict_get_set_same. intros [= <-]. apply legend_entry_present.
  - rewrite dict_get_set_other by assumption. apply P.
Qed.

Lemma legend_row_other cols row m m' id info :
  (forall c, row_getitem cols row "ID_MS" = Ok c -> py_str c <> id) ->
  dict_get id m = Some info ->
  Final.legend_row cols row m = Ok m' ->
  dict_get id m' = Some info.
Proof.
  intros N D E.
  destruct (row_getitem cols row "ID_MS") as [id_cell|] eqn:Ei.
  2:{ unfold Final.legend_row in E. rewrite Ei in E. discriminate. }
  destruct (row_getitem cols row "HMS") as [hms_cell|] eqn:Eh.
  2:{ unfold Final.legend_row in E. rewrite Ei, Eh in E. discriminate. }
  rewrite (legend_row_spec _ _ _ _ _ Ei Eh) in E. inversion E; subst.
  rewrite dict_get_set_other; [assumption|]. now apply N.
Qed.

End Legend.

(** X5.  The LEGENDE sheet has no part in [excel_to_sta_customized.py]:
    whatever the sheet holds, the run ends as it does on the workbook
    without it, with the same document or the same exception. *)
Theorem customized_ignores_the_legend `{PyBuiltins} :
  forall excel_data : workbook,
    Customized.transform excel_data
    = Customized.transform (without_sheet "LEGENDE" excel_data).
Proof.
  intros excel_data. unfold Customized.transform.
  now rewrite customized_sheets_without_legend.
Qed.

(** X6.  In [final_version_6things.py] a LEGENDE sheet that lacks the
    column [HMS] or the column [ID_MS] is ignored without a word: the run
    ends as it does on the workbook without the sheet, so every station is
    looked up in an empty mapping. *)
Theorem legend_without_its_columns_is_ignored `{PyBuiltins} :
  forall (excel_data : workbook) (legend_df : DataFrame),
    dict_get "LEGENDE" excel_data = Some legend_df ->
    has_column "HMS" (columns legend_df) = false
    \/ has_column "ID_MS" (columns legend_df) = false ->
    Final.read_legend excel_data = Ok []
    /\ Final.excel_to_sensorthings excel_data
       = Final.excel_to_sensorthings (without_sheet "LEGENDE" excel_data).
Proof.
  intros excel_data legend_df Ed Hc.
  assert (R : Final.read_legend excel_data = Ok []).
  { unfold Final.read_legend. rewrite Ed.
    destruct Hc as [-> | ->]; [reflexivity|].
    now destruct (has_column "HMS" (columns legend_df)). }
  split; [exact R|].
  unfold Final.excel_to_sensorthings, Final.collect. rewrite R.
  unfold Final.read_legend. rewrite dict_get_without_sheet_same.
  cbn [bind]. now rewrite final_sheets_without_legend.
Qed.

Lemma legend_without_its_columns_is_ignored_witness :
  @Final.read_legend sample_runtime wb_generated_legend = Ok []
  /\ @Final.excel_to_sensorthings sample_runtime wb_generated_legend
     = @Final.excel_to_sensorthings sample_runtime
         (without_sheet "LEGENDE" wb_generated_legend).
Proof.
  apply (@legend_without_its_columns_is_ignored sample_runtime
           wb_generated_legend
           (sheet ["ID"; "HMS"; "Bemerkung"; "Unnamed: 3"; "Unnamed: 4"]
              [[Str "MS1"; Str "Hauptmessstation"; Str "Standort 1"; NaN; NaN];
               [Str "MS2"; Str "Nebenstation"; Str "Standort 2"; NaN; NaN];
               [Str "MS3"; Str "Feldstation"; Str "Standort 3"; NaN; NaN]])
           eq_refl).
  right. reflexivity.
Defined.

(** X7.  The mapping read from a LEGENDE sheet with its two columns
    always exists, holds for a station what the last row with its
    identifier (compared as text) says, and never holds a missing value: a
    missing HMS reads ["Unknown"], a missing Bemerkung [""]. *)
Theorem legend_last_row_wins `{PyBuiltins} :
  forall (excel_data : workbook) (legend_df : DataFrame)
         (before after : list (list cell)) (row : list cell)
         (id_cell hms_cell : cell),
    dict_get "LEGENDE" excel_data = Some legend_df ->
    rows legend_df = (before ++ row :: after)%list ->
    row_getitem (columns legend_df) row "ID_MS" = Ok id_cell ->
    row_getitem (columns legend_df) row "HMS" = Ok hms_cell ->
    (forall r c, In r after ->
       row_getitem (columns legend_df) r "ID_MS" = Ok c ->
       py_str c <> py_str id_cell) ->
    exists legend,
      Final.read_legend excel_data = Ok legend
      /\ dict_get (py_str id_cell) legend
         = Some (legend_entry (columns legend_df) row hms_cell)
      /\ forall id info, dict_get id legend = Some info ->
           isna (Final.hms info) = false /\ isna (Final.bemerkung info) = false.
Proof.
  intros excel_data df before after row id_cell hms_cell Ed Er Ei Eh Hafter.
  destruct (read_legend_total excel_data) as [legend R]. exists legend.
  split; [exact R|].
  unfold Final.read_legend in R. rewrite Ed in R.
  rewrite (row_getitem_has_column _ _ _ _ Ei),
    (row_getitem_has_column _ _ _ _ Eh) in R. cbn [andb] in R.
  split.
  - rewrite Er, foldM_app in R.
    destruct (foldM (Final.legend_row (columns df)) before []) as [m1|] eqn:E1;
      cbn [bind foldM] in R; [|discriminate].
    rewrite (legend_row_spec _ _ _ _ _ Ei Eh) in R. cbn [bind] in R.
    revert R.
    apply (foldM_invariant
             (fun m => dict_get (py_str id_cell) m
                       = Some (legend_entry (columns df) row hms_cell))).
    + intros r m m' Ir D E.
      eapply legend_row_other; [|exact D|exact E].
      intros c Ec. now apply (Hafter r).
    + apply dict_get_set_same.
  - revert R.
    apply (foldM_invariant
             (fun m => forall id info, dict_get id m = Some info ->
                isna (Final.hms info) = false
                /\ isna (Final.bemerkung info) = false)).
    + intros r m m' _. apply legend_row_present.
    + intros id info. discriminate.
Qed.

Lemma legend_last_row_wins_witness :
  exists legend,
    @Final.read_legend sample_runtime wb_legend_twice = Ok legend
    /\ dict_get "MS1" legend
       = Some {| Final.hms := Str "Unknown"; Final.bemerkung := Str "" |}.
Proof.
  destruct (@legend_last_row_wins sample_runtime wb_legend_twice
              (sheet ["ID_MS"; "HMS"; "Bemerkung"]
                 [[Str "MS1"; Str "Hauptmessstation"; Str "Standort 1"];
                  [Str "MS2"; Str "Nebenstation"; Str "Standort 2"];
                  [Str "MS1"; NaN; NaN]])
              [[Str "MS1"; Str "Hauptmessstation"; Str "Standort 1"];
               [Str "MS2"; Str "Nebenstation"; Str "Standort 2"]]
              [] [Str "MS1"; NaN; NaN] (Str "MS1") NaN
              eq_refl eq_refl eq_refl eq_refl
              ltac:(intros r c [])) as (legend & R & D & _).
  exists legend. split; [exact R | exact D].
Defined.


(* ====================================================================== *)
(** ** The stores of a run only grow *)
(* ====================================================================== *)

Section Extended.
Context {A : Type}.

Lemma extended_refl (l : list A) : extended l l.
Proof. exists []. now rewrite app_nil_r. Qed.

Lemma extended_trans (l1 l2 l3 : list A) :
  extended l1 l2 -> extended l2 l3 -> extended l1 l3.
Proof.
  intros [m1 ->] [m2 ->]. exists (m1 ++ m2)%list. now rewrite app_assoc.
Qed.

Lemma extended_app (l m : list A) : extended l (l ++ m).
Proof. now exists m. Qed.

End Extended.

Lemma extended_set_fresh {V} (d : dict V) k v :
  dict_get k d = None -> extended d (dict_set k v d).
Proof.
  intros E. rewrite dict_set_fresh by assumption. apply extended_app.
Qed.

(** What a store holds under a key it still holds after it was extended. *)
Lemma extended_get {V} (d d' : dict V) k v :
  extended d d' -> dict_get k d = Some v -> dict_get k d' = Some v.
Proof.
  intros [more ->]. induction d as [|[k' v'] d IH]; simpl; [discriminate|].
  destruct (String.eqb k' k); auto.
Qed.

Section CustomizedGrows.
Context `{PyBuiltins}.
Import Customized.

Lemma customized_later_refl st : customized_later st st.
Proof. repeat split; apply extended_refl. Qed.

Lemma customized_later_trans st1 st2 st3 :
  customized_later st1 st2 -> customized_later st2 st3 ->
  customized_later st1 st3.
Proof.
  intros (A1 & A2 & A3 & A4 & A5 & A6) (B1 & B2 & B3 & B4 & B5 & B6).
  unfold customized_later.
  repeat split; eapply extended_trans; eassumption.
Qed.

Ltac grown :=
  unfold customized_later;
  cbn [things locations observed_properties sensors datastreams observations
       set_things set_locations set_observed_properties set_sensors
       set_datastreams set_observations fst snd];
  repeat split;
  first [ apply extended_refl
        | apply extended_set_fresh; assumption
        | apply extended_app ].

Lemma create_thing_later id_ms category st :
  customized_later st (snd (create_thing id_ms category st)).
Proof.
  unfold create_thing. destruct (dict_get id_ms (things st)) eqn:E; grown.
Qed.

Lemma create_location_later thing_id st l st' :
  create_location thing_id st = Ok (l, st') -> customized_later st st'.
Proof.
  unfold create_location. destruct (dict_get thing_id (locations st)) eqn:E.
  - intros [= _ <-]. grown.
  - destruct (nth_error (split "_" thing_id) 1); [|discriminate].
    intros [= _ <-]. grown.
Qed.

Lemma create_sensor_later property_name st :
  customized_later st (snd (create_sensor property_name st)).
Proof.
  unfold create_sensor. destruct (dict_get property_name (sensors st)) eqn:E;
    grown.
Qed.

Lemma create_observed_property_later property_name st :
  customized_later st (snd (create_observed_property property_name st)).
Proof.
  unfold create_observed_property.
  destruct (dict_get property_name (observed_properties st)) eqn:E; grown.
Qed.

Lemma create_datastream_later thing_id property_name st :
  customized_later st (snd (create_datastream thing_id property_name st)).
Proof.
  unfold create_datastream.
  destruct (dict_get _ (datastreams st)) eqn:E; [grown|].
  pose proof (create_sensor_later property_name st) as L1.
  pose proof (create_sensor_datastreams property_name st) as D1.
  destruct (create_sensor property_name st) as [s st1]. cbn [snd] in *.
  pose proof (create_observed_property_later property_name st1) as L2.
  pose proof (create_observed_property_datastreams property_name st1) as D2.
  destruct (create_observed_property property_name st1) as [p st2].
  cbn [snd] in *.
  apply customized_later_trans with st1; [assumption|].
  apply customized_later_trans with st2; [assumption|].
  rewrite <- D1, <- D2 in E. grown.
Qed.

Lemma create_observation_later datastream_id timestamp value st :
  customized_later st (snd (create_observation datastream_id timestamp value st)).
Proof. unfold create_observation. grown. Qed.

Lemma process_cell_later cols row timestamp_column thing_id timestamp column
  st st' :
  process_cell cols row timestamp_column thing_id timestamp column st = Ok st' ->
  customized_later st st'.
Proof.
  unfold process_cell. destruct (skipped_column _ _).
  { intros [= <-]. apply customized_later_refl. }
  destruct (row_getitem cols row column) as [v|]; cbn [bind]; [|discriminate].
  destruct (isna v). { intros [= <-]. apply customized_later_refl. }
  pose proof (create_datastream_later thing_id (measurement_type_of column) st)
    as L.
  destruct (create_datastream _ _ st) as [d st1]. cbn [snd] in L.
  destruct (py_float v) as [x|]; cbn [bind]; [|discriminate].
  intros [= <-].
  eapply customized_later_trans; [exact L|].
  exact (create_observation_later (ds_iot_id d) timestamp x st1).
Qed.

Lemma process_row_later cols category timestamp_column row st st' :
  process_row cols category timestamp_column row st = Ok st' ->
  customized_later st st'.
Proof.
  unfold process_row.
  destruct (row_getitem cols row id_column) as [id_cell|]; cbn [bind];
    [|discriminate].
  pose proof (create_thing_later (py_str id_cell) category st) as L1.
  destruct (create_thing (py_str id_cell) category st) as [thing st1].
  cbn [snd] in L1.
  destruct (create_location (thing_iot_id thing) st1) as [[l st2]|] eqn:E2;
    cbn [bind]; [|discriminate].
  pose proof (create_location_later _ _ _ _ E2) as L2.
  destruct (row_getitem cols row timestamp_column) as [ts|]; cbn [bind];
    [|discriminate].
  assert (L : customized_later st st2)
    by (eapply customized_later_trans; eassumption).
  destruct (isna ts); [now intros [= <-]|].
  apply (foldM_invariant (customized_later st)); [|assumption].
  intros column s s' _ Ls E. eapply customized_later_trans; [exact Ls|].
  eapply process_cell_later; exact E.
Qed.

Lemma process_sheet_later excel_data sheet_name st st' :
  process_sheet excel_data sheet_name st = Ok st' -> customized_later st st'.
Proof.
  unfold process_sheet.
  destruct (String.eqb sheet_name "LEGENDE").
  { intros [= <-]. apply customized_later_refl. }
  destruct (getitem sheet_name excel_data) as [df|]; cbn [bind];
    [|discriminate].
  apply (foldM_invariant (customized_later st));
    [|apply customized_later_refl].
  intros row s s' _ Ls E. eapply customized_later_trans; [exact Ls|].
  eapply process_row_later; exact E.
Qed.

End CustomizedGrows.

(** X8.  Nothing that [process_sheet] of [excel_to_sta_customized.py] has
    registered is ever changed, removed or moved by the sheets that follow:
    each of the five stores and the list of observations is, after a
    sheet, what it was before with the new entries after it.  So an entity
    keeps what the first row that named it gave it (a station keeps the
    category of its first sheet), and the order of the document is the
    order of first appearance. *)
Theorem customized_stores_only_grow `{PyBuiltins} :
  forall (excel_data : workbook) (sheets : list string)
         (st st' : Customized.state),
    foldM (Customized.process_sheet excel_data) sheets st = Ok st' ->
    customized_later st st'
    /\ (forall id_ms thing,
          dict_get id_ms (Customized.things st) = Some thing ->
          dict_get id_ms (Customized.things st') = Some thing)
    /\ (forall key datastream,
          dict_get key (Customized.datastreams st) = Some datastream ->
          dict_get key (Customized.datastreams st') = Some datastream).
Proof.
  intros excel_data sheets st st' E.
  assert (L : customized_later st st').
  { revert E. apply (foldM_invariant (customized_later st));
      [|apply customized_later_refl].
    intros sheet_name s s' _ Ls E. eapply customized_later_trans; [exact Ls|].
    eapply process_sheet_later; exact E. }
  split; [exact L|].
  destruct L as (L1 & _ & _ & _ & L5 & _).
  split; intros k v; eapply extended_get; eassumption.
Qed.

Lemma customized_stores_only_grow_witness :
  exists st1 st2,
    foldM (@Customized.process_sheet sample_runtime wb_two_sheets)
      ["FREIFLÄCHE"] Customized.init = Ok st1
    /\ foldM (@Customized.process_sheet sample_runtime wb_two_sheets)
         ["Tension kPa"] st1 = Ok st2
    /\ customized_later st1 st2
    /\ option_map thing_description (dict_get "MS1" (Customized.things st2))
       = Some "Weather Station measurement station with ID MS1".
Proof.
  destruct (foldM (@Customized.process_sheet sample_runtime wb_two_sheets)
              ["FREIFLÄCHE"] Customized.init) as [st1|] eqn:E1;
    [|vm_compute in E1; discriminate].
  destruct (foldM (@Customized.process_sheet sample_runtime wb_two_sheets)
              ["Tension kPa"] st1) as [st2|] eqn:E2.
  2:{ vm_compute in E1. inversion E1; subst. vm_compute in E2. discriminate. }
  exists st1, st2. split; [reflexivity|]. split; [exact E2|].
  destruct (@customized_stores_only_grow sample_runtime wb_two_sheets
              ["Tension kPa"] st1 st2 E2) as (L & T & _).
  split; [exact L|].
  vm_compute in E1. inversion E1; subst.
  now rewrite (T "MS1" _ eq_refl).
Defined.


(* ====================================================================== *)
(** ** What a store holds under a key *)
(* ====================================================================== *)

Section CustomizedCanonical.
Context `{PyBuiltins}.
Import Customized.

Lemma customized_canonical_init : customized_canonical init.
Proof. repeat split; intros ? ?; discriminate. Qed.

Lemma customized_canonical_well_named st :
  customized_canonical st -> things_well_named st.
Proof.
  intros (Ct & _) k t E. destruct (Ct k t E) as [category ->]. reflexivity.
Qed.

Lemma create_thing_canonical id_ms category st :
  customized_canonical st ->
  customized_canonical (snd (create_thing id_ms category st)).
Proof.
  intros C. unfold create_thing.
  destruct (dict_get id_ms (things st)) eqn:E; [exact C|].
  destruct C as (Ct & Cl & Cp & Cs & Cd).
  split; [|now repeat split].
  cbn [snd things set_things]. intros k t.
  destruct (String.eqb_spec id_ms k) as [<-|N].
  - rewrite dict_get_set_same. intros [= <-]. now exists category.
  - rewrite dict_get_set_other by assumption. apply Ct.
Qed.

Lemma create_location_canonical thing_id st l st' :
  customized_canonical st ->
  create_location thing_id st = Ok (l, st') ->
  customized_canonical st'.
Proof.
  intros C. unfold create_location.
  destruct (dict_get thing_id (locations st)) eqn:E.
  { now intros [= _ <-]. }
  destruct (nth_error (split "_" thing_id) 1) as [part|] eqn:Ep; [|discriminate].
  intros [= <- <-]. destruct C as (Ct & Cl & Cp & Cs & Cd).
  split; [exact Ct|]. split; [|now repeat split].
  cbn [locations set_locations]. intros k l.
  destruct (String.eqb_spec thing_id k) as [<-|N].
  - rewrite dict_get_set_same. intros [= <-].
    unfold create_location. cbn [locations init dict_get]. rewrite Ep. eauto.
  - rewrite dict_get_set_other by assumption. apply Cl.
Qed.

Lemma create_sensor_canonical code st :
  customized_canonical st ->
  customized_canonical (snd (create_sensor code st))
  /\ fst (create_sensor code st) = fst (create_sensor code init).
Proof.
  intros C. unfold create_sensor at 1 2.
  destruct (dict_get code (sensors st)) eqn:E; cbn [fst snd].
  { split; [exact C|]. now apply C. }
  split; [|reflexivity].
  destruct C as (Ct & Cl & Cp & Cs & Cd).
  split; [exact Ct|]. split; [exact Cl|]. split; [exact Cp|].
  cbn [sensors set_sensors datastreams observed_properties]. split.
  - intros k s.
    destruct (String.eqb_spec code k) as [<-|N].
    + rewrite dict_get_set_same. now intros [= <-].
    + rewrite dict_get_set_other by assumption. apply Cs.
  - intros key d Ed.
    destruct (Cd key d Ed) as (thing_id & code' & Ek & Ec & Es & Ep).
    exists thing_id, code'. repeat split; try assumption.
    eapply extended_get; [|exact Es]. now apply extended_set_fresh.
Qed.

Lemma create_observed_property_canonical code st :
  customized_canonical st ->
  customized_canonical (snd (create_observed_property code st))
  /\ fst (create_observed_property code st)
     = fst (create_observed_property code init).
Proof.
  intros C. unfold create_observed_property at 1 2.
  destruct (dict_get code (observed_properties st)) eqn:E; cbn [fst snd].
  { split; [exact C|]. now apply C. }
  split; [|reflexivity].
  destruct C as (Ct & Cl & Cp & Cs & Cd).
  split; [exact Ct|]. split; [exact Cl|].
  cbn [observed_properties set_observed_properties datastreams sensors].
  split; [|split; [exact Cs|]].
  - intros k p.
    destruct (String.eqb_spec code k) as [<-|N].
    + rewrite dict_get_set_same. now intros [= <-].
    + rewrite dict_get_set_other by assumption. apply Cp.
  - intros key d Ed.
    destruct (Cd key d Ed) as (thing_id & code' & Ek & Ec & Es & Ep).
    exists thing_id, code'. repeat split; try assumption.
    eapply extended_get; [|exact Ep]. now apply extended_set_fresh.
Qed.

Lemma create_datastream_canonical thing_id code st :
  customized_canonical st ->
  customized_canonical (snd (create_datastream thing_id code st)).
Proof.
  intros C. unfold create_datastream.
  destruct (dict_get _ (datastreams st)) eqn:E; [exact C|].
  destruct (create_sensor_canonical code st C) as [C1 E1].
  pose proof (create_sensor_registered code st) as R1.
  destruct (create_sensor code st) as [s st1]. cbn [fst snd] in C1, E1, R1.
  destruct (create_observed_property_canonical code st1 C1) as [C2 E2].
  pose proof (create_observed_property_registered code st1) as R2.
  assert (S2 : sensors (snd (create_observed_property code st1)) = sensors st1).
  { unfold create_observed_property.
    now destruct (dict_get code (observed_properties st1)). }
  destruct (create_observed_property code st1) as [p st2].
  cbn [fst snd] in C2, E2, R2, S2.
  destruct C2 as (Ct & Cl & Cp & Cs & Cd).
  split; [exact Ct|]. split; [exact Cl|]. split; [exact Cp|].
  split; [exact Cs|].
  cbn [snd datastreams set_datastreams sensors observed_properties].
  intros k d.
  destruct (String.eqb_spec (thing_id ++ "_" ++ code) k) as [<-|N].
  - rewrite dict_get_set_same. intros [= <-].
    exists thing_id, code. cbn [ds_Sensor ds_ObservedProperty].
    split; [reflexivity|]. split; [rewrite E1, E2; reflexivity|].
    split; [now rewrite S2 | exact R2].
  - rewrite dict_get_set_other by assumption. apply Cd.
Qed.

Lemma create_observation_canonical datastream_id timestamp value st :
  customized_canonical st ->
  customized_canonical
    (snd (create_observation datastream_id timestamp value st)).
Proof. intros C. exact C. Qed.

Lemma process_cell_canonical cols row timestamp_column thing_id timestamp
  column st st' :
  customized_canonical st ->
  process_cell cols row timestamp_column thing_id timestamp column st = Ok st' ->
  customized_canonical st'.
Proof.
  intros C. unfold process_cell.
  destruct (skipped_column _ _); [now intros [= <-]|].
  destruct (row_getitem cols row column) as [v|]; cbn [bind]; [|discriminate].
  destruct (isna v); [now intros [= <-]|].
  pose proof (create_datastream_canonical thing_id (measurement_type_of column)
                st C) as C1.
  destruct (create_datastream _ _ st) as [d st1]. cbn [snd] in C1.
  destruct (py_float v) as [x|]; cbn [bind]; [|discriminate].
  intros [= <-]. exact C1.
Qed.

Lemma process_cell_locations cols row timestamp_column thing_id timestamp
  column st st' :
  process_cell cols row timestamp_column thing_id timestamp column st = Ok st' ->
  locations st' = locations st.
Proof.
  unfold process_cell. destruct (skipped_column _ _); [now intros [= <-]|].
  destruct (row_getitem cols row column) as [v|]; cbn [bind]; [|discriminate].
  destruct (isna v); [now intros [= <-]|].
  assert (L : locations (snd (create_datastream thing_id
                                (measurement_type_of column) st))
              = locations st).
  { unfold create_datastream. destruct (dict_get _ (datastreams st));
      [reflexivity|].
    unfold create_sensor. destruct (dict_get _ (sensors st)); cbn [fst snd];
      unfold create_observed_property;
      match goal with
      | |- context [dict_get ?c (observed_properties ?s)] =>
          destruct (dict_get c (observed_properties s))
      end; reflexivity. }
  destruct (create_datastream _ _ st) as [d st1]. cbn [snd] in L.
  destruct (py_float v); cbn [bind]; [|discriminate].
  intros [= <-]. exact L.
Qed.

Lemma process_row_canonical cols category timestamp_column row st st' :
  customized_canonical st /\ customized_located st ->
  process_row cols category timestamp_column row st = Ok st' ->
  customized_canonical st' /\ customized_located st'.
Proof.
  intros [C L]. unfold process_row.
  destruct (row_getitem cols row id_column) as [id_cell|]; cbn [bind];
    [|discriminate].
  pose proof (create_thing_canonical (py_str id_cell) category st C) as C1.
  pose proof (create_thing_well_named (py_str id_cell) category st
                (customized_canonical_well_named st C)) as [_ Eid].
  pose proof (create_thing_frame (py_str id_cell) category st) as F.
  assert (T : forall k t,
             dict_get k (things (snd (create_thing (py_str id_cell) category st)))
             = Some t ->
             dict_get k (things st) = Some t
             \/ thing_iot_id t = "thing_" ++ py_str id_cell).
  { unfold create_thing.
    destruct (dict_get (py_str id_cell) (things st)) as [t0|] eqn:E;
      cbn [snd things set_things]; intros k t; [tauto|].
    destruct (String.eqb_spec (py_str id_cell) k) as [<-|N].
    - rewrite dict_get_set_same. intros [= <-]. now right.
    - rewrite dict_get_set_other by assumption. tauto. }
  destruct (create_thing (py_str id_cell) category st) as [thing st1].
  cbn [fst snd] in *. rewrite Eid.
  destruct (create_location ("thing_" ++ py_str id_cell) st1)
    as [[l st2]|] eqn:E2; cbn [bind]; [|discriminate].
  pose proof (create_location_canonical _ _ _ _ C1 E2) as C2.
  pose proof (create_location_later _ _ _ _ E2) as (_ & Ll & _).
  destruct (create_location_ok (py_str id_cell) st1)
    as (l' & st2' & E2' & Ft & _ & _ & _ & _ & Fl).
  rewrite E2 in E2'. inversion E2'; subst l' st2'.
  assert (L2 : customized_located st2).
  { intros k t Ek. rewrite Ft in Ek. destruct (T k t Ek) as [Eo|En].
    - specialize (L k t Eo). unfold dict_in in *.
      destruct F as (Floc & _). rewrite <- Floc in L.
      destruct (dict_get (thing_iot_id t) (locations st1)) as [x|] eqn:Ex;
        [|discriminate].
      now rewrite (extended_get _ _ _ _ Ll Ex).
    - unfold dict_in. now rewrite En, Fl. }
  destruct (row_getitem cols row timestamp_column) as [ts|]; cbn [bind];
    [|discriminate].
  destruct (isna ts); [intros [= <-]; now split|].
  intros E.
  assert (I : customized_canonical st' /\ things st' = things st2
              /\ locations st' = locations st2).
  { revert E.
    apply (foldM_invariant
             (fun s => customized_canonical s /\ things s = things st2
                       /\ locations s = locations st2)).
    - intros column s s' _ (Cs & Ts & Ls) Ec.
      split; [eapply process_cell_canonical; eassumption|]. split.
      + now rewrite (process_cell_things _ _ _ _ _ _ _ _ Ec).
      + now rewrite (process_cell_locations _ _ _ _ _ _ _ _ Ec).
    - split; [exact C2 | split; reflexivity]. }
  destruct I as (C' & T' & L'). split; [exact C'|].
  unfold customized_located. intros k t. rewrite T', L'. apply L2.
Qed.

Lemma process_sheet_canonical excel_data sheet_name st st' :
  customized_canonical st /\ customized_located st ->
  process_sheet excel_data sheet_name st = Ok st' ->
  customized_canonical st' /\ customized_located st'.
Proof.
  intros I. unfold process_sheet.
  destruct (String.eqb sheet_name "LEGENDE"); [now intros [= <-]|].
  destruct (getitem sheet_name excel_data) as [df|]; cbn [bind];
    [|discriminate].
  apply (foldM_invariant
           (fun s => customized_canonical s /\ customized_located s));
    [|exact I].
  intros row s s' _. apply process_row_canonical.
Qed.

Lemma customized_run_canonical excel_data sheets st :
  foldM (process_sheet excel_data) sheets init = Ok st ->
  customized_canonical st /\ customized_located st.
Proof.
  apply (foldM_invariant
           (fun s => customized_canonical s /\ customized_located s)).
  - intros sheet_name s s' _. apply process_sheet_canonical.
  - split; [apply customized_canonical_init|]. intros k t. discriminate.
Qed.

End CustomizedCanonical.


(* ====================================================================== *)
(** ** Reading the documents of the wide-sheet converters *)
(* ====================================================================== *)

Lemma NoDup_keys_get {V} (d : dict V) k v :
  NoDup (keys d) -> In (k, v) d -> dict_get k d = Some v.
Proof.
  induction d as [|[k' v'] d IH]; simpl; [tauto|].
  intros N [E|I].
  - inversion E; subst. now rewrite String.eqb_refl.
  - inversion N as [|? ? Nk Nd]; subst.
    destruct (String.eqb_spec k' k) as [->|_]; [|auto].
    exfalso. apply Nk. change k with (fst (k, v)). now apply in_map.
Qed.

Section CustomizedDocument.
Import Customized.
Variable st : state.

Lemma customized_doc_things :
  doc_things (construct_nested_structure st)
  = map (fun kt => thing_with_relations st (snd kt)) (things st).
Proof. reflexivity. Qed.

Lemma customized_thing_id thing :
  iot_id (thing_with_relations st thing) = VStr (thing_iot_id thing).
Proof.
  unfold thing_with_relations.
  destruct (dict_get (thing_iot_id thing) (locations st));
    destruct (map _ (filter _ (datastreams st))); reflexivity.
Qed.

Lemma customized_thing_locations thing :
  thing_locations (thing_with_relations st thing)
  = match dict_get (thing_iot_id thing) (locations st) with
    | Some location => [location_json location]
    | None => []
    end.
Proof.
  unfold thing_with_relations.
  destruct (dict_get (thing_iot_id thing) (locations st));
    destruct (map _ (filter _ (datastreams st))); reflexivity.
Qed.

Lemma customized_thing_datastreams thing :
  thing_datastreams (thing_with_relations st thing)
  = map (fun kd => datastream_with_observations st (snd kd))
      (filter (fun kd => startswith (fst kd) (thing_iot_id thing))
         (datastreams st)).
Proof.
  unfold thing_with_relations.
  destruct (dict_get (thing_iot_id thing) (locations st));
    destruct (map _ (filter _ (datastreams st))); reflexivity.
Qed.

Lemma customized_datastream_id d :
  iot_id (datastream_with_observations st d) = VStr (ds_iot_id d).
Proof.
  unfold datastream_with_observations.
  destruct (map observation_json (observations st)); reflexivity.
Qed.

End CustomizedDocument.

Section FinalDocument.
Import Final.
Variable st : state.

Lemma final_doc_things :
  doc_things (assemble st)
  = map (fun kt => thing_with_relations st (snd kt)) (things st).
Proof. reflexivity. Qed.

Lemma final_thing_id thing :
  iot_id (thing_with_relations st thing) = VStr (thing_iot_id thing).
Proof.
  unfold thing_with_relations.
  destruct (dict_get (thing_iot_id thing) (locations st));
    destruct (map _ (filter _ (datastreams st))); reflexivity.
Qed.

Lemma final_thing_locations thing :
  thing_locations (thing_with_relations st thing)
  = match dict_get (thing_iot_id thing) (locations st) with
    | Some location => [location_json location]
    | None => []
    end.
Proof.
  unfold thing_with_relations.
  destruct (dict_get (thing_iot_id thing) (locations st));
    destruct (map _ (filter _ (datastreams st))); reflexivity.
Qed.

Lemma final_thing_datastreams thing :
  thing_datastreams (thing_with_relations st thing)
  = map (fun kd => datastream_with_observations (observations st) (snd kd))
      (filter (fun kd => startswith (fst kd) (thing_iot_id thing))
         (datastreams st)).
Proof.
  unfold thing_with_relations.
  destruct (dict_get (thing_iot_id thing) (locations st));
    destruct (map _ (filter _ (datastreams st))); reflexivity.
Qed.

Lemma final_datastream_id obs d :
  iot_id (datastream_with_observations obs d) = VStr (ds_iot_id d).
Proof.
  unfold datastream_with_observations.
  destruct (map _ (filter _ obs)); reflexivity.
Qed.

End FinalDocument.


(* ====================================================================== *)
(** ** The things and the datastreams of the customized document *)
(* ====================================================================== *)

Section CustomizedUnique.
Context `{PyBuiltins}.
Import Customized.

Lemma unique_keys_init : unique_keys init.
Proof. repeat split; constructor. Qed.

Lemma process_cell_unique cols row timestamp_column thing_id timestamp column
  st st' :
  unique_keys st ->
  process_cell cols row timestamp_column thing_id timestamp column st = Ok st' ->
  unique_keys st'.
Proof.
  intros U. unfold process_cell.
  destruct (skipped_column _ _); [now intros [= <-]|].
  destruct (row_getitem cols row column) as [v|]; cbn [bind]; [|discriminate].
  destruct (isna v); [now intros [= <-]|].
  pose proof (create_datastream_unique thing_id (measurement_type_of column)
                st U) as U1.
  destruct (create_datastream _ _ st) as [d st1]. cbn [snd] in U1.
  destruct (py_float v) as [x|]; cbn [bind]; [|discriminate].
  intros [= <-]. exact U1.
Qed.

Lemma process_row_unique cols category timestamp_column row st st' :
  unique_keys st ->
  process_row cols category timestamp_column row st = Ok st' ->
  unique_keys st'.
Proof.
  intros U. unfold process_row.
  destruct (row_getitem cols row id_column) as [id_cell|]; cbn [bind];
    [|discriminate].
  pose proof (create_thing_unique (py_str id_cell) category st U) as U1.
  destruct (create_thing (py_str id_cell) category st) as [thing st1].
  cbn [snd] in U1.
  destruct (create_location (thing_iot_id thing) st1) as [[l st2]|] eqn:E2;
    cbn [bind]; [|discriminate].
  pose proof (create_location_unique _ _ _ _ E2 U1) as U2.
  destruct (row_getitem cols row timestamp_column) as [ts|]; cbn [bind];
    [|discriminate].
  destruct (isna ts); [now intros [= <-]|].
  apply (foldM_invariant unique_keys); [|assumption].
  intros column s s' _. apply process_cell_unique.
Qed.

Lemma customized_run_unique excel_data sheets st :
  foldM (process_sheet excel_data) sheets init = Ok st -> unique_keys st.
Proof.
  apply (foldM_invariant unique_keys); [|apply unique_keys_init].
  intros sheet_name s s' _ U. unfold process_sheet.
  destruct (String.eqb sheet_name "LEGENDE"); [now intros [= <-]|].
  destruct (getitem sheet_name excel_data) as [df|]; cbn [bind];
    [|discriminate].
  apply (foldM_invariant unique_keys); [|assumption].
  intros row s1 s2 _. apply process_row_unique.
Qed.

End CustomizedUnique.

Lemma split_after_thing k :
  nth_error (split "_" ("thing_" ++ k)) 1 = Some (hd "" (split "_" k)).
Proof.
  cbn. pose proof (split_nonempty "_" k) as N.
  destruct (split "_" k) as [|w ws]; [congruence | reflexivity].
Qed.

Lemma NoDup_map_injective {A B} (f : A -> B) (l : list A) :
  (forall x y, f x = f y -> x = y) -> NoDup l -> NoDup (map f l).
Proof.
  intros Inj. induction 1 as [|a l Na _ IH]; simpl; constructor; [|exact IH].
  intros I. apply in_map_iff in I. destruct I as (b & E & Ib).
  apply Inj in E. now subst.
Qed.

Lemma NoDup_keys_filter {V} (p : string * V -> bool) (d : dict V) :
  NoDup (keys d) -> NoDup (keys (filter p d)).
Proof.
  unfold keys. induction d as [|[k v] d IH]; simpl; [constructor|].
  intros N. inversion N as [|? ? Nk Nd]; subst.
  destruct (p (k, v)); [|auto]. simpl. constructor; [|auto].
  intros I. apply Nk. apply in_map_iff in I. destruct I as (x & E & Ix).
  apply filter_In in Ix. apply in_map_iff. exists x. tauto.
Qed.

(** X9.  In every state that the sheets of a workbook lead
    [excel_to_sta_customized.py] to, what a store holds under a key is a
    function of the key: a sensor and an observed property are those of
    their measurement type, a location that of its thing id, a datastream
    that of a thing id and a measurement type its key is made of, a station
    that of its identifier and of one category.  The cells of the sheets
    and the order of the rows decide which keys there are, not what is
    stored under them; so the id of a datastream is ["ds_"] and its key, and
    its sensor, its observed property and its unit are those of one and the
    same measurement type. *)
Theorem customized_entities_depend_on_their_keys `{PyBuiltins} :
  forall (excel_data : workbook) (sheets : list string) (st : Customized.state),
    foldM (Customized.process_sheet excel_data) sheets Customized.init = Ok st ->
    customized_canonical st
    /\ forall key d,
         dict_get key (Customized.datastreams st) = Some d ->
         ds_iot_id d = "ds_" ++ key
         /\ exists code,
              sensor_iot_id (ds_Sensor d) = "sensor_" ++ code
              /\ op_iot_id (ds_ObservedProperty d) = "op_" ++ code
              /\ ds_unitOfMeasurement d = unit_of_measurement code
              /\ dict_get code (Customized.sensors st) = Some (ds_Sensor d)
              /\ dict_get code (Customized.observed_properties st)
                 = Some (ds_ObservedProperty d).
Proof.
  intros excel_data sheets st E.
  destruct (customized_run_canonical excel_data sheets st E) as [C _].
  split; [exact C|].
  intros key d Ed. destruct C as (_ & _ & _ & _ & Cd).
  destruct (Cd key d Ed) as (thing_id & code & -> & Ec & Es & Ep).
  split; [now rewrite Ec|].
  exists code. rewrite Ec at 1 2 3. repeat split; assumption.
Qed.

Lemma customized_entities_depend_on_their_keys_witness :
  exists st,
    foldM (@Customized.process_sheet sample_runtime wb_two_sheets)
      (keys wb_two_sheets) Customized.init = Ok st
    /\ customized_canonical st.
Proof.
  destruct (foldM (@Customized.process_sheet sample_runtime wb_two_sheets)
              (keys wb_two_sheets) Customized.init) as [st|] eqn:E;
    [|vm_compute in E; discriminate].
  exists st. split; [reflexivity|].
  exact (proj1 (@customized_entities_depend_on_their_keys sample_runtime
                  wb_two_sheets (keys wb_two_sheets) st E)).
Defined.

(** X10.  Every Thing of a document of [excel_to_sta_customized.py] has
    exactly one Location.  Its name is that of the thing id; its id is
    ["location_"] followed by the station identifier cut at its first
    underscore, since [create_location] takes [thing_id.split('_')[1]]: the
    stations [MS_1] and [MS_2] both get the location id [location_MS]. *)
Theorem customized_thing_has_one_location `{PyBuiltins} :
  forall (excel_data : workbook) (doc : value),
    Customized.transform excel_data = Ok doc ->
    Forall
      (fun t =>
         exists id_ms,
           iot_id t = VStr ("thing_" ++ id_ms)
           /\ thing_locations t
              = [location_json
                   {| location_iot_id := "location_" ++ hd "" (split "_" id_ms);
                      location_name := "Location for thing_" ++ id_ms;
                      location_description := "Measurement station location";
                      location_encodingType := "application/geo+json";
                      location_location := point_0_0 |}])
      (doc_things doc).
Proof.
  intros excel_data doc. unfold Customized.transform.
  destruct (foldM (Customized.process_sheet excel_data) (keys excel_data)
              Customized.init) as [st|] eqn:E; cbn [bind]; [|discriminate].
  intros [= <-].
  destruct (customized_run_canonical _ _ _ E) as [C L].
  pose proof (customized_run_unique _ _ _ E) as (Ut & _).
  rewrite customized_doc_things. apply Forall_map. apply Forall_forall.
  intros [k t] I. cbn [snd].
  pose proof (NoDup_keys_get _ _ _ Ut I) as Et.
  destruct C as (Ct & Cl & _).
  destruct (Ct k t Et) as [category ->].
  exists k. rewrite customized_thing_id, customized_thing_locations.
  split; [reflexivity|].
  specialize (L k _ Et). unfold dict_in in L.
  cbn [Customized.create_thing Customized.init Customized.things dict_get fst
       thing_iot_id] in *.
  destruct (dict_get ("thing_" ++ k) (Customized.locations st)) as [l|] eqn:El;
    [|discriminate].
  destruct (Cl _ l El) as [st' Ec].
  unfold Customized.create_location in Ec.
  cbn [Customized.locations Customized.init dict_get] in Ec.
  rewrite split_after_thing in Ec. now inversion Ec.
Qed.

Lemma customized_thing_has_one_location_witness :
  exists doc,
    @Customized.transform sample_runtime wb_underscores = Ok doc
    /\ Forall
         (fun t =>
            exists id_ms,
              iot_id t = VStr ("thing_" ++ id_ms)
              /\ thing_locations t
                 = [location_json
                      {| location_iot_id :=
                           "location_" ++ hd "" (split "_" id_ms);
                         location_name := "Location for thing_" ++ id_ms;
                         location_description := "Measurement station location";
                         location_encodingType := "application/geo+json";
                         location_location := point_0_0 |}])
         (doc_things doc).
Proof.
  destruct (@Customized.transform sample_runtime wb_underscores) as [doc|] eqn:E;
    [|vm_compute in E; discriminate].
  exists doc. split; [reflexivity|].
  exact (@customized_thing_has_one_location sample_runtime wb_underscores
           doc E).
Defined.

(** The stations [MS_1] and [MS_2]: two things, one location id. *)
Lemma underscore_stations_share_a_location_id :
  on_doc (fun doc => map (fun t => (iot_id t, map iot_id (thing_locations t)))
                       (doc_things doc))
    (@Customized.transform sample_runtime wb_underscores)
  = Some [(VStr "thing_MS_1", [VStr "location_MS"]);
          (VStr "thing_MS_2", [VStr "location_MS"])].
Proof. vm_compute. reflexivity. Qed.

(** X11.  In a document of [excel_to_sta_customized.py] no two Things
    have the same ["@iot.id"], and no two Datastreams nested under one
    Thing have the same ["@iot.id"]: a station met again, in whatever
    sheet, is never a second Thing. *)
Theorem customized_ids_are_distinct `{PyBuiltins} :
  forall (excel_data : workbook) (doc : value),
    Customized.transform excel_data = Ok doc ->
    NoDup (map iot_id (doc_things doc))
    /\ Forall (fun t => NoDup (map iot_id (thing_datastreams t)))
         (doc_things doc).
Proof.
  intros excel_data doc. unfold Customized.transform.
  destruct (foldM (Customized.process_sheet excel_data) (keys excel_data)
              Customized.init) as [st|] eqn:E; cbn [bind]; [|discriminate].
  intros [= <-].
  destruct (customized_run_canonical _ _ _ E) as [C _].
  pose proof (customized_run_unique _ _ _ E) as (Ut & _ & _ & _ & Ud).
  destruct C as (Ct & _ & _ & _ & Cd).
  rewrite customized_doc_things. split.
  - rewrite map_map.
    rewrite (map_ext_in _ (fun kt => VStr ("thing_" ++ fst kt))).
    + change (fun kt : string * Thing => VStr ("thing_" ++ fst kt))
        with (fun kt : string * Thing =>
                (fun k => VStr ("thing_" ++ k)) (fst kt)).
      rewrite <- map_map. apply NoDup_map_injective; [|exact Ut].
      intros x y [= E']. exact E'.
    + intros [k t] I. rewrite customized_thing_id. cbn [fst snd].
      destruct (Ct k t (NoDup_keys_get _ _ _ Ut I)) as [category ->].
      reflexivity.
  - apply Forall_map. apply Forall_forall. intros [k t] _. cbn [snd].
    rewrite customized_thing_datastreams, map_map.
    set (own := filter _ (Customized.datastreams st)).
    assert (Uo : NoDup (keys own)) by now apply NoDup_keys_filter.
    rewrite (map_ext_in _ (fun kd => VStr ("ds_" ++ fst kd))).
    + change (fun kd : string * Datastream => VStr ("ds_" ++ fst kd))
        with (fun kd : string * Datastream =>
                (fun k => VStr ("ds_" ++ k)) (fst kd)).
      rewrite <- map_map. apply NoDup_map_injective; [|exact Uo].
      intros x y [= E']. exact E'.
    + intros [key d] I. rewrite customized_datastream_id. cbn [fst snd].
      apply filter_In in I. destruct I as [I _].
      destruct (Cd key d (NoDup_keys_get _ _ _ Ud I))
        as (thing_id & code & -> & -> & _).
      reflexivity.
Qed.

Lemma customized_ids_are_distinct_witness :
  exists doc,
    @Customized.transform sample_runtime wb_prefix_ids = Ok doc
    /\ NoDup (map iot_id (doc_things doc))
    /\ Forall (fun t => NoDup (map iot_id (thing_datastreams t)))
         (doc_things doc).
Proof.
  destruct (@Customized.transform sample_runtime wb_prefix_ids) as [doc|] eqn:E;
    [|vm_compute in E; discriminate].
  exists doc. split; [reflexivity|].
  exact (@customized_ids_are_distinct sample_runtime wb_prefix_ids doc E).
Defined.


(* ====================================================================== *)
(** ** The observations of a sheet *)
(* ====================================================================== *)

Section MapM.
Context {A B : Type}.

Lemma mapM_app (f : A -> result B) l1 l2 :
  mapM f (l1 ++ l2)
  = (r1 <- mapM f l1 ;; r2 <- mapM f l2 ;; Ok (r1 ++ r2)%list).
Proof.
  induction l1 as [|a l1 IH]; simpl.
  - destruct (mapM f l2); reflexivity.
  - destruct (f a); cbn [bind]; [|reflexivity]. rewrite IH.
    destruct (mapM f l1); cbn [bind]; [|reflexivity].
    destruct (mapM f l2); reflexivity.
Qed.

End MapM.

Section CustomizedObservations.
Context `{PyBuiltins}.
Import Customized.

Lemma create_location_observations thing_id st l st' :
  create_location thing_id st = Ok (l, st') ->
  observations st' = observations st.
Proof.
  unfold create_location. destruct (dict_get thing_id (locations st)).
  - now intros [= _ <-].
  - destruct (nth_error (split "_" thing_id) 1); [|discriminate].
    now intros [= _ <-].
Qed.

Lemma create_datastream_observations thing_id property_name st :
  observations (snd (create_datastream thing_id property_name st))
  = observations st.
Proof.
  unfold create_datastream. destruct (dict_get _ (datastreams st));
    [reflexivity|].
  unfold create_sensor. destruct (dict_get _ (sensors st)); cbn [fst snd];
    unfold create_observed_property;
    match goal with
    | |- context [dict_get ?c (observed_properties ?s)] =>
        destruct (dict_get c (observed_properties s))
    end; reflexivity.
Qed.

(** The loop over the columns, on any part [cs] of the header. *)
Lemma process_cells_observations cols row timestamp_column thing_id timestamp
  station cs : forall st st',
  foldM (process_cell cols row timestamp_column thing_id timestamp) cs st
  = Ok st' ->
  exists rs,
    mapM (fun cc =>
            x <- py_float (snd cc) ;;
            Ok {| reading_station := station; reading_time := timestamp;
                  reading_column := fst cc; reading_value := x |})
      (flat_map
         (fun column =>
            if skipped_column timestamp_column column then []
            else match row_getitem cols row column with
                 | Ok c => if isna c then [] else [(column, c)]
                 | Err _ => []
                 end) cs)
    = Ok rs
    /\ observations st' = (observations st ++ map customized_observation rs)%list.
Proof.
  induction cs as [|column cs IH]; intros st st'; cbn [foldM flat_map].
  { intros [= <-]. exists []. split; [reflexivity|]. now rewrite app_nil_r. }
  unfold process_cell at 1.
  destruct (skipped_column timestamp_column column); cbn [bind app].
  { apply IH. }
  destruct (row_getitem cols row column) as [c|]; cbn [bind]; [|discriminate].
  destruct (isna c); cbn [bind app]. { apply IH. }
  pose proof (create_datastream_observations thing_id
                (measurement_type_of column) st) as Eo.
  destruct (create_datastream _ _ st) as [d st1]. cbn [snd] in Eo.
  cbn [mapM fst snd].
  destruct (py_float c) as [x|]; cbn [bind]; [|discriminate].
  intros E. destruct (IH _ _ E) as (rs & -> & Er). cbn [bind].
  eexists. split; [reflexivity|].
  rewrite Er. cbn [create_observation snd observations set_observations map].
  rewrite Eo, <- app_assoc. reflexivity.
Qed.

Lemma process_row_observations cols category timestamp_column row st st' :
  process_row cols category timestamp_column row st = Ok st' ->
  exists rs,
    row_readings cols timestamp_column row = Ok rs
    /\ observations st' = (observations st ++ map customized_observation rs)%list.
Proof.
  unfold process_row, row_readings.
  destruct (row_getitem cols row id_column) as [id_cell|]; cbn [bind];
    [|discriminate].
  pose proof (create_thing_frame (py_str id_cell) category st)
    as (_ & _ & _ & _ & F1).
  destruct (create_thing (py_str id_cell) category st) as [thing st1].
  cbn [snd] in F1.
  destruct (create_location (thing_iot_id thing) st1) as [[l st2]|] eqn:E2;
    cbn [bind]; [|discriminate].
  pose proof (create_location_observations _ _ _ _ E2) as F2.
  destruct (row_getitem cols row timestamp_column) as [ts|]; cbn [bind];
    [|discriminate].
  destruct (isna ts).
  { intros [= <-]. exists []. split; [reflexivity|].
    cbn [map]. rewrite app_nil_r. congruence. }
  intros E.
  destruct (process_cells_observations _ _ _ _ _ (py_str id_cell) _ _ _ E)
    as (rs & Er & Eo).
  exists rs. split; [exact Er|]. rewrite Eo. congruence.
Qed.

Lemma process_rows_observations cols category timestamp_column rs :
  forall st st',
    foldM (process_row cols category timestamp_column) rs st = Ok st' ->
    exists readings,
      sheet_readings cols timestamp_column rs = Ok readings
      /\ observations st'
         = (observations st ++ map customized_observation readings)%list.
Proof.
  unfold sheet_readings.
  induction rs as [|row rs IH]; intros st st'; cbn [foldM mapM].
  { intros [= <-]. exists []. split; [reflexivity|]. cbn.
    now rewrite app_nil_r. }
  destruct (process_row cols category timestamp_column row st) as [st1|] eqn:E1;
    cbn [bind]; [|discriminate].
  destruct (process_row_observations _ _ _ _ _ _ E1) as (r1 & -> & Eo1).
  intros E. destruct (IH _ _ E) as (r2 & E2 & Eo2). cbn [bind].
  destruct (mapM (row_readings cols timestamp_column) rs) as [per_row|];
    cbn [bind] in *; [|discriminate].
  inversion E2; subst r2.
  exists (r1 ++ concat per_row)%list. split; [reflexivity|].
  rewrite Eo2, Eo1, map_app, app_assoc. reflexivity.
Qed.

End CustomizedObservations.

(** X12.  The observations that [process_sheet] of
    [excel_to_sta_customized.py] appends for a sheet are its measurement
    cells read row by row and, within a row, column by column: one
    observation for every cell that is not missing, in a column that is
    neither [ID_MS], the timestamp column nor an unnamed one, of a row
    whose timestamp is not missing; its two times are the timestamp of the
    row (a date as its ISO text) and its result is [float] of the cell.
    Nothing else is appended, and nothing that was there is touched. *)
Theorem customized_observations_of_a_sheet `{PyBuiltins} :
  forall (excel_data : workbook) (sheet_name : string) (df : DataFrame)
         (st st' : Customized.state),
    sheet_name <> "LEGENDE" ->
    dict_get sheet_name excel_data = Some df ->
    Customized.process_sheet excel_data sheet_name st = Ok st' ->
    exists readings,
      sheet_readings (columns df) (timestamp_column_of sheet_name) (rows df)
      = Ok readings
      /\ Customized.observations st'
         = (Customized.observations st
            ++ map customized_observation readings)%list.
Proof.
  intros excel_data sheet_name df st st' Nl Ed.
  unfold Customized.process_sheet, getitem.
  apply String.eqb_neq in Nl. rewrite Nl, Ed. cbn [bind].
  apply process_rows_observations.
Qed.

Lemma customized_observations_of_a_sheet_witness :
  exists st' readings,
    @Customized.process_sheet sample_runtime wb_scenario "FREIFLÄCHE"
      Customized.init = Ok st'
    /\ @sheet_readings sample_runtime ["ID_MS"; "DATUM_ZEIT"; "TEMP [C°]"]
         "DATUM_ZEIT" [[Str "MS1"; T1; Float (Fin (41 # 2))];
                       [Str "MS1"; T2; NaN]]
       = Ok readings
    /\ Customized.observations st' = map customized_observation readings.
Proof.
  destruct (@Customized.process_sheet sample_runtime wb_scenario "FREIFLÄCHE"
              Customized.init) as [st'|] eqn:E;
    [|vm_compute in E; discriminate].
  destruct (@customized_observations_of_a_sheet sample_runtime wb_scenario
              "FREIFLÄCHE"
              (sheet ["ID_MS"; "DATUM_ZEIT"; "TEMP [C°]"]
                 [[Str "MS1"; T1; Float (Fin (41 # 2))];
                  [Str "MS1"; T2; NaN]])
              Customized.init st' ltac:(discriminate) eq_refl E)
    as (readings & Er & Eo).
  exists st', readings. split; [reflexivity|]. split; [exact Er | exact Eo].
Defined.


(* ====================================================================== *)
(** ** The observations of [final_version_6things.py] *)
(* ====================================================================== *)

Lemma dict_get_set_kept {V} (d : dict V) k k' v v' :
  dict_get k d = Some v -> dict_get k' d = None ->
  dict_get k (dict_set k' v' d) = Some v.
Proof.
  intros E N. rewrite dict_get_set_other; [assumption|].
  intros ->. congruence.
Qed.

Lemma mapM_Forall {A B} (f : A -> result B) (P : B -> Prop) l :
  forall rs, mapM f l = Ok rs -> (forall a b, f a = Ok b -> P b) -> Forall P rs.
Proof.
  induction l as [|a l IH]; cbn [mapM]; intros rs.
  - intros [= <-] _. constructor.
  - destruct (f a) as [b|] eqn:Ea; cbn [bind]; [|discriminate].
    destruct (mapM f l) as [rs'|]; cbn [bind]; [|discriminate].
    intros [= <-] Hp. constructor; [now apply (Hp a) | now apply IH].
Qed.

Section FinalObservations.
Context `{PyBuiltins}.
Variable legend : dict Final.hms_info.

Lemma final_keeps_refl st : final_keeps st st.
Proof. split; auto. Qed.

Lemma final_keeps_trans st1 st2 st3 :
  final_keeps st1 st2 -> final_keeps st2 st3 -> final_keeps st1 st3.
Proof. intros [A B] [C D]. split; auto. Qed.

Lemma final_registered_later st st' r :
  final_keeps st st' -> final_registered legend st r ->
  final_registered legend st' r.
Proof.
  intros [Kt Kd] [Rt Rd]. unfold final_registered, dict_in in *. split.
  - destruct (dict_get _ (Final.things st)) as [t|] eqn:E; [|discriminate].
    now rewrite (Kt _ _ E).
  - destruct (dict_get _ (Final.datastreams st)) as [d|] eqn:E; [|discriminate].
    now rewrite (Kd _ _ E).
Qed.

(** The thing of a row. *)
Lemma register_thing_ids id_ms category st :
  final_ids st ->
  let r := Final.register_thing (legend_info legend id_ms) id_ms category st in
  fst r = "thing_" ++ final_thing_key legend id_ms
  /\ final_ids (snd r) /\ final_keeps st (snd r)
  /\ dict_in (final_thing_key legend id_ms) (Final.things (snd r)) = true.
Proof.
  intros [It Id]. unfold Final.register_thing. cbv zeta.
  change (py_str (Final.hms (legend_info legend id_ms)) ++ "_"
          ++ py_str (Final.bemerkung (legend_info legend id_ms)) ++ "_" ++ id_ms)
    with (final_thing_key legend id_ms).
  destruct (dict_get (final_thing_key legend id_ms) (Final.things st))
    as [t|] eqn:E; cbn [fst snd].
  - split; [now apply It|]. split; [now split|].
    split; [apply final_keeps_refl|]. unfold dict_in. now rewrite E.
  - split; [reflexivity|]. unfold final_ids, final_keeps.
    cbn [Final.things Final.datastreams]. split; [split|].
    + intros k t. destruct (String.eqb_spec (final_thing_key legend id_ms) k)
        as [<-|N].
      * rewrite dict_get_set_same. now intros [= <-].
      * rewrite dict_get_set_other by assumption. apply It.
    + exact Id.
    + split.
      * split; [|auto]. intros k t Ek. now apply dict_get_set_kept.
      * unfold dict_in. now rewrite dict_get_set_same.
Qed.

Lemma register_location_ids info thing_id st :
  let st' := Final.register_location info thing_id st in
  Final.things st' = Final.things st
  /\ Final.datastreams st' = Final.datastreams st
  /\ Final.observations st' = Final.observations st.
Proof.
  destruct (register_location_spec info thing_id st) as (A & _ & _ & B & C & _).
  auto.
Qed.

(** The loop over the columns, on any part [cs] of the header. *)
Lemma final_cells_observations cols row timestamp_column timestamp id_ms cs :
  forall st st',
    final_ids st ->
    foldM (Final.process_cell cols row (legend_info legend id_ms)
             timestamp_column ("thing_" ++ final_thing_key legend id_ms)
             timestamp) cs st = Ok st' ->
    final_ids st' /\ final_keeps st st'
    /\ Final.things st' = Final.things st
    /\ exists rs,
         mapM (fun cc =>
                 x <- py_float (snd cc) ;;
                 Ok {| reading_station := id_ms; reading_time := timestamp;
                       reading_column := fst cc; reading_value := x |})
           (flat_map
              (fun column =>
                 if skipped_column timestamp_column column then []
                 else match row_getitem cols row column with
                      | Ok c => if isna c then [] else [(column, c)]
                      | Err _ => []
                      end) cs)
         = Ok rs
         /\ Final.observations st'
            = (Final.observations st ++ map (final_observation legend) rs)%list
         /\ Forall
              (fun r =>
                 dict_in (final_datastream_key legend (reading_station r)
                            (measurement_type_of (reading_column r)))
                   (Final.datastreams st') = true) rs.
Proof.
  induction cs as [|column cs IH]; intros st st' I; cbn [foldM flat_map].
  { intros [= <-]. split; [exact I|]. split; [apply final_keeps_refl|].
    split; [reflexivity|]. exists []. cbn. now rewrite app_nil_r. }
  unfold Final.process_cell at 1.
  destruct (skipped_column timestamp_column column); cbn [bind app].
  { now apply IH. }
  destruct (row_getitem cols row column) as [c|]; cbn [bind]; [|discriminate].
  destruct (isna c); cbn [bind app]. { now apply IH. }
  destruct (Final.register_observed_property _ _) as [p ops].
  destruct (Final.register_sensor _ _) as [s sens].
  set (mt := measurement_type_of column).
  assert (R : let r := Final.register_datastream (legend_info legend id_ms)
                         ("thing_" ++ final_thing_key legend id_ms) mt s p
                         (Final.datastreams st) in
              ds_iot_id (fst r) = "ds_" ++ final_datastream_key legend id_ms mt
              /\ (forall key d, dict_get key (snd r) = Some d ->
                    ds_iot_id d = "ds_" ++ key)
              /\ (forall key d, dict_get key (Final.datastreams st) = Some d ->
                    dict_get key (snd r) = Some d)
              /\ dict_in (final_datastream_key legend id_ms mt) (snd r) = true).
  { destruct I as [_ Id]. unfold Final.register_datastream. cbv zeta.
    change (("thing_" ++ final_thing_key legend id_ms) ++ "_" ++ mt
            ++ "_" ++ py_str (Final.hms (legend_info legend id_ms))
            ++ "_" ++ py_str (Final.bemerkung (legend_info legend id_ms)))
      with (final_datastream_key legend id_ms mt).
    destruct (dict_get (final_datastream_key legend id_ms mt)
                (Final.datastreams st)) as [d0|] eqn:E; cbn [fst snd].
    - split; [now apply Id|]. split; [exact Id|]. split; [auto|].
      unfold dict_in. now rewrite E.
    - split; [reflexivity|]. split; [|split].
      + intros key d.
        destruct (String.eqb_spec (final_datastream_key legend id_ms mt) key)
          as [<-|N].
        * rewrite dict_get_set_same. now intros [= <-].
        * rewrite dict_get_set_other by assumption. apply Id.
      + intros key d Ek. now apply dict_get_set_kept.
      + unfold dict_in. now rewrite dict_get_set_same. }
  destruct (Final.register_datastream _ _ _ _ _ _) as [d dss].
  cbn [fst snd] in R. destruct R as (Rid & Rids & Rkept & Rin).
  cbn [mapM fst snd].
  destruct (py_float c) as [x|]; cbn [bind]; [|discriminate].
  intros E.
  match type of E with
  | foldM _ _ ?s = _ => set (st1 := s) in *
  end.
  assert (I1 : final_ids st1) by (destruct I as [It _]; now split).
  assert (K1 : final_keeps st st1) by (split; [auto | exact Rkept]).
  destruct (IH st1 st' I1 E) as (I' & K' & T' & rs & -> & Eo & F).
  cbn [bind].
  split; [exact I'|]. split; [eapply final_keeps_trans; eassumption|].
  split; [exact T'|].
  eexists. split; [reflexivity|]. split.
  - rewrite Eo. subst st1. cbn [Final.observations map final_observation
      reading_time reading_value reading_station reading_column].
    fold mt. rewrite Rid, <- app_assoc. reflexivity.
  - constructor; [|exact F].
    cbn [reading_station reading_column]. fold mt.
    destruct K' as [_ Kd]. unfold dict_in in *.
    destruct (dict_get (final_datastream_key legend id_ms mt) dss) as [d1|] eqn:E1;
      [|discriminate].
    now rewrite (Kd _ _ E1).
Qed.

Lemma final_row_observations cols category timestamp_column row st st' :
  final_ids st ->
  Final.process_row legend cols category timestamp_column row st = Ok st' ->
  final_ids st' /\ final_keeps st st'
  /\ exists rs,
       row_readings cols timestamp_column row = Ok rs
       /\ Final.observations st'
          = (Final.observations st ++ map (final_observation legend) rs)%list
       /\ Forall (final_registered legend st') rs.
Proof.
  intros I. unfold Final.process_row, row_readings.
  destruct (row_getitem cols row id_column) as [id_cell|]; cbn [bind];
    [|discriminate].
  fold (legend_info legend (py_str id_cell)).
  destruct (register_thing_ids (py_str id_cell) category st I)
    as (Eid & I1 & K1 & R1).
  pose proof (register_thing_frame (legend_info legend (py_str id_cell))
                (py_str id_cell) category st) as (_ & _ & _ & _ & O1).
  destruct (Final.register_thing _ (py_str id_cell) category st)
    as [thing_id st1]. cbn [fst snd] in *. subst thing_id.
  destruct (register_location_ids (legend_info legend (py_str id_cell))
              ("thing_" ++ final_thing_key legend (py_str id_cell)) st1)
    as (T2 & D2 & O2).
  set (st2 := Final.register_location _ _ st1) in *.
  assert (I2 : final_ids st2).
  { destruct I1 as [It Id]. split; [now rewrite T2 | now rewrite D2]. }
  assert (K2 : final_keeps st st2).
  { destruct K1 as [Kt Kd]. split; [rewrite T2 | rewrite D2]; assumption. }
  assert (R2 : dict_in (final_thing_key legend (py_str id_cell))
                 (Final.things st2) = true) by now rewrite T2.
  destruct (row_getitem cols row timestamp_column) as [ts|]; cbn [bind];
    [|discriminate].
  destruct (isna ts).
  { intros [= <-]. split; [exact I2|]. split; [exact K2|].
    exists []. split; [reflexivity|]. cbn [map]. rewrite app_nil_r.
    split; [congruence | constructor]. }
  intros E.
  destruct (final_cells_observations _ _ _ _ _ _ _ _ I2 E)
    as (I' & K' & T' & rs & Er & Eo & F).
  split; [exact I'|]. split; [eapply final_keeps_trans; eassumption|].
  exists rs. split; [exact Er|]. split; [rewrite Eo; congruence|].
  assert (S : Forall (fun r => reading_station r = py_str id_cell) rs).
  { apply (mapM_Forall _ _ _ _ Er). intros cc r.
    destruct (py_float (snd cc)); cbn [bind]; [|discriminate].
    now intros [= <-]. }
  rewrite Forall_forall in F, S. apply Forall_forall. intros r Ir.
  split; [|now apply F]. rewrite (S r Ir), T'. exact R2.
Qed.

Lemma final_rows_observations cols category timestamp_column rs :
  forall st st',
    final_ids st ->
    foldM (Final.process_row legend cols category timestamp_column) rs st
    = Ok st' ->
    final_ids st' /\ final_keeps st st'
    /\ exists readings,
         sheet_readings cols timestamp_column rs = Ok readings
         /\ Final.observations st'
            = (Final.observations st
               ++ map (final_observation legend) readings)%list
         /\ Forall (final_registered legend st') readings.
Proof.
  unfold sheet_readings.
  induction rs as [|row rs IH]; intros st st' I; cbn [foldM mapM].
  { intros [= <-]. split; [exact I|]. split; [apply final_keeps_refl|].
    exists []. cbn. rewrite app_nil_r. repeat split. constructor. }
  destruct (Final.process_row legend cols category timestamp_column row st)
    as [st1|] eqn:E1; cbn [bind]; [|discriminate].
  destruct (final_row_observations _ _ _ _ _ _ I E1)
    as (I1 & K1 & r1 & -> & Eo1 & F1).
  intros E. destruct (IH _ _ I1 E) as (I' & K' & r2 & E2 & Eo2 & F2).
  cbn [bind].
  destruct (mapM (row_readings cols timestamp_column) rs) as [per_row|];
    cbn [bind] in *; [|discriminate].
  inversion E2; subst r2.
  split; [exact I'|]. split; [eapply final_keeps_trans; eassumption|].
  exists (r1 ++ concat per_row)%list. split; [reflexivity|]. split.
  - rewrite Eo2, Eo1, map_app, app_assoc. reflexivity.
  - apply Forall_app. split; [|exact F2].
    eapply Forall_impl; [|exact F1].
    intros r. now apply final_registered_later.
Qed.

Lemma final_sheets_observations (sheets : workbook) :
  forall st st',
    final_ids st ->
    foldM (Final.process_sheet legend) sheets st = Ok st' ->
    final_ids st' /\ final_keeps st st'
    /\ exists readings,
         (per_sheet <- mapM final_sheet_readings sheets ;; Ok (concat per_sheet))
         = Ok readings
         /\ Final.observations st'
            = (Final.observations st
               ++ map (final_observation legend) readings)%list
         /\ Forall (final_registered legend st') readings.
Proof.
  induction sheets as [|[sheet_name df] sheets IH]; intros st st' I;
    cbn [foldM mapM].
  { intros [= <-]. split; [exact I|]. split; [apply final_keeps_refl|].
    exists []. cbn. rewrite app_nil_r. repeat split. constructor. }
  assert (S : forall st1,
             Final.process_sheet legend (sheet_name, df) st = Ok st1 ->
             final_ids st1 /\ final_keeps st st1
             /\ exists r1,
                  final_sheet_readings (sheet_name, df) = Ok r1
                  /\ Final.observations st1
                     = (Final.observations st
                        ++ map (final_observation legend) r1)%list
                  /\ Forall (final_registered legend st1) r1).
  { intros st1. unfold Final.process_sheet, final_sheet_readings.
    assert (Z : forall s, Ok st = Ok s ->
                final_ids s /\ final_keeps st s
                /\ exists r1 : list reading,
                     Ok [] = Ok r1
                     /\ Final.observations s
                        = (Final.observations st
                           ++ map (final_observation legend) r1)%list
                     /\ Forall (final_registered legend s) r1).
    { intros s [= <-]. split; [exact I|]. split; [apply final_keeps_refl|].
      exists []. cbn. rewrite app_nil_r. repeat split. constructor. }
    destruct (String.eqb sheet_name "LEGENDE"); [apply Z|].
    destruct (negb (has_column id_column (columns df))
              || negb (has_column (timestamp_column_of sheet_name) (columns df)));
      [apply Z|].
    now apply final_rows_observations. }
  destruct (Final.process_sheet legend (sheet_name, df) st) as [st1|] eqn:E1;
    cbn [bind]; [|discriminate].
  destruct (S st1 eq_refl) as (I1 & K1 & r1 & -> & Eo1 & F1).
  intros E. destruct (IH _ _ I1 E) as (I' & K' & r2 & E2 & Eo2 & F2).
  cbn [bind].
  destruct (mapM final_sheet_readings sheets) as [per_sheet|];
    cbn [bind] in *; [|discriminate].
  inversion E2; subst r2.
  split; [exact I'|]. split; [eapply final_keeps_trans; eassumption|].
  exists (r1 ++ concat per_sheet)%list. split; [reflexivity|]. split.
  - rewrite Eo2, Eo1, map_app, app_assoc. reflexivity.
  - apply Forall_app. split; [|exact F2].
    eapply Forall_impl; [|exact F1].
    intros r. now apply final_registered_later.
Qed.

End FinalObservations.

Lemma final_ids_init : final_ids Final.init.
Proof. split; intros ? ?; discriminate. Qed.


Lemma prefix_app (p s : string) : prefix p (p ++ s) = true.
Proof.
  induction p as [|c p IH]; simpl; [now destruct s|].
  destruct (Ascii.ascii_dec c c); [exact IH | congruence].
Qed.

(** X13.  The observations that [final_version_6things.py] has collected
    when its loop over the sheets ends are the readings of the workbook,
    in the order of the sheets, of the rows and of the columns: one for
    every measurement cell that is not missing, in a row with a timestamp,
    of a sheet that is not the legend and has its identifier and timestamp
    columns.  Each carries the timestamp of its row twice, [float] of its
    cell, and the id of the datastream of its station and measurement
    type, [ds_thing_<hms>_<bemerkung>_<id>_<type>_<hms>_<bemerkung>]. *)
Theorem final_observations_are_the_readings `{PyBuiltins} :
  forall (excel_data : workbook) (st : Final.state),
    Final.collect excel_data = Ok st ->
    exists legend readings,
      Final.read_legend excel_data = Ok legend
      /\ final_readings excel_data = Ok readings
      /\ Final.observations st = map (final_observation legend) readings.
Proof.
  intros excel_data st. unfold Final.collect.
  destruct (Final.read_legend excel_data) as [legend|]; cbn [bind];
    [|discriminate].
  intros E.
  destruct (final_sheets_observations legend excel_data _ _ final_ids_init E)
    as (_ & _ & readings & Er & Eo & _).
  exists legend, readings. split; [reflexivity|]. split; [exact Er|].
  exact Eo.
Qed.

Lemma final_observations_are_the_readings_witness :
  exists st legend readings,
    @Final.collect sample_runtime wb_two_columns = Ok st
    /\ @Final.read_legend sample_runtime wb_two_columns = Ok legend
    /\ @final_readings sample_runtime wb_two_columns = Ok readings
    /\ Final.observations st
       = map (@final_observation sample_runtime legend) readings.
Proof.
  destruct (@Final.collect sample_runtime wb_two_columns) as [st|] eqn:E;
    [|vm_compute in E; discriminate].
  destruct (@final_observations_are_the_readings sample_runtime wb_two_columns
              st E) as (legend & readings & El & Er & Eo).
  exists st, legend, readings. auto.
Defined.

(** X14.  No reading is lost on its way to the document of
    [final_version_6things.py], and each is where it belongs: for every
    reading of the workbook the document has the thing of its station, that
    thing has the datastream of its station and measurement type, and that
    datastream has an observation with the time and the value of the
    reading, without a back-reference. *)
Theorem final_document_holds_every_reading `{PyBuiltins} :
  forall (excel_data : workbook) (doc : value) (legend : dict Final.hms_info)
         (readings : list reading),
    Final.excel_to_sensorthings excel_data = Ok doc ->
    Final.read_legend excel_data = Ok legend ->
    final_readings excel_data = Ok readings ->
    forall r, In r readings ->
      exists t d,
        In t (doc_things doc)
        /\ iot_id t
           = VStr ("thing_" ++ final_thing_key legend (reading_station r))
        /\ In d (thing_datastreams t)
        /\ iot_id d
           = VStr ("ds_" ++ final_datastream_key legend (reading_station r)
                              (measurement_type_of (reading_column r)))
        /\ In (VDict [("phenomenonTime", VCell (reading_time r));
                      ("resultTime", VCell (reading_time r));
                      ("result", VFloat (reading_value r))])
             (datastream_observations d).
Proof.
  intros excel_data doc legend readings.
  unfold Final.excel_to_sensorthings, Final.collect.
  intros Ed El. rewrite El in Ed. cbn [bind] in Ed.
  destruct (foldM (Final.process_sheet legend) excel_data Final.init)
    as [st|] eqn:E; cbn [bind] in Ed; [|discriminate].
  inversion Ed; subst doc. clear Ed.
  destruct (final_sheets_observations legend excel_data _ _ final_ids_init E)
    as ([It Id] & _ & readings' & Er' & Eo & F).
  unfold final_readings. intros Er. rewrite Er in Er'.
  inversion Er'; subst readings'. clear Er'.
  intros r Ir. rewrite Forall_forall in F.
  destruct (F r Ir) as [Rt Rd]. unfold dict_in in Rt, Rd.
  set (tk := final_thing_key legend (reading_station r)) in *.
  set (dk := final_datastream_key legend (reading_station r)
               (measurement_type_of (reading_column r))) in *.
  destruct (dict_get tk (Final.things st)) as [t|] eqn:Et; [|discriminate].
  destruct (dict_get dk (Final.datastreams st)) as [d|] eqn:Edk; [|discriminate].
  exists (Final.thing_with_relations st t),
    (Final.datastream_with_observations (Final.observations st) d).
  split.
  { rewrite final_doc_things. apply in_map_iff. exists (tk, t).
    split; [reflexivity | now apply dict_get_In]. }
  split. { rewrite final_thing_id. now rewrite (It _ _ Et). }
  split.
  { rewrite final_thing_datastreams. apply in_map_iff. exists (dk, d).
    split; [reflexivity|]. apply filter_In. split; [now apply dict_get_In|].
    cbn [fst]. rewrite (It _ _ Et). unfold startswith. subst dk.
    unfold final_datastream_key. fold tk. apply prefix_app. }
  split. { rewrite final_datastream_id. now rewrite (Id _ _ Edk). }
  rewrite final_nests_own_observations. apply in_map_iff.
  exists (final_observation legend r). split; [reflexivity|].
  apply filter_In. split.
  - rewrite Eo. cbn [Final.observations Final.init app]. now apply in_map.
  - cbn [final_observation Final.obs_Datastream]. fold dk.
    rewrite (Id _ _ Edk). apply String.eqb_refl.
Qed.

Lemma final_document_holds_every_reading_witness :
  exists doc legend readings,
    @Final.excel_to_sensorthings sample_runtime wb_two_columns = Ok doc
    /\ @final_readings sample_runtime wb_two_columns = Ok readings
    /\ List.length readings = 2
    /\ forall r, In r readings ->
         exists t d,
           In t (doc_things doc)
           /\ iot_id t
              = VStr ("thing_" ++ @final_thing_key sample_runtime legend
                                    (reading_station r))
           /\ In d (thing_datastreams t)
           /\ iot_id d
              = VStr ("ds_" ++ @final_datastream_key sample_runtime legend
                                 (reading_station r)
                                 (measurement_type_of (reading_column r)))
           /\ In (VDict [("phenomenonTime", VCell (reading_time r));
                         ("resultTime", VCell (reading_time r));
                         ("result", VFloat (reading_value r))])
                (datastream_observations d).
Proof.
  destruct (@Final.excel_to_sensorthings sample_runtime wb_two_columns)
    as [doc|] eqn:Ed; [|vm_compute in Ed; discriminate].
  destruct (@Final.read_legend sample_runtime wb_two_columns)
    as [legend|] eqn:El; [|vm_compute in El; discriminate].
  destruct (@final_readings sample_runtime wb_two_columns)
    as [readings|] eqn:Er; [|vm_compute in Er; discriminate].
  exists doc, legend, readings. split; [reflexivity|]. split; [reflexivity|].
  split; [vm_compute in Er; inversion Er; reflexivity|].
  exact (@final_document_holds_every_reading sample_runtime wb_two_columns
           doc legend readings Ed El Er).
Defined.


(* ====================================================================== *)
(** ** The summaries *)
(* ====================================================================== *)

Section Sums.

Lemma sumM_constant (f : value -> result nat) (n : nat) (l : list value) :
  (forall e, In e l -> f e = Ok n) ->
  Report.sumM f l = Ok (List.length l * n).
Proof.
  unfold Report.sumM. intros Hf.
  assert (G : forall acc,
             foldM (fun e m => k <- f e ;; Ok (m + k)) l acc
             = Ok (acc + List.length l * n)).
  { induction l as [|e l IH]; intros acc; cbn [foldM List.length].
    - f_equal. lia.
    - rewrite (Hf e) by now left. cbn [bind].
      rewrite IH by (intros e' I; apply Hf; now right). f_equal. lia. }
  apply (G 0).
Qed.

Lemma list_sum_set (d : dict nat) k c v :
  dict_get k d = Some c ->
  list_sum (map snd (dict_set k v d)) + c = list_sum (map snd d) + v.
Proof.
  induction d as [|[k' c'] d IH]; simpl; [discriminate|].
  destruct (String.eqb k' k); simpl.
  - intros [= ->]. lia.
  - intros E. specialize (IH E). lia.
Qed.

Lemma list_sum_set_fresh (d : dict nat) k v :
  dict_get k d = None ->
  list_sum (map snd (dict_set k v d)) = list_sum (map snd d) + v.
Proof.
  intros E. rewrite dict_set_fresh by assumption.
  rewrite map_app, list_sum_app. simpl. lia.
Qed.

End Sums.

Section CustomizedTotals.
Import Customized.
Variable st : state.

Lemma customized_datastream_counts d :
  (obs <- Report.py_get "Observations" (VList [])
            (datastream_with_observations st d) ;;
   Report.py_len obs)
  = Ok (List.length (observations st)).
Proof.
  unfold datastream_with_observations.
  destruct (observations st) as [|o obs]; [reflexivity|].
  cbn [map Report.py_get]. rewrite dict_get_set_same. cbn [bind Report.py_len].
  cbn [List.length]. now rewrite length_map.
Qed.

Lemma customized_thing_counts thing acc :
  Report.count_thing (thing_with_relations st thing) acc
  = Ok (fst acc
        + List.length
            (filter (fun kd => startswith (fst kd) (thing_iot_id thing))
               (datastreams st)),
        snd acc
        + List.length
            (filter (fun kd => startswith (fst kd) (thing_iot_id thing))
               (datastreams st))
          * List.length (observations st)).
Proof.
  unfold thing_with_relations.
  set (own := filter _ (datastreams st)).
  set (with_location := match dict_get _ (locations st) with
                        | Some l => _
                        | None => _
                        end).
  assert (Hn : dict_get "name" with_location = Some (VStr (thing_name thing))
               /\ dict_get "Datastreams" with_location = None).
  { subst with_location.
    destruct (dict_get (thing_iot_id thing) (locations st)); split; reflexivity. }
  destruct Hn as [Hn Hd].
  destruct own as [|kd own'] eqn:Eo; cbn [map List.length].
  - unfold Report.count_thing. cbn [Report.py_contains]. unfold dict_in.
    rewrite Hd. cbn [bind]. destruct acc as [a b]. cbn [fst snd].
    f_equal. f_equal; lia.
  - unfold Report.count_thing. cbn [Report.py_contains]. unfold dict_in.
    rewrite dict_get_set_same. cbn [bind Report.py_getitem]. unfold getitem.
    rewrite dict_get_set_same. cbn [bind Report.py_len List.length].
    unfold Report.count_observations. cbn [Report.py_iter bind].
    rewrite (sumM_constant _ (List.length (observations st))).
    + cbn [bind List.length]. rewrite dict_get_set_other by discriminate.
      rewrite Hn. cbn [bind]. now rewrite length_map.
    + intros e [<-|I]; [apply customized_datastream_counts|].
      apply in_map_iff in I. destruct I as (x & <- & _).
      apply customized_datastream_counts.
Qed.

Lemma customized_things_count (l : dict Thing) : forall acc,
  foldM Report.count_thing
    (map (fun kt => thing_with_relations st (snd kt)) l) acc
  = Ok (fst acc
        + List.length
            (flat_map
               (fun kt =>
                  filter (fun kd => startswith (fst kd) (thing_iot_id (snd kt)))
                    (datastreams st)) l),
        snd acc
        + List.length
            (flat_map
               (fun kt =>
                  filter (fun kd => startswith (fst kd) (thing_iot_id (snd kt)))
                    (datastreams st)) l)
          * List.length (observations st)).
Proof.
  induction l as [|[k t] l IH]; intros [a b]; cbn [map foldM flat_map fst snd].
  - f_equal. cbn. f_equal; lia.
  - rewrite customized_thing_counts. cbn [bind]. rewrite IH.
    cbn [fst snd]. rewrite length_app. f_equal. f_equal; lia.
Qed.

End CustomizedTotals.

(** X15.  What [test_script.py] reports for a document of
    [excel_to_sta_customized.py]: the number of things of the run, as
    datastreams the number of pairs of a thing and a datastream whose key
    starts with the id of the thing, and as observations that number times
    the number of observations of the run.  Every observation is counted
    once for each nested datastream, whatever datastream it was measured
    for; the script never raises on such a document. *)
Theorem test_script_counts_each_observation_per_datastream :
  forall st : Customized.state,
    let nested :=
      flat_map
        (fun kt =>
           filter (fun kd => startswith (fst kd) (thing_iot_id (snd kt)))
             (Customized.datastreams st))
        (Customized.things st) in
    Report.test_script_totals (Customized.construct_nested_structure st)
    = Ok {| Report.number_of_things := List.length (Customized.things st);
            Report.total_datastreams := List.length nested;
            Report.total_observations :=
              List.length nested * List.length (Customized.observations st) |}.
Proof.
  intros st nested. unfold Report.test_script_totals.
  unfold Customized.construct_nested_structure.
  cbn [Report.py_getitem getitem dict_get String.eqb Ascii.eqb Bool.eqb bind
       Report.py_len Report.py_iter].
  rewrite customized_things_count. cbn [bind fst snd].
  now rewrite length_map.
Qed.

Section FinalSummary.
Context `{PyBuiltins}.
Variable py_repr : value -> string.

Lemma py_len_iter x n l :
  Report.py_len x = Ok n -> Report.py_iter x = Ok l -> List.length l = n.
Proof.
  destruct x as [| |[]| |]; cbn; try discriminate;
    intros [= <-] [= <-]; unfold keys; rewrite ?length_map; reflexivity.
Qed.

Lemma summarize_thing_counts thing m m' :
  Report.summarize_thing py_repr thing m = Ok m' ->
  list_sum (map snd m') = list_sum (map snd m) + 1.
Proof.
  unfold Report.summarize_thing.
  destruct (Report.py_getitem "properties" thing) as [properties|];
    cbn [bind]; [|discriminate].
  destruct (Report.py_getitem "hms" properties) as [hms|]; cbn [bind];
    [|discriminate].
  destruct (Report.py_getitem "bemerkung" properties) as [bemerkung|];
    cbn [bind]; [|discriminate].
  generalize (Report.format py_repr hms ++ " - "
              ++ Report.format py_repr bemerkung).
  intros key. unfold dict_in, getitem.
  destruct (dict_get key m) as [c|] eqn:E.
  - rewrite E. cbn [bind]. intros [= <-].
    pose proof (list_sum_set m key c (c + 1) E) as S.
    revert S. generalize (list_sum (map snd (dict_set key (c + 1) m))).
    generalize (list_sum (map snd m)). intros a b. lia.
  - rewrite dict_get_set_same. cbn [bind]. intros [= <-].
    match goal with
    | |- list_sum (map snd (dict_set key ?v ?d)) = _ =>
        pose proof (list_sum_set d key 0 v (dict_get_set_same _ _ _)) as S
    end.
    rewrite (list_sum_set_fresh m key 0 E) in S. revert S.
    match goal with
    | |- list_sum ?x + _ = _ -> _ => generalize (list_sum x)
    end.
    generalize (list_sum (map snd m)). intros a b. lia.
Qed.

Lemma summarize_things_count l : forall m m',
  foldM (Report.summarize_thing py_repr) l m = Ok m' ->
  list_sum (map snd m') = list_sum (map snd m) + List.length l.
Proof.
  induction l as [|thing l IH]; intros m m'; cbn [foldM List.length].
  - intros [= <-]. lia.
  - destruct (Report.summarize_thing py_repr thing m) as [m1|] eqn:E1;
      cbn [bind]; [|discriminate].
    intros E. rewrite (IH _ _ E), (summarize_thing_counts _ _ _ E1). lia.
Qed.

End FinalSummary.

(** X16.  The grouping of the things by HMS and Bemerkung in [main] of
    [final_version_6things.py] accounts for every thing exactly once:
    whenever the summary is computed, on any document, the numbers of
    stations it prints per group add up to the number of things it
    prints. *)
Theorem summary_groups_add_up `{PyBuiltins} :
  forall (py_repr : value -> string) (document : value) (s : Report.summary),
    Report.final_summary py_repr document = Ok s ->
    list_sum (map snd (Report.thing_summary s)) = Report.thing_count s.
Proof.
  intros py_repr document s. unfold Report.final_summary.
  destruct (Report.py_getitem "Things" document) as [things|]; cbn [bind];
    [|discriminate].
  destruct (Report.py_len things) as [n|] eqn:En; cbn [bind]; [|discriminate].
  destruct (Report.py_iter things) as [l|] eqn:El; cbn [bind]; [|discriminate].
  destruct (Report.sumM _ l) as [dc|]; cbn [bind]; [|discriminate].
  destruct (Report.sumM _ l) as [oc|]; cbn [bind]; [|discriminate].
  destruct (foldM (Report.summarize_thing py_repr) l []) as [m|] eqn:Em;
    cbn [bind]; [|discriminate].
  intros [= <-]. cbn [Report.thing_summary Report.thing_count].
  rewrite (summarize_things_count _ _ _ _ Em). cbn.
  apply (py_len_iter _ _ _ En El).
Qed.

Lemma summary_groups_add_up_witness :
  exists doc s,
    @Final.excel_to_sensorthings sample_runtime wb_prefix_ids = Ok doc
    /\ @Report.final_summary sample_runtime (fun _ => EmptyString) doc = Ok s
    /\ Report.thing_count s = 2
    /\ list_sum (map snd (Report.thing_summary s)) = Report.thing_count s.
Proof.
  destruct (@Final.excel_to_sensorthings sample_runtime wb_prefix_ids)
    as [doc|] eqn:Ed; [|vm_compute in Ed; discriminate].
  destruct (@Report.final_summary sample_runtime (fun _ => EmptyString) doc)
    as [s|] eqn:Es.
  2:{ vm_compute in Ed. inversion Ed; subst doc. vm_compute in Es.
      discriminate. }
  exists doc, s. split; [reflexivity|]. split; [exact Es|]. split.
  - vm_compute in Ed. inversion Ed; subst doc. vm_compute in Es.
    inversion Es; subst s. reflexivity.
  - exact (@summary_groups_add_up sample_runtime _ doc s Es).
Defined.


(* ====================================================================== *)
(** ** The document of the normalized converter, read from a workbook *)
(* ====================================================================== *)

Section NormalizedSheets.
Context `{PyBuiltins}.
Variable uuid4 : nat -> string.
Import Normalized.

Lemma load_things_Forall (P : entity -> Prop) excel_data sta :
  (forall cols row n e, thing_of_row uuid4 cols row n = Ok e -> P e) ->
  load uuid4 excel_data = Ok sta -> Forall P (Things sta).
Proof.
  intros Hp. unfold load.
  destruct (load_sheet (thing_of_row uuid4) excel_data "Things" 0)
    as [[things n1]|] eqn:E1; cbn [bind]; [|discriminate].
  repeat match goal with
         | |- bind ?x _ = _ -> _ =>
             destruct x as [[? ?]|]; cbn [bind]; [|discriminate]
         end.
  intros [= <-]. cbn [Things].
  exact (load_sheet_Forall _ _ _ _ Hp _ _ _ E1).
Qed.

Lemma load_datastreams_Forall (P : entity -> Prop) excel_data sta :
  (forall cols row n e, datastream_of_row uuid4 cols row n = Ok e -> P e) ->
  load uuid4 excel_data = Ok sta -> Forall P (Datastreams sta).
Proof.
  intros Hp. unfold load.
  repeat match goal with
         | |- bind ?x _ = _ -> _ =>
             let E := fresh "E" in
             destruct x as [[? ?]|] eqn:E; cbn [bind]; [|discriminate]
         end.
  intros [= <-]. cbn [Datastreams].
  match goal with
  | E : load_sheet _ _ "Datastreams" _ = _ |- _ =>
      exact (load_sheet_Forall _ _ _ _ Hp _ _ _ E)
  end.
Qed.

Lemma thing_of_row_no_datastreams cols row n e :
  thing_of_row uuid4 cols row n = Ok e -> dict_get "Datastreams" e = None.
Proof.
  unfold thing_of_row.
  destruct (json_field cols row "properties" (VDict [])); cbn [bind];
    [|discriminate].
  now intros [= <-].
Qed.

Lemma datastream_of_row_no_observations cols row n e :
  datastream_of_row uuid4 cols row n = Ok e -> dict_get "Observations" e = None.
Proof.
  unfold datastream_of_row.
  destruct (json_field cols row "unitOfMeasurement" (VDict [])); cbn [bind];
    [|discriminate].
  intros [= <-]. now rewrite !link_other by discriminate.
Qed.

End NormalizedSheets.

(** X4.  Read from a workbook, [sensorthings_excel_converter.py] never
    resolves a reference of a datastream and never nests an observation:
    the loops over the sheets give no entity an ["@iot.id"], so in the
    document every nested Datastream has no ["Observations"], and its
    ["Sensor"] and its ["ObservedProperty"] are absent or still the
    fragment [{"@iot.id": id}] with the cell of the foreign key. *)
Theorem normalized_sheets_resolve_no_reference `{PyBuiltins} :
  forall (uuid4 : nat -> string) (excel_data : workbook) (doc : value),
    Normalized.excel_to_sensorthings uuid4 excel_data = Ok doc ->
    Forall
      (fun t =>
         Forall
           (fun d =>
              field "Observations" d = None
              /\ forall k, k = "Sensor" \/ k = "ObservedProperty" ->
                   field k d = None
                   \/ exists c, field k d = Some (Normalized.ref (VCell c)))
           (thing_datastreams t))
      (doc_things doc).
Proof.
  intros uuid4 excel_data doc E.
  destruct (Normalized.load uuid4 excel_data) as [sta|] eqn:L.
  2:{ unfold Normalized.excel_to_sensorthings in E. rewrite L in E.
      discriminate. }
  rewrite (normalized_document uuid4 excel_data sta L) in E.
  inversion E; subst doc. clear E.
  pose proof (load_things_Forall uuid4 _ excel_data sta
                (thing_of_row_no_datastreams uuid4) L) as Ft.
  pose proof (load_datastreams_Forall uuid4 _ excel_data sta
                (fun cols row n e Er =>
                   conj (datastream_of_row_no_observations uuid4 cols row n e Er)
                     (datastream_of_row_raw uuid4 cols row n e Er)) L) as Fd.
  change (doc_things _)
    with (map (Normalized.render_thing (Normalized.Datastreams sta))
            (Normalized.nested_things_from sta 0 (Normalized.Things sta))).
  apply Forall_map. generalize 0.
  induction Ft as [|thing things Et _ IH]; intros i;
    cbn [Normalized.nested_things_from]; constructor; [|apply IH].
  unfold Normalized.nested_thing. rewrite render_thing_attach.
  unfold thing_datastreams, field.
  set (twr := Normalized.attach "Locations" _ _).
  assert (Etwr : dict_get "Datastreams" twr = None).
  { subst twr. rewrite dict_get_attach_other by discriminate.
    now rewrite dict_get_set_other by discriminate. }
  destruct (Normalized.positions_b 0 _ (Normalized.Datastreams sta))
    as [|j js]; cbn [map Normalized.attach].
  { rewrite Etwr. constructor. }
  rewrite dict_get_set_same. cbn [items].
  assert (G : forall j,
             field "Observations" (VDict (nth j (Normalized.Datastreams sta) []))
             = None
             /\ forall k, k = "Sensor" \/ k = "ObservedProperty" ->
                  field k (VDict (nth j (Normalized.Datastreams sta) [])) = None
                  \/ exists c,
                       field k (VDict (nth j (Normalized.Datastreams sta) []))
                       = Some (Normalized.ref (VCell c))).
  { intros j0. cbn [field].
    apply (Forall_nth_default
             (fun e => dict_get "Observations" e = None
                       /\ forall k, k = "Sensor" \/ k = "ObservedProperty" ->
                            dict_get k e = None
                            \/ exists c,
                                 dict_get k e = Some (Normalized.ref (VCell c)))).
    - split; [reflexivity|]. intros k _. now left.
    - eapply Forall_impl; [|exact Fd].
      intros e (Eo & Rs & Rp). split; [exact Eo|].
      intros k [-> | ->]; assumption. }
  constructor; [apply G|]. apply Forall_map. apply Forall_forall.
  intros j0 _. apply G.
Qed.

Lemma normalized_sheets_resolve_no_reference_witness :
  exists doc,
    @Normalized.excel_to_sensorthings sample_runtime uuid_run1 wb_normalized
    = Ok doc
    /\ map (fun t => List.length (thing_datastreams t)) (doc_things doc) = [1; 1]
    /\ Forall
         (fun t =>
            Forall
              (fun d =>
                 field "Observations" d = None
                 /\ forall k, k = "Sensor" \/ k = "ObservedProperty" ->
                      field k d = None
                      \/ exists c, field k d = Some (Normalized.ref (VCell c)))
              (thing_datastreams t))
         (doc_things doc).
Proof.
  destruct (@Normalized.excel_to_sensorthings sample_runtime uuid_run1
              wb_normalized) as [doc|] eqn:E;
    [|vm_compute in E; discriminate].
  exists doc. split; [reflexivity|]. split.
  - vm_compute in E. inversion E; subst doc. reflexivity.
  - exact (@normalized_sheets_resolve_no_reference sample_runtime uuid_run1
             wb_normalized doc E).
Defined.


(* ====================================================================== *)
(** ** The measurement type of a column *)
(* ====================================================================== *)

Lemma measurement_type_of_cons c s :
  measurement_type_of (String c s)
  = if Ascii.eqb c " " then EmptyString
    else String c (measurement_type_of s).
Proof.
  unfold measurement_type_of. cbn [split].
  destruct (Ascii.eqb c " "); [reflexivity|].
  pose proof (split_nonempty " " s) as N.
  destruct (split " " s); [congruence | reflexivity].
Qed.

Lemma measurement_type_of_word code rest :
  no_space code = true ->
  measurement_type_of (code ++ String " " rest) = code.
Proof.
  induction code as [|c code IH]; cbn [no_space append]; intros E.
  - now rewrite measurement_type_of_cons.
  - apply andb_prop in E. destruct E as [Ec E].
    rewrite measurement_type_of_cons.
    destruct (Ascii.eqb c " "); [discriminate|]. now rewrite IH.
Qed.

(** X17.  The measurement type that both wide-sheet converters take from
    a column header, [column.split(" ")[0]], is the header up to its first
    space: it has no space, and the header is the type itself or the type,
    a space and a rest.  So a header without a space is its own type, a
    header that starts with a space has the empty type, and two headers
    that agree up to their first space, as [TEMP [C°]] and [TEMP (max)],
    feed one and the same datastream of a station. *)
Theorem measurement_type_is_the_first_word :
  forall column : string,
    no_space (measurement_type_of column) = true
    /\ (column = measurement_type_of column
        \/ exists rest,
             column = measurement_type_of column ++ String " " rest)
    /\ (no_space column = true -> measurement_type_of column = column)
    /\ (forall code unit_a unit_b,
          no_space code = true ->
          measurement_type_of (code ++ String " " unit_a)
          = measurement_type_of (code ++ String " " unit_b)).
Proof.
  intros column. split; [|split; [|split]].
  - induction column as [|c column IH]; [reflexivity|].
    rewrite measurement_type_of_cons.
    destruct (Ascii.eqb c " ") eqn:E; [reflexivity|].
    cbn [no_space]. now rewrite E, IH.
  - induction column as [|c column IH]; [now left|].
    rewrite measurement_type_of_cons.
    destruct (Ascii.eqb_spec c " ") as [->|N].
    + right. now exists column.
    + destruct IH as [IH | [rest IH]].
      * left. now rewrite <- IH.
      * right. exists rest. cbn [append]. now rewrite <- IH.
  - induction column as [|c column IH]; [reflexivity|].
    cbn [no_space]. intros E. apply andb_prop in E. destruct E as [Ec E].
    rewrite measurement_type_of_cons.
    destruct (Ascii.eqb c " "); [discriminate|]. now rewrite IH.
  - intros code unit_a unit_b E.
    now rewrite !measurement_type_of_word.
Qed.

Lemma measurement_type_is_the_first_word_witness :
  measurement_type_of "WINDR" = "WINDR"
  /\ measurement_type_of ("TEMP" ++ " [C°]")
     = measurement_type_of ("TEMP" ++ " (max)").
Proof.
  destruct (measurement_type_is_the_first_word "WINDR") as (_ & _ & W & S).
  split; [exact (W eq_refl) | exact (S "TEMP" "[C°]" "(max)" eq_refl)].
Defined.


(* ====================================================================== *)
(** ** The fields of an observation of the normalized shape *)
(* ====================================================================== *)

Lemma dict_get_filter_first {V} (f : string * V -> bool) k (d : dict V) :
  NoDup (keys d) ->
  dict_get k (filter f d)
  = match dict_get k d with
    | Some v => if f (k, v) then Some v else None
    | None => None
    end.
Proof.
  induction d as [|[k' v] d IH]; cbn [filter dict_get keys map];
    intros N; [reflexivity|].
  inversion N as [|? ? Nk Nd]; subst.
  destruct (String.eqb_spec k' k) as [->|Ne].
  - destruct (f (k, v)) eqn:Ef; cbn [dict_get].
    + now rewrite String.eqb_refl.
    + apply dict_get_filter_None. now apply dict_get_None_keys.
  - destruct (f (k', v)); cbn [dict_get]; [|now apply IH].
    destruct (String.eqb_spec k' k); [congruence | now apply IH].
Qed.

(** X18.  An observation read by [sensorthings_excel_converter.py] has
    one of the fields [phenomenonTime], [resultTime], [result] and
    [resultQuality] exactly when the sheet has the column, and then with
    the cell as it is: the step "Remove None values" drops the fields of
    missing columns only, an empty cell stays in the observation as NaN.
    The field [parameters] holds what was read for it, the empty dictionary
    when the sheet has no such column, and is dropped only when the cell
    holds a JSON text that reads as [None]. *)
Theorem observation_keeps_empty_cells `{PyBuiltins} :
  forall (cols : list string) (row : list cell) (observation : Normalized.entity),
    Normalized.observation_of_row cols row = Ok observation ->
    (forall k,
       In k ["phenomenonTime"; "resultTime"; "result"; "resultQuality"] ->
       dict_get k observation
       = match row_getitem cols row k with
         | Ok c => Some (VCell c)
         | Err _ => None
         end)
    /\ exists parameters,
         Normalized.json_field cols row "parameters" (VDict []) = Ok parameters
         /\ dict_get "parameters" observation
            = match parameters with
              | VNone => None
              | v => Some v
              end.
Proof.
  intros cols row observation. unfold Normalized.observation_of_row.
  destruct (Normalized.json_field cols row "parameters" (VDict []))
    as [parameters|] eqn:Ep; cbn [bind]; [|discriminate].
  set (literal := [("phenomenonTime", _); _; _; _; _]).
  assert (Nl : NoDup (keys literal)).
  { subst literal. cbn. repeat constructor; cbn; intuition discriminate. }
  set (linked := Normalized.link cols row "datastream_id" "Datastream"
                   (filter Normalized.is_not_none literal)).
  assert (G : forall k, k <> "Datastream" -> k <> "FeatureOfInterest" ->
              forall o,
                match Normalized.present cols row "feature_of_interest" with
                | Some (Str s) =>
                    feature_data <- Normalized.loads s ;;
                    Ok (dict_set "FeatureOfInterest" feature_data linked)
                | Some c => Ok (dict_set "FeatureOfInterest" (VCell c) linked)
                | None => Ok linked
                end = Ok o ->
                dict_get k o
                = match dict_get k literal with
                  | Some v => if Normalized.is_not_none (k, v) then Some v
                              else None
                  | None => None
                  end).
  { intros k Nd Nf o Eo.
    assert (El : dict_get k linked
                 = match dict_get k literal with
                   | Some v => if Normalized.is_not_none (k, v) then Some v
                               else None
                   | None => None
                   end).
    { subst linked. rewrite link_other by congruence.
      now apply dict_get_filter_first. }
    destruct (Normalized.present cols row "feature_of_interest") as [c|].
    - destruct c as [n|x|s|iso|];
        try (inversion Eo; subst o;
             rewrite dict_get_set_other by congruence; exact El).
      destruct (Normalized.loads s) as [v|]; cbn [bind] in Eo; [|discriminate].
      inversion Eo; subst o.
      rewrite dict_get_set_other by congruence. exact El.
    - inversion Eo; subst o. exact El. }
  intros Eo. split.
  - intros k Ik.
    assert (Ek : dict_get k literal = Some (Normalized.row_get cols row k VNone)).
    { subst literal. cbn in Ik.
      destruct Ik as [<-|[<-|[<-|[<-|[]]]]]; reflexivity. }
    rewrite (G k) with (o := observation); [| | |exact Eo].
    + rewrite Ek. unfold Normalized.row_get, row_getitem, Normalized.is_not_none.
      destruct (index_of k cols); reflexivity.
    + cbn in Ik. destruct Ik as [<-|[<-|[<-|[<-|[]]]]]; discriminate.
    + cbn in Ik. destruct Ik as [<-|[<-|[<-|[<-|[]]]]]; discriminate.
  - exists parameters. split; [reflexivity|].
    rewrite (G "parameters") with (o := observation);
      [|discriminate|discriminate|exact Eo].
    subst literal. cbn [dict_get String.eqb Ascii.eqb Bool.eqb].
    unfold Normalized.is_not_none. cbn [snd]. now destruct parameters.
Qed.

Lemma observation_keeps_empty_cells_witness :
  exists observation,
    @Normalized.observation_of_row sample_runtime ["phenomenonTime"; "result"]
      [Str "2024-05-01T00:00:00"; NaN] = Ok observation
    /\ dict_get "result" observation = Some (VCell NaN)
    /\ dict_get "resultTime" observation = None.
Proof.
  destruct (@Normalized.observation_of_row sample_runtime
              ["phenomenonTime"; "result"] [Str "2024-05-01T00:00:00"; NaN])
    as [observation|] eqn:E; [|vm_compute in E; discriminate].
  exists observation. split; [reflexivity|].
  destruct (@observation_keeps_empty_cells sample_runtime _ _ _ E) as [F _].
  split.
  - exact (F "result" ltac:(right; right; left; reflexivity)).
  - exact (F "resultTime" ltac:(right; left; reflexivity)).
Defined.


(* ====================================================================== *)
(** ** The things and the datastreams of the final document *)
(* ====================================================================== *)

Section FinalSound.
Context `{PyBuiltins}.
Variable legend : dict Final.hms_info.

Lemma final_sound_init : final_sound Final.init.
Proof.
  unfold final_sound. cbn.
  repeat split; try constructor; try discriminate; intros; try discriminate;
    contradiction.
Qed.

Lemma final_row_registers info id_ms category st :
  final_sound st ->
  let r := Final.register_thing info id_ms category st in
  let st2 := Final.register_location info (fst r) (snd r) in
  final_sound st2
  /\ exists k t, dict_get k (Final.things st2) = Some t
                 /\ thing_iot_id t = fst r.
Proof.
  intros (Ut & Ud & St & Sl & Sd & So).
  pose proof (register_thing_frame info id_ms category st)
    as (F1 & _ & _ & F4 & F5).
  unfold Final.register_thing in *. cbv zeta in *.
  set (thing_key := py_str (Final.hms info) ++ "_"
                    ++ py_str (Final.bemerkung info) ++ "_" ++ id_ms) in *.
  destruct (dict_get thing_key (Final.things st)) as [t0|] eqn:E;
    cbn [fst snd] in *.
  - destruct (St _ _ E) as [L0 P0].
    unfold Final.register_location. rewrite L0.
    split; [exact (conj Ut (conj Ud (conj St (conj Sl (conj Sd So)))))|].
    now exists thing_key, t0.
  - set (t1 := {| thing_iot_id := "thing_" ++ thing_key |}) in *.
    set (st1 := {| Final.things := dict_set thing_key t1 (Final.things st) |})
      in *.
    pose proof (register_location_spec info ("thing_" ++ thing_key) st1)
      as (G1 & _ & _ & G4 & G5 & G6).
    cbv zeta in *.
    assert (Gl : forall thing_id l,
               dict_get thing_id
                 (Final.locations
                    (Final.register_location info ("thing_" ++ thing_key) st1))
               = Some l ->
               location_iot_id l = "location_" ++ replace "thing_" "" thing_id).
    { unfold Final.register_location.
      destruct (dict_in ("thing_" ++ thing_key) (Final.locations st1));
        [exact Sl|].
      cbn [Final.locations]. intros thing_id l.
      destruct (String.eqb_spec ("thing_" ++ thing_key) thing_id) as [<-|N].
      - rewrite dict_get_set_same. now intros [= <-].
      - rewrite dict_get_set_other by assumption. apply Sl. }
    assert (Gk : forall thing_id,
               dict_in thing_id (Final.locations st) = true ->
               dict_in thing_id
                 (Final.locations
                    (Final.register_location info ("thing_" ++ thing_key) st1))
               = true).
    { unfold Final.register_location.
      destruct (dict_in ("thing_" ++ thing_key) (Final.locations st1)) eqn:Ei;
        [auto|].
      cbn [Final.locations]. intros thing_id. unfold dict_in.
      destruct (String.eqb_spec ("thing_" ++ thing_key) thing_id) as [<-|N].
      - now rewrite dict_get_set_same.
      - now rewrite dict_get_set_other by assumption. }
    set (st2 := Final.register_location info ("thing_" ++ thing_key) st1) in *.
    split.
    + unfold final_sound. rewrite G1, G4, G5. subst st1.
      cbn [Final.things Final.datastreams Final.observations].
      split; [now apply NoDup_keys_set_fresh|]. split; [exact Ud|].
      split; [|split; [exact Gl|split]].
      * intros k t.
        destruct (String.eqb_spec thing_key k) as [<-|N].
        -- rewrite dict_get_set_same. intros [= <-]. split; [exact G6|].
           subst t1. cbn [thing_properties]. eauto.
        -- rewrite dict_get_set_other by assumption. intros Ek.
           destruct (St _ _ Ek) as [L0 P0]. split; [now apply Gk | exact P0].
      * intros key d Ek. destruct (Sd _ _ Ek) as (k & t & Et & Ep).
        exists k, t. split; [|exact Ep].
        rewrite dict_get_set_other; [exact Et|]. intros <-. congruence.
      * exact So.
    + exists thing_key, t1. rewrite G1. subst st1. cbn [Final.things].
      split; [apply dict_get_set_same | reflexivity].
Qed.

Lemma final_cell_sound cols row info timestamp_column thing_id timestamp
  column st st' :
  final_sound st ->
  (exists k t, dict_get k (Final.things st) = Some t
               /\ thing_iot_id t = thing_id) ->
  Final.process_cell cols row info timestamp_column thing_id timestamp column st
  = Ok st' ->
  final_sound st' /\ Final.things st' = Final.things st.
Proof.
  intros S (k0 & t0 & Et0 & Eid). unfold Final.process_cell.
  destruct (skipped_column timestamp_column column); [now intros [= <-]|].
  destruct (row_getitem cols row column) as [c|]; cbn [bind]; [|discriminate].
  destruct (isna c); [now intros [= <-]|].
  destruct (Final.register_observed_property _ _) as [p ops].
  destruct (Final.register_sensor _ _) as [s sens].
  destruct S as (Ut & Ud & St & Sl & Sd & So).
  assert (R : let r := Final.register_datastream info thing_id
                         (measurement_type_of column) s p
                         (Final.datastreams st) in
              NoDup (keys (snd r))
              /\ (forall key d, dict_get key (Final.datastreams st) = Some d ->
                     dict_get key (snd r) = Some d)
              /\ (forall key d, dict_get key (snd r) = Some d ->
                     exists k t, dict_get k (Final.things st) = Some t
                                 /\ startswith key (thing_iot_id t) = true)
              /\ exists key, dict_get key (snd r) = Some (fst r)).
  { unfold Final.register_datastream. cbv zeta.
    set (key := thing_id ++ "_" ++ measurement_type_of column ++ "_"
                ++ py_str (Final.hms info) ++ "_"
                ++ py_str (Final.bemerkung info)).
    destruct (dict_get key (Final.datastreams st)) as [d0|] eqn:E;
      cbn [fst snd].
    - split; [exact Ud|]. split; [auto|]. split; [exact Sd|]. now exists key.
    - split; [now apply NoDup_keys_set_fresh|]. split; [|split].
      + intros key' d Ek. now apply dict_get_set_kept.
      + intros key' d.
        destruct (String.eqb_spec key key') as [<-|N].
        * intros _. exists k0, t0. split; [exact Et0|].
          rewrite Eid. unfold startswith. subst key. apply prefix_app.
        * rewrite dict_get_set_other by assumption. apply Sd.
      + exists key. apply dict_get_set_same. }
  destruct (Final.register_datastream _ _ _ _ _ _) as [d dss].
  cbn [fst snd] in R. destruct R as (Ud' & Kd & Sd' & key & Ekey).
  destruct (py_float c) as [x|]; cbn [bind]; [|discriminate].
  intros [= <-]. split; [|reflexivity].
  unfold final_sound.
  cbn [Final.things Final.locations Final.datastreams Final.observations].
  split; [exact Ut|]. split; [exact Ud'|]. split; [exact St|].
  split; [exact Sl|]. split; [exact Sd'|].
  intros o Io. apply in_app_or in Io. destruct Io as [Io|[<-|[]]].
  - destruct (So o Io) as (key' & d' & Ek & Ei). exists key', d'. auto.
  - exists key, d. auto.
Qed.

Lemma final_row_sound cols category timestamp_column row st st' :
  final_sound st ->
  Final.process_row legend cols category timestamp_column row st = Ok st' ->
  final_sound st'.
Proof.
  intros S. unfold Final.process_row.
  destruct (row_getitem cols row id_column) as [id_cell|]; cbn [bind];
    [|discriminate].
  set (info := match dict_get (py_str id_cell) legend with
               | Some i => i
               | None => Final.unknown_hms
               end).
  destruct (final_row_registers info (py_str id_cell) category st S)
    as (S2 & k & t & Et & Eid).
  destruct (Final.register_thing info (py_str id_cell) category st)
    as [thing_id st1]. cbn [fst snd] in *.
  set (st2 := Final.register_location info thing_id st1) in *.
  destruct (row_getitem cols row timestamp_column) as [ts|]; cbn [bind];
    [|discriminate].
  destruct (isna ts); [now intros [= <-]|].
  intros E.
  assert (G : final_sound st' /\ Final.things st' = Final.things st2).
  { revert E.
    apply (foldM_invariant
             (fun s => final_sound s /\ Final.things s = Final.things st2)).
    - intros column s s' _ [Ss Ts] Ec.
      assert (Ex : exists k t, dict_get k (Final.things s) = Some t
                               /\ thing_iot_id t = thing_id)
        by (exists k, t; rewrite Ts; auto).
      destruct (final_cell_sound _ _ _ _ _ _ _ _ _ Ss Ex Ec) as [Ss' Ts'].
      split; [exact Ss' | congruence].
    - split; [exact S2 | reflexivity]. }
  exact (proj1 G).
Qed.

Lemma final_run_sound (sheets : workbook) st st' :
  final_sound st ->
  foldM (Final.process_sheet legend) sheets st = Ok st' ->
  final_sound st'.
Proof.
  apply (foldM_invariant final_sound).
  intros [sheet_name df] s s' _ Ss. unfold Final.process_sheet.
  destruct (String.eqb sheet_name "LEGENDE"); [now intros [= <-]|].
  destruct (negb (has_column id_column (columns df))
            || negb (has_column (timestamp_column_of sheet_name) (columns df)));
    [now intros [= <-]|].
  apply (foldM_invariant final_sound); [|exact Ss].
  intros row s1 s2 _. apply final_row_sound.
Qed.

End FinalSound.

Lemma final_collect_sound `{PyBuiltins} excel_data st :
  Final.collect excel_data = Ok st -> final_sound st /\ final_ids st.
Proof.
  unfold Final.collect.
  destruct (Final.read_legend excel_data) as [legend|]; cbn [bind];
    [|discriminate].
  intros E. split.
  - exact (final_run_sound legend excel_data _ _ final_sound_init E).
  - exact (proj1 (final_sheets_observations legend excel_data _ _
                    final_ids_init E)).
Qed.


Lemma replace_thing_prefix key :
  replace "thing_" "" ("thing_" ++ key) = replace "thing_" "" key.
Proof.
  unfold replace. change ("thing_" ++ key) with (String "t" ("hing_" ++ key)).
  cbn [replace_from].
  change (String "t" ("hing_" ++ key)) with ("thing_" ++ key).
  rewrite prefix_app. reflexivity.
Qed.

(** X19.  In a document of [final_version_6things.py] no two Things have
    the same ["@iot.id"], no two Datastreams nested under one Thing have
    the same ["@iot.id"], and every Thing has exactly one Location.  The
    id of a thing is ["thing_"] and its key; the id of its location is
    ["location_"] and that key with every occurrence of ["thing_"] taken
    out of it, as [thing_id.replace('thing_', '')] does. *)
Theorem final_things_and_locations `{PyBuiltins} :
  forall (excel_data : workbook) (doc : value),
    Final.excel_to_sensorthings excel_data = Ok doc ->
    NoDup (map iot_id (doc_things doc))
    /\ Forall
         (fun t =>
            NoDup (map iot_id (thing_datastreams t))
            /\ exists key l,
                 iot_id t = VStr ("thing_" ++ key)
                 /\ thing_locations t = [l]
                 /\ iot_id l = VStr ("location_" ++ replace "thing_" "" key))
         (doc_things doc).
Proof.
  intros excel_data doc. unfold Final.excel_to_sensorthings.
  destruct (Final.collect excel_data) as [st|] eqn:E; cbn [bind];
    [|discriminate].
  intros [= <-].
  destruct (final_collect_sound _ _ E)
    as ((Ut & Ud & St & Sl & _ & _) & It & Id).
  rewrite final_doc_things. split.
  - rewrite map_map.
    rewrite (map_ext_in _ (fun kt => VStr ("thing_" ++ fst kt))).
    + change (fun kt : string * Thing => VStr ("thing_" ++ fst kt))
        with (fun kt : string * Thing =>
                (fun k => VStr ("thing_" ++ k)) (fst kt)).
      rewrite <- map_map. apply NoDup_map_injective; [|exact Ut].
      intros x y [= E']. exact E'.
    + intros [k t] I. rewrite final_thing_id. cbn [fst snd].
      now rewrite (It k t (NoDup_keys_get _ _ _ Ut I)).
  - apply Forall_map. apply Forall_forall. intros [k t] I. cbn [snd].
    pose proof (NoDup_keys_get _ _ _ Ut I) as Et. split.
    + rewrite final_thing_datastreams, map_map.
      set (own := filter _ (Final.datastreams st)).
      assert (Uo : NoDup (keys own)) by now apply NoDup_keys_filter.
      rewrite (map_ext_in _ (fun kd => VStr ("ds_" ++ fst kd))).
      * change (fun kd : string * Datastream => VStr ("ds_" ++ fst kd))
          with (fun kd : string * Datastream =>
                  (fun k => VStr ("ds_" ++ k)) (fst kd)).
        rewrite <- map_map. apply NoDup_map_injective; [|exact Uo].
        intros x y [= E']. exact E'.
      * intros [key d] Ik. rewrite final_datastream_id. cbn [fst snd].
        apply filter_In in Ik. destruct Ik as [Ik _].
        now rewrite (Id key d (NoDup_keys_get _ _ _ Ud Ik)).
    + destruct (St k t Et) as [L _]. unfold dict_in in L.
      destruct (dict_get (thing_iot_id t) (Final.locations st)) as [l|] eqn:El;
        [|discriminate].
      exists k, (location_json l).
      rewrite final_thing_id, final_thing_locations, El.
      split; [now rewrite (It k t Et)|]. split; [reflexivity|].
      cbn. rewrite (Sl _ _ El), (It k t Et). now rewrite replace_thing_prefix.
Qed.

Lemma final_things_and_locations_witness :
  exists doc,
    @Final.excel_to_sensorthings sample_runtime wb_prefix_ids = Ok doc
    /\ NoDup (map iot_id (doc_things doc))
    /\ Forall
         (fun t =>
            NoDup (map iot_id (thing_datastreams t))
            /\ exists key l,
                 iot_id t = VStr ("thing_" ++ key)
                 /\ thing_locations t = [l]
                 /\ iot_id l = VStr ("location_" ++ replace "thing_" "" key))
         (doc_things doc).
Proof.
  destruct (@Final.excel_to_sensorthings sample_runtime wb_prefix_ids)
    as [doc|] eqn:E; [|vm_compute in E; discriminate].
  exists doc. split; [reflexivity|].
  exact (@final_things_and_locations sample_runtime wb_prefix_ids doc E).
Defined.


(* ====================================================================== *)
(** ** What [main] of [final_version_6things.py] counts *)
(* ====================================================================== *)

Section Sums.
Context {A : Type}.

Lemma list_sum_map_add (f g : A -> nat) (l : list A) :
  list_sum (map (fun x => f x + g x) l)
  = list_sum (map f l) + list_sum (map g l).
Proof. induction l as [|a l IH]; simpl; lia. Qed.

Lemma list_sum_map_ext (f g : A -> nat) (l : list A) :
  (forall x, In x l -> f x = g x) ->
  list_sum (map f l) = list_sum (map g l).
Proof. intros E. f_equal. now apply map_ext_in. Qed.

Lemma list_sum_map_le (f g : A -> nat) (l : list A) :
  (forall x, In x l -> f x <= g x) ->
  list_sum (map f l) <= list_sum (map g l).
Proof.
  induction l as [|a l IH]; simpl; intros E; [lia|].
  pose proof (E a (or_introl eq_refl)).
  assert (list_sum (map f l) <= list_sum (map g l)) by (apply IH; auto).
  lia.
Qed.

Lemma list_sum_map_one (l : list A) :
  list_sum (map (fun _ => 1) l) = List.length l.
Proof. induction l as [|a l IH]; simpl; lia. Qed.

Lemma list_sum_map_zero (l : list A) : list_sum (map (fun _ => 0) l) = 0.
Proof. induction l as [|a l IH]; simpl; lia. Qed.

Lemma length_filter_sum (p : A -> bool) (l : list A) :
  List.length (filter p l) = list_sum (map (fun x => if p x then 1 else 0) l).
Proof.
  induction l as [|a l IH]; simpl; [reflexivity|].
  destruct (p a); simpl; lia.
Qed.

Lemma list_sum_filter (p : A -> bool) (f : A -> nat) (l : list A) :
  list_sum (map f (filter p l))
  = list_sum (map (fun x => if p x then f x else 0) l).
Proof.
  induction l as [|a l IH]; simpl; [reflexivity|].
  destruct (p a); simpl; lia.
Qed.

Lemma sumM_map (h : A -> value) (f : value -> result nat) (g : A -> nat)
  (l : list A) :
  (forall x, In x l -> f (h x) = Ok (g x)) ->
  Report.sumM f (map h l) = Ok (list_sum (map g l)).
Proof.
  unfold Report.sumM. intros Hf.
  assert (G : forall acc,
             foldM (fun e m => k <- f e ;; Ok (m + k)) (map h l) acc
             = Ok (acc + list_sum (map g l))).
  { induction l as [|x l IH]; intros acc; cbn [foldM map].
    - f_equal. cbn. lia.
    - rewrite (Hf x) by now left. cbn [bind].
      rewrite IH by (intros x' I; apply Hf; now right). f_equal.
      change (list_sum (g x :: map g l)) with (g x + list_sum (map g l)).
      lia. }
  apply (G 0).
Qed.

End Sums.

(** Summing over two lists in either order. *)
Lemma list_sum_swap {A B} (f : A -> B -> nat) (X : list A) (Y : list B) :
  list_sum (map (fun x => list_sum (map (f x) Y)) X)
  = list_sum (map (fun y => list_sum (map (fun x => f x y) X)) Y).
Proof.
  induction X as [|a X IH]; cbn [map].
  - now rewrite list_sum_map_zero.
  - change (list_sum (?x :: ?l)) with (x + list_sum l).
    rewrite IH, <- list_sum_map_add. reflexivity.
Qed.

Section FinalCounts.
Context `{PyBuiltins}.
Variable py_repr : value -> string.
Variable st : Final.state.

Lemma final_thing_get_datastreams t :
  Report.py_get "Datastreams" (VList []) (Final.thing_with_relations st t)
  = Ok (VList (map (fun kd => Final.datastream_with_observations
                                (Final.observations st) (snd kd))
                 (final_own st t))).
Proof.
  unfold Final.thing_with_relations.
  change (filter _ (Final.datastreams st)) with (final_own st t).
  destruct (map _ (final_own st t)) as [|x xs] eqn:E; cbn [Report.py_get].
  - destruct (dict_get (thing_iot_id t) (Final.locations st)); reflexivity.
  - now rewrite dict_get_set_same.
Qed.

Lemma final_datastream_counts d :
  (obs <- Report.py_get "Observations" (VList [])
            (Final.datastream_with_observations (Final.observations st) d) ;;
   Report.py_len obs)
  = Ok (final_readings_of st d).
Proof.
  unfold Final.datastream_with_observations, final_readings_of.
  destruct (filter _ (Final.observations st)) as [|o obs]; [reflexivity|].
  cbn [map Report.py_get]. rewrite dict_get_set_same.
  cbn [bind Report.py_len List.length]. now rewrite length_map.
Qed.

Lemma final_thing_counts_datastreams t :
  (datastreams <- Report.py_get "Datastreams" (VList [])
                    (Final.thing_with_relations st t) ;;
   Report.py_len datastreams)
  = Ok (List.length (final_own st t)).
Proof.
  rewrite final_thing_get_datastreams. cbn [bind Report.py_len].
  now rewrite length_map.
Qed.

Lemma final_thing_counts_observations t :
  (datastreams <- Report.py_get "Datastreams" (VList [])
                    (Final.thing_with_relations st t) ;;
   Report.count_observations datastreams)
  = Ok (list_sum (map (fun kd => final_readings_of st (snd kd)) (final_own st t))).
Proof.
  rewrite final_thing_get_datastreams. cbn [bind].
  unfold Report.count_observations. cbn [Report.py_iter bind].
  apply sumM_map. intros [key d] _. apply final_datastream_counts.
Qed.

Lemma final_thing_summarized t m :
  (exists id h b c,
     thing_properties t
     = [("id_ms", id); ("hms", VCell h); ("bemerkung", VCell b);
        ("category", c)]) ->
  exists m', Report.summarize_thing py_repr (Final.thing_with_relations st t) m
             = Ok m'.
Proof.
  intros (id & h & b & c & Ep). unfold Report.summarize_thing.
  assert (E : Report.py_getitem "properties" (Final.thing_with_relations st t)
              = Ok (VDict (thing_properties t))).
  { unfold Final.thing_with_relations.
    destruct (dict_get (thing_iot_id t) (Final.locations st));
      destruct (map _ (filter _ (Final.datastreams st))); reflexivity. }
  rewrite E, Ep. cbn [bind Report.py_getitem getitem dict_get String.eqb
                      Ascii.eqb Bool.eqb].
  generalize (Report.format py_repr (VCell h) ++ " - "
              ++ Report.format py_repr (VCell b)).
  intros key. unfold dict_in, getitem.
  destruct (dict_get key m) as [n|] eqn:En.
  - rewrite En. cbn [bind]. eauto.
  - rewrite dict_get_set_same. cbn [bind]. eauto.
Qed.

End FinalCounts.

Section DoubleCounting.
Variable st : Final.state.

Let things := Final.things st.
Let dss := Final.datastreams st.
Let obs := Final.observations st.

(** The number of things under which a datastream is nested. *)
Let nestings (kd : string * Datastream) : nat :=
  List.length
    (filter (fun kt => startswith (fst kd) (thing_iot_id (snd kt))) things).

Lemma list_sum_if_constant {A} (p : A -> bool) (n : nat) (l : list A) :
  list_sum (map (fun x => if p x then n else 0) l)
  = n * List.length (filter p l).
Proof.
  induction l as [|a l IH]; cbn [map filter]; [cbn; lia|].
  change (list_sum (?x :: ?r)) with (x + list_sum r). rewrite IH.
  destruct (p a); cbn [List.length]; lia.
Qed.

Lemma final_datastreams_counted :
  list_sum (map (fun kt => List.length (final_own st (snd kt))) things)
  = list_sum (map nestings dss).
Proof.
  unfold final_own. fold dss.
  rewrite (list_sum_map_ext _
             (fun kt => list_sum
                          (map (fun kd => if startswith (fst kd)
                                               (thing_iot_id (snd kt))
                                          then 1 else 0) dss)))
    by (intros kt _; apply length_filter_sum).
  rewrite list_sum_swap. apply list_sum_map_ext. intros kd _.
  unfold nestings. now rewrite length_filter_sum.
Qed.

Lemma final_observations_counted :
  list_sum
    (map (fun kt =>
            list_sum (map (fun kd => final_readings_of st (snd kd))
                        (final_own st (snd kt)))) things)
  = list_sum (map (fun kd => final_readings_of st (snd kd) * nestings kd) dss).
Proof.
  unfold final_own. fold dss.
  rewrite (list_sum_map_ext _
             (fun kt => list_sum
                          (map (fun kd => if startswith (fst kd)
                                               (thing_iot_id (snd kt))
                                          then final_readings_of st (snd kd)
                                          else 0) dss)))
    by (intros kt _; apply list_sum_filter).
  rewrite list_sum_swap. apply list_sum_map_ext. intros kd _.
  unfold nestings. apply list_sum_if_constant.
Qed.

Lemma final_readings_counted :
  list_sum (map (fun kd => final_readings_of st (snd kd)) dss)
  = list_sum
      (map (fun o =>
              List.length
                (filter (fun kd => String.eqb (Final.obs_Datastream o)
                                     (ds_iot_id (snd kd))) dss)) obs).
Proof.
  unfold final_readings_of. fold obs.
  rewrite (list_sum_map_ext _
             (fun kd => list_sum
                          (map (fun o => if String.eqb (Final.obs_Datastream o)
                                              (ds_iot_id (snd kd))
                                         then 1 else 0) obs)))
    by (intros kd _; apply length_filter_sum).
  rewrite list_sum_swap. apply list_sum_map_ext. intros o _.
  now rewrite length_filter_sum.
Qed.

Hypothesis Hsound : final_sound st.
Hypothesis Hids : final_ids st.

Lemma final_nested_once kd : In kd dss -> 1 <= nestings kd.
Proof.
  destruct kd as [key d]. intros I.
  destruct Hsound as (_ & Ud & _ & _ & Sd & _).
  destruct (Sd key d (NoDup_keys_get _ _ _ Ud I)) as (k & t & Et & Ep).
  unfold nestings. cbn [fst].
  assert (If : In (k, t)
                 (filter (fun kt => startswith key (thing_iot_id (snd kt)))
                    things)).
  { apply filter_In. split; [now apply dict_get_In | exact Ep]. }
  destruct (filter _ things); [destruct If | cbn; lia].
Qed.

Lemma length_filter_unique {A} (f : A -> string) (a : string) (l : list A) :
  NoDup (map f l) ->
  List.length (filter (fun x => String.eqb a (f x)) l) <= 1.
Proof.
  induction l as [|x l IH]; cbn [map filter]; intros N; [cbn; lia|].
  inversion N as [|? ? Nx Nl]; subst.
  destruct (String.eqb_spec a (f x)) as [->|Ne]; [|auto].
  cbn [List.length].
  assert (Z : filter (fun y => String.eqb (f x) (f y)) l = []).
  { clear - Nx. induction l as [|y l IH]; cbn [filter]; [reflexivity|].
    destruct (String.eqb_spec (f x) (f y)) as [E|_].
    - exfalso. apply Nx. left. now symmetry.
    - apply IH. intros I. apply Nx. now right. }
  rewrite Z. cbn. lia.
Qed.

Lemma final_observation_once o :
  In o obs ->
  List.length
    (filter (fun kd => String.eqb (Final.obs_Datastream o) (ds_iot_id (snd kd)))
       dss) = 1.
Proof.
  intros I.
  destruct Hsound as (_ & Ud & _ & _ & _ & So). destruct Hids as [_ Id].
  assert (U : NoDup (map (fun kd : string * Datastream => ds_iot_id (snd kd))
                       dss)).
  { rewrite (map_ext_in _ (fun kd => "ds_" ++ fst kd)).
    - change (fun kd : string * Datastream => "ds_" ++ fst kd)
        with (fun kd : string * Datastream => (fun k => "ds_" ++ k) (fst kd)).
      rewrite <- map_map. apply NoDup_map_injective; [|exact Ud].
      intros x y [= E]. exact E.
    - intros [key d] Ik. cbn [fst snd].
      exact (Id key d (NoDup_keys_get _ _ _ Ud Ik)). }
  pose proof (length_filter_unique _ (Final.obs_Datastream o) dss U) as Le.
  destruct (So o I) as (key & d & Ek & Ei).
  assert (If : In (key, d)
                 (filter (fun kd => String.eqb (Final.obs_Datastream o)
                                      (ds_iot_id (snd kd))) dss)).
  { apply filter_In. split; [now apply dict_get_In|].
    cbn [snd]. rewrite Ei. apply String.eqb_refl. }
  destruct (filter _ dss) as [|x [|y r]]; cbn [List.length] in *;
    [destruct If | reflexivity | lia].
Qed.

Lemma final_counts :
  let dc := list_sum (map (fun kt => List.length (final_own st (snd kt)))
                        things) in
  let oc := list_sum
              (map (fun kt =>
                      list_sum (map (fun kd => final_readings_of st (snd kd))
                                  (final_own st (snd kt)))) things) in
  List.length dss <= dc
  /\ List.length obs <= oc
  /\ (final_unambiguous st -> dc = List.length dss /\ oc = List.length obs).
Proof.
  intros dc oc. subst dc oc.
  rewrite final_datastreams_counted, final_observations_counted.
  assert (Eo : list_sum (map (fun kd => final_readings_of st (snd kd)) dss)
               = List.length obs).
  { rewrite final_readings_counted, <- list_sum_map_one.
    apply list_sum_map_ext. apply final_observation_once. }
  split; [|split].
  - rewrite <- (list_sum_map_one dss). apply list_sum_map_le.
    apply final_nested_once.
  - rewrite <- Eo. apply list_sum_map_le. intros kd I.
    pose proof (final_nested_once kd I). nia.
  - intros U.
    assert (En : forall kd, In kd dss -> nestings kd = 1).
    { intros [key d] I. exact (U key d I). }
    split.
    + rewrite <- (list_sum_map_one dss). apply list_sum_map_ext. exact En.
    + rewrite <- Eo. apply list_sum_map_ext. intros kd I.
      rewrite (En kd I). lia.
Qed.

End DoubleCounting.

(** X20.  The counting of [main] of [final_version_6things.py], lines 283
    to 300, before the document is written to a file: on the document of
    its own converter the counting never raises, and the numbers it arrives
    at never fall short:
    the number of things is the number of registered things, the number of
    datastreams is at least the number of registered datastreams and the
    number of observations at least the number of observations collected.
    The three numbers are exact when every datastream key starts with the
    id of one thing only; else a datastream, with its observations, is
    counted once for each thing whose id its key starts with. *)
Theorem final_main_counts `{PyBuiltins} :
  forall (py_repr : value -> string) (excel_data : workbook) (st : Final.state),
    Final.collect excel_data = Ok st ->
    exists s,
      Report.final_summary py_repr (Final.assemble st) = Ok s
      /\ Report.thing_count s = List.length (Final.things st)
      /\ List.length (Final.datastreams st) <= Report.datastream_count s
      /\ List.length (Final.observations st) <= Report.observation_count s
      /\ (final_unambiguous st ->
          Report.datastream_count s = List.length (Final.datastreams st)
          /\ Report.observation_count s
             = List.length (Final.observations st)).
Proof.
  intros py_repr excel_data st E.
  destruct (final_collect_sound _ _ E) as [S I].
  unfold Report.final_summary, Final.assemble.
  cbn [Report.py_getitem getitem dict_get String.eqb Ascii.eqb Bool.eqb bind
       Report.py_len Report.py_iter].
  rewrite (sumM_map (fun kt => Final.thing_with_relations st (snd kt)) _
             (fun kt => List.length (final_own st (snd kt))))
    by (intros kt _; apply final_thing_counts_datastreams).
  cbn [bind].
  rewrite (sumM_map (fun kt => Final.thing_with_relations st (snd kt)) _
             (fun kt => list_sum (map (fun kd => final_readings_of st (snd kd))
                                    (final_own st (snd kt)))))
    by (intros kt _; apply final_thing_counts_observations).
  cbn [bind].
  destruct (foldM_Ok (Report.summarize_thing py_repr)
              (map (fun kt => Final.thing_with_relations st (snd kt))
                 (Final.things st))) with (s := @nil (string * nat))
    as [m Em].
  { intros a m0 Ia. apply in_map_iff in Ia. destruct Ia as ([k t] & <- & Ik).
    apply final_thing_summarized. cbn [snd].
    destruct S as (Ut & _ & St & _).
    exact (proj2 (St k t (NoDup_keys_get _ _ _ Ut Ik))). }
  rewrite Em. cbn [bind]. eexists. split; [reflexivity|].
  cbn [Report.thing_count Report.datastream_count Report.observation_count].
  split; [apply length_map|].
  exact (final_counts st S I).
Qed.

Lemma final_main_counts_witness :
  exists st s,
    @Final.collect sample_runtime wb_prefix_ids = Ok st
    /\ @Report.final_summary sample_runtime (fun _ => EmptyString)
         (Final.assemble st) = Ok s
    /\ Report.thing_count s = List.length (Final.things st)
    /\ List.length (Final.datastreams st) <= Report.datastream_count s
    /\ List.length (Final.observations st) <= Report.observation_count s.
Proof.
  destruct (@Final.collect sample_runtime wb_prefix_ids) as [st|] eqn:E;
    [|vm_compute in E; discriminate].
  destruct (@final_main_counts sample_runtime (fun _ => EmptyString)
              wb_prefix_ids st E) as (s & Es & Et & Ed & Eo & _).
  exists st, s. auto.
Defined.

(** The stations 1 and 10: two datastreams and two observations collected,
    three of each counted. *)
Lemma prefix_match_inflates_the_counts :
  match @Final.collect sample_runtime wb_prefix_ids with
  | Ok st =>
      (List.length (Final.datastreams st), List.length (Final.observations st),
       match @Report.final_summary sample_runtime (fun _ => EmptyString)
               (Final.assemble st) with
       | Ok s => Some (Report.datastream_count s, Report.observation_count s)
       | Err _ => None
       end)
      = (2, 2, Some (3, 3))
  | Err _ => False
  end.
Proof. vm_compute. reflexivity. Qed.


(* ====================================================================== *)
(** ** The two wide-sheet converters read the same cells *)
(* ====================================================================== *)

Section SameReadings.
Context `{PyBuiltins}.

(** A sheet without one of its two columns has readings only if it has no
    rows. *)
Lemma sheet_readings_without_columns cols timestamp_column rs readings :
  negb (has_column id_column cols) || negb (has_column timestamp_column cols)
  = true ->
  sheet_readings cols timestamp_column rs = Ok readings -> readings = [].
Proof.
  intros Hc. unfold sheet_readings.
  destruct rs as [|row rs]; cbn [mapM bind].
  { now intros [= <-]. }
  assert (Er : exists e, row_readings cols timestamp_column row = Err e).
  { unfold row_readings.
    destruct (has_column id_column cols) eqn:Hi.
    - destruct (row_getitem_present cols row id_column Hi) as [c ->].
      cbn [bind]. cbn [negb orb] in Hc. apply negb_true_iff in Hc.
      rewrite (row_getitem_absent cols row _ Hc). cbn [bind]. eauto.
    - rewrite (row_getitem_absent cols row _ Hi). cbn [bind]. eauto. }
  destruct Er as [e ->]. discriminate.
Qed.

Lemma customized_sheets_readings (excel_data sheets : workbook) :
  NoDup (keys sheets) ->
  (forall name df, In (name, df) sheets -> dict_get name excel_data = Some df) ->
  forall st st',
    foldM (Customized.process_sheet excel_data) (keys sheets) st = Ok st' ->
    exists readings,
      (per_sheet <- mapM final_sheet_readings sheets ;; Ok (concat per_sheet))
      = Ok readings
      /\ Customized.observations st'
         = (Customized.observations st
            ++ map customized_observation readings)%list.
Proof.
  induction sheets as [|[name df] sheets IH]; intros U Hd st st';
    cbn [keys map foldM mapM fst].
  { intros [= <-]. exists []. split; [reflexivity|]. cbn. now rewrite app_nil_r. }
  inversion U as [|? ? _ U']; subst.
  assert (S : forall st1,
             Customized.process_sheet excel_data name st = Ok st1 ->
             exists r1,
               final_sheet_readings (name, df) = Ok r1
               /\ Customized.observations st1
                  = (Customized.observations st
                     ++ map customized_observation r1)%list).
  { intros st1. unfold Customized.process_sheet, final_sheet_readings, getitem.
    rewrite (Hd name df (or_introl eq_refl)).
    destruct (String.eqb name "LEGENDE").
    { intros [= <-]. exists []. split; [reflexivity|]. cbn.
      now rewrite app_nil_r. }
    cbn [bind]. intros E.
    destruct (process_rows_observations _ _ _ _ _ _ E) as (r1 & Er & Eo).
    destruct (negb (has_column id_column (columns df))
              || negb (has_column (timestamp_column_of name) (columns df)))
      eqn:Hc.
    - rewrite (sheet_readings_without_columns _ _ _ _ Hc Er) in Eo.
      exists []. split; [reflexivity | exact Eo].
    - exists r1. split; [exact Er | exact Eo]. }
  destruct (Customized.process_sheet excel_data name st) as [st1|] eqn:E1;
    cbn [bind]; [|discriminate].
  destruct (S st1 eq_refl) as (r1 & -> & Eo1).
  intros E.
  destruct (IH U' (fun n d I => Hd n d (or_intror I)) _ _ E)
    as (r2 & E2 & Eo2).
  cbn [bind].
  destruct (mapM final_sheet_readings sheets) as [per_sheet|];
    cbn [bind] in *; [|discriminate].
  inversion E2; subst r2.
  exists (r1 ++ concat per_sheet)%list. split; [reflexivity|].
  rewrite Eo2, Eo1, map_app, app_assoc. reflexivity.
Qed.

End SameReadings.

(** X21.  On a workbook that both go through, the two wide-sheet
    converters have read the same cells: the observations collected by
    [excel_to_sta_customized.py] and by [final_version_6things.py] are the
    same readings in the same order, with the same times and values.  They
    differ in what [final_version_6things.py] adds, the id of the
    datastream of the reading. *)
Theorem both_converters_collect_the_same_readings `{PyBuiltins} :
  forall (excel_data : workbook) (customized : Customized.state)
         (final : Final.state),
    NoDup (keys excel_data) ->
    foldM (Customized.process_sheet excel_data) (keys excel_data)
      Customized.init = Ok customized ->
    Final.collect excel_data = Ok final ->
    exists legend readings,
      Final.read_legend excel_data = Ok legend
      /\ final_readings excel_data = Ok readings
      /\ Customized.observations customized
         = map customized_observation readings
      /\ Final.observations final = map (final_observation legend) readings.
Proof.
  intros excel_data customized final U Ec Ef.
  destruct (customized_sheets_readings excel_data excel_data U
              (fun n d I => NoDup_keys_get _ _ _ U I) _ _ Ec)
    as (readings & Er & Eo).
  unfold Final.collect in Ef.
  destruct (Final.read_legend excel_data) as [legend|]; cbn [bind] in Ef;
    [|discriminate].
  destruct (final_sheets_observations legend excel_data _ _ final_ids_init Ef)
    as (_ & _ & readings' & Er' & Eo' & _).
  rewrite Er in Er'. inversion Er'; subst readings'.
  exists legend, readings. split; [reflexivity|]. split; [exact Er|].
  split; [exact Eo | exact Eo'].
Qed.

Lemma both_converters_collect_the_same_readings_witness :
  exists customized final legend readings,
    foldM (@Customized.process_sheet sample_runtime wb_two_sheets)
      (keys wb_two_sheets) Customized.init = Ok customized
    /\ @Final.collect sample_runtime wb_two_sheets = Ok final
    /\ @final_readings sample_runtime wb_two_sheets = Ok readings
    /\ Customized.observations customized
       = map customized_observation readings
    /\ Final.observations final
       = map (@final_observation sample_runtime legend) readings.
Proof.
  destruct (foldM (@Customized.process_sheet sample_runtime wb_two_sheets)
              (keys wb_two_sheets) Customized.init) as [customized|] eqn:Ec;
    [|vm_compute in Ec; discriminate].
  destruct (@Final.collect sample_runtime wb_two_sheets) as [final|] eqn:Ef;
    [|vm_compute in Ef; discriminate].
  assert (U : NoDup (keys wb_two_sheets)).
  { cbn. repeat constructor; cbn; intuition discriminate. }
  destruct (@both_converters_collect_the_same_readings sample_runtime
              wb_two_sheets customized final U Ec Ef)
    as (legend & readings & _ & Er & Eo & Eo').
  exists customized, final, legend, readings. auto.
Defined.


(* ====================================================================== *)
(** ** [create_location] and the underscore of a thing id *)
(* ====================================================================== *)

Lemma split_second_part s :
  nth_error (split "_" s) 1
  = if contains "_" s then Some (nth 1 (split "_" s) EmptyString) else None.
Proof.
  induction s as [|c s IH]; [reflexivity|].
  cbn [split contains prefix].
  destruct (Ascii.eqb_spec c "_") as [->|N].
  - cbn [prefix]. destruct (ascii_dec "_" "_") as [_|F]; [|congruence].
    assert (P : prefix "" s = true) by now destruct s.
    rewrite P. cbn [orb].
    pose proof (split_nonempty "_" s) as Ne.
    destruct (split "_" s) as [|w ws]; [congruence | reflexivity].
  - destruct (ascii_dec "_" c) as [E|_]; [congruence|]. cbn [orb].
    pose proof (split_nonempty "_" s) as Ne.
    destruct (split "_" s) as [|w ws]; [congruence|].
    cbn [nth_error nth] in *. exact IH.
Qed.

(** X22.  [create_location] of [excel_to_sta_customized.py], called for a
    thing id that has no location yet: it raises [IndexError] exactly when
    the id has no underscore, and else registers under the thing id a
    location whose id is ["location_"] followed by what stands between the
    first underscore of the thing id and the next one.  For a thing id
    that has its location it returns that location and changes nothing. *)
Theorem create_location_needs_an_underscore :
  forall (thing_id : string) (st : Customized.state),
    (forall l, dict_get thing_id (Customized.locations st) = Some l ->
       Customized.create_location thing_id st = Ok (l, st))
    /\ (dict_get thing_id (Customized.locations st) = None ->
        if contains "_" thing_id
        then exists l st',
               Customized.create_location thing_id st = Ok (l, st')
               /\ location_iot_id l
                  = "location_" ++ nth 1 (split "_" thing_id) EmptyString
               /\ location_name l = "Location for " ++ thing_id
               /\ dict_get thing_id (Customized.locations st') = Some l
        else Customized.create_location thing_id st = Err IndexError).
Proof.
  intros thing_id st. unfold Customized.create_location. split.
  - intros l ->. reflexivity.
  - intros ->. rewrite split_second_part.
    destruct (contains "_" thing_id); [|reflexivity].
    eexists. eexists. split; [reflexivity|].
    cbn [location_iot_id location_name Customized.locations
         Customized.set_locations].
    repeat split. apply dict_get_set_same.
Qed.

Lemma create_location_needs_an_underscore_witness :
  Customized.create_location "station7" Customized.init = Err IndexError
  /\ exists l st',
       Customized.create_location "thing_MS_1" Customized.init = Ok (l, st')
       /\ location_iot_id l = "location_MS".
Proof.
  destruct (create_location_needs_an_underscore "station7" Customized.init)
    as [_ A].
  destruct (create_location_needs_an_underscore "thing_MS_1" Customized.init)
    as [_ B].
  split; [exact (A eq_refl)|].
  destruct (B eq_refl) as (l & st' & E & Ei & _).
  exists l, st'. split; [exact E | exact Ei].
Defined.


(* ====================================================================== *)
(** ** The things of the normalized document, row by row *)
(* ====================================================================== *)

Section NormalizedRows.
Context `{PyBuiltins}.
Variable uuid4 : nat -> string.
Import Normalized.

Lemma load_rows_nth of_row cols rs : forall n es n',
  load_rows of_row cols rs n = Ok (es, n') ->
  List.length es = List.length rs
  /\ forall i row, nth_error rs i = Some row ->
       exists e, of_row cols row (n + i) = Ok e /\ nth_error es i = Some e.
Proof.
  induction rs as [|r rs IH]; cbn [load_rows]; intros n es n'.
  - intros [= <- _]. split; [reflexivity|]. intros [|i] row; discriminate.
  - destruct (of_row cols r n) as [e|] eqn:E1; cbn [bind]; [|discriminate].
    destruct (load_rows of_row cols rs (S n)) as [[es1 n1]|] eqn:E2;
      cbn [bind]; [|discriminate].
    intros [= <- _]. destruct (IH _ _ _ E2) as [L N].
    split; [cbn; now rewrite L|].
    intros [|i] row; cbn [nth_error].
    + intros [= <-]. exists e. now rewrite Nat.add_0_r.
    + intros Er. destruct (N i row Er) as (e' & Ee & En).
      exists e'. split; [|exact En]. now rewrite <- plus_n_Sm.
Qed.

Lemma load_things excel_data sta :
  load uuid4 excel_data = Ok sta ->
  match dict_get "Things" excel_data with
  | Some df =>
      List.length (Things sta) = List.length (rows df)
      /\ forall i row, nth_error (rows df) i = Some row ->
           exists e, thing_of_row uuid4 (columns df) row i = Ok e
                     /\ nth_error (Things sta) i = Some e
  | None => Things sta = []
  end.
Proof.
  unfold load.
  destruct (load_sheet (thing_of_row uuid4) excel_data "Things" 0)
    as [[things n1]|] eqn:E1; cbn [bind]; [|discriminate].
  repeat match goal with
         | |- bind ?x _ = _ -> _ =>
             destruct x as [[? ?]|]; cbn [bind]; [|discriminate]
         end.
  intros [= <-]. cbn [Things]. unfold load_sheet in E1.
  destruct (dict_get "Things" excel_data) as [df|].
  - exact (load_rows_nth _ _ _ _ _ _ E1).
  - now inversion E1.
Qed.

End NormalizedRows.

(** X23.  The document of [sensorthings_excel_converter.py] has one Thing
    for each row of the sheet [Things], in the order of the rows, and none
    when the workbook has no such sheet, whatever its other sheets hold.
    The Thing of the row [i] (counted from 0) has the id [i + 1]; its name
    and its description are the cells of the row, NaN for an empty cell,
    and the defaults ["Thing_<uuid>"] and [""] only when the sheet has no
    such column. *)
Theorem normalized_one_thing_per_row `{PyBuiltins} :
  forall (uuid4 : nat -> string) (excel_data : workbook) (doc : value),
    Normalized.excel_to_sensorthings uuid4 excel_data = Ok doc ->
    match dict_get "Things" excel_data with
    | None => doc = VDict [("Things", VList [])]
    | Some df =>
        List.length (doc_things doc) = List.length (rows df)
        /\ forall i row,
             nth_error (rows df) i = Some row ->
             exists t,
               nth_error (doc_things doc) i = Some t
               /\ iot_id t = VInt (Z.of_nat i + 1)
               /\ field "name" t
                  = Some (Normalized.row_get (columns df) row "name"
                            (VStr ("Thing_" ++ uuid4 i)))
               /\ field "description" t
                  = Some (Normalized.row_get (columns df) row "description"
                            (VStr ""))
    end.
Proof.
  intros uuid4 excel_data doc E.
  destruct (Normalized.load uuid4 excel_data) as [sta|] eqn:L.
  2:{ unfold Normalized.excel_to_sensorthings in E. rewrite L in E.
      discriminate. }
  rewrite (normalized_document uuid4 excel_data sta L) in E.
  inversion E; subst doc. clear E.
  pose proof (load_things uuid4 excel_data sta L) as T.
  destruct (dict_get "Things" excel_data) as [df|].
  2:{ now rewrite T. }
  destruct T as [Tl Tn].
  change (doc_things _)
    with (map (Normalized.render_thing (Normalized.Datastreams sta))
            (Normalized.nested_things_from sta 0 (Normalized.Things sta))).
  split.
  - rewrite length_map, <- Tl. clear. generalize 0.
    induction (Normalized.Things sta) as [|t ts IH]; intros n; cbn;
      [reflexivity | now rewrite IH].
  - intros i row Er. destruct (Tn i row Er) as (e & Ee & En).
    eexists. split.
    { rewrite nth_error_map,
        (nth_error_nested_things_from sta _ 0 i e En). reflexivity. }
    cbn [Nat.add].
    unfold Normalized.thing_of_row in Ee.
    destruct (Normalized.json_field (columns df) row "properties" (VDict []))
      as [properties|]; cbn [bind] in Ee; [|discriminate].
    inversion Ee; subst e. clear Ee.
    split.
    { rewrite iot_id_render_thing. reflexivity. }
    unfold Normalized.nested_thing. rewrite render_thing_attach.
    unfold field.
    rewrite !dict_get_attach_other by discriminate.
    rewrite !dict_get_set_other by discriminate.
    split; reflexivity.
Qed.

Lemma normalized_one_thing_per_row_witness :
  exists doc,
    @Normalized.excel_to_sensorthings sample_runtime uuid_run1 wb_unnamed
    = Ok doc
    /\ List.length (doc_things doc) = 1
    /\ exists t,
         nth_error (doc_things doc) 0 = Some t
         /\ iot_id t = VInt 1
         /\ field "name" t = Some (VStr ("Thing_" ++ uuid_run1 0)).
Proof.
  destruct (@Normalized.excel_to_sensorthings sample_runtime uuid_run1
              wb_unnamed) as [doc|] eqn:E;
    [|vm_compute in E; discriminate].
  exists doc. split; [reflexivity|].
  destruct (@normalized_one_thing_per_row sample_runtime uuid_run1 wb_unnamed
              doc E) as [Hl Hr].
  split; [exact Hl|].
  destruct (Hr 0 [Str "first"] eq_refl) as (t & Et & Ei & En & _).
  exists t. split; [exact Et|]. split; [exact Ei | exact En].
Defined.


Lemma filter_map_commute {A B} (f : A -> B) (p : B -> bool) (l : list A) :
  filter p (map f l) = map f (filter (fun x => p (f x)) l).
Proof.
  induction l as [|a l IH]; cbn [map filter]; [reflexivity|].
  destruct (p (f a)); cbn [map]; now rewrite IH.
Qed.

(** X24.  In a document of [final_version_6things.py] the observations
    nested under a datastream are the readings of the workbook made for
    that datastream id, all of them and no other, in the order in which
    they were read, each as its two times and its result. *)
Theorem final_datastream_holds_its_readings `{PyBuiltins} :
  forall (excel_data : workbook) (doc : value) (legend : dict Final.hms_info)
         (readings : list reading),
    Final.excel_to_sensorthings excel_data = Ok doc ->
    Final.read_legend excel_data = Ok legend ->
    final_readings excel_data = Ok readings ->
    forall t d,
      In t (doc_things doc) -> In d (thing_datastreams t) ->
      exists id,
        iot_id d = VStr id
        /\ datastream_observations d
           = map reading_json
               (filter
                  (fun r =>
                     String.eqb
                       ("ds_" ++ final_datastream_key legend (reading_station r)
                                   (measurement_type_of (reading_column r)))
                       id)
                  readings).
Proof.
  intros excel_data doc legend readings Ed El Er t d It Id.
  unfold Final.excel_to_sensorthings, Final.collect in Ed.
  rewrite El in Ed. cbn [bind] in Ed.
  destruct (foldM (Final.process_sheet legend) excel_data Final.init)
    as [st|] eqn:Ec; cbn [bind] in Ed; [|discriminate].
  inversion Ed; subst doc. clear Ed.
  destruct (final_sheets_observations legend excel_data _ _ final_ids_init Ec)
    as (_ & _ & readings' & Er' & Eo & _).
  unfold final_readings in Er. rewrite Er in Er'.
  inversion Er'; subst readings'. clear Er'.
  cbn [Final.observations Final.init app] in Eo.
  rewrite final_doc_things in It. apply in_map_iff in It.
  destruct It as ([k t0] & <- & _). cbn [snd] in Id.
  rewrite final_thing_datastreams in Id. apply in_map_iff in Id.
  destruct Id as ([key d0] & <- & _). cbn [snd].
  exists (ds_iot_id d0). split; [apply final_datastream_id|].
  rewrite final_nests_own_observations, Eo, filter_map_commute, map_map.
  reflexivity.
Qed.

Lemma final_datastream_holds_its_readings_witness :
  exists doc legend readings,
    @Final.excel_to_sensorthings sample_runtime wb_two_columns = Ok doc
    /\ @final_readings sample_runtime wb_two_columns = Ok readings
    /\ forall t d,
         In t (doc_things doc) -> In d (thing_datastreams t) ->
         exists id,
           iot_id d = VStr id
           /\ datastream_observations d
              = map reading_json
                  (filter
                     (fun r =>
                        String.eqb
                          ("ds_" ++ @final_datastream_key sample_runtime legend
                                      (reading_station r)
                                      (measurement_type_of (reading_column r)))
                          id)
                     readings).
Proof.
  destruct (@Final.excel_to_sensorthings sample_runtime wb_two_columns)
    as [doc|] eqn:Ed; [|vm_compute in Ed; discriminate].
  destruct (@Final.read_legend sample_runtime wb_two_columns)
    as [legend|] eqn:El; [|vm_compute in El; discriminate].
  destruct (@final_readings sample_runtime wb_two_columns)
    as [readings|] eqn:Er; [|vm_compute in Er; discriminate].
  exists doc, legend, readings. split; [reflexivity|]. split; [reflexivity|].
  exact (@final_datastream_holds_its_readings sample_runtime wb_two_columns
           doc legend readings Ed El Er).
Defined.


(* ====================================================================== *)
(** ** [test_script.py] on the workbook of [generate_test_excel.py] *)
(* ====================================================================== *)

Section GeneratedRun.
Context `{PyBuiltins}.
Variable draw : string -> nat -> string -> Q.
Variable wind : nat -> Z.

Lemma generated_timestamps :
  Generated.hourly 0 = Timestamp "2024-05-01T00:00:00"
  /\ Generated.hourly 19 = Timestamp "2024-05-01T19:00:00"
  /\ Generated.daily 0 = Timestamp "2024-05-01T00:00:00"
  /\ Generated.daily 9 = Timestamp "2024-05-10T00:00:00".
Proof. repeat split; vm_compute; reflexivity. Qed.

Lemma generated_stores :
  match foldM (Customized.process_sheet (Generated.generate_test_excel draw wind))
          (keys (Generated.generate_test_excel draw wind)) Customized.init with
  | Ok st =>
      List.length (Customized.things st) = 3
      /\ List.length
           (flat_map
              (fun kt =>
                 filter (fun kd => startswith (fst kd) (thing_iot_id (snd kt)))
                   (Customized.datastreams st))
              (Customized.things st)) = 72
      /\ List.length (Customized.observations st) = 1050
  | Err _ => False
  end.
Proof. vm_compute. repeat split. Qed.

End GeneratedRun.

(** X25.  What [test_script.py] prints after it has generated its workbook
    and converted it with [excel_to_sta_customized.py], whatever numbers
    are drawn: the run does not fail and collects 1050 observations, one
    for each measurement cell of the five sheets, and the script reports 3
    things, 72 datastreams and 72 * 1050 = 75600 observations, every observation
    counted under each of the 72 datastreams. *)
Theorem test_script_on_generated_workbook `{PyBuiltins} :
  forall (draw : string -> nat -> string -> Q) (wind : nat -> Z),
    let excel_data := Generated.generate_test_excel draw wind in
    exists st,
      foldM (Customized.process_sheet excel_data) (keys excel_data)
        Customized.init = Ok st
      /\ List.length (Customized.observations st) = 1050
      /\ (document <- Customized.excel_to_sensorthings excel_data ;;
          Report.test_script_totals document)
         = Ok {| Report.number_of_things := 3;
                 Report.total_datastreams := 72;
                 Report.total_observations := 72 * 1050 |}.
Proof.
  intros draw wind excel_data. subst excel_data.
  pose proof (generated_stores draw wind) as G.
  unfold Customized.excel_to_sensorthings, Customized.transform.
  destruct (foldM _ _ Customized.init) as [st|e]; [|contradiction].
  destruct G as (Gt & Gd & Go).
  exists st. split; [reflexivity|]. split; [exact Go|].
  cbn [bind]. unfold Report.test_script_totals.
  unfold Customized.construct_nested_structure.
  cbn [Report.py_getitem getitem dict_get String.eqb Ascii.eqb Bool.eqb bind
       Report.py_len Report.py_iter].
  rewrite customized_things_count. cbn [bind fst snd].
  rewrite length_map, Gt, Gd, Go. reflexivity.
Qed.
